(* ===== verification/_CoqProject ===== *)
-Q . S2P
Prelude.v
GoStrings.v
Strconv.v
Unicode.v
GoTime.v
StrOrder.v
Json.v
Base64.v
Pem.v
GoFloat.v
FloatBounds.v
Http.v
NetIP.v
X509.v
Mint.v
Mux.v
HttpSpec.v
Query.v
Hostile.v
HostileSpec.v
RawEcho.v
TlsNames.v
HelloCache.v
Handshake.v
Server.v
Lifecycle.v
Certs.v
CertsSpec.v
Startup.v
Handlers.v
Endpoints.v
Auth.v
Cookies.v
Pages.v
Routes.v
Wire.v
Svcb.v
Ech.v
EchTarget.v
Dns.v
DnsAnswer.v
Doh.v
EchFixture.v
EchCerts.v
EchOrigin.v
