(* ===== verification/Prelude.v ===== *)
(** * okhttp-testbed: the Go fixtures

    The repository tests HTTP clients against two Go programs, and this
    development is about both: the test server (src/test-server/, package main)
    and the ECH fixture (src/ech-fixture/src/main/resources/ech-fixture/main.go),
    one binary run as two containers.  Every file is a translation of a part of
    them, or of the standard library they stand on, followed by its theorems.

    * The test server

    [main] loads or mints certificates, starts fourteen listeners, and waits.
    Every HTTP listener has the same handler, a ServeMux over the endpoints; the
    TLS listeners feed the ClientHello cache that /tls reads; the raw listener
    echoes bytes.

    - Server: main.go ([env], [scheme], [baseURL], the startup sequence as the
      list of listeners it starts and the fatal error it may end in) and the TLS
      configurations of tls.go.
    - Lifecycle: main.go ([main], [serve], [shutdownWith], the wait group, the
      signal) as a step relation, with the steps the program takes by itself apart
      from those of the system and the clients; a theorem over its executions is
      one over all interleavings of goroutines, requests, timers and errors.
    - Certs, CertsSpec: tls.go ([loadCertificates], [certHosts], [newCA],
      [newLeafWith], [newClientIdentity]) and badchains.go ([newBadChains],
      [newIntermediate]); Startup composes them with Server.
    - HelloCache, Handshake, TlsNames: tls.go ([helloCache] and the callbacks of
      [tlsServerWith], [handshake], the names of code points).
    - Handlers, Query, Endpoints, Auth, Cookies, Pages: the endpoints of
      handlers.go; a handler is a computation on the response writer of Http.
    - Routes: handlers.go ([handler]), the table, and [ServeHTTP] over it.
    - Hostile, HostileSpec, RawEcho: hostile.go; an endpoint is the operations on
      the hijacked connection, the raw echo also what a missed deadline leaves of
      them.

    * The ECH fixture

    [fixture target] mints keys and certificates, publishes them in a metadata
    document, and is the TLS origin; the test suite passes values of the document
    to [fixture doh], which publishes the ECH configurations over DNS.

    - Wire, Svcb, Ech: the encoders ([appendUint16] and its kin, [httpsRecord],
      [svcParamFixture], [marshalECHConfig], [configList]).
    - EchCerts, EchTarget, EchOrigin: [main], [newCA], [newLeaf], [runTarget], the
      TLS callbacks, the handlers and the multiplexers of both containers.
    - Dns, DnsAnswer, Doh: [dnsQuestion], [dnsResponse], [readDnsQuery], [runDoH].
    - EchFixture: the two containers and the client that uses them.

    * What they stand on

    Prelude (this file: outcomes, byte slices, fixed-width integers, shared
    tactics and hints), GoStrings, Strconv, Unicode, GoTime, StrOrder, Json,
    Base64, Pem, GoFloat with FloatBounds, Http, NetIP, X509, Mint and Mux model
    the standard library as far as the programs use it; HttpSpec is the RFC 9112
    reader the hostile endpoints are judged by.  Go's [(T, error)] and panics are
    [outcome]; a response writer is a state ([Http.M]); a computation that draws
    randomness and reads the clock is a [Mint.mint]; strings are byte sequences.

    * What the theorems show

    - The fixture is what it promises.  ECH: from key material to the accepted,
      retried and declined handshakes (EchFixture), with certificates that fit
      every name (EchCerts).  Certificates: a client that trusts /ca.pem accepts
      the good leaf and refuses each bad chain for the one fault it is named after
      (CertsSpec), also on the listeners that start by default (Startup).
      Hostile: what an RFC 9112 client makes of each endpoint, for all values of
      the parameters, and how the connection ends (HostileSpec, Hostile).
    - Every reply is the one documented, errors included: /anything, /status,
      /redirect, /delay, /stream, /drip, /bytes, /gzip, /trailers, /basic-auth,
      /cache, /cookies, /dns-query and the origin's JSON.
    - Encoders against independent readers: DNS messages, SVCB records, ECH
      configurations, JSON, base64, PEM, cookies.
    - State: the ClientHello cache simulates the set of live connections; the
      process's invariant, its end after a signal by its own steps alone, and that
      it ends without waiting for the requests in flight.
    - Routing is the meaning of the patterns, in any order of registration.
    - Bounds: integer and duration parameters, the rounding of seconds to
      nanoseconds included; no DNS message makes the responder panic.

    * Fuel

    Where Go loops on an index, the Fixpoint recurses on fuel and the theorems
    give enough of it: the length of the message for [dnsQuestion], the length of
    the text for the PEM and JSON readers, sixteen groups for [ParseIP], the
    number of redirects for a client of /redirect.  Totality theorems say that
    fuel never runs out, not only what holds when it does not.

    * Hypotheses

    What lies outside the repository is a parameter, with the documented behaviour
    the theorems use as a law that a concrete instance satisfies: DER
    ([X509Codec]), the letter tables of package unicode ([UnicodeTables]), the
    compressors, SHA-256, entropy and the clock.  Signatures are symbols: one
    verifies under the key that made it and under no other.

    * Not modelled

    Sockets, TLS records and the goroutines of net/http; the header lines net/http
    adds by itself; log lines ([logRequests] among them); the conversion to an
    integer of a float that is none (a parameter, [odd]); DER and the mathematics
    of the curves.  The Kotlin suites, the Android modules, the build scripts and
    the site are clients and tests of the two programs, in other languages. *)

From Stdlib Require Export ZArith Lia.
From Stdlib Require Export Init.Byte.
From Stdlib Require Ascii String Strings.Byte.
From stdpp Require Export prelude gmap strings list.
Export Stdlib.Strings.Ascii (ascii(..)).
Export (notations) Stdlib.Strings.Ascii.

(** Byte constants are written [x00] .. [xff]; strings are Go strings (byte
    sequences), [list byte] is Go's [[]byte]. *)

Declare Scope go_scope.
Delimit Scope go_scope with go.

(** ** Outcomes of Go calls

    A function returning [(T, error)] either returns a value, or a non-nil
    error (with its message), or panics (an index or slice out of range). *)
Inductive outcome (A : Type) : Type :=
| Ok (a : A)
| Err (e : string)
| Panic.
Arguments Ok {A} a.
Arguments Err {A} e.
Arguments Panic {A}.

#[export] Instance outcome_ret : MRet outcome := @Ok.
#[export] Instance outcome_bind : MBind outcome := λ A B f m,
  match m with
  | Ok a => f a
  | Err e => Err e
  | Panic => Panic
  end.
#[export] Instance outcome_eq_dec `{EqDecision A} : EqDecision (outcome A).
Proof. solve_decision. Defined.

(** The call came back, with a value or with an error. *)
Definition returns {A} (m : outcome A) : Prop := m ≠ Panic.

Lemma bind_Ok {A B} (f : A → outcome B) (a : A) : (Ok a ≫= f) = f a.
Proof. done. Qed.

Lemma bind_Ok_inv {A B} (f : A → outcome B) (m : outcome A) (b : B) :
  m ≫= f = Ok b → ∃ a, m = Ok a ∧ f a = Ok b.
Proof. destruct m; simpl; [eauto | done | done]. Qed.

Lemma returns_bind {A B} (f : A → outcome B) (m : outcome A) :
  returns m → (∀ a, m = Ok a → returns (f a)) → returns (m ≫= f).
Proof. destruct m; unfold returns; simpl; auto. Qed.

Lemma returns_Ok {A} (a : A) : returns (Ok a).
Proof. done. Qed.

Lemma returns_Err {A} (e : string) : returns (@Err A e).
Proof. done. Qed.

Create HintDb go discriminated.
Create Rewrite HintDb go_len.
#[export] Hint Resolve returns_Ok returns_Err : go.

(** ** Bytes and machine integers *)

Definition Z_of_byte (b : byte) : Z := Z.of_N (Strings.Byte.to_N b).

(** Go's conversion [byte(z)]: the low eight bits. *)
Definition byte_of_Z (z : Z) : byte :=
  default x00 (Strings.Byte.of_N (Z.to_N (z mod 256))).

(** Go's conversion [uint16(z)]: the low sixteen bits. *)
Definition uint16 (z : Z) : Z := z mod 65536.
Definition uint32 (z : Z) : Z := z mod 4294967296.

#[export] Instance byte_eq_dec : EqDecision byte := Strings.Byte.byte_eq_dec.

Lemma Z_of_byte_range b : (0 ≤ Z_of_byte b < 256)%Z.
Proof. unfold Z_of_byte. pose proof (Strings.Byte.to_N_bounded b). lia. Qed.

Lemma Z_of_byte_of_Z z : Z_of_byte (byte_of_Z z) = (z mod 256)%Z.
Proof.
  unfold Z_of_byte, byte_of_Z.
  pose proof (Z.mod_pos_bound z 256 eq_refl) as Hz.
  destruct (Strings.Byte.of_N (Z.to_N (z mod 256))) as [b|] eqn:E; simpl.
  - apply Strings.Byte.to_of_N in E. lia.
  - apply Strings.Byte.of_N_None_iff in E. lia.
Qed.

Lemma byte_of_Z_of_byte b : byte_of_Z (Z_of_byte b) = b.
Proof.
  unfold byte_of_Z. rewrite Z.mod_small by apply Z_of_byte_range.
  unfold Z_of_byte. by rewrite N2Z.id, Strings.Byte.of_to_N.
Qed.

Lemma Z_of_byte_inj b1 b2 : Z_of_byte b1 = Z_of_byte b2 → b1 = b2.
Proof. intros H. by rewrite <- (byte_of_Z_of_byte b1), H, byte_of_Z_of_byte. Qed.

#[export] Instance Z_of_byte_Inj : Inj (=) (=) Z_of_byte := Z_of_byte_inj.

Lemma uint16_range z : (0 ≤ uint16 z < 65536)%Z.
Proof. by apply Z.mod_pos_bound. Qed.

Lemma uint16_small z : (0 ≤ z < 65536)%Z → uint16 z = z.
Proof. apply Z.mod_small. Qed.

#[export] Hint Resolve Z_of_byte_range uint16_range : go.

(** Bits above the width of a value are clear, so [lor] with a shifted value is
    a sum. *)
Lemma bits_above a n m : (0 ≤ a < 2 ^ n)%Z → (0 ≤ n ≤ m)%Z → Z.testbit a m = false.
Proof.
  intros Ha Hn. destruct (decide (a = 0)%Z) as [->|]; [apply Z.bits_0|].
  apply Z.bits_above_log2; [lia|]. apply Z.log2_lt_pow2; [lia|].
  apply Z.lt_le_trans with (2 ^ n)%Z; [lia|]. apply Z.pow_le_mono_r; lia.
Qed.

Lemma lor_shiftl_add a b n :
  (0 ≤ n)%Z → (0 ≤ a < 2 ^ n)%Z → Z.lor a (Z.shiftl b n) = (a + b * 2 ^ n)%Z.
Proof.
  intros Hn Ha. rewrite <- Z.shiftl_mul_pow2 by done.
  rewrite <- Z.add_lor_land. enough (Z.land a (Z.shiftl b n) = 0)%Z by lia.
  apply Z.bits_inj'. intros m Hm. rewrite Z.land_spec, Z.bits_0.
  destruct (decide (m < n)%Z).
  - by rewrite Z.shiftl_spec_low, andb_false_r.
  - by rewrite (bits_above a n) by lia.
Qed.

(** [[]byte(s)] and [string(b)]. *)
Abbreviation bytes := String.list_byte_of_string.
Abbreviation str := String.string_of_list_byte.

Lemma str_bytes s : str (bytes s) = s.
Proof. apply String.string_of_list_byte_of_string. Qed.
Lemma bytes_str l : bytes (str l) = l.
Proof. apply String.list_byte_of_string_of_list_byte. Qed.

Lemma bytes_inj s1 s2 : bytes s1 = bytes s2 → s1 = s2.
Proof. intros H. by rewrite <- (str_bytes s1), H, str_bytes. Qed.
#[export] Instance bytes_Inj : Inj (=) (=) bytes := bytes_inj.

Lemma bytes_cons a s : bytes (String a s) = Strings.Ascii.byte_of_ascii a :: bytes s.
Proof. done. Qed.

Lemma bytes_app s1 s2 : bytes (s1 +:+ s2) = bytes s1 ++ bytes s2.
Proof.
  induction s1 as [|a s1 IH]; [done|].
  change (String a s1 +:+ s2) with (String a (s1 +:+ s2)).
  rewrite !bytes_cons, IH. done.
Qed.

(** ** Slices *)

(** Go's [len]. *)
Definition len {A} (l : list A) : Z := Z.of_nat (length l).

Lemma len_nil {A} : len (@nil A) = 0%Z.
Proof. done. Qed.
Lemma len_cons {A} (x : A) l : len (x :: l) = (1 + len l)%Z.
Proof. unfold len. simpl length. lia. Qed.
Lemma len_app {A} (l1 l2 : list A) : len (l1 ++ l2) = (len l1 + len l2)%Z.
Proof. unfold len. rewrite length_app. lia. Qed.
Lemma len_bytes s : len (bytes s) = Z.of_nat (String.length s).
Proof. unfold len. f_equal. induction s; simpl; [done|]. by f_equal. Qed.
Lemma len_nonneg {A} (l : list A) : (0 ≤ len l)%Z.
Proof. unfold len. lia. Qed.
#[export] Hint Rewrite @len_nil @len_cons @len_app : go_len.

(** [l[i:j]]; out of range is a panic.  Go would allow [j] up to the capacity;
    the bound here is the length, so a proof that no panic occurs is stronger. *)
Definition slice {A} (l : list A) (i j : Z) : outcome (list A) :=
  if decide (0 ≤ i ∧ i ≤ j ∧ j ≤ len l)%Z
  then Ok (take (Z.to_nat (j - i)) (drop (Z.to_nat i) l))
  else Panic.

(** [l[i]]. *)
Definition index {A} (l : list A) (i : Z) : outcome A :=
  if decide (0 ≤ i)%Z
  then match l !! Z.to_nat i with Some x => Ok x | None => Panic end
  else Panic.

Lemma slice_in {A} (l : list A) i j :
  (0 ≤ i ≤ j)%Z → (j ≤ len l)%Z →
  slice l i j = Ok (take (Z.to_nat (j - i)) (drop (Z.to_nat i) l)).
Proof. intros ??. unfold slice. by rewrite decide_True by lia. Qed.

Lemma slice_app_mid {A} (l1 l2 l3 : list A) i j :
  i = len l1 → j = (len l1 + len l2)%Z → slice (l1 ++ l2 ++ l3) i j = Ok l2.
Proof.
  intros -> ->. rewrite slice_in by (rewrite ?len_app; pose proof (len_nonneg l1);
    pose proof (len_nonneg l2); pose proof (len_nonneg l3); lia).
  unfold len. f_equal.
  replace (Z.to_nat (_ + _ - _)) with (length l2) by lia.
  by rewrite Nat2Z.id, drop_app_length, take_app_length.
Qed.

Lemma index_app_mid {A} (l1 l2 : list A) x i :
  i = len l1 → index (l1 ++ x :: l2) i = Ok x.
Proof.
  intros ->. unfold index. rewrite decide_True by apply len_nonneg.
  unfold len. by rewrite Nat2Z.id, list_lookup_middle.
Qed.

Lemma index_lookup {A} (l : list A) i :
  (0 ≤ i < len l)%Z → ∃ x, index l i = Ok x.
Proof.
  intros [H1 H2]. unfold index. rewrite decide_True by done.
  destruct (lookup_lt_is_Some_2 l (Z.to_nat i)) as [x Hx].
  { unfold len in H2. lia. }
  exists x. by rewrite Hx.
Qed.

(** Two decidable propositions that evaluate to the same boolean. *)
Lemma bool_decide_iff (P Q : Prop) `{dP : !Decision P} `{dQ : !Decision Q} :
  bool_decide P = bool_decide Q → (P ↔ Q).
Proof.
  intros E. destruct (decide P), (decide Q); try tauto.
  - rewrite bool_decide_true, bool_decide_false in E by done. done.
  - rewrite bool_decide_false, bool_decide_true in E by done. done.
Qed.

Lemma elem_of_concat {A} (x : A) (ls : list (list A)) :
  x ∈ concat ls ↔ ∃ l, x ∈ l ∧ l ∈ ls.
Proof.
  rewrite list_elem_of_In, in_concat. setoid_rewrite <- list_elem_of_In. naive_solver.
Qed.

(** Induction three elements at a time. *)
Lemma list_ind3 {A} (P : list A → Prop) :
  P [] → (∀ a, P [a]) → (∀ a b, P [a; b]) →
  (∀ a b c l, P l → P (a :: b :: c :: l)) → ∀ l, P l.
Proof.
  intros H0 H1 H2 H3. fix IH 1.
  intros [|a [|b [|c l]]]; [exact H0 | exact (H1 a) | exact (H2 a b) | exact (H3 a b c l (IH l))].
Qed.

(** ** Tactics of the development *)

(** Split a successful chain of calls into its steps. *)
Ltac bind_inv :=
  repeat match goal with
  | H : _ ≫= _ = Ok _ |- _ =>
      let a := fresh "a" in let H1 := fresh "Hm" in let H2 := fresh "Hk" in
      apply bind_Ok_inv in H as (a & H1 & H2); simplify_eq/=
  end.

(** Arithmetic over [len], [uint16] and byte values. *)
Ltac len_lia :=
  autorewrite with go_len in *;
  repeat match goal with
  | |- context [len ?l] => is_var l; pose proof (len_nonneg l); generalize dependent (len l); intros
  | H : context [len ?l] |- _ => is_var l; pose proof (len_nonneg l); generalize dependent (len l); intros
  end; lia.
