(* ===== verification/GoStrings.v ===== *)
(** * Go's [strings] package, as far as the fixtures use it

    Splitting and joining on one-byte separators, trimming, prefixes, and
    ASCII lower-casing, over Go strings (byte sequences). *)

From S2P Require Import Prelude.

(** ** [strings.Split] and [strings.SplitN] with a one-byte separator *)

Fixpoint split (sep : ascii) (s : string) : list string :=
  match s with
  | EmptyString => [EmptyString]
  | String a s' =>
      if decide (a = sep) then EmptyString :: split sep s'
      else match split sep s' with
           | [] => [String a EmptyString]
           | w :: ws => String a w :: ws
           end
  end.

(** [SplitN s sep n] for [n = S k]: at most [k] cuts. *)
Fixpoint split_cuts (sep : ascii) (k : nat) (s : string) {struct s} : list string :=
  match s with
  | EmptyString => [EmptyString]
  | String a s' =>
      if decide (a = sep) then
        match k with
        | O => [s]
        | S k' => EmptyString :: split_cuts sep k' s'
        end
      else match split_cuts sep k s' with
           | [] => [String a EmptyString]
           | w :: ws => String a w :: ws
           end
  end.
Definition splitN (s : string) (sep : ascii) (n : nat) : list string :=
  split_cuts sep (pred n) s.

(** [strings.Join]. *)
Definition join (ws : list string) (sep : string) : string := String.concat sep ws.

(** The character does not occur in the string. *)
Fixpoint free_of (c : ascii) (s : string) : bool :=
  match s with
  | EmptyString => true
  | String a s' => negb (bool_decide (a = c)) && free_of c s'
  end.

Lemma sapp_nil_l s : "" +:+ s = s.
Proof. done. Qed.
Lemma sapp_cons_l a s1 s2 : String a s1 +:+ s2 = String a (s1 +:+ s2).
Proof. done. Qed.
Lemma sapp_nil_r s : s +:+ "" = s.
Proof. induction s as [|a s IH]; [done|]. by rewrite sapp_cons_l, IH. Qed.
Lemma sapp_assoc s1 s2 s3 : (s1 +:+ s2) +:+ s3 = s1 +:+ (s2 +:+ s3).
Proof. induction s1 as [|a s IH]; [done|]. by rewrite !sapp_cons_l, IH. Qed.
Lemma sapp_length s1 s2 :
  String.length (s1 +:+ s2) = (String.length s1 + String.length s2)%nat.
Proof. induction s1 as [|a s IH]; [done|]. rewrite sapp_cons_l. simpl. by rewrite IH. Qed.

Lemma sapp_inj_l s a b : s +:+ a = s +:+ b → a = b.
Proof. induction s as [|c s IH]; [done|]. rewrite !sapp_cons_l. intros [= E]. auto. Qed.
Lemma sapp_inj_length a b s t :
  String.length a = String.length b → a +:+ s = b +:+ t → a = b ∧ s = t.
Proof.
  revert b. induction a as [|c a IH]; intros [|d b] Hl; try done.
  rewrite !sapp_cons_l. intros [= -> E]. injection Hl as Hl. by destruct (IH b Hl E) as [-> ->].
Qed.

Lemma join_cons w ws sep :
  ws ≠ [] → join (w :: ws) sep = w +:+ (sep +:+ join ws sep).
Proof. destruct ws; [done|]. done. Qed.

Lemma split_nonempty sep s : split sep s ≠ [].
Proof.
  destruct s as [|a s]; [done|]. simpl. case_decide; [done|].
  by destruct (split sep s).
Qed.

(** Splitting at a separator that is there. *)
Lemma split_app sep w s :
  free_of sep w → split sep (w +:+ String sep s) = w :: split sep s.
Proof.
  induction w as [|a w IH]; intros Hw.
  - rewrite sapp_nil_l. simpl. by rewrite decide_True.
  - rewrite sapp_cons_l. simpl in Hw |- *.
    apply andb_True in Hw as [Ha Hw].
    rewrite decide_False.
    + by rewrite IH.
    + intros ->. by rewrite bool_decide_true in Ha.
Qed.

Lemma split_free sep w : free_of sep w → split sep w = [w].
Proof.
  induction w as [|a w IH]; intros Hw; [done|]. simpl in Hw |- *.
  apply andb_True in Hw as [Ha Hw].
  rewrite decide_False, IH; [done..|].
  intros ->. by rewrite bool_decide_true in Ha.
Qed.

(** [Split] undoes [Join] when no part contains the separator. *)
Lemma split_join sep ws :
  ws ≠ [] → Forall (λ w, free_of sep w) ws →
  split sep (join ws (String sep EmptyString)) = ws.
Proof.
  intros Hne Hws. induction Hws as [|w ws Hw Hws IH]; [done|].
  destruct ws as [|w' ws].
  - by apply split_free.
  - rewrite join_cons, sapp_cons_l, sapp_nil_l, split_app, IH; done.
Qed.

Lemma free_of_split sep s : Forall (λ w, free_of sep w) (split sep s).
Proof.
  induction s as [|a s IH]; simpl.
  - by repeat constructor.
  - case_decide as Ha; [by constructor|].
    assert (∀ w, free_of sep w → free_of sep (String a w)) as Hcons.
    { intros w Hw. simpl. by rewrite bool_decide_false. }
    destruct (split sep s) as [|w ws]; [by repeat constructor; apply Hcons|].
    apply Forall_cons in IH as [Hw IH]. constructor; auto.
Qed.

(** [Join] undoes [Split], always. *)
Lemma join_split sep s : join (split sep s) (String sep EmptyString) = s.
Proof.
  induction s as [|a s IH]; [done|]. simpl.
  case_decide as Ha.
  - subst. rewrite join_cons by apply split_nonempty.
    by rewrite sapp_nil_l, sapp_cons_l, sapp_nil_l, IH.
  - pose proof (split_nonempty sep s).
    destruct (split sep s) as [|w ws]; [done|].
    destruct ws as [|w' ws'].
    + cbn in IH |- *. by rewrite <- IH.
    + rewrite join_cons in IH |- * by done. by rewrite sapp_cons_l, IH.
Qed.

(** ** [SplitN] *)

Lemma split_cuts_O sep s : split_cuts sep 0 s = [s].
Proof.
  induction s as [|a s IH]; [done|]. cbn. case_decide; [done|]. by rewrite IH.
Qed.

Lemma split_cuts_app sep k w s :
  free_of sep w → split_cuts sep (S k) (w +:+ String sep s) = w :: split_cuts sep k s.
Proof.
  induction w as [|a w IH]; intros Hw.
  - rewrite sapp_nil_l. cbn. by rewrite decide_True.
  - rewrite sapp_cons_l. cbn in Hw |- *. apply andb_True in Hw as [Ha Hw].
    rewrite decide_False by (intros ->; by rewrite bool_decide_true in Ha).
    cbn in IH. by rewrite IH.
Qed.

Lemma split_cuts_inv sep k s w w' ws :
  split_cuts sep (S k) s = w :: w' :: ws →
  ∃ s', s = w +:+ String sep s' ∧ free_of sep w ∧ split_cuts sep k s' = w' :: ws.
Proof.
  revert w. induction s as [|a s IH]; intros w H; [done|]. cbn in H.
  case_decide as Ha; simplify_eq.
  - exists s. done.
  - destruct (split_cuts sep (S k) s) as [|v vs]; simplify_eq.
    destruct (IH v eq_refl) as (s' & -> & Hv & Hs').
    exists s'. rewrite sapp_cons_l. split_and!; [done| |done].
    cbn. by rewrite bool_decide_false.
Qed.

(** ** Characters *)

Definition char_code (a : ascii) : Z := Z_of_byte (Strings.Ascii.byte_of_ascii a).
Definition char_of (z : Z) : ascii := Strings.Ascii.ascii_of_byte (byte_of_Z z).

Lemma char_code_range a : (0 ≤ char_code a < 256)%Z.
Proof. apply Z_of_byte_range. Qed.
Lemma char_code_of z : (0 ≤ z < 256)%Z → char_code (char_of z) = z.
Proof.
  intros. unfold char_code, char_of.
  by rewrite Strings.Ascii.byte_of_ascii_of_byte, Z_of_byte_of_Z, Z.mod_small.
Qed.
Lemma char_code_inj a b : char_code a = char_code b → a = b.
Proof.
  unfold char_code. intros H%Z_of_byte_inj.
  by rewrite <- (Strings.Ascii.ascii_of_byte_of_ascii a), H, Strings.Ascii.ascii_of_byte_of_ascii.
Qed.
#[export] Hint Resolve char_code_range : go.

Definition is_ascii_char (a : ascii) : bool := (char_code a <? 128)%Z.

Definition lower_char (a : ascii) : ascii :=
  if ((65 <=? char_code a) && (char_code a <=? 90))%Z
  then char_of (char_code a + 32) else a.

(** ** Mapping and scanning a string *)

Fixpoint smap (f : ascii → ascii) (s : string) : string :=
  match s with EmptyString => EmptyString | String a s' => String (f a) (smap f s') end.

Fixpoint sforall (p : ascii → bool) (s : string) : bool :=
  match s with EmptyString => true | String a s' => p a && sforall p s' end.

(** [strings.HasPrefix]. *)
Fixpoint hasPrefix (s p : string) : bool :=
  match p, s with
  | EmptyString, _ => true
  | String a p', String b s' => bool_decide (a = b) && hasPrefix s' p'
  | _, _ => false
  end.

(** [strings.Repeat] of a one-byte string. *)
Fixpoint srepeat (a : ascii) (n : nat) : string :=
  match n with O => EmptyString | S n' => String a (srepeat a n') end.

Lemma srepeat_length a n : String.length (srepeat a n) = n.
Proof. induction n; simpl; by f_equal. Qed.

Lemma smap_app f s1 s2 : smap f (s1 +:+ s2) = smap f s1 +:+ smap f s2.
Proof. induction s1 as [|a s IH]; [done|]. rewrite !sapp_cons_l. simpl. by rewrite IH. Qed.

Lemma sforall_app p s1 s2 : sforall p (s1 +:+ s2) = sforall p s1 && sforall p s2.
Proof.
  induction s1 as [|a s IH]; [done|]. rewrite sapp_cons_l. simpl.
  by rewrite IH, andb_assoc.
Qed.

Lemma sforall_impl (p q : ascii → bool) s :
  (∀ a, p a → q a) → sforall p s → sforall q s.
Proof.
  intros Hpq. induction s as [|a s IH]; [done|]. cbn. intros [Ha Hs]%andb_True.
  apply andb_True. auto.
Qed.

Lemma hasPrefix_app p s : hasPrefix (p +:+ s) p.
Proof.
  induction p as [|a p IH]; [by destruct s|]. rewrite sapp_cons_l. simpl.
  by rewrite bool_decide_true.
Qed.

Lemma hasPrefix_split s p : hasPrefix s p → ∃ t, s = p +:+ t.
Proof.
  revert s. induction p as [|a p IH]; intros s H; [by exists s|].
  destruct s as [|b s]; [done|]. simpl in H.
  apply andb_True in H as [->%bool_decide_unpack H].
  destruct (IH _ H) as [t ->]. by exists t.
Qed.

Lemma free_of_app c s1 s2 : free_of c (s1 +:+ s2) = free_of c s1 && free_of c s2.
Proof.
  induction s1 as [|a s IH]; [done|]. rewrite sapp_cons_l. cbn.
  by rewrite IH, andb_assoc.
Qed.

(** ** The end of a string *)

Fixpoint last_char (s : string) : option ascii :=
  match s with
  | EmptyString => None
  | String a EmptyString => Some a
  | String _ s' => last_char s'
  end.
Fixpoint without_last (s : string) : string :=
  match s with
  | EmptyString | String _ EmptyString => EmptyString
  | String a s' => String a (without_last s')
  end.

Lemma last_char_app s c : last_char (s +:+ String c "") = Some c.
Proof.
  induction s as [|a s IH]; [done|]. rewrite sapp_cons_l. cbn. rewrite IH. by destruct s.
Qed.
Lemma without_last_app s c : without_last (s +:+ String c "") = s.
Proof.
  induction s as [|a s IH]; [done|]. rewrite sapp_cons_l. cbn. rewrite IH. by destruct s.
Qed.
