(* ===== verification/Strconv.v ===== *)
(** * Go's [strconv] and the [fmt] verbs, as far as the fixtures use them

    [Atoi], [Itoa], [ParseUint(s, 10, bits)] and the [%04x] verb.  Parsing
    returns [None] where Go returns a non-nil error: no caller looks at which. *)

From S2P Require Import Prelude GoStrings.

(** ** Decimal digits *)

Definition digit_val (a : ascii) : option Z :=
  let c := char_code a in
  if ((48 <=? c) && (c <=? 57))%Z then Some (c - 48)%Z else None.

Fixpoint digits_from (acc : Z) (s : string) : option Z :=
  match s with
  | EmptyString => Some acc
  | String a s' => d ← digit_val a; digits_from (10 * acc + d) s'
  end.

(** A non-empty run of decimal digits. *)
Definition parse_digits (s : string) : option Z :=
  match s with EmptyString => None | _ => digits_from 0 s end.

(** [ParseUint(s, 10, bits)]. *)
Definition parseUint (s : string) (bits : Z) : option Z :=
  n ← parse_digits s; if decide (n < 2 ^ bits)%Z then Some n else None.

Definition in_int64 (n : Z) : Prop := (-9223372036854775808 ≤ n < 9223372036854775808)%Z.
#[export] Instance in_int64_dec n : Decision (in_int64 n).
Proof. unfold in_int64. apply _. Defined.

(** [Atoi], for a 64-bit [int]: an optional sign, digits, and the range. *)
Definition atoi (s : string) : option Z :=
  n ← match s with
      | String "-" s' => Z.opp <$> parse_digits s'
      | String "+" s' => parse_digits s'
      | _ => parse_digits s
      end;
  if decide (in_int64 n) then Some n else None.

(** ** Printing *)

Definition digit_char (d : Z) : ascii :=
  if (d <? 10)%Z then char_of (48 + d) else char_of (87 + d).

(** The digits of [n] in front of [acc], base ten; [fuel] bounds their number. *)
Fixpoint print_digits (fuel : nat) (n : Z) (acc : string) : string :=
  match fuel with
  | O => acc
  | S fuel =>
      let acc := String (digit_char (n mod 10)) acc in
      if (n <? 10)%Z then acc else print_digits fuel (n / 10) acc
  end.

Definition digits_fuel (n : Z) : nat := S (Z.to_nat (Z.log2 n)).

(** [strconv.Itoa], and [%d]. *)
Definition itoa (n : Z) : string :=
  if (n <? 0)%Z then String "-" (print_digits (digits_fuel (- n)) (- n) EmptyString)
  else print_digits (digits_fuel n) n EmptyString.

(** [%04x] of a [uint16]. *)
Definition hex4 (n : Z) : string :=
  String (digit_char (n / 4096 mod 16)) (String (digit_char (n / 256 mod 16))
    (String (digit_char (n / 16 mod 16)) (String (digit_char (n mod 16)) EmptyString))).

(** ** [Atoi] undoes [Itoa] *)

Lemma char_code_digit d : (0 ≤ d < 10)%Z → char_code (digit_char d) = (48 + d)%Z.
Proof.
  intros Hd. unfold digit_char. rewrite (proj2 (Z.ltb_lt d 10)) by lia.
  apply char_code_of. lia.
Qed.

Lemma digit_val_char d : (0 ≤ d < 10)%Z → digit_val (digit_char d) = Some d.
Proof.
  intros Hd. unfold digit_val. rewrite char_code_digit by done.
  rewrite (proj2 (Z.leb_le 48 (48 + d))), (proj2 (Z.leb_le (48 + d) 57)) by lia.
  simpl. f_equal. lia.
Qed.

Lemma digits_from_print fuel n acc s :
  (0 ≤ n < 2 ^ Z.of_nat fuel)%Z → (0 < fuel)%nat →
  ∃ k, (0 ≤ k)%Z ∧ digits_from acc (print_digits fuel n s) = digits_from (acc * k + n) s.
Proof.
  revert n s acc. induction fuel as [|fuel IH]; intros n s acc Hn Hf; [lia|].
  cbn [print_digits]. destruct (Z.ltb_spec n 10).
  - exists 10%Z. split; [lia|]. cbn [digits_from].
    rewrite Z.mod_small, digit_val_char by lia. cbn. f_equal. lia.
  - destruct (decide (fuel = 0)) as [->|Hf0]; [change (2 ^ Z.of_nat 1)%Z with 2%Z in Hn; lia|].
    rewrite Nat2Z.inj_succ, Z.pow_succ_r in Hn by lia.
    destruct (IH (n / 10)%Z (String (digit_char (n mod 10)) s) acc) as (k & Hk & Heq);
      [|lia|].
    { split; [apply Z.div_pos; lia|]. apply Z.div_lt_upper_bound; lia. }
    exists (10 * k)%Z. split; [lia|]. rewrite Heq. cbn [digits_from].
    rewrite digit_val_char by (apply Z.mod_pos_bound; lia). cbn. f_equal.
    pose proof (Z.div_mod n 10). lia.
Qed.

Lemma digits_fuel_bound n : (0 ≤ n)%Z → (0 ≤ n < 2 ^ Z.of_nat (digits_fuel n))%Z.
Proof.
  intros Hn. split; [done|]. unfold digits_fuel.
  rewrite Nat2Z.inj_succ, Z2Nat.id by apply Z.log2_nonneg.
  destruct (decide (n = 0)%Z) as [->|]; [done|].
  apply Z.log2_spec. lia.
Qed.

Lemma print_digits_cons fuel n s :
  (0 < fuel)%nat → (0 ≤ n)%Z →
  ∃ d r, (0 ≤ d < 10)%Z ∧ print_digits fuel n s = String (digit_char d) r.
Proof.
  revert n s. induction fuel as [|fuel IH]; intros n s Hf Hn; [lia|].
  assert (0 ≤ n mod 10 < 10)%Z by (apply Z.mod_pos_bound; lia).
  cbn [print_digits]. destruct (Z.ltb_spec n 10); [by eauto|].
  destruct (decide (fuel = 0)) as [->|]; [by eauto|].
  apply IH; [lia|]. apply Z.div_pos; lia.
Qed.

Lemma parse_digits_print n :
  (0 ≤ n)%Z → parse_digits (print_digits (digits_fuel n) n "") = Some n.
Proof.
  intros Hn.
  destruct (digits_from_print (digits_fuel n) n 0 "") as (k & _ & Heq);
    [by apply digits_fuel_bound | unfold digits_fuel; lia |].
  destruct (print_digits_cons (digits_fuel n) n "") as (d & r & _ & Hc);
    [unfold digits_fuel; lia | done |].
  unfold parse_digits. rewrite Hc in *. rewrite Heq. done.
Qed.

Lemma parse_digits_itoa n : (0 ≤ n)%Z → parse_digits (itoa n) = Some n.
Proof.
  intros Hn. unfold itoa. rewrite (proj2 (Z.ltb_ge n 0)) by done.
  by apply parse_digits_print.
Qed.

Lemma digit_char_not_sign d :
  (0 ≤ d < 10)%Z → digit_char d ≠ "-"%char ∧ digit_char d ≠ "+"%char.
Proof.
  intros Hd. pose proof (char_code_digit d Hd) as Hc.
  split; intros E; rewrite E in Hc.
  - change (char_code "-") with 45%Z in Hc. lia.
  - change (char_code "+") with 43%Z in Hc. lia.
Qed.

Lemma atoi_digits a s :
  a ≠ "-"%char → a ≠ "+"%char →
  atoi (String a s) = (n ← parse_digits (String a s); if decide (in_int64 n) then Some n else None).
Proof.
  intros H1 H2. unfold atoi.
  destruct a as [[] [] [] [] [] [] [] []]; solve [done | by destruct H1 | by destruct H2].
Qed.

Lemma atoi_neg s :
  atoi (String "-" s) =
    (n ← Z.opp <$> parse_digits s; if decide (in_int64 n) then Some n else None).
Proof. done. Qed.

Lemma atoi_itoa n : in_int64 n → atoi (itoa n) = Some n.
Proof.
  intros Hn. unfold itoa. destruct (Z.ltb_spec n 0).
  - rewrite atoi_neg, parse_digits_print by lia. cbn.
    rewrite Z.opp_involutive. by rewrite decide_True.
  - pose proof (parse_digits_print n ltac:(lia)) as Hp.
    destruct (print_digits_cons (digits_fuel n) n "") as (d & r & Hd & Hc);
      [unfold digits_fuel; lia | done |].
    rewrite Hc in *. destruct (digit_char_not_sign d Hd).
    rewrite atoi_digits, Hp by done. cbn. by rewrite decide_True.
Qed.

Lemma atoi_range s n : atoi s = Some n → in_int64 n.
Proof. unfold atoi. intros (m & _ & Hm)%bind_Some. by case_decide; simplify_eq. Qed.

Lemma parseUint_itoa n bits : (0 ≤ n < 2 ^ bits)%Z → parseUint (itoa n) bits = Some n.
Proof.
  intros Hn. unfold parseUint. rewrite parse_digits_itoa by lia. cbn.
  by rewrite decide_True by lia.
Qed.

Lemma parseUint_range s bits n : parseUint s bits = Some n → (n < 2 ^ bits)%Z.
Proof.
  unfold parseUint. intros (m & _ & Hm)%bind_Some. by case_decide; simplify_eq.
Qed.

(** A digit run is free of every character that is not a digit. *)
Lemma digits_free c s acc n :
  digit_val c = None → digits_from acc s = Some n → free_of c s.
Proof.
  intros Hc. revert acc. induction s as [|a s IH]; intros acc H; [done|].
  cbn in H. apply bind_Some in H as (d & Hd & H). cbn.
  apply andb_True. split; [|eauto].
  rewrite bool_decide_false; [done|]. congruence.
Qed.

Lemma parse_digits_free c s n :
  digit_val c = None → parse_digits s = Some n → free_of c s.
Proof. intros Hc H. destruct s; [done|]. by eapply digits_free. Qed.

(** ** [%04x] is injective on [uint16] *)

Lemma digit_char_inj d1 d2 :
  (0 ≤ d1 < 16)%Z → (0 ≤ d2 < 16)%Z → digit_char d1 = digit_char d2 → d1 = d2.
Proof.
  intros H1 H2 E. apply (f_equal char_code) in E. unfold digit_char in E.
  destruct (Z.ltb_spec d1 10), (Z.ltb_spec d2 10);
    rewrite !char_code_of in E by lia; lia.
Qed.

Lemma hex4_inj n m :
  (0 ≤ n < 65536)%Z → (0 ≤ m < 65536)%Z → hex4 n = hex4 m → n = m.
Proof.
  intros Hn Hm E. unfold hex4 in E. injection E as E1 E2 E3 E4.
  apply digit_char_inj in E1, E2, E3, E4; try (apply Z.mod_pos_bound; lia).
  Z.div_mod_to_equations. lia.
Qed.

(** The characters of a decimal number. *)
Lemma print_digits_forall (p : ascii → bool) fuel n acc :
  (∀ d, (0 ≤ d < 10)%Z → p (digit_char d)) →
  (0 ≤ n)%Z → sforall p acc → sforall p (print_digits fuel n acc).
Proof.
  intros Hp. revert n acc. induction fuel as [|fuel IH]; intros n acc Hn Ha; [done|].
  cbn [print_digits]. pose proof (Z.mod_pos_bound n 10 eq_refl).
  assert (sforall p (String (digit_char (n mod 10)) acc)).
  { cbn [sforall]. apply andb_True. split; [by apply Hp|done]. }
  case_match; [done|]. apply IH; [|done]. apply Z.div_pos; lia.
Qed.

Lemma itoa_forall (p : ascii → bool) n :
  (∀ d, (0 ≤ d < 10)%Z → p (digit_char d)) → p "-"%char → sforall p (itoa n).
Proof.
  intros Hp Hm. unfold itoa. case_match.
  - cbn [sforall]. apply andb_True. split; [done|]. apply print_digits_forall; [done|lia|done].
  - apply print_digits_forall; [done|lia|done].
Qed.

(** A property of characters that holds of the ten digits. *)
Lemma forall_digits (p : ascii → bool) :
  forallb (λ d, p (digit_char d)) (seqZ 0 10) = true →
  ∀ d, (0 ≤ d < 10)%Z → p (digit_char d).
Proof.
  intros Hall d Hd. rewrite forallb_forall in Hall. specialize (Hall d).
  rewrite <- list_elem_of_In, elem_of_seqZ in Hall. by rewrite Hall by lia.
Qed.
