(* ===== verification/Unicode.v ===== *)
(** * Go's UTF-8 and the Unicode-aware string functions

    [utf8.DecodeRune], [utf8.AppendRune], [utf8.Valid], [strings.ToLower],
    [strings.TrimSpace] and [strconv.Quote] (the [%q] verb).  The letter and
    printability tables of package unicode are data, not code: they are the
    class [UnicodeTables], and only non-ASCII text consults them. *)

From S2P Require Import Prelude GoStrings Strconv.

(** [unicode.ToLower] above U+007F and [strconv.IsPrint] above U+00FF. *)
Class UnicodeTables := {
  table_to_lower : Z → Z;
  table_is_print : Z → bool;
}.

(** ** Decoding *)

Definition rune_error : Z := 65533.

Definition in_range (lo hi : Z) (b : byte) : bool :=
  ((lo <=? Z_of_byte b) && (Z_of_byte b <=? hi))%Z.
Definition cont (b : byte) : bool := in_range 128 191 b.

Definition bits6 (b : byte) : Z := (Z_of_byte b mod 64)%Z.

(** [utf8.DecodeRune]: the rune and its width; an encoding error is
    [(RuneError, 1)], an empty slice [(RuneError, 0)]. *)
Definition decode_rune (l : list byte) : Z * nat :=
  match l with
  | [] => (rune_error, 0)
  | b0 :: l =>
      let c := Z_of_byte b0 in
      if (c <? 128)%Z then (c, 1)
      else if in_range 194 223 b0 then
        match l with
        | b1 :: _ => if cont b1 then (((c mod 32) * 64 + bits6 b1)%Z, 2) else (rune_error, 1)
        | _ => (rune_error, 1)
        end
      else if in_range 224 239 b0 then
        match l with
        | b1 :: b2 :: _ =>
            let lo := if (c =? 224)%Z then 160%Z else 128%Z in
            let hi := if (c =? 237)%Z then 159%Z else 191%Z in
            if in_range lo hi b1 && cont b2
            then (((c mod 16) * 4096 + bits6 b1 * 64 + bits6 b2)%Z, 3) else (rune_error, 1)
        | _ => (rune_error, 1)
        end
      else if in_range 240 244 b0 then
        match l with
        | b1 :: b2 :: b3 :: _ =>
            let lo := if (c =? 240)%Z then 144%Z else 128%Z in
            let hi := if (c =? 244)%Z then 143%Z else 191%Z in
            if in_range lo hi b1 && cont b2 && cont b3
            then (((c mod 8) * 262144 + bits6 b1 * 4096 + bits6 b2 * 64 + bits6 b3)%Z, 4)
            else (rune_error, 1)
        | _ => (rune_error, 1)
        end
      else (rune_error, 1)
  end.

(** The runes of a byte slice, each with the bytes it was decoded from. *)
Fixpoint runes_from (fuel : nat) (l : list byte) : list (Z * list byte) :=
  match fuel, l with
  | S fuel, _ :: _ =>
      let '(r, w) := decode_rune l in (r, take w l) :: runes_from fuel (drop w l)
  | _, _ => []
  end.
Definition runes (l : list byte) : list (Z * list byte) := runes_from (length l) l.

Definition bad_rune (p : Z * list byte) : bool :=
  (p.1 =? rune_error)%Z && bool_decide (length p.2 = 1).

(** [utf8.Valid]. *)
Definition utf8_valid (l : list byte) : bool := forallb (λ p, negb (bad_rune p)) (runes l).

(** [utf8.AppendRune] to an empty slice. *)
Definition encode_rune (r : Z) : list byte :=
  let r := if ((r <? 0) || (1114111 <? r) || ((55296 <=? r) && (r <=? 57343)))%Z
           then rune_error else r in
  if (r <? 128)%Z then [byte_of_Z r]
  else if (r <? 2048)%Z then [byte_of_Z (192 + r / 64); byte_of_Z (128 + r mod 64)]
  else if (r <? 65536)%Z then
    [byte_of_Z (224 + r / 4096); byte_of_Z (128 + r / 64 mod 64); byte_of_Z (128 + r mod 64)]
  else [byte_of_Z (240 + r / 262144); byte_of_Z (128 + r / 4096 mod 64);
        byte_of_Z (128 + r / 64 mod 64); byte_of_Z (128 + r mod 64)].

(** Nothing is lost: the pieces are the slice. *)
Lemma decode_rune_width l : l ≠ [] → (1 ≤ (decode_rune l).2 ≤ length l)%nat.
Proof.
  destruct l as [|b0 l]; [done|]. intros _. unfold decode_rune.
  repeat (case_match; cbn [snd length]; try lia).
Qed.

Lemma runes_concat l : concat (snd <$> runes l) = l.
Proof.
  unfold runes.
  assert (∀ n l, (length l ≤ n)%nat → concat (snd <$> runes_from n l) = l) as H; [|by apply H].
  clear l. induction n as [|n IH]; intros l Hl.
  - destruct l; [done | simpl in Hl; lia].
  - destruct l as [|b l]; [done|]. cbn [runes_from].
    pose proof (decode_rune_width (b :: l) ltac:(done)) as Hw.
    destruct (decode_rune (b :: l)) as [r w]. cbn [snd] in Hw.
    rewrite fmap_cons. cbn [concat snd].
    rewrite IH by (rewrite length_drop; simpl in *; lia). apply take_drop.
Qed.

(** ** Decoding and encoding are inverse *)

Lemma byte_of_Z_eq b z : Z_of_byte b = z → byte_of_Z z = b.
Proof. intros <-. apply byte_of_Z_of_byte. Qed.

Lemma in_range_spec lo hi b : in_range lo hi b = true ↔ (lo ≤ Z_of_byte b ≤ hi)%Z.
Proof. unfold in_range. rewrite andb_true_iff, !Z.leb_le. done. Qed.

Ltac decide_bounds :=
  repeat match goal with
  | |- context [Z.ltb ?a ?b] => destruct (Z.ltb_spec a b); try lia
  | |- context [Z.leb ?a ?b] => destruct (Z.leb_spec a b); try lia
  end.

Lemma rune_valid r :
  (0 ≤ r ≤ 1114111)%Z → ¬ (55296 ≤ r ≤ 57343)%Z →
  ((r <? 0) || (1114111 <? r) || ((55296 <=? r) && (r <=? 57343)))%Z = false.
Proof. intros Hr Hs. by decide_bounds. Qed.

Lemma encode_rune_1 r : (0 ≤ r < 128)%Z → encode_rune r = [byte_of_Z r].
Proof. intros Hr. unfold encode_rune. rewrite rune_valid by lia. by decide_bounds. Qed.

Lemma encode_rune_2 r :
  (128 ≤ r < 2048)%Z → encode_rune r = [byte_of_Z (192 + r / 64); byte_of_Z (128 + r mod 64)].
Proof. intros Hr. unfold encode_rune. rewrite rune_valid by lia. by decide_bounds. Qed.

Lemma encode_rune_3 r :
  (2048 ≤ r < 65536)%Z → ¬ (55296 ≤ r ≤ 57343)%Z →
  encode_rune r = [byte_of_Z (224 + r / 4096); byte_of_Z (128 + r / 64 mod 64);
                   byte_of_Z (128 + r mod 64)].
Proof. intros Hr Hs. unfold encode_rune. rewrite rune_valid by lia. by decide_bounds. Qed.

Lemma encode_rune_4 r :
  (65536 ≤ r ≤ 1114111)%Z →
  encode_rune r = [byte_of_Z (240 + r / 262144); byte_of_Z (128 + r / 4096 mod 64);
                   byte_of_Z (128 + r / 64 mod 64); byte_of_Z (128 + r mod 64)].
Proof. intros Hr. unfold encode_rune. rewrite rune_valid by lia. by decide_bounds. Qed.

(** What decoding one rune gives: an ASCII byte; a byte that is no UTF-8; or
    several bytes above 127 which are the encoding of the rune, no surrogate. *)
Definition rune_ok (p : Z * list byte) : Prop :=
  (bad_rune p = true ∧ p.1 = rune_error) ∨
  (bad_rune p = false ∧ p.2 = encode_rune p.1 ∧
    ((0 ≤ p.1 < 128)%Z ∨ (128 ≤ p.1 ≤ 1114111 ∧ ¬ 55296 ≤ p.1 ≤ 57343)%Z ∧ Forall (λ b, (128 ≤ Z_of_byte b)%Z) p.2)).

Ltac range_facts :=
  repeat match goal with
  | H : _ && _ = true |- _ => apply andb_true_iff in H as [? ?]
  | H : cont _ = true |- _ => unfold cont in H
  | H : in_range _ _ _ = true |- _ => apply in_range_spec in H
  end.

Lemma bad_rune_wide r l : length l ≠ 1 → bad_rune (r, l) = false.
Proof. intros Hl. unfold bad_rune. cbn [snd]. by rewrite bool_decide_false, andb_false_r. Qed.

Lemma decode_rune_ok l :
  l ≠ [] → rune_ok ((decode_rune l).1, take (decode_rune l).2 l).
Proof.
  destruct l as [|b0 l]; [done|]. intros _. unfold decode_rune.
  pose proof (Z_of_byte_range b0) as H0.
  destruct (Z.ltb_spec (Z_of_byte b0) 128) as [Hlt|Hge].
  { right. cbn [fst snd take].
    split_and!; [|rewrite encode_rune_1 by lia; by rewrite byte_of_Z_of_byte | left; lia].
    unfold bad_rune. cbn [fst]. destruct (Z.eqb_spec (Z_of_byte b0) rune_error) as [E|]; [|done].
    unfold rune_error in E. lia. }
  assert (rune_ok (rune_error, [b0])) as Hbad by by left.
  unfold bits6.
  destruct (in_range 194 223 b0) eqn:H2; [|destruct (in_range 224 239 b0) eqn:H3;
    [|destruct (in_range 240 244 b0) eqn:H4; [|done]]]; range_facts.
  - destruct l as [|b1 l]; [done|]. destruct (cont b1) eqn:Hc; [|done]. range_facts.
    right. cbn [fst snd take]. rewrite bad_rune_wide by done.
    split_and!; [done| |right; split; [Z.div_mod_to_equations; lia | repeat constructor; lia]].
    rewrite encode_rune_2 by (Z.div_mod_to_equations; lia).
    repeat f_equal; symmetry; apply byte_of_Z_eq; Z.div_mod_to_equations; lia.
  - destruct l as [|b1 [|b2 l]]; [done|done|].
    destruct (in_range _ _ b1 && cont b2) eqn:Hc; [|done]. range_facts.
    assert (128 ≤ Z_of_byte b1 ≤ 191 ∧ (Z_of_byte b0 = 224 → 160 ≤ Z_of_byte b1) ∧
      (Z_of_byte b0 = 237 → Z_of_byte b1 ≤ 159))%Z as (? & ? & ?).
    { destruct (Z.eqb_spec (Z_of_byte b0) 224), (Z.eqb_spec (Z_of_byte b0) 237); lia. }
    right. cbn [fst snd take]. rewrite bad_rune_wide by done.
    split_and!; [done| |right; split; [Z.div_mod_to_equations; lia | repeat constructor; lia]].
    rewrite encode_rune_3 by (Z.div_mod_to_equations; lia).
    repeat f_equal; symmetry; apply byte_of_Z_eq; Z.div_mod_to_equations; lia.
  - destruct l as [|b1 [|b2 [|b3 l]]]; [done..|].
    destruct (in_range _ _ b1 && cont b2 && cont b3) eqn:Hc; [|done]. range_facts.
    assert (128 ≤ Z_of_byte b1 ≤ 191 ∧ (Z_of_byte b0 = 240 → 144 ≤ Z_of_byte b1) ∧
      (Z_of_byte b0 = 244 → Z_of_byte b1 ≤ 143))%Z as (? & ? & ?).
    { destruct (Z.eqb_spec (Z_of_byte b0) 240), (Z.eqb_spec (Z_of_byte b0) 244); lia. }
    right. cbn [fst snd take]. rewrite bad_rune_wide by done.
    split_and!; [done| |right; split; [Z.div_mod_to_equations; lia | repeat constructor; lia]].
    rewrite encode_rune_4 by (Z.div_mod_to_equations; lia).
    repeat f_equal; symmetry; apply byte_of_Z_eq; Z.div_mod_to_equations; lia.
Qed.

Lemma runes_ok l : Forall rune_ok (runes l).
Proof.
  unfold runes. generalize (length l) as n. intros n. revert l.
  induction n as [|n IH]; intros [|b l]; [constructor..|]. cbn [runes_from].
  pose proof (decode_rune_ok (b :: l) ltac:(done)) as Hok.
  destruct (decode_rune (b :: l)) as [r w]. by constructor.
Qed.

(** The string with U+FFFD for every byte that is not UTF-8. *)
Definition sanitize (s : string) : string :=
  str (concat ((λ p, encode_rune p.1) <$> runes (bytes s))).

Lemma sanitize_valid s : utf8_valid (bytes s) → sanitize s = s.
Proof.
  unfold utf8_valid, sanitize. intros Hv.
  rewrite <- (str_bytes s) at 2. f_equal. rewrite <- (runes_concat (bytes s)) at 2.
  pose proof (runes_ok (bytes s)) as Hok. f_equal.
  induction Hok as [|p ps Hp Hok IH]; [done|]. cbn in Hv |- *.
  apply andb_True in Hv as [Hb Hv]. f_equal; [|by apply IH].
  destruct Hp as [[Hp _]|(_ & -> & _)]; [by rewrite Hp in Hb|done].
Qed.

(** ** [strings.ToLower] *)

Section Tables.
Context `{UnicodeTables}.

Definition rune_to_lower (r : Z) : Z :=
  if (r <? 128)%Z then (if ((65 <=? r) && (r <=? 90))%Z then r + 32 else r)%Z
  else table_to_lower r.

(** ASCII strings are lowered byte by byte; others rune by rune, and a byte
    that is not UTF-8 becomes U+FFFD ([strings.Map]). *)
Definition toLower (s : string) : string :=
  if sforall is_ascii_char s then smap lower_char s
  else str (concat ((λ p, encode_rune (rune_to_lower p.1)) <$> runes (bytes s))).

(** ** [strconv.Quote] *)

Definition is_print (r : Z) : bool :=
  if (r <? 127)%Z then (32 <=? r)%Z
  else if (r <? 256)%Z then (161 <=? r)%Z && negb (r =? 173)%Z
  else table_is_print r.

Fixpoint hex_digits (n : nat) (r : Z) (acc : string) : string :=
  match n with
  | O => acc
  | S n => hex_digits n (r / 16) (String (digit_char (r mod 16)) acc)
  end.

Definition escape_rune (p : Z * list byte) : string :=
  let r := p.1 in
  if bad_rune p then
    "\x" +:+ hex_digits 2 (from_option Z_of_byte 0%Z (head p.2)) ""
  else if ((r =? 34) || (r =? 92))%Z then String "\" (String (char_of r) "")
  else if is_print r then str (encode_rune r)
  else if (r =? 7)%Z then "\a" else if (r =? 8)%Z then "\b"
  else if (r =? 12)%Z then "\f" else if (r =? 10)%Z then "\n"
  else if (r =? 13)%Z then "\r" else if (r =? 9)%Z then "\t"
  else if (r =? 11)%Z then "\v"
  else if ((r <? 32) || (r =? 127))%Z then "\x" +:+ hex_digits 2 r ""
  else if (r <? 65536)%Z then "\u" +:+ hex_digits 4 r ""
  else "\U" +:+ hex_digits 8 r "".

Definition dquote : ascii := char_of 34.

Definition quote (s : string) : string :=
  String dquote (join (escape_rune <$> runes (bytes s)) "" +:+ String dquote "").

Lemma toLower_ascii s : sforall is_ascii_char s → toLower s = smap lower_char s.
Proof. intros Hs. unfold toLower. apply Is_true_true in Hs. by rewrite Hs. Qed.

End Tables.

Lemma lower_char_fixed a : lower_char a = a ↔ ¬ (65 ≤ char_code a ≤ 90)%Z.
Proof.
  unfold lower_char. pose proof (char_code_range a) as Ha.
  destruct (Z.leb_spec 65 (char_code a)), (Z.leb_spec (char_code a) 90); simpl;
    try (split; [lia | done]).
  split; [|lia]. intros E. apply (f_equal char_code) in E.
  rewrite char_code_of in E by lia. lia.
Qed.

(** A string with no upper-case letter, all ASCII. *)
Definition lower_ascii (s : string) : bool :=
  sforall (λ a, is_ascii_char a && bool_decide (lower_char a = a)) s.

Lemma toLower_lower `{UnicodeTables} s : lower_ascii s → toLower s = s.
Proof.
  intros Hs. rewrite toLower_ascii.
  - induction s as [|a s IH]; [done|]. cbn in Hs |- *.
    apply andb_True in Hs as [[_ Ha%bool_decide_unpack]%andb_True Hs].
    by rewrite Ha, IH.
  - induction s as [|a s IH]; [done|]. cbn in Hs |- *.
    apply andb_True in Hs as [[Ha _]%andb_True Hs].
    apply andb_True. auto.
Qed.

(** ** [strings.TrimSpace] *)

(** [unicode.IsSpace]: the White_Space property, all of it. *)
Definition is_space (r : Z) : bool :=
  ((9 <=? r) && (r <=? 13) || (r =? 32) || (r =? 133) || (r =? 160) || (r =? 5760)
   || (8192 <=? r) && (r <=? 8202) || (r =? 8232) || (r =? 8233) || (r =? 8239)
   || (r =? 8287) || (r =? 12288))%Z.

Fixpoint drop_spaces (ps : list (Z * list byte)) : list (Z * list byte) :=
  match ps with
  | p :: ps' => if is_space p.1 then drop_spaces ps' else ps
  | [] => []
  end.

(** Leading and trailing white space goes. *)
Definition trimSpace (s : string) : string :=
  str (concat (snd <$> reverse (drop_spaces (reverse (drop_spaces (runes (bytes s))))))).

Example trimSpace_ex : trimSpace "  a b	 " = "a b".
Proof. vm_compute. reflexivity. Qed.

(** ** ASCII text is its own runes *)

Lemma runes_ascii s :
  sforall is_ascii_char s → runes (bytes s) = (λ b, (Z_of_byte b, [b])) <$> bytes s.
Proof.
  unfold runes. induction s as [|a s IH]; intros Hs; [done|]. rewrite bytes_cons.
  cbn [sforall] in Hs. apply andb_True in Hs as [Ha Hs].
  cbn [length runes_from]. unfold decode_rune. unfold is_ascii_char, char_code in Ha.
  destruct (Z.ltb _ 128); [|done]. cbn [fmap list_fmap]. f_equal. by apply IH.
Qed.

Lemma ascii_valid s : sforall is_ascii_char s → utf8_valid (bytes s).
Proof.
  intros Hs. unfold utf8_valid. rewrite runes_ascii by done.
  induction s as [|a s IH]; [done|]. rewrite bytes_cons. cbn in Hs |- *.
  apply andb_True in Hs as [Ha Hs]. apply andb_True. split; [|auto].
  unfold bad_rune. cbn [fst]. unfold is_ascii_char, char_code in Ha.
  destruct (Z.eqb_spec (Z_of_byte (Strings.Ascii.byte_of_ascii a)) rune_error) as [E|]; [|done].
  rewrite E in Ha. done.
Qed.

Lemma sanitize_ascii s : sforall is_ascii_char s → sanitize s = s.
Proof. intros Hs. by apply sanitize_valid, ascii_valid. Qed.

Definition solid (a : ascii) : bool := is_ascii_char a && negb (is_space (char_code a)).

(** Text without white space is not trimmed. *)
Lemma trimSpace_solid s : sforall solid s → trimSpace s = s.
Proof.
  intros Hs. unfold trimSpace.
  assert (sforall is_ascii_char s) as Ha.
  { eapply sforall_impl, Hs. unfold solid. by intros a [? _]%andb_True. }
  rewrite runes_ascii by done.
  assert (Forall (λ p : Z * list byte, is_space p.1 = false)
    ((λ b, (Z_of_byte b, [b])) <$> bytes s)) as Hf.
  { clear Ha. induction s as [|a s IH]; [constructor|]. rewrite bytes_cons.
    cbn [sforall] in Hs. apply andb_True in Hs as [[_ Hn]%andb_True Hs].
    constructor; [|by apply IH]. cbn [fst]. fold (char_code a). by destruct (is_space _). }
  assert (∀ ps, Forall (λ p : Z * list byte, is_space p.1 = false) ps → drop_spaces ps = ps) as Hd.
  { intros ps [|p ps' Hp _]; [done|]. cbn. by rewrite Hp. }
  rewrite (Hd _ Hf), Hd by (by apply Forall_reverse). rewrite reverse_involutive.
  rewrite <- list_fmap_compose.
  assert (concat ((snd ∘ λ b, (Z_of_byte b, [b])) <$> bytes s) = bytes s) as ->.
  { generalize (bytes s). intros l. induction l as [|b l IH]; [done|]. cbn. by rewrite IH. }
  apply str_bytes.
Qed.

(** The tables restricted to ASCII text: enough to evaluate the model on it. *)
Definition ascii_tables : UnicodeTables :=
  {| table_to_lower := λ r, r; table_is_print := λ _, false |}.

Example quote_ex : @quote ascii_tables "a\b" = String dquote ("a\\b" +:+ String dquote "").
Proof. vm_compute. reflexivity. Qed.
