(* ===== verification/GoTime.v ===== *)
(** * Go's [time]: UTC seconds, the calendar and [AddDate]

    A [time.Time] is its Unix time in seconds, which is the resolution of an
    X.509 certificate and of the HTTP date; the location is UTC, as in the
    containers.  [AddDate] goes through the calendar, as in Go. *)

From S2P Require Import Prelude GoStrings Strconv.

Open Scope Z_scope.
#[local] Ltac Zify.zify_post_hook ::= Z.to_euclidean_division_equations.

Definition second : Z := 1.
Definition hour : Z := 3600.
Definition day_seconds : Z := 86400.

(** ** Days and years

    [abs_days] counts from 1 January of the year 1. *)

Definition isLeap (year : Z) : bool :=
  (year mod 4 =? 0) && (negb (year mod 100 =? 0) || (year mod 400 =? 0)).

(** The days before 1 January of [year]. *)
Definition daysBeforeYear (year : Z) : Z :=
  let y := year - 1 in 365 * y + y / 4 - y / 100 + y / 400.

(** The cycles of 400, 100, 4 years and 1 year, the last of each group being a
    day longer. *)
Definition yearOf (d : Z) : Z * Z :=
  let n400 := d / 146097 in
  let d := d - 146097 * n400 in
  let n100 := d / 36524 - d / 36524 / 4 in
  let d := d - 36524 * n100 in
  let n4 := d / 1461 in
  let d := d - 1461 * n4 in
  let n1 := d / 365 - d / 365 / 4 in
  (400 * n400 + 100 * n100 + 4 * n4 + n1 + 1, d - 365 * n1).

(** [daysBefore] of the standard library, with 29 February counted. *)
Definition daysBefore (leap : bool) (month : Z) : Z :=
  let extra := if leap then 1 else 0 in
  if month <=? 1 then 0 else if month =? 2 then 31
  else if month =? 3 then 59 + extra else if month =? 4 then 90 + extra
  else if month =? 5 then 120 + extra else if month =? 6 then 151 + extra
  else if month =? 7 then 181 + extra else if month =? 8 then 212 + extra
  else if month =? 9 then 243 + extra else if month =? 10 then 273 + extra
  else if month =? 11 then 304 + extra else 334 + extra.

Fixpoint monthOf (leap : bool) (yday : Z) (fuel : nat) (month : Z) : Z :=
  match fuel with
  | O => month
  | S fuel =>
      if yday <? daysBefore leap (month + 1) then month else monthOf leap yday fuel (month + 1)
  end.

(** The date of a day, counted from 1 January 1970. *)
Definition epoch : Z := 719162.
Definition civil (days : Z) : Z * Z * Z :=
  let '(year, yday) := yearOf (days + epoch) in
  let month := monthOf (isLeap year) yday 11 1 in
  (year, month, yday - daysBefore (isLeap year) month + 1).

(** [time.Date] at midnight UTC: the month may be any integer, the day too. *)
Definition dateDays (year month day : Z) : Z :=
  let year := year + (month - 1) / 12 in
  let month := (month - 1) mod 12 + 1 in
  daysBeforeYear year + daysBefore (isLeap year) month + (day - 1) - epoch.

Definition date (year month day : Z) : Z := dateDays year month day * day_seconds.

Definition addDate (t years months days : Z) : Z :=
  let '(year, month, day) := civil (t / day_seconds) in
  dateDays (year + years) (month + months) (day + days) * day_seconds + t mod day_seconds.

Example addDate_leap : addDate (date 2028 2 29) 1 0 0 = date 2029 3 1.
Proof. reflexivity. Qed.
Example civil_2026 : civil (date 2026 1 1 / day_seconds) = (2026, 1, 1).
Proof. reflexivity. Qed.

(** ** The calendar is consistent *)

Lemma quarter q : 0 ≤ q ≤ 4 → q / 4 = if q =? 4 then 1 else 0.
Proof. intros Hq. destruct (Z.eqb_spec q 4) as [->|]; [done|]. apply Z.div_small. lia. Qed.

Lemma yearOf_spec d :
  let '(year, yday) := yearOf d in
  daysBeforeYear year + yday = d ∧ 0 ≤ yday < 365 + (if isLeap year then 1 else 0).
Proof.
  unfold yearOf, daysBeforeYear, isLeap.
  set (n400 := d / 146097). set (d1 := d - 146097 * n400).
  assert (0 ≤ d1 < 146097) as H1 by (subst d1 n400; lia).
  set (n100 := d1 / 36524 - d1 / 36524 / 4). set (d2 := d1 - 36524 * n100).
  assert (0 ≤ n100 ≤ 3 ∧ 0 ≤ d2 ∧ (n100 = 3 → d2 ≤ 36524) ∧ (n100 < 3 → d2 < 36524)) as H2
    by (subst d2 n100; assert (0 ≤ d1 / 36524 ≤ 4) by lia; rewrite quarter by done;
        destruct (Z.eqb_spec (d1 / 36524) 4); lia).
  set (n4 := d2 / 1461). set (d3 := d2 - 1461 * n4).
  assert (0 ≤ n4 ≤ 24 ∧ 0 ≤ d3 < 1461 ∧ (n4 = 24 → n100 < 3 → d3 < 1460)) as H3
    by (subst d3 n4; lia).
  set (n1 := d3 / 365 - d3 / 365 / 4). set (d4 := d3 - 365 * n1).
  assert (0 ≤ n1 ≤ 3 ∧ 0 ≤ d4 ∧ (n1 < 3 → d4 < 365) ∧ (n1 = 3 → d4 ≤ 365)
    ∧ (n1 = 3 → n4 = 24 → n100 < 3 → d4 < 365)) as H4 by (subst d4 n1; lia).
  assert (d = 146097 * n400 + 36524 * n100 + 1461 * n4 + 365 * n1 + d4) as Hd by lia.
  clearbody d4 n1 d3 n4 d2 n100 d1 n400. clear d1 H1.
  replace (400 * n400 + 100 * n100 + 4 * n4 + n1 + 1 - 1)
    with (400 * n400 + 100 * n100 + 4 * n4 + n1) by lia.
  split; [lia|]. split; [lia|].
  destruct (Z.eqb_spec ((400 * n400 + 100 * n100 + 4 * n4 + n1 + 1) mod 4) 0) as [E4|E4];
    destruct (Z.eqb_spec ((400 * n400 + 100 * n100 + 4 * n4 + n1 + 1) mod 100) 0) as [E100|E100];
    destruct (Z.eqb_spec ((400 * n400 + 100 * n100 + 4 * n4 + n1 + 1) mod 400) 0) as [E400|E400];
    cbn [andb orb negb]; lia.
Qed.

Lemma monthOf_spec leap yday fuel month :
  1 ≤ month → month + Z.of_nat fuel = 12 → daysBefore leap month ≤ yday →
  let m := monthOf leap yday fuel month in
  1 ≤ m ≤ 12 ∧ daysBefore leap m ≤ yday ∧ (m < 12 → yday < daysBefore leap (m + 1)).
Proof.
  revert month. induction fuel as [|fuel IH]; intros month H1 H2 Hd; cbn [monthOf]; [lia|].
  destruct (Z.ltb_spec yday (daysBefore leap (month + 1))); [lia|]. apply IH; lia.
Qed.

(** No month is longer than 31 days. *)
Lemma daysBefore_step leap month :
  1 ≤ month < 12 → daysBefore leap (month + 1) ≤ daysBefore leap month + 31.
Proof. intros Hm. unfold daysBefore. destruct leap; repeat case_match; lia. Qed.

(** [civil] gives the month and the day of the month that lead back to the day. *)
Lemma civil_spec days :
  let '(year, month, day) := civil days in
  1 ≤ month ≤ 12 ∧ 1 ≤ day ≤ 31 ∧
  daysBeforeYear year + daysBefore (isLeap year) month + (day - 1) - epoch = days.
Proof.
  unfold civil. pose proof (yearOf_spec (days + epoch)) as Hy.
  destruct (yearOf (days + epoch)) as [year yday]. destruct Hy as [Hd Hb].
  assert (daysBefore (isLeap year) 1 ≤ yday) as H0 by apply Hb.
  pose proof (monthOf_spec (isLeap year) yday 11 1 ltac:(done) eq_refl H0) as Hm. clear H0.
  cbv zeta in Hm |- *. set (m := monthOf _ _ _ _) in *. clearbody m.
  destruct Hm as (Hm & Hlo & Hhi). split; [done|]. split; [|lia].
  pose proof (daysBefore_step (isLeap year) m). destruct (decide (m < 12)) as [Hlt|Hlt]; [lia|].
  assert (m = 12) as -> by lia. change (daysBefore (isLeap year) 12) with
    (334 + if isLeap year then 1 else 0) in *. destruct (isLeap year); lia.
Qed.

Lemma dateDays_civil days year month day k :
  civil days = (year, month, day) → dateDays year month (day + k) = days + k.
Proof.
  intros E. pose proof (civil_spec days) as Hc. rewrite E in Hc. destruct Hc as (Hm & _ & Hd).
  unfold dateDays. rewrite (Z.div_small (month - 1)), (Z.mod_small (month - 1)) by lia.
  replace (year + 0) with year by lia. replace (month - 1 + 1) with month by lia. lia.
Qed.

(** A number of days later is just that. *)
Lemma addDate_days t k : addDate t 0 0 k = t + k * day_seconds.
Proof.
  unfold addDate. destruct (civil (t / day_seconds)) as [[year month] day] eqn:E.
  rewrite !Z.add_0_r, (dateDays_civil _ _ _ _ _ E). unfold day_seconds. lia.
Qed.

Lemma daysBeforeYear_succ year :
  daysBeforeYear (year + 1) = daysBeforeYear year + 365 + (if isLeap year then 1 else 0).
Proof.
  unfold daysBeforeYear, isLeap.
  destruct (Z.eqb_spec (year mod 4) 0), (Z.eqb_spec (year mod 100) 0), (Z.eqb_spec (year mod 400) 0);
    cbn [andb orb negb]; lia.
Qed.

Lemma isLeap_succ year : isLeap year = true → isLeap (year + 1) = false.
Proof.
  unfold isLeap. destruct (Z.eqb_spec (year mod 4) 0); [|done]. intros _.
  destruct (Z.eqb_spec ((year + 1) mod 4) 0); [lia|done].
Qed.

Lemma daysBefore_leap month :
  daysBefore true month = daysBefore false month ∨
  (3 ≤ month ∧ daysBefore true month = daysBefore false month + 1).
Proof. unfold daysBefore. repeat case_match; lia. Qed.

(** A year later is 365 or 366 days later. *)
Lemma addDate_year t :
  t + 365 * day_seconds ≤ addDate t 1 0 0 ≤ t + 366 * day_seconds.
Proof.
  unfold addDate. destruct (civil (t / day_seconds)) as [[year month] day] eqn:E.
  pose proof (civil_spec (t / day_seconds)) as Hc. rewrite E in Hc. destruct Hc as (Hm & _ & Hd).
  assert (t / day_seconds + 365 ≤ dateDays (year + 1) month day ≤ t / day_seconds + 366) as Hb.
  { rewrite <- Hd. unfold dateDays. rewrite (Z.div_small (month - 1)), (Z.mod_small (month - 1)) by lia.
    replace (year + 1 + 0) with (year + 1) by lia. replace (month - 1 + 1) with month by lia.
    rewrite daysBeforeYear_succ. pose proof (isLeap_succ year) as Hl.
    pose proof (daysBefore_leap month) as Hb.
    destruct (isLeap year); [rewrite Hl by done | destruct (isLeap (year + 1))]; lia. }
  rewrite !Z.add_0_r. unfold day_seconds in *. lia.
Qed.
