(* ===== verification/StrOrder.v ===== *)
(** * Go's order on strings, and sorting

    [sort.Strings], and the sorted keys encoding/json prints a map with: the
    bytewise order is a total order, so what is sorted does not depend on the
    order a Go map is iterated in. *)

From stdpp Require Import sorting.
From S2P Require Import Prelude GoStrings.

Fixpoint str_leb (s t : string) : bool :=
  match s, t with
  | EmptyString, _ => true
  | String _ _, EmptyString => false
  | String a s, String b t =>
      if (char_code a <? char_code b)%Z then true
      else if (char_code a =? char_code b)%Z then str_leb s t
      else false
  end.

Definition str_le (s t : string) : Prop := str_leb s t = true.

#[export] Instance str_le_dec : RelDecision str_le.
Proof. intros s t. unfold str_le. apply _. Defined.

#[export] Instance str_le_total : Total str_le.
Proof.
  unfold str_le. intros s. induction s as [|a s IH]; intros [|b t]; cbn; [by left..|by right|].
  destruct (Z.ltb_spec (char_code a) (char_code b)); [by left|].
  destruct (Z.ltb_spec (char_code b) (char_code a)); [by right|].
  destruct (Z.eqb_spec (char_code a) (char_code b)); [|lia].
  destruct (Z.eqb_spec (char_code b) (char_code a)); [|lia].
  apply IH.
Qed.

#[export] Instance str_le_trans : Transitive str_le.
Proof.
  unfold str_le. intros s. induction s as [|a s IH]; intros [|b t] [|c u]; cbn; try done.
  destruct (Z.ltb_spec (char_code a) (char_code b)), (Z.ltb_spec (char_code b) (char_code c)),
    (Z.ltb_spec (char_code a) (char_code c)), (Z.eqb_spec (char_code a) (char_code b)),
    (Z.eqb_spec (char_code b) (char_code c)), (Z.eqb_spec (char_code a) (char_code c));
    try done; try lia. apply IH.
Qed.

#[export] Instance str_le_antisym : AntiSymm (=) str_le.
Proof.
  unfold str_le. intros s. induction s as [|a s IH]; intros [|b t]; cbn; try done.
  destruct (Z.ltb_spec (char_code a) (char_code b)), (Z.ltb_spec (char_code b) (char_code a)),
    (Z.eqb_spec (char_code a) (char_code b)), (Z.eqb_spec (char_code b) (char_code a));
    try done; try lia.
  intros H1 H2. f_equal; [by apply char_code_inj | by apply IH].
Qed.

(** [sort.Strings]. *)
Definition sortStrings (l : list string) : list string := merge_sort str_le l.

Lemma sortStrings_perm l : sortStrings l ≡ₚ l.
Proof. apply merge_sort_Permutation. Qed.

Lemma sortStrings_sorted l : StronglySorted str_le (sortStrings l).
Proof. apply (StronglySorted_merge_sort str_le). Qed.

(** The order things were collected in does not matter. *)
Lemma sortStrings_unique l1 l2 : l1 ≡ₚ l2 → sortStrings l1 = sortStrings l2.
Proof.
  intros Hp. apply (StronglySorted_unique str_le).
  - apply sortStrings_sorted.
  - apply sortStrings_sorted.
  - by rewrite !sortStrings_perm.
Qed.

(** A map with its keys sorted. *)
Definition sorted_map {A} (m : gmap string A) : list (string * A) :=
  omap (λ k, (k,.) <$> m !! k) (sortStrings (elements (dom m))).

Lemma sorted_map_perm {A} (m : gmap string A) : sorted_map m ≡ₚ map_to_list m.
Proof.
  unfold sorted_map. apply NoDup_Permutation.
  - assert (NoDup (sortStrings (elements (dom m)))) as Hnd.
    { rewrite sortStrings_perm. apply NoDup_elements. }
    induction Hnd as [|k l Hk Hnd IH]; cbn; [constructor|].
    destruct (m !! k) as [x|]; cbn; [|done]. constructor; [|done].
    rewrite list_elem_of_omap. intros (k' & Hk' & (y & Hy & E)%fmap_Some). by simplify_eq.
  - apply NoDup_map_to_list.
  - intros [k x]. rewrite elem_of_map_to_list, list_elem_of_omap. split.
    + intros (k' & _ & (y & Hy & E)%fmap_Some). by simplify_eq.
    + intros Hm. exists k. rewrite sortStrings_perm, elem_of_elements, elem_of_dom, Hm. eauto.
Qed.
