(* ===== verification/Json.v ===== *)
(** * encoding/json, as far as the test server uses it

    [json.Marshal] and [json.MarshalIndent(v, "", "  ")] on the values the
    handlers pass, and a reader of RFC 8259 as the specification: what is printed
    reads back as the value, with every byte that is not UTF-8 replaced by
    U+FFFD. *)

From S2P Require Import Prelude GoStrings Strconv Unicode.

(** An object has its members in the order they are printed: struct fields as
    declared, map keys sorted. *)
Inductive json : Type :=
| JNull
| JBool (b : bool)
| JInt (n : Z)
| JStr (s : string)
| JArr (vs : list json)
| JObj (ms : list (string * json)).

Section Induction.
Context (P : json → Prop).
Context (Hnull : P JNull) (Hbool : ∀ b, P (JBool b)) (Hint : ∀ n, P (JInt n))
  (Hstr : ∀ s, P (JStr s)) (Harr : ∀ vs, Forall P vs → P (JArr vs))
  (Hobj : ∀ ms, Forall (λ m, P m.2) ms → P (JObj ms)).

Fixpoint json_ind' (v : json) : P v :=
  match v with
  | JNull => Hnull
  | JBool b => Hbool b
  | JInt n => Hint n
  | JStr s => Hstr s
  | JArr vs => Harr vs ((fix go vs := match vs return Forall P vs with
      | [] => Forall_nil_2 _
      | v :: vs => Forall_cons_2 _ v vs (json_ind' v) (go vs)
      end) vs)
  | JObj ms => Hobj ms ((fix go ms := match ms return Forall (λ m, P m.2) ms with
      | [] => Forall_nil_2 _
      | (k, v) :: ms => Forall_cons_2 _ (k, v) ms (json_ind' v) (go ms)
      end) ms)
  end.
End Induction.

(** ** Printing *)

Definition backslash : ascii := char_of 92.

(** [\u%04x]. *)
Definition u_escape (r : Z) : string := String backslash (String "u" (hex4 r)).

(** [appendString] with [escapeHTML]: one rune of the string. *)
Definition json_rune (p : Z * list byte) : string :=
  let r := p.1 in
  if bad_rune p then u_escape 65533
  else if ((r =? 34) || (r =? 92))%Z then String backslash (String (char_of r) "")
  else if (r =? 8)%Z then String backslash "b"
  else if (r =? 12)%Z then String backslash "f"
  else if (r =? 10)%Z then String backslash "n"
  else if (r =? 13)%Z then String backslash "r"
  else if (r =? 9)%Z then String backslash "t"
  else if ((r <? 32) || (r =? 60) || (r =? 62) || (r =? 38))%Z then u_escape r
  else if ((r =? 8232) || (r =? 8233))%Z then u_escape r
  else str p.2.

Definition json_chars (ps : list (Z * list byte)) : string :=
  foldr (λ p s, json_rune p +:+ s) "" ps.

Definition json_string (s : string) : string :=
  String dquote (json_chars (runes (bytes s)) +:+ String dquote "").

(** A line break and the indentation; nothing in the compact form ([None]). *)
Fixpoint spaces (n : nat) : string :=
  match n with O => "" | S n => String " " (String " " (spaces n)) end.
Definition break (depth : option nat) : string :=
  match depth with None => "" | Some d => String (char_of 10) (spaces d) end.
Definition deeper (depth : option nat) : option nat := S <$> depth.
Definition colon (depth : option nat) : string :=
  match depth with None => ":" | Some _ => ": " end.

(** [[elem, elem, ..]] between brackets. *)
Definition wrap (l r : ascii) (depth : option nat) (elems : list string) : string :=
  match elems with
  | [] => String l (String r "")
  | _ => String l (break (deeper depth) +:+
           (join elems (String "," (break (deeper depth))) +:+ (break depth +:+ String r "")))
  end.

Fixpoint print (depth : option nat) (v : json) : string :=
  match v with
  | JNull => "null"
  | JBool true => "true"
  | JBool false => "false"
  | JInt n => itoa n
  | JStr s => json_string s
  | JArr vs => wrap "[" "]" depth (List.map (print (deeper depth)) vs)
  | JObj ms => wrap "{" "}" depth
      (List.map (λ m, json_string m.1 +:+ (colon depth +:+ print (deeper depth) m.2)) ms)
  end.

Definition marshal (v : json) : string := print None v.
Definition marshalIndent (v : json) : string := print (Some O) v.

(** ** Reading: RFC 8259 *)

Definition is_ws (a : ascii) : bool := bool_decide (char_code a ∈ [32; 10; 13; 9]%Z).

Fixpoint skip_ws (s : string) : string :=
  match s with
  | String a s' => if is_ws a then skip_ws s' else s
  | EmptyString => s
  end.

Definition hexdig (a : ascii) : option Z :=
  let c := char_code a in
  if ((48 <=? c) && (c <=? 57))%Z then Some (c - 48)%Z
  else if ((97 <=? c) && (c <=? 102))%Z then Some (c - 87)%Z
  else if ((65 <=? c) && (c <=? 70))%Z then Some (c - 55)%Z
  else None.

(** Four hexadecimal digits; a surrogate, which the printer never writes, is not
    read. *)
Definition hex4_value (a b c d : ascii) : option Z :=
  a ← hexdig a; b ← hexdig b; c ← hexdig c; d ← hexdig d;
  let r := (4096 * a + 256 * b + 16 * c + d)%Z in
  if decide (55296 ≤ r ≤ 57343)%Z then None else Some r.

(** The character after a backslash. *)
Definition read_escape (a : ascii) : option ascii :=
  if decide (a = dquote ∨ a = backslash ∨ a = "/"%char) then Some a
  else if decide (a = "b"%char) then Some (char_of 8)
  else if decide (a = "f"%char) then Some (char_of 12)
  else if decide (a = "n"%char) then Some (char_of 10)
  else if decide (a = "r"%char) then Some (char_of 13)
  else if decide (a = "t"%char) then Some (char_of 9)
  else None.

(** The characters of a string, up to its closing quote. *)
Fixpoint read_chars (s : string) : option (string * string) :=
  match s with
  | EmptyString => None
  | String a s' =>
      if decide (a = dquote) then Some ("", s')
      else if decide (a = backslash) then
        match s' with
        | EmptyString => None
        | String b s1 =>
            if decide (b = "u"%char) then
              match s1 with
              | String h1 (String h2 (String h3 (String h4 s2))) =>
                  r ← hex4_value h1 h2 h3 h4;
                  '(t, rest) ← read_chars s2; Some (str (encode_rune r) +:+ t, rest)
              | _ => None
              end
            else c ← read_escape b; '(t, rest) ← read_chars s1; Some (String c t, rest)
        end
      else if decide (char_code a < 32)%Z then None
      else '(t, rest) ← read_chars s'; Some (String a t, rest)
  end.

Definition is_digit (a : ascii) : bool := ((48 <=? char_code a) && (char_code a <=? 57))%Z.

Fixpoint take_digits (s : string) : string * string :=
  match s with
  | String a s' => if is_digit a then let '(d, r) := take_digits s' in (String a d, r) else ("", s)
  | EmptyString => ("", "")
  end.

(** An integer; a fraction or an exponent is not read. *)
Definition read_int (s : string) : option (Z * string) :=
  match s with
  | String a s' =>
      if decide (a = "-"%char) then
        let '(d, r) := take_digits s' in n ← parse_digits d; Some ((- n)%Z, r)
      else let '(d, r) := take_digits s in n ← parse_digits d; Some (n, r)
  | EmptyString => None
  end.

(** [s] after a literal. *)
Fixpoint strip (p s : string) : option string :=
  match p, s with
  | EmptyString, _ => Some s
  | String a p, String b s => if decide (a = b) then strip p s else None
  | _, EmptyString => None
  end.

Definition read_literal (s : string) : option (json * string) :=
  match strip "null" s, strip "true" s, strip "false" s with
  | Some s, _, _ => Some (JNull, s)
  | _, Some s, _ => Some (JBool true, s)
  | _, _, Some s => Some (JBool false, s)
  | _, _, _ => None
  end.

(** [s] after white space and the character [a]. *)
Definition expect (a : ascii) (s : string) : option string :=
  match skip_ws s with
  | String b s' => if decide (b = a) then Some s' else None
  | EmptyString => None
  end.

Definition read_string (s : string) : option (string * string) :=
  s ← expect dquote s; read_chars s.

Fixpoint read_value (fuel : nat) (s : string) : option (json * string) :=
  match fuel with
  | O => None
  | S fuel =>
      match skip_ws s with
      | String a s' =>
          if decide (a = dquote) then '(t, s) ← read_chars s'; Some (JStr t, s)
          else if decide (a = "["%char) then
            match expect "]" s' with
            | Some s => Some (JArr [], s)
            | None => '(vs, s) ← read_elems fuel s'; Some (JArr vs, s)
            end
          else if decide (a = "{"%char) then
            match expect "}" s' with
            | Some s => Some (JObj [], s)
            | None => '(ms, s) ← read_members fuel s'; Some (JObj ms, s)
            end
          else if is_digit a || bool_decide (a = "-"%char) then
            '(n, s) ← read_int (String a s'); Some (JInt n, s)
          else read_literal (String a s')
      | EmptyString => None
      end
  end
with read_elems (fuel : nat) (s : string) : option (list json * string) :=
  match fuel with
  | O => None
  | S fuel =>
      '(v, s) ← read_value fuel s;
      match expect "," s with
      | Some s => '(vs, s) ← read_elems fuel s; Some (v :: vs, s)
      | None => s ← expect "]" s; Some ([v], s)
      end
  end
with read_members (fuel : nat) (s : string) : option (list (string * json) * string) :=
  match fuel with
  | O => None
  | S fuel =>
      '(k, s) ← read_string s;
      s ← expect ":" s;
      '(v, s) ← read_value fuel s;
      match expect "," s with
      | Some s => '(ms, s) ← read_members fuel s; Some ((k, v) :: ms, s)
      | None => s ← expect "}" s; Some ([(k, v)], s)
      end
  end.

(** A JSON text: one value, and white space. *)
Definition parse_json (s : string) : option json :=
  '(v, s) ← read_value (S (String.length s)) s;
  if decide (skip_ws s = "") then Some v else None.

Example parse_ex : parse_json (marshalIndent (JObj [("a", JArr [JInt (-12); JNull]); ("b", JStr "x<")]))
  = Some (JObj [("a", JArr [JInt (-12); JNull]); ("b", JStr "x<")]).
Proof. vm_compute. reflexivity. Qed.

(** ** Reading back a string *)

Lemma hexdig_char d : (0 ≤ d < 16)%Z → hexdig (digit_char d) = Some d.
Proof.
  intros Hd. unfold hexdig, digit_char. destruct (Z.ltb_spec d 10).
  - rewrite char_code_of by lia. decide_bounds; cbn [andb]; f_equal; lia.
  - rewrite char_code_of by lia. decide_bounds; cbn [andb]; f_equal; lia.
Qed.

Lemma hex4_value_digits r :
  (0 ≤ r < 65536)%Z → ¬ (55296 ≤ r ≤ 57343)%Z →
  hex4_value (digit_char (r / 4096 mod 16)) (digit_char (r / 256 mod 16))
    (digit_char (r / 16 mod 16)) (digit_char (r mod 16)) = Some r.
Proof.
  intros Hr Hs. unfold hex4_value.
  rewrite !hexdig_char by (apply Z.mod_pos_bound; lia). cbn [mbind option_bind].
  assert (4096 * (r / 4096 mod 16) + 256 * (r / 256 mod 16) + 16 * (r / 16 mod 16) + r mod 16
    = r)%Z as -> by (Z.div_mod_to_equations; lia).
  by rewrite decide_False.
Qed.

Lemma read_u_escape r s :
  (0 ≤ r < 65536)%Z → ¬ (55296 ≤ r ≤ 57343)%Z →
  read_chars (u_escape r +:+ s)
  = ('(t, rest) ← read_chars s; Some (str (encode_rune r) +:+ t, rest)).
Proof.
  intros Hr Hs. unfold u_escape, hex4. rewrite !sapp_cons_l, sapp_nil_l.
  cbn [read_chars]. rewrite decide_False, decide_True, decide_True by done.
  by rewrite hex4_value_digits.
Qed.

Lemma read_short_escape b c s :
  b ≠ "u"%char → read_escape b = Some c →
  read_chars (String backslash (String b "") +:+ s)
  = ('(t, rest) ← read_chars s; Some (String c t, rest)).
Proof.
  intros Hb Hc. rewrite !sapp_cons_l, sapp_nil_l. cbn [read_chars].
  rewrite decide_False, decide_True, decide_False by done. by rewrite Hc.
Qed.

(** Characters that stand for themselves. *)
Definition plain (a : ascii) : Prop :=
  (32 ≤ char_code a)%Z ∧ char_code a ≠ 34%Z ∧ char_code a ≠ 92%Z.

Lemma read_plain l s :
  Forall (λ b, plain (Strings.Ascii.ascii_of_byte b)) l →
  read_chars (str l +:+ s) = ('(t, rest) ← read_chars s; Some (str l +:+ t, rest)).
Proof.
  induction 1 as [|b l (Hb & Hq & Hs) Hl IH].
  { change (str []) with "". rewrite sapp_nil_l. by destruct (read_chars s) as [[]|]. }
  change (str (b :: l)) with (String (Strings.Ascii.ascii_of_byte b) (str l)).
  rewrite sapp_cons_l. cbn [read_chars].
  rewrite decide_False, decide_False, decide_False;
    [|lia|intros E; by rewrite E in Hs|intros E; by rewrite E in Hq].
  rewrite IH. by destruct (read_chars s) as [[]|].
Qed.

Lemma char_code_byte b : char_code (Strings.Ascii.ascii_of_byte b) = Z_of_byte b.
Proof. unfold char_code. by rewrite Strings.Ascii.byte_of_ascii_of_byte. Qed.

Lemma str_encode_1 r : (0 ≤ r < 128)%Z → str (encode_rune r) = String (char_of r) "".
Proof. intros Hr. by rewrite encode_rune_1. Qed.

(** One rune of the source, whatever it is. *)
Lemma read_json_rune p s :
  rune_ok p →
  read_chars (json_rune p +:+ s)
  = ('(t, rest) ← read_chars s; Some (str (encode_rune p.1) +:+ t, rest)).
Proof.
  destruct p as [r l]. intros Hok. unfold json_rune. cbn [fst snd].
  destruct (bad_rune (r, l)) eqn:Hbad.
  { destruct Hok as [[_ Hr]|[? _]]; [|congruence]. cbn [fst] in Hr. subst r.
    apply read_u_escape; unfold rune_error; lia. }
  destruct Hok as [[? _]|(_ & Hl & Hr)]; [congruence|]. cbn [fst snd] in Hl, Hr.
  assert (r < 128 → 0 ≤ r)%Z as Hpos by lia.
  destruct ((r =? 34) || (r =? 92))%Z eqn:E1.
  { apply orb_true_iff in E1 as [E%Z.eqb_eq|E%Z.eqb_eq]; subst r; by apply read_short_escape. }
  apply orb_false_iff in E1 as [H34%Z.eqb_neq H92%Z.eqb_neq].
  destruct (Z.eqb_spec r 8) as [->|_]; [by apply read_short_escape|].
  destruct (Z.eqb_spec r 12) as [->|_]; [by apply read_short_escape|].
  destruct (Z.eqb_spec r 10) as [->|_]; [by apply read_short_escape|].
  destruct (Z.eqb_spec r 13) as [->|_]; [by apply read_short_escape|].
  destruct (Z.eqb_spec r 9) as [->|_]; [by apply read_short_escape|].
  destruct ((r <? 32) || (r =? 60) || (r =? 62) || (r =? 38))%Z eqn:E2.
  { apply read_u_escape; rewrite !orb_true_iff, Z.ltb_lt, !Z.eqb_eq in E2; lia. }
  destruct ((r =? 8232) || (r =? 8233))%Z eqn:E3.
  { apply read_u_escape; rewrite orb_true_iff, !Z.eqb_eq in E3; lia. }
  rewrite <- Hl. apply read_plain.
  apply orb_false_iff in E2 as [[[H32%Z.ltb_ge _]%orb_false_iff _]%orb_false_iff _].
  destruct Hr as [Hr|[_ Hr]].
  - rewrite Hl, encode_rune_1 by done. apply Forall_singleton. unfold plain.
    rewrite char_code_byte, Z_of_byte_of_Z, Z.mod_small by lia. lia.
  - eapply Forall_impl; [exact Hr|]. intros b Hb. unfold plain. rewrite char_code_byte. cbn beta in Hb. lia.
Qed.

Lemma read_json_chars ps rest :
  Forall rune_ok ps →
  read_chars (json_chars ps +:+ String dquote rest)
  = Some (str (concat ((λ p, encode_rune p.1) <$> ps)), rest).
Proof.
  induction 1 as [|p ps Hp Hps IH].
  { cbn [json_chars foldr]. rewrite sapp_nil_l. cbn [read_chars]. by rewrite decide_True. }
  cbn [json_chars foldr]. fold (json_chars ps). rewrite sapp_assoc, read_json_rune, IH by done.
  cbn [mbind option_bind]. do 2 f_equal. rewrite fmap_cons. cbn [concat].
  apply bytes_inj. by rewrite bytes_app, !bytes_str.
Qed.

Lemma skip_ws_cons a s : is_ws a = false → skip_ws (String a s) = String a s.
Proof. intros Ha. cbn [skip_ws]. by rewrite Ha. Qed.

Lemma read_json_string s rest : read_string (json_string s +:+ rest) = Some (sanitize s, rest).
Proof.
  unfold read_string, json_string, expect. rewrite !sapp_cons_l, skip_ws_cons by done.
  rewrite decide_True by done. cbn [mbind option_bind].
  rewrite sapp_assoc, sapp_cons_l, sapp_nil_l.
  by rewrite read_json_chars by apply runes_ok.
Qed.

(** ** Reading back a value *)

Lemma skip_spaces n s : skip_ws (spaces n +:+ s) = skip_ws s.
Proof. induction n as [|n IH]; [done|]. cbn [spaces]. rewrite !sapp_cons_l. exact IH. Qed.

Lemma skip_break d s : skip_ws (break d +:+ s) = skip_ws s.
Proof.
  destruct d as [n|]; [|by rewrite sapp_nil_l]. cbn [break]. rewrite sapp_cons_l.
  apply (skip_spaces n).
Qed.

Lemma read_value_break fuel d s : read_value fuel (break d +:+ s) = read_value fuel s.
Proof. destruct fuel; [done|]. cbn [read_value]. by rewrite skip_break. Qed.

Lemma expect_break a d s : expect a (break d +:+ s) = expect a s.
Proof. unfold expect. by rewrite skip_break. Qed.

Lemma expect_here a s : is_ws a = false → expect a (String a s) = Some s.
Proof. intros Ha. unfold expect. rewrite skip_ws_cons by done. by rewrite decide_True. Qed.

Lemma expect_other a b s : is_ws b = false → b ≠ a → expect a (String b s) = None.
Proof. intros Hb Hne. unfold expect. rewrite skip_ws_cons by done. by rewrite decide_False. Qed.

(** The first character of a printed value. *)
Definition opens (a : ascii) : Prop :=
  is_ws a = false ∧ a ≠ "]"%char ∧ a ≠ "}"%char ∧ a ≠ ","%char.

Lemma digit_head d : (0 ≤ d < 10)%Z → is_digit (digit_char d) = true ∧ opens (digit_char d).
Proof.
  intros Hd. pose proof (char_code_digit d Hd) as Hc.
  assert (is_digit (digit_char d) = true) as Hdig.
  { unfold is_digit. rewrite Hc. by decide_bounds. }
  split; [done|]. split_and!; try (intros E; by rewrite E in Hdig).
  unfold is_ws. apply bool_decide_eq_false. rewrite Hc. intros Hin.
  rewrite !elem_of_cons, elem_of_nil in Hin. lia.
Qed.

Lemma itoa_head n :
  ∃ a t, itoa n = String a t ∧ opens a ∧ (is_digit a || bool_decide (a = "-"%char)) = true ∧
    (a = "-"%char ↔ (n < 0)%Z).
Proof.
  unfold itoa. destruct (Z.ltb_spec n 0).
  - eexists _, _. split; [done|]. split; [by split_and!|]. split; [done|]. done.
  - destruct (print_digits_cons (digits_fuel n) n "") as (d & t & Hd & E); [unfold digits_fuel; lia..|].
    destruct (digit_head d Hd) as [Hdig Hop].
    eexists _, t. split; [exact E|]. split; [done|]. rewrite Hdig. split; [done|].
    split; [|lia]. intros E'. by rewrite E' in Hdig.
Qed.

Definition stops (s : string) : Prop :=
  match s with String a _ => is_digit a = false | EmptyString => True end.

Lemma take_digits_app d s :
  sforall is_digit d → stops s → take_digits (d +:+ s) = (d, s).
Proof.
  intros Hd Hs. induction d as [|a d IH].
  - rewrite sapp_nil_l. destruct s as [|a s]; [done|]. cbn in Hs |- *. by rewrite Hs.
  - rewrite sapp_cons_l. cbn in Hd |- *. apply andb_True in Hd as [Ha Hd].
    rewrite IH by done. by destruct (is_digit a).
Qed.

Lemma digits_from_is_digit s acc n : digits_from acc s = Some n → sforall is_digit s.
Proof.
  revert acc. induction s as [|a s IH]; intros acc; [done|]. cbn.
  intros (d & Hd & H)%bind_Some. apply andb_True. split; [|eauto].
  unfold digit_val in Hd. unfold is_digit. by destruct (_ && _).
Qed.

Lemma parse_digits_is_digit s n : parse_digits s = Some n → sforall is_digit s.
Proof. destruct s as [|a s]; [done|]. apply digits_from_is_digit. Qed.

Lemma read_itoa n rest : stops rest → read_int (itoa n +:+ rest) = Some (n, rest).
Proof.
  intros Hr. destruct (itoa_head n) as (a & t & E & _ & _ & Hneg).
  unfold read_int. rewrite E, sapp_cons_l. case_decide as Ha.
  - apply Hneg in Ha. unfold itoa in E. rewrite (proj2 (Z.ltb_lt n 0)) in E by done.
    apply (f_equal (λ s, match s with String _ t => t | _ => s end)) in E. cbn beta iota in E.
    subst t. pose proof (parse_digits_print (- n) ltac:(lia)) as Hp.
    rewrite take_digits_app; [|by eapply parse_digits_is_digit|done].
    rewrite Hp. cbn. by rewrite Z.opp_involutive.
  - rewrite <- sapp_cons_l, <- E. pose proof (parse_digits_itoa n) as Hp.
    destruct (decide (n < 0)%Z) as [Hn|Hn]; [by destruct Ha; apply Hneg|].
    rewrite take_digits_app; [|by eapply parse_digits_is_digit, Hp; lia|done].
    by rewrite Hp by lia.
Qed.

Lemma wrap_head l r d elems : ∃ t, wrap l r d elems = String l t.
Proof. destruct elems; by eexists. Qed.

Lemma print_head d v : ∃ a t, print d v = String a t ∧ opens a.
Proof.
  assert (∀ a t, opens a → ∃ b u, String a t = String b u ∧ opens b) as Hex by eauto.
  destruct v as [|[]|n|s|vs|ms]; cbn [print];
    try (apply Hex; by split_and!).
  - destruct (itoa_head n) as (a & t & E & Ho & _). eauto.
  - destruct (wrap_head "[" "]" d (List.map (print (deeper d)) vs)) as [t ->].
    apply Hex. by split_and!.
  - destruct (wrap_head "{" "}" d (List.map (λ m, json_string m.1 +:+
      (colon d +:+ print (deeper d) m.2)) ms)) as [t ->].
    apply Hex. by split_and!.
Qed.

(** What a reader gets: the value, its strings made UTF-8. *)
Fixpoint utf8_json (v : json) : json :=
  match v with
  | JStr s => JStr (sanitize s)
  | JArr vs => JArr (List.map utf8_json vs)
  | JObj ms => JObj (List.map (λ m, (sanitize m.1, utf8_json m.2)) ms)
  | _ => v
  end.

Lemma stops_break d a s : is_digit a = false → stops (break d +:+ String a s).
Proof. intros Ha. by destruct d. Qed.

(** Reading back [v], at any depth, with anything but a digit after it. *)
Definition reads_back (v : json) : Prop :=
  ∀ d fuel rest, (String.length (print d v) < fuel)%nat → stops rest →
    read_value fuel (print d v +:+ rest) = Some (utf8_json v, rest).

Lemma print_length d v : (0 < String.length (print d v))%nat.
Proof. destruct (print_head d v) as (a & t & -> & _). simpl. lia. Qed.

Lemma read_elems_break fuel d s : read_elems fuel (break d +:+ s) = read_elems fuel s.
Proof. destruct fuel; [done|]. cbn [read_elems]. by rewrite read_value_break. Qed.

Lemma read_elems_print vs d d' fuel rest :
  vs ≠ [] → Forall reads_back vs →
  let elems := join (List.map (print d) vs) (String "," (break d)) in
  (String.length elems + 1 < fuel)%nat →
  read_elems fuel (elems +:+ (break d' +:+ String "]" rest)) = Some (List.map utf8_json vs, rest).
Proof.
  intros Hne Hvs. revert fuel. induction Hvs as [|v vs Hv Hvs IH]; intros fuel elems Hf; [done|].
  destruct fuel as [|fuel]; [lia|]. subst elems. destruct vs as [|v2 vs].
  - change (join (List.map (print d) [v]) (String "," (break d))) with (print d v) in *.
    cbn [read_elems]. rewrite Hv; [|lia|by apply stops_break]. cbn [mbind option_bind].
    by rewrite !expect_break, expect_other, expect_here by done.
  - cbn [List.map] in *. rewrite join_cons in * by done. rewrite !sapp_length in Hf.
    pose proof (print_length d v). cbn [String.length] in Hf.
    rewrite !sapp_assoc, sapp_cons_l. cbn [read_elems].
    rewrite Hv; [|lia|done]. cbn [mbind option_bind]. rewrite expect_here by done.
    rewrite read_elems_break.
    rewrite IH by (done || lia). done.
Qed.

Lemma read_value_space fuel s : read_value fuel (String " " s) = read_value fuel s.
Proof. by destruct fuel. Qed.

Lemma read_members_break fuel d s : read_members fuel (break d +:+ s) = read_members fuel s.
Proof.
  destruct fuel; [done|]. cbn [read_members]. unfold read_string. by rewrite expect_break.
Qed.

Definition print_member (d : option nat) (m : string * json) : string :=
  json_string m.1 +:+ (colon d +:+ print d m.2).

Lemma read_member d m fuel rest :
  reads_back m.2 → (String.length (print_member d m) ≤ fuel)%nat → stops rest →
  ('(k, s) ← read_string (print_member d m +:+ rest);
   s ← expect ":" s; '(v, s) ← read_value fuel s; Some (k, v, s))
  = Some (sanitize m.1, utf8_json m.2, rest).
Proof.
  intros Hv Hf Hr. unfold print_member in *. rewrite !sapp_length in Hf.
  rewrite !sapp_assoc, read_json_string. cbn [mbind option_bind].
  assert (0 < String.length (json_string m.1))%nat by (simpl; lia).
  assert (∃ gap, colon d = String ":" gap ∧
    ∀ s, read_value fuel (gap +:+ s) = read_value fuel s) as (gap & Hc & Hgap).
  { destruct d; eexists; (split; [reflexivity|]); intros s; [|by rewrite sapp_nil_l].
    rewrite sapp_cons_l, sapp_nil_l. apply read_value_space. }
  rewrite Hc, sapp_cons_l, expect_here by done. cbn [mbind option_bind].
  rewrite Hgap, Hv; [done|lia|done].
Qed.

Lemma read_members_step fuel d m rest :
  reads_back m.2 → (String.length (print_member d m) ≤ fuel)%nat → stops rest →
  read_members (S fuel) (print_member d m +:+ rest)
  = match expect "," rest with
    | Some s => '(ms, s) ← read_members fuel s; Some ((sanitize m.1, utf8_json m.2) :: ms, s)
    | None => s ← expect "}" rest; Some ([(sanitize m.1, utf8_json m.2)], s)
    end.
Proof.
  intros Hv Hf Hr. pose proof (read_member d m fuel rest Hv Hf Hr) as E. cbn [read_members].
  destruct (read_string _) as [[k s1]|]; [|done]. cbn [mbind option_bind] in *.
  destruct (expect ":" s1) as [s2|]; [|done]. cbn [mbind option_bind] in *.
  destruct (read_value fuel s2) as [[v s3]|]; [|done]. cbn [mbind option_bind] in *.
  by simplify_eq.
Qed.

Lemma read_members_print ms d d' fuel rest :
  ms ≠ [] → Forall (λ m, reads_back m.2) ms →
  let elems := join (List.map (print_member d) ms) (String "," (break d)) in
  (String.length elems + 1 < fuel)%nat →
  read_members fuel (elems +:+ (break d' +:+ String "}" rest))
  = Some (List.map (λ m, (sanitize m.1, utf8_json m.2)) ms, rest).
Proof.
  intros Hne Hms. revert fuel. induction Hms as [|m ms Hm Hms IH]; intros fuel elems Hf; [done|].
  destruct fuel as [|fuel]; [lia|]. subst elems. destruct ms as [|m2 ms].
  - change (join (List.map (print_member d) [m]) (String "," (break d))) with (print_member d m) in *.
    rewrite read_members_step; [|done|lia|by apply stops_break].
    by rewrite !expect_break, expect_other, expect_here by done.
  - cbn [List.map] in *. rewrite join_cons in * by done. rewrite !sapp_length in Hf.
    assert (0 < String.length (print_member d m))%nat by (simpl; lia).
    cbn [String.length] in Hf. rewrite !sapp_assoc, sapp_cons_l.
    rewrite read_members_step; [|done|lia|done]. rewrite expect_here by done.
    rewrite read_members_break.
    rewrite IH by (done || lia). done.
Qed.

Lemma join_head w ws sep a t :
  w = String a t → ∃ u, join (w :: ws) sep = String a u.
Proof. intros ->. destruct ws; [by exists t|]. by eexists. Qed.

Lemma read_print v : reads_back v.
Proof.
  induction v as [|b|n|s|vs IH|ms IH] using json_ind'; intros d fuel rest Hf Hr;
    (destruct fuel as [|fuel]; [lia|]).
  - done.
  - by destruct b.
  - destruct (itoa_head n) as (a & t & E & Ho & Hd & _).
    cbn [print]. pose proof (read_itoa n rest Hr) as Hi. cbn [read_value].
    rewrite E, sapp_cons_l in *. destruct Ho as (Hws & _).
    rewrite skip_ws_cons by done.
    assert (a ≠ dquote ∧ a ≠ "["%char ∧ a ≠ "{"%char) as (? & ? & ?).
    { split_and!; intros ->; done. }
    rewrite !decide_False by done. by rewrite Hd, Hi.
  - cbn [print]. pose proof (read_json_string s rest) as Hs. unfold read_string in Hs.
    unfold json_string in *. rewrite !sapp_cons_l in *. rewrite expect_here in Hs by done.
    cbn [mbind option_bind] in Hs. cbn [read_value].
    rewrite skip_ws_cons, decide_True by done. by rewrite Hs.
  - cbn [print] in *. destruct vs as [|v vs]; [done|].
    destruct (print_head (deeper d) v) as (a & t & Ha & (Hws & Hb & _)).
    destruct (join_head _ (List.map (print (deeper d)) vs) (String "," (break (deeper d))) a t Ha)
      as [u Hu].
    unfold wrap in *. cbn [List.map] in *. cbn [String.length] in Hf. rewrite !sapp_length in Hf.
    rewrite sapp_cons_l, !sapp_assoc, sapp_cons_l, sapp_nil_l. cbn [read_value].
    rewrite skip_ws_cons, decide_False, decide_True, expect_break by done.
    rewrite Hu at 1. rewrite sapp_cons_l, expect_other by done. rewrite read_elems_break.
    cbn [String.length] in Hf.
    pose proof (read_elems_print (v :: vs) (deeper d) d fuel rest ltac:(done) IH) as E.
    cbn [List.map] in E. rewrite E; [done|]. lia.
  - cbn [print] in *. change (λ m, json_string m.1 +:+ (colon d +:+ print (deeper d) m.2))
      with (λ m, json_string m.1 +:+ (colon d +:+ print (deeper d) m.2)) in *.
    assert (List.map (λ m, json_string m.1 +:+ (colon d +:+ print (deeper d) m.2)) ms
      = List.map (print_member (deeper d)) ms) as Hmap by (by destruct d).
    rewrite Hmap in *. clear Hmap. destruct ms as [|m ms]; [done|].
    destruct (join_head (print_member (deeper d) m) (List.map (print_member (deeper d)) ms)
      (String "," (break (deeper d))) dquote _ eq_refl) as [u Hu].
    unfold wrap in *. cbn [List.map] in *. cbn [String.length] in Hf. rewrite !sapp_length in Hf.
    rewrite sapp_cons_l, !sapp_assoc, sapp_cons_l, sapp_nil_l. cbn [read_value].
    rewrite skip_ws_cons, decide_False, decide_False, decide_True, expect_break by done.
    rewrite Hu at 1. rewrite sapp_cons_l, expect_other by done. rewrite read_members_break.
    cbn [String.length] in Hf.
    pose proof (read_members_print (m :: ms) (deeper d) d fuel rest ltac:(done) IH) as E.
    cbn [List.map] in E. rewrite E; [done|]. lia.
Qed.

Lemma parse_print d v : parse_json (print d v +:+ String (char_of 10) "") = Some (utf8_json v).
Proof.
  unfold parse_json. rewrite (read_print v); [done| |done].
  rewrite sapp_length. simpl. lia.
Qed.

Lemma parse_marshal v : parse_json (marshal v) = Some (utf8_json v).
Proof.
  unfold parse_json, marshal. pose proof (read_print v None (S (String.length (print None v))) "") as E.
  rewrite sapp_nil_r in E. rewrite E; [done|lia|done].
Qed.
