(* ===== verification/Base64.v ===== *)
(** * Go's [encoding/base64], as far as the fixtures use it

    [StdEncoding] (padded, alphabet with + and /) both ways, and
    [RawURLEncoding] (unpadded, alphabet with - and _) both ways.  The decoders
    skip carriage returns and newlines and ignore the value of trailing bits, as
    Go's do outside [Strict] mode.  [None] is a non-nil error; no caller uses the
    bytes decoded before it. *)

From S2P Require Import Prelude GoStrings.

(** ** The alphabets *)

Definition enc6 (c62 c63 : ascii) (d : Z) : ascii :=
  if (d <? 26)%Z then char_of (65 + d)
  else if (d <? 52)%Z then char_of (71 + d)
  else if (d <? 62)%Z then char_of (d - 4)
  else if (d =? 62)%Z then c62 else c63.

Definition dec6 (c62 c63 : ascii) (a : ascii) : option Z :=
  let c := char_code a in
  if ((65 <=? c) && (c <=? 90))%Z then Some (c - 65)%Z
  else if ((97 <=? c) && (c <=? 122))%Z then Some (c - 71)%Z
  else if ((48 <=? c) && (c <=? 57))%Z then Some (c + 4)%Z
  else if decide (a = c62) then Some 62%Z
  else if decide (a = c63) then Some 63%Z
  else None.

Definition is_newline (a : ascii) : bool := ((char_code a =? 10) || (char_code a =? 13))%Z.

Fixpoint drop_newlines (s : string) : string :=
  match s with
  | EmptyString => EmptyString
  | String a s' => if is_newline a then drop_newlines s' else String a (drop_newlines s')
  end.

(** ** Groups of three bytes and four characters *)

Definition group_chars (c62 c63 : ascii) (b0 b1 b2 : byte) : ascii * ascii * ascii * ascii :=
  let z0 := Z_of_byte b0 in let z1 := Z_of_byte b1 in let z2 := Z_of_byte b2 in
  (enc6 c62 c63 (z0 / 4), enc6 c62 c63 (z0 mod 4 * 16 + z1 / 16),
   enc6 c62 c63 (z1 mod 16 * 4 + z2 / 64), enc6 c62 c63 (z2 mod 64))%Z.

Definition byte0 (d0 d1 : Z) : byte := byte_of_Z (d0 * 4 + d1 / 16).
Definition byte1 (d1 d2 : Z) : byte := byte_of_Z (d1 mod 16 * 16 + d2 / 4).
Definition byte2 (d2 d3 : Z) : byte := byte_of_Z (d2 mod 4 * 64 + d3).

Section Alphabet.
Context (c62 c63 : ascii).
Abbreviation enc := (enc6 c62 c63).
Abbreviation dec := (dec6 c62 c63).

(** Padded encoding. *)
Fixpoint encode_padded (l : list byte) : string :=
  match l with
  | [] => EmptyString
  | [b0] =>
      let '(a0, a1, _, _) := group_chars c62 c63 b0 x00 x00 in
      String a0 (String a1 "==")
  | [b0; b1] =>
      let '(a0, a1, a2, _) := group_chars c62 c63 b0 b1 x00 in
      String a0 (String a1 (String a2 "="))
  | b0 :: b1 :: b2 :: l =>
      let '(a0, a1, a2, a3) := group_chars c62 c63 b0 b1 b2 in
      String a0 (String a1 (String a2 (String a3 (encode_padded l))))
  end.

(** Unpadded encoding. *)
Fixpoint encode_raw (l : list byte) : string :=
  match l with
  | [] => EmptyString
  | [b0] =>
      let '(a0, a1, _, _) := group_chars c62 c63 b0 x00 x00 in
      String a0 (String a1 "")
  | [b0; b1] =>
      let '(a0, a1, a2, _) := group_chars c62 c63 b0 b1 x00 in
      String a0 (String a1 (String a2 ""))
  | b0 :: b1 :: b2 :: l =>
      let '(a0, a1, a2, a3) := group_chars c62 c63 b0 b1 b2 in
      String a0 (String a1 (String a2 (String a3 (encode_raw l))))
  end.

Fixpoint decode_padded (s : string) : option (list byte) :=
  match s with
  | EmptyString => Some []
  | String a0 (String a1 (String a2 (String a3 s'))) =>
      d0 ← dec a0; d1 ← dec a1;
      if decide (a2 = "="%char) then
        if decide (a3 = "="%char ∧ s' = "") then Some [byte0 d0 d1] else None
      else
        d2 ← dec a2;
        if decide (a3 = "="%char) then
          if decide (s' = "") then Some [byte0 d0 d1; byte1 d1 d2] else None
        else
          d3 ← dec a3;
          rest ← decode_padded s';
          Some (byte0 d0 d1 :: byte1 d1 d2 :: byte2 d2 d3 :: rest)
  | _ => None
  end.

Fixpoint decode_raw (s : string) : option (list byte) :=
  match s with
  | EmptyString => Some []
  | String a0 EmptyString => None
  | String a0 (String a1 EmptyString) =>
      d0 ← dec a0; d1 ← dec a1; Some [byte0 d0 d1]
  | String a0 (String a1 (String a2 EmptyString)) =>
      d0 ← dec a0; d1 ← dec a1; d2 ← dec a2; Some [byte0 d0 d1; byte1 d1 d2]
  | String a0 (String a1 (String a2 (String a3 s'))) =>
      d0 ← dec a0; d1 ← dec a1; d2 ← dec a2; d3 ← dec a3;
      rest ← decode_raw s';
      Some (byte0 d0 d1 :: byte1 d1 d2 :: byte2 d2 d3 :: rest)
  end.
End Alphabet.

(** [base64.StdEncoding] and [base64.RawURLEncoding]. *)
Definition stdEncode : list byte → string := encode_padded "+" "/".
Definition stdDecode (s : string) : option (list byte) := decode_padded "+" "/" (drop_newlines s).
Definition rawURLEncode : list byte → string := encode_raw "-" "_".
Definition rawURLDecode (s : string) : option (list byte) := decode_raw "-" "_" (drop_newlines s).

(** ** Round trips *)

Section RoundTrip.
Context (c62 c63 : ascii).
(** The two alphabets in use: the last two characters are neither letters,
    digits, padding nor newlines, and they differ. *)
Hypothesis alphabet_ok :
  forallb (λ d, bool_decide (dec6 c62 c63 (enc6 c62 c63 d) = Some d)
      && negb (bool_decide (enc6 c62 c63 d = "="%char))
      && negb (is_newline (enc6 c62 c63 d))) (seqZ 0 64) = true.

Lemma alphabet_char d :
  (0 ≤ d < 64)%Z →
  dec6 c62 c63 (enc6 c62 c63 d) = Some d ∧ enc6 c62 c63 d ≠ "="%char
  ∧ is_newline (enc6 c62 c63 d) = false.
Proof.
  intros Hd. rewrite forallb_forall in alphabet_ok.
  specialize (alphabet_ok d). rewrite <- list_elem_of_In, elem_of_seqZ in alphabet_ok.
  specialize (alphabet_ok ltac:(lia)).
  apply andb_prop in alphabet_ok as [[H1 H2]%andb_prop H3].
  apply bool_decide_eq_true in H1. apply negb_true_iff in H2, H3.
  by apply bool_decide_eq_false in H2.
Qed.

Lemma group_digits b0 b1 b2 :
  ∃ d0 d1 d2 d3,
    group_chars c62 c63 b0 b1 b2
      = (enc6 c62 c63 d0, enc6 c62 c63 d1, enc6 c62 c63 d2, enc6 c62 c63 d3) ∧
    (0 ≤ d0 < 64 ∧ 0 ≤ d1 < 64 ∧ 0 ≤ d2 < 64 ∧ 0 ≤ d3 < 64)%Z ∧
    byte0 d0 d1 = b0 ∧ byte1 d1 d2 = b1 ∧ byte2 d2 d3 = b2.
Proof.
  pose proof (Z_of_byte_range b0). pose proof (Z_of_byte_range b1).
  pose proof (Z_of_byte_range b2).
  eexists _, _, _, _. split; [reflexivity|].
  split; [Z.div_mod_to_equations; lia|].
  split_and!; apply (inj Z_of_byte); unfold byte0, byte1, byte2;
    rewrite Z_of_byte_of_Z; Z.div_mod_to_equations; lia.
Qed.

Ltac use_group b0 b1 b2 :=
  let d0 := fresh "d" in let d1 := fresh "d" in let d2 := fresh "d" in let d3 := fresh "d" in
  let E := fresh "E" in
  destruct (group_digits b0 b1 b2) as (d0 & d1 & d2 & d3 & E & (? & ? & ? & ?) & ? & ? & ?);
  rewrite E;
  destruct (alphabet_char d0 ltac:(done)) as (? & ? & ?),
    (alphabet_char d1 ltac:(done)) as (? & ? & ?),
    (alphabet_char d2 ltac:(done)) as (? & ? & ?),
    (alphabet_char d3 ltac:(done)) as (? & ? & ?).

Ltac use_digits :=
  repeat (progress cbn [mbind option_bind] ||
    match goal with
    | H : dec6 _ _ ?a = Some _ |- context [dec6 _ _ ?a] => rewrite H
    | H : ?a ≠ "="%char |- context [decide (?a = "="%char)] => rewrite (decide_False _ _ H)
    | H : is_newline ?a = false |- context [is_newline ?a] => rewrite H
    end).

Lemma decode_padded_encode l : decode_padded c62 c63 (encode_padded c62 c63 l) = Some l.
Proof.
  induction l as [|b0|b0 b1|b0 b1 b2 l IH] using list_ind3; [done|..];
    cbn [encode_padded].
  - use_group b0 x00 x00. cbn [decode_padded]. use_digits. by subst.
  - use_group b0 b1 x00. cbn [decode_padded]. use_digits. by subst.
  - use_group b0 b1 b2. cbn [decode_padded]. use_digits. rewrite IH. cbn. by subst.
Qed.

Lemma decode_raw_encode l : decode_raw c62 c63 (encode_raw c62 c63 l) = Some l.
Proof.
  induction l as [|b0|b0 b1|b0 b1 b2 l IH] using list_ind3; [done|..];
    cbn [encode_raw].
  - use_group b0 x00 x00. cbn [decode_raw]. use_digits. by subst.
  - use_group b0 b1 x00. cbn [decode_raw]. use_digits. by subst.
  - use_group b0 b1 b2. cbn [decode_raw]. use_digits. rewrite IH. cbn. by subst.
Qed.

Lemma drop_newlines_padded l :
  drop_newlines (encode_padded c62 c63 l) = encode_padded c62 c63 l.
Proof.
  induction l as [|b0|b0 b1|b0 b1 b2 l IH] using list_ind3; [done|..];
    cbn [encode_padded].
  - use_group b0 x00 x00. cbn [drop_newlines]. use_digits. done.
  - use_group b0 b1 x00. cbn [drop_newlines]. use_digits. done.
  - use_group b0 b1 b2. cbn [drop_newlines]. use_digits. by rewrite IH.
Qed.

Lemma drop_newlines_raw l : drop_newlines (encode_raw c62 c63 l) = encode_raw c62 c63 l.
Proof.
  induction l as [|b0|b0 b1|b0 b1 b2 l IH] using list_ind3; [done|..];
    cbn [encode_raw].
  - use_group b0 x00 x00. cbn [drop_newlines]. use_digits. done.
  - use_group b0 b1 x00. cbn [drop_newlines]. use_digits. done.
  - use_group b0 b1 b2. cbn [drop_newlines]. use_digits. by rewrite IH.
Qed.

(** Every character of an encoding is a character of the alphabet, or padding. *)
Lemma encode_padded_chars (p : ascii → bool) l :
  (∀ d, (0 ≤ d < 64)%Z → p (enc6 c62 c63 d)) → p "="%char → sforall p (encode_padded c62 c63 l).
Proof.
  intros Hp Heq. induction l as [|b0|b0 b1|b0 b1 b2 l IH] using list_ind3; [done|..];
    cbn [encode_padded].
  - use_group b0 x00 x00. cbn [sforall]. by rewrite !andb_True; auto.
  - use_group b0 b1 x00. cbn [sforall]. by rewrite !andb_True; auto.
  - use_group b0 b1 b2. cbn [sforall]. rewrite !andb_True. auto 10.
Qed.
End RoundTrip.

Lemma std_alphabet d :
  (0 ≤ d < 64)%Z →
  dec6 "+" "/" (enc6 "+" "/" d) = Some d ∧ enc6 "+" "/" d ≠ "="%char
  ∧ is_newline (enc6 "+" "/" d) = false.
Proof. apply alphabet_char. vm_compute. reflexivity. Qed.

Lemma stdDecode_encode l : stdDecode (stdEncode l) = Some l.
Proof.
  unfold stdDecode, stdEncode. rewrite drop_newlines_padded by by vm_compute.
  by apply decode_padded_encode; vm_compute.
Qed.

Lemma rawURLDecode_encode l : rawURLDecode (rawURLEncode l) = Some l.
Proof.
  unfold rawURLDecode, rawURLEncode. rewrite drop_newlines_raw by by vm_compute.
  by apply decode_raw_encode; vm_compute.
Qed.

(** An encoding is one line. *)
Lemma stdEncode_free c l : is_newline c → free_of c (stdEncode l).
Proof.
  intros Hc.
  assert (∀ s, sforall (λ a, negb (is_newline a)) s → free_of c s) as Hfree.
  { induction s as [|a s IH]; [done|]. cbn. intros [Ha Hs]%andb_True.
    apply andb_True. split; [|auto].
    rewrite bool_decide_false; [done|]. intros ->. by destruct (is_newline c). }
  apply Hfree, encode_padded_chars; [by vm_compute | | done].
  intros d Hd. destruct (std_alphabet d Hd) as (_ & _ & ->). done.
Qed.

Lemma stdEncode_ascii l : sforall is_ascii_char (stdEncode l).
Proof.
  apply encode_padded_chars; [by vm_compute| |by vm_compute]. intros d Hd.
  assert (forallb (λ d, is_ascii_char (enc6 "+" "/" d)) (seqZ 0 64) = true) as Hall
    by (vm_compute; reflexivity).
  rewrite forallb_forall in Hall. specialize (Hall d).
  rewrite <- list_elem_of_In, elem_of_seqZ in Hall. by rewrite Hall by lia.
Qed.

Lemma stdEncode_nil l : stdEncode l = "" → l = [].
Proof.
  intros E. pose proof (stdDecode_encode l) as D. rewrite E in D. by injection D as <-.
Qed.
