(* ===== verification/Pem.v ===== *)
(** * Go's [encoding/pem], and [crypto/tls]'s reading of a chain and a key

    [EncodeToMemory] of a block without headers, and [Decode] of text in the
    form it writes: base64 in lines of 64 characters between the two markers.
    [Decode]'s tolerance for other text before a block, for headers and for
    spaces is not modelled: nothing here relies on it. *)

From S2P Require Import Prelude GoStrings Base64.

Definition nl : ascii := char_of 10.

(** A newline after every 64 characters, and after the rest. *)
Fixpoint break64 (col : nat) (s : string) : string :=
  match s with
  | EmptyString => if decide (col = 0%nat) then "" else String nl ""
  | String a s =>
      if decide (col = 63%nat) then String a (String nl (break64 0 s))
      else String a (break64 (S col) s)
  end.

Definition pem_encode (type : string) (der : list byte) : string :=
  "-----BEGIN " +:+ (type +:+ ("-----" +:+ String nl (break64 0 (stdEncode der) +:+
  ("-----END " +:+ (type +:+ ("-----" +:+ String nl "")))))).

(** ** Decoding *)

(** Up to the first [c], and from there. *)
Fixpoint span_to (c : ascii) (s : string) : string * string :=
  match s with
  | EmptyString => ("", "")
  | String a s' =>
      if decide (a = c) then ("", s) else let '(p, q) := span_to c s' in (String a p, q)
  end.

Fixpoint strip_prefix (p s : string) : option string :=
  match p, s with
  | EmptyString, _ => Some s
  | String a p, String b s => if decide (a = b) then strip_prefix p s else None
  | _, _ => None
  end.

(** A block: its type, its bytes, and the text after it. *)
Definition pem_decode (data : string) : option (string * list byte * string) :=
  rest ← strip_prefix "-----BEGIN " data;
  let '(type, rest) := span_to "-" rest in
  rest ← strip_prefix ("-----" +:+ String nl "") rest;
  let '(body, rest) := span_to "-" rest in
  rest ← strip_prefix "-----END " rest;
  rest ← strip_prefix type rest;
  rest ← strip_prefix ("-----" +:+ String nl "") rest;
  der ← stdDecode body;
  Some (type, der, rest).

(** All the blocks of a text; each is a character long at least. *)
Fixpoint pem_blocks (fuel : nat) (data : string) : list (string * list byte) :=
  match fuel with
  | O => []
  | S fuel =>
      match pem_decode data with
      | Some (type, der, rest) => (type, der) :: pem_blocks fuel rest
      | None => []
      end
  end.
Definition pem_all (data : string) : list (string * list byte) :=
  pem_blocks (S (String.length data)) data.

(** ** Round trip *)

Lemma strip_prefix_app p s : strip_prefix p (p +:+ s) = Some s.
Proof.
  induction p as [|a p IH]; [done|]. rewrite sapp_cons_l. cbn [strip_prefix].
  by rewrite decide_True.
Qed.

Lemma span_to_app c p s : free_of c p → span_to c (p +:+ String c s) = (p, String c s).
Proof.
  induction p as [|a p IH]; intros Hf; [rewrite sapp_nil_l; cbn [span_to]; by rewrite decide_True|].
  rewrite sapp_cons_l. cbn [span_to free_of] in *. apply andb_True in Hf as [Ha Hp].
  rewrite negb_True, bool_decide_spec in Ha. by rewrite decide_False, IH by done.
Qed.

Lemma break64_newlines col s : drop_newlines (break64 col s) = drop_newlines s.
Proof.
  revert col. induction s as [|a s IH]; intros col; cbn [break64]; [by case_decide|].
  case_decide; cbn [drop_newlines]; rewrite IH; [|done].
  change (is_newline nl) with true. done.
Qed.

Lemma break64_free c col s : c ≠ nl → free_of c s → free_of c (break64 col s).
Proof.
  intros Hc. revert col. induction s as [|a s IH]; intros col Hs; cbn [break64].
  - case_decide; [done|]. cbn. by rewrite bool_decide_false.
  - cbn [free_of] in Hs. apply andb_True in Hs as [Ha Hs].
    assert (negb (bool_decide (nl = c))) as Hnl by (by rewrite bool_decide_false).
    destruct (decide (col = 63%nat)); cbn [free_of]; rewrite !andb_True; auto.
Qed.

(** Base64 text has no hyphen. *)
Lemma stdEncode_no_hyphen l : free_of "-" (stdEncode l).
Proof.
  assert (∀ s, sforall (λ a, negb (bool_decide (a = "-"%char))) s → free_of "-" s) as Hfree.
  { induction s as [|a s IH]; [done|]. cbn. rewrite !andb_True. naive_solver. }
  apply Hfree, encode_padded_chars; [by vm_compute| |by vm_compute]. intros d Hd.
  assert (forallb (λ d, negb (bool_decide (enc6 "+" "/" d = "-"%char))) (seqZ 0 64) = true) as Hall
    by (vm_compute; reflexivity).
  rewrite forallb_forall in Hall. specialize (Hall d).
  rewrite <- list_elem_of_In, elem_of_seqZ in Hall. by rewrite Hall by lia.
Qed.

(** Strip the characters of a literal, one by one. *)
Ltac strip_literal :=
  repeat (cbn [strip_prefix]; rewrite decide_True by done); cbn [strip_prefix mbind option_bind].

Lemma pem_decode_encode type der rest :
  free_of "-" type → pem_decode (pem_encode type der +:+ rest) = Some (type, der, rest).
Proof.
  intros Ht. unfold pem_decode, pem_encode. set (body := break64 0 (stdEncode der)).
  assert (free_of "-" body) as Hbody by (apply break64_free; [done | apply stdEncode_no_hyphen]).
  assert (stdDecode body = Some der) as Hdec.
  { rewrite <- (stdDecode_encode der). unfold stdDecode, body. by rewrite break64_newlines. }
  rewrite !sapp_assoc, strip_prefix_app. cbn [mbind option_bind].
  rewrite !sapp_cons_l, !sapp_nil_l, span_to_app by done. strip_literal.
  rewrite !sapp_assoc, !sapp_cons_l, span_to_app by done. strip_literal.
  rewrite !sapp_assoc, strip_prefix_app. cbn [mbind option_bind].
  rewrite !sapp_cons_l, !sapp_nil_l. strip_literal. by rewrite Hdec.
Qed.

(** What follows a block is read as more blocks. *)
Lemma pem_all_encode type der rest :
  free_of "-" type →
  pem_all (pem_encode type der +:+ rest)
  = (type, der) :: pem_blocks (String.length (pem_encode type der +:+ rest)) rest.
Proof. intros Ht. unfold pem_all. cbn [pem_blocks]. by rewrite pem_decode_encode. Qed.

Lemma pem_blocks_nil fuel : pem_blocks fuel "" = [].
Proof. by destruct fuel. Qed.

Lemma pem_all_one type der : free_of "-" type → pem_all (pem_encode type der) = [(type, der)].
Proof.
  intros Ht. rewrite <- (sapp_nil_r (pem_encode type der)), pem_all_encode by done.
  by rewrite pem_blocks_nil.
Qed.

Lemma pem_encode_length type der : (0 < String.length (pem_encode type der))%nat.
Proof. unfold pem_encode. rewrite sapp_length. cbn. lia. Qed.

Lemma pem_all_two type1 der1 type2 der2 :
  free_of "-" type1 → free_of "-" type2 →
  pem_all (pem_encode type1 der1 +:+ pem_encode type2 der2) = [(type1, der1); (type2, der2)].
Proof.
  intros H1 H2. rewrite pem_all_encode by done. f_equal.
  rewrite sapp_length. pose proof (pem_encode_length type1 der1).
  destruct (String.length (pem_encode type1 der1)) as [|n]; [lia|]. cbn [Nat.add pem_blocks].
  rewrite <- (sapp_nil_r (pem_encode type2 der2)) at 1. rewrite pem_decode_encode by done.
  by rewrite pem_blocks_nil.
Qed.
