(* ===== verification/GoFloat.v ===== *)
(** * Go's [strconv.ParseFloat(s, 64)] and [time.Duration] of seconds

    Decimal and hexadecimal literals with underscores, the special names, and
    correct rounding to binary64 through the IEEE 754 functions of SpecFloat
    (integers only, no primitive floats).  [None] is a non-nil error, of syntax
    or of range. *)

From Stdlib Require Import Floats.SpecFloat.
From S2P Require Import Prelude GoStrings Strconv.

Abbreviation float64 := spec_float.

Definition f64_of_Z (n : Z) : float64 := binary_normalize 53 1024 n 0 false.
Definition f64_mul (x y : float64) : float64 := SFmul 53 1024 x y.
Definition f64_lt (x y : float64) : bool := SFltb x y.

(** [m * 10^e] and [m * 2^e], to nearest, ties to even. *)
Definition round_decimal (neg : bool) (m e : Z) : float64 :=
  match m with
  | Zpos p =>
      if (0 <=? e)%Z then
        match (m * 10 ^ e)%Z with
        | Zpos q => binary_round 53 1024 neg q 0
        | _ => S754_zero neg
        end
      else
        let '(q, e', l) := SFdiv_core_binary 53 1024 m 0 (10 ^ (- e)) 0 in
        binary_round_aux 53 1024 neg q e' l
  | _ => S754_zero neg
  end.

Definition round_binary (neg : bool) (m e : Z) : float64 :=
  match m with
  | Zpos p => binary_round 53 1024 neg p e
  | _ => S754_zero neg
  end.

(** ** The scanner *)

Definition hex_val (a : ascii) : option Z :=
  let c := char_code (lower_char a) in
  if ((97 <=? c) && (c <=? 102))%Z then Some (c - 87)%Z else digit_val a.

Record scan := Scan {
  sc_mantissa : Z;
  sc_fraction : Z;          (* digits after the point *)
  sc_dot : bool;
  sc_digits : bool;
  sc_underscores : bool;
}.

(** The digits, the point and the underscores of a literal. *)
Fixpoint scan_mantissa (hex : bool) (st : scan) (s : string) : scan * string :=
  match s with
  | EmptyString => (st, s)
  | String a s' =>
      if decide (a = "_"%char) then
        scan_mantissa hex
          (Scan (sc_mantissa st) (sc_fraction st) (sc_dot st) (sc_digits st) true) s'
      else if decide (a = "."%char) then
        if sc_dot st then (st, s)
        else scan_mantissa hex
               (Scan (sc_mantissa st) (sc_fraction st) true (sc_digits st) (sc_underscores st)) s'
      else
        match (if hex then hex_val a else digit_val a) with
        | Some d =>
            scan_mantissa hex
              (Scan ((if hex then 16 else 10) * sc_mantissa st + d)
                 (if sc_dot st then sc_fraction st + 1 else sc_fraction st)
                 (sc_dot st) true (sc_underscores st))%Z s'
        | None => (st, s)
        end
  end.

(** The digits of an exponent; they stop counting at 10000. *)
Fixpoint scan_exponent (e : Z) (underscores : bool) (s : string) : Z * bool * string :=
  match s with
  | EmptyString => (e, underscores, s)
  | String a s' =>
      if decide (a = "_"%char) then scan_exponent e true s'
      else match digit_val a with
           | Some d =>
               scan_exponent (if (e <? 10000)%Z then 10 * e + d else e)%Z underscores s'
           | None => (e, underscores, s)
           end
  end.

(** [underscoreOK]: underscores separate digits, or follow a base prefix. *)
Inductive saw := SawStart | SawDigit | SawUnderscore | SawOther.

Fixpoint underscores_from (hex : bool) (st : saw) (s : string) : bool :=
  match s with
  | EmptyString => match st with SawUnderscore => false | _ => true end
  | String a s' =>
      if (if hex then hex_val a else digit_val a) is Some _
      then underscores_from hex SawDigit s'
      else if decide (a = "_"%char) then
        match st with SawDigit => underscores_from hex SawUnderscore s' | _ => false end
      else match st with
           | SawUnderscore => false
           | _ => underscores_from hex SawOther s'
           end
  end.

Definition strip_sign (s : string) : bool * string :=
  match s with
  | String "-" s' => (true, s')
  | String "+" s' => (false, s')
  | _ => (false, s)
  end.

Definition underscoreOK (s : string) : bool :=
  let '(_, s) := strip_sign s in
  match s with
  | String "0" (String b s') =>
      let c := lower_char b in
      if bool_decide (c ∈ ["b"; "o"; "x"]%char)
      then underscores_from (bool_decide (c = "x"%char)) SawDigit s'
      else underscores_from false SawStart s
  | _ => underscores_from false SawStart s
  end.

(** [special]: the names of infinity, with a sign or not, and of NaN. *)
Definition special (s : string) : option float64 :=
  let '(neg, s') := strip_sign s in
  let l := smap lower_char s' in
  if decide (l = "inf" ∨ l = "infinity") then Some (S754_infinity neg)
  else if decide (smap lower_char s = "nan") then Some S754_nan
  else None.

(** The exponent part after its letter: a sign, then at least one digit. *)
Definition read_exponent (s : string) : option (Z * bool * string) :=
  let '(neg, s') := strip_sign s in
  match s' with
  | String a _ =>
      match digit_val a with
      | Some _ =>
          let '(e, u, rest) := scan_exponent 0 false s' in
          Some ((if neg then - e else e)%Z, u, rest)
      | None => None
      end
  | EmptyString => None
  end.

Definition read_literal (s : string) : option float64 :=
  let '(neg, s1) := strip_sign s in
  let '(hex, s2) :=
    match s1 with
    | String "0" (String x (String _ _ as s2)) =>
        if decide (lower_char x = "x"%char) then (true, s2) else (false, s1)
    | _ => (false, s1)
    end in
  let '(st, rest) := scan_mantissa hex (Scan 0 0 false false false) s2 in
  if negb (sc_digits st) then None else
  exp ← match rest with
        | String c rest' =>
            if decide (lower_char c = if hex then "p"%char else "e"%char) then read_exponent rest'
            else if hex then None else Some (0%Z, false, rest)
        | EmptyString => if hex then None else Some (0%Z, false, rest)
        end;
  let '(e, u, rest) := exp in
  if decide (rest ≠ "") then None
  else if (sc_underscores st || u) && negb (underscoreOK s) then None
  else Some (if hex then round_binary neg (sc_mantissa st) (e - 4 * sc_fraction st)
             else round_decimal neg (sc_mantissa st) (e - sc_fraction st)).

(** [ParseFloat(s, 64)]: a literal beyond the largest float is an error. *)
Definition parseFloat (s : string) : option float64 :=
  match special s with
  | Some f => Some f
  | None =>
      f ← read_literal s;
      match f with S754_infinity _ => None | _ => Some f end
  end.

(** ** Durations *)

Definition second : Z := 1000000000.

(** [time.Duration(f)]: truncation; a value that is no [int64] (NaN among them)
    converts to whatever the platform does, the parameter [odd]. *)
Definition duration_of (odd : float64 → Z) (f : float64) : Z :=
  match f with
  | S754_zero _ => 0
  | S754_finite s m e =>
      let n := Z.shiftl (Zpos m) e in
      let n := if s then Z.opp n else n in
      if decide (in_int64 n) then n else odd f
  | _ => odd f
  end.

(** The guard [seconds < 0 || seconds > 60]. *)
Definition bad_seconds (f : float64) : bool :=
  f64_lt f (S754_zero false) || f64_lt (f64_of_Z 60) f.

(** [time.Duration(seconds * float64(time.Second))]. *)
Definition seconds_to_duration (odd : float64 → Z) (f : float64) : Z :=
  duration_of odd (f64_mul f (f64_of_Z second)).

Example parse_ex1 : seconds_to_duration (λ _, 0%Z) <$> parseFloat "0.1" = Some 100000000%Z.
Proof. vm_compute. reflexivity. Qed.
Example parse_ex2 : parseFloat "1_23.50_0_0e+1_2" = Some (f64_of_Z 123500000000000).
Proof. vm_compute. reflexivity. Qed.
Example parse_ex3 : parseFloat "0x_1_2.3_4_5p+1_2" = Some (f64_of_Z 74565).
Proof. vm_compute. reflexivity. Qed.
Example parse_ex4 : parseFloat "1e309" = None.
Proof. vm_compute. reflexivity. Qed.
Example parse_ex5 : parseFloat "1__2" = None ∧ parseFloat "1e" = None ∧ parseFloat "." = None.
Proof. vm_compute. auto. Qed.
Example parse_ex6 : bad_seconds <$> parseFloat "60.00000000000001" = Some true.
Proof. vm_compute. reflexivity. Qed.
Example parse_ex7 : parseFloat "5e-324" = Some (S754_finite false 1 (-1074)).
Proof. vm_compute. reflexivity. Qed.
