(* ===== verification/FloatBounds.v ===== *)
(** * Bounds on binary64 rounding

    What the guards of the handlers give: a literal that is at least 0 and at
    most 60 converts to between 0 and 60 seconds.  A right shift of SpecFloat is
    a division by a power of two that remembers whether it was exact, and
    rounding to nearest adds one at most when it was not. *)

From Stdlib Require Import Floats.SpecFloat.
From S2P Require Import Prelude GoStrings Strconv GoFloat.

#[local] Open Scope Z_scope.

(** ** Shifting *)

(** [y] is [x] shifted right by [k] bits. *)
Definition shifted (k : Z) (x y : shr_record) : Prop :=
  shr_m y = shr_m x / 2 ^ k ∧
  ((2 ^ k | shr_m x) → shr_r x = false → shr_s x = false → shr_r y = false ∧ shr_s y = false).

Lemma shifted_0 x : shifted 0 x x.
Proof. split; [by rewrite Z.div_1_r|auto]. Qed.

Lemma shifted_trans a b x y z :
  0 ≤ a → 0 ≤ b → shifted a x y → shifted b y z → shifted (a + b) x z.
Proof.
  intros Ha Hb [Hm1 Hd1] [Hm2 Hd2]. split.
  - rewrite Hm2, Hm1, Z.pow_add_r, Z.div_div by lia. done.
  - rewrite Z.pow_add_r by lia. intros [q Hq] Hr Hs. destruct Hd1 as [Hr1 Hs1]; [|done..|].
    { exists (q * 2 ^ b). rewrite Hq. ring. }
    apply Hd2; [|done..]. exists q. rewrite Hm1, Hq.
    replace (q * (2 ^ a * 2 ^ b)) with (q * 2 ^ b * 2 ^ a) by ring. apply Z.div_mul. lia.
Qed.

Lemma shifted_1 x : 0 ≤ shr_m x → shifted 1 x (shr_1 x).
Proof.
  destruct x as [m r s]. cbn [shr_m]. intros Hm. unfold shifted. rewrite Z.pow_1_r.
  destruct m as [|[p|p|]|p]; cbn -[Z.div]; [| | | |lia].
  - split; [done|]. intros _ -> ->. done.
  - split; [rewrite Pos2Z.inj_xI, Z.mul_comm, Z.div_add_l by lia; by rewrite Z.add_0_r|].
    intros [q Hq]. lia.
  - split; [by rewrite Pos2Z.inj_xO, Z.mul_comm, Z.div_mul by lia|]. by intros _ -> ->.
  - split; [done|]. intros [q Hq]. lia.
Qed.

Lemma shifted_nonneg k x y : 0 ≤ k → 0 ≤ shr_m x → shifted k x y → 0 ≤ shr_m y.
Proof. intros Hk Hx [-> _]. apply Z.div_pos; lia. Qed.

Lemma shifted_iter p x : 0 ≤ shr_m x → shifted (Zpos p) x (SpecFloat.iter_pos shr_1 p x).
Proof.
  revert x. induction p as [p IH|p IH|]; intros x Hx; cbn [SpecFloat.iter_pos]; [| |by apply shifted_1].
  - pose proof (shifted_1 x Hx) as H1. pose proof (shifted_nonneg 1 _ _ ltac:(lia) Hx H1) as N1.
    pose proof (IH _ N1) as H2. pose proof (shifted_nonneg (Zpos p) _ _ ltac:(lia) N1 H2) as N2.
    replace (Zpos p~1) with (1 + (Zpos p + Zpos p)) by lia.
    eapply shifted_trans; [lia..|exact H1|]. eapply shifted_trans; [lia..|exact H2|]. auto.
  - pose proof (IH _ Hx) as H2. pose proof (shifted_nonneg (Zpos p) _ _ ltac:(lia) Hx H2) as N2.
    replace (Zpos p~0) with (Zpos p + Zpos p) by lia. eapply shifted_trans; [lia..|exact H2|]. auto.
Qed.

(** [shr_fexp]: down to the precision of the format. *)
Definition shift_of (m e : Z) : Z := Z.max 0 (fexp 53 1024 (Zdigits2 m + e) - e).

Lemma shr_fexp_shifted m e l :
  0 ≤ m →
  ∃ mrs, shr_fexp 53 1024 m e l = (mrs, e + shift_of m e) ∧
    shifted (shift_of m e) (shr_record_of_loc m l) mrs.
Proof.
  intros Hm. assert (0 ≤ shr_m (shr_record_of_loc m l)) as Hl by by destruct l as [|[]].
  unfold shr_fexp, shr, shift_of.
  destruct (fexp 53 1024 (Zdigits2 m + e) - e) as [|p|p] eqn:E.
  - eexists. split; [by rewrite Z.add_0_r|]. apply shifted_0.
  - eexists. rewrite Z.max_r by lia. split; [done|]. by apply shifted_iter.
  - eexists. split; [by rewrite Z.add_0_r|]. apply shifted_0.
Qed.

(** ** Digits *)

Lemma digits2_pos_bounds p : 2 ^ (Zpos (digits2_pos p) - 1) ≤ Zpos p < 2 ^ Zpos (digits2_pos p).
Proof.
  induction p as [p IH|p IH|]; cbn [digits2_pos]; [..|done];
    rewrite Pos2Z.inj_succ, Z.pow_succ_r, Z.sub_1_r, Z.pred_succ by lia;
    rewrite Z.sub_1_r in IH; pose proof (Z.pow_succ_r 2 (Z.pred (Zpos (digits2_pos p)))) as Hs;
    rewrite Z.succ_pred in Hs; lia.
Qed.

Lemma Zdigits2_lt m : 0 ≤ m → m < 2 ^ Zdigits2 m.
Proof. destruct m as [|p|p]; [done| |lia]. intros _. apply digits2_pos_bounds. Qed.

Lemma Zdigits2_le m k : 0 ≤ k → 0 ≤ m < 2 ^ k → Zdigits2 m ≤ k.
Proof.
  intros Hk Hm. destruct m as [|p|p]; [done| |lia]. cbn [Zdigits2].
  pose proof (digits2_pos_bounds p) as [Hlo _].
  assert (Zpos (digits2_pos p) - 1 < k); [|lia]. apply (Z.pow_lt_mono_r_iff 2); lia.
Qed.

(** ** Rounding *)

Lemma round_nearest_even_bounds m l : m ≤ round_nearest_even m l ≤ m + 1.
Proof. destruct l as [|[]]; cbn; try lia. destruct (Z.even m); lia. Qed.

(** A rounded result: [m1] is what the first shift and the rounding leave, and
    the second shift brings it back into 53 bits. *)
Lemma binary_round_aux_value sx mx ex l :
  0 ≤ mx →
  ∃ m1, let k := shift_of mx ex in
    0 ≤ m1 ≤ mx / 2 ^ k + 1 ∧ ((2 ^ k | mx) → l = loc_Exact → m1 = mx / 2 ^ k) ∧
    binary_round_aux 53 1024 sx mx ex l
    = let m2 := m1 / 2 ^ shift_of m1 (ex + k) in
      match m2 with
      | Z0 => S754_zero sx
      | Zpos m => if ex + k + shift_of m1 (ex + k) <=? 971
                  then S754_finite sx m (ex + k + shift_of m1 (ex + k)) else S754_infinity sx
      | _ => S754_nan
      end.
Proof.
  intros Hm. unfold binary_round_aux.
  destruct (shr_fexp_shifted mx ex l Hm) as (mrs & -> & [Hmrs Hexact]).
  assert (shr_m (shr_record_of_loc mx l) = mx) as Hl by by destruct l as [|[]]. rewrite Hl in *.
  set (k := shift_of mx ex) in *.
  exists (round_nearest_even (shr_m mrs) (loc_of_shr_record mrs)). cbv zeta.
  set (m1 := round_nearest_even _ _).
  pose proof (round_nearest_even_bounds (shr_m mrs) (loc_of_shr_record mrs)) as Hr. fold m1 in Hr.
  assert (0 ≤ k) as Hk by (unfold k, shift_of; lia).
  assert (0 ≤ mx / 2 ^ k) as Hdiv by (apply Z.div_pos; lia).
  split; [rewrite Hmrs in Hr; lia|]. split.
  - intros Hd ->. destruct Hexact as [Hr0 Hs0]; [done..|]. unfold m1. destruct mrs as [m r s].
    cbn in Hr0, Hs0, Hmrs |- *. by subst.
  - destruct (shr_fexp_shifted m1 (ex + k) loc_Exact ltac:(lia)) as (mrs2 & -> & [-> _]). done.
Qed.

(** The mantissa of a result has 53 bits. *)
Lemma binary_round_aux_mantissa sx mx ex l s m e :
  0 ≤ mx → binary_round_aux 53 1024 sx mx ex l = S754_finite s m e → Zpos m < 2 ^ 53.
Proof.
  intros Hm Hr. destruct (binary_round_aux_value sx mx ex l Hm) as (m1 & Hm1 & _ & E).
  rewrite E in Hr. cbv zeta in Hr. set (e1 := ex + shift_of mx ex) in *.
  destruct (m1 / 2 ^ shift_of m1 e1) as [|p|p] eqn:Ep; [done| |done].
  destruct (_ <=? _); [|done]. injection Hr as _ -> _. rewrite <- Ep.
  apply Z.div_lt_upper_bound; [unfold shift_of; lia|]. rewrite <- Z.pow_add_r by (unfold shift_of; lia).
  pose proof (Zdigits2_lt m1 ltac:(lia)) as Hd.
  eapply Z.lt_le_trans; [exact Hd|]. apply Z.pow_le_mono_r; [lia|]. unfold shift_of, fexp. lia.
Qed.

(** Below a number of 53 bits that is a whole number of units, the exponent
    stays negative. *)
Lemma shift_of_below B m e :
  B < 2 ^ 53 → e ≤ 0 → 0 ≤ m ≤ B * 2 ^ (- e) → 0 ≤ shift_of m e ∧ e + shift_of m e ≤ 0.
Proof.
  intros HB He Hm. assert (Zdigits2 m ≤ 53 - e) as Hd.
  { apply Zdigits2_le; [lia|]. split; [lia|]. replace (53 - e) with (53 + - e) by lia.
    rewrite Z.pow_add_r by lia. pose proof (Z.pow_pos_nonneg 2 (- e) ltac:(lia) ltac:(lia)). nia. }
  unfold shift_of, fexp, emin. lia.
Qed.

(** Dividing a bound in units of [2^e] by [2^k]. *)
Lemma div_below B m e k :
  0 ≤ k → e + k ≤ 0 → 0 ≤ m ≤ B * 2 ^ (- e) → m / 2 ^ k ≤ B * 2 ^ (- (e + k)).
Proof.
  intros Hk He Hm. apply Z.div_le_upper_bound; [lia|].
  replace (2 ^ k * (B * 2 ^ (- (e + k)))) with (B * (2 ^ k * 2 ^ (- (e + k)))) by ring.
  rewrite <- Z.pow_add_r by lia. replace (k + - (e + k)) with (- e) by lia. lia.
Qed.

Lemma round_below B mx ex :
  B < 2 ^ 53 → ex ≤ 0 → 0 ≤ mx ≤ B * 2 ^ (- ex) →
  match binary_round_aux 53 1024 false mx ex loc_Exact with
  | S754_zero _ => True
  | S754_finite false m e => 0 ≤ Z.shiftl (Zpos m) e ≤ B
  | _ => False
  end.
Proof.
  intros HB Hex Hmx.
  destruct (binary_round_aux_value false mx ex loc_Exact ltac:(lia)) as (m1 & [Hm1 Hround] & Hexact & ->).
  cbv zeta in *. destruct (shift_of_below B mx ex HB Hex Hmx) as [Hk He1].
  set (k := shift_of mx ex) in *. set (e1 := ex + k) in *.
  assert (0 ≤ m1 ≤ B * 2 ^ (- e1)) as Hbelow.
  { split; [done|]. pose proof (div_below B mx ex k Hk He1 Hmx) as Hq. fold e1 in Hq.
    destruct (decide (mx mod 2 ^ k = 0)) as [Hd|Hd]; rewrite Z.mod_divide in Hd by lia; [by rewrite Hexact|].
    destruct (Z.eq_dec (mx / 2 ^ k) (B * 2 ^ (- e1))) as [E|]; [|lia].
    destruct Hd. exists (B * 2 ^ (- e1)). rewrite <- Z.mul_assoc, <- Z.pow_add_r by lia.
    replace (- e1 + k) with (- ex) by lia. pose proof (Z.mul_div_le mx (2 ^ k) ltac:(lia)) as Hle.
    rewrite E in Hle. replace (2 ^ k * (B * 2 ^ (- e1))) with (B * (2 ^ (- e1) * 2 ^ k)) in Hle by ring.
    rewrite <- Z.pow_add_r in Hle by lia. replace (- e1 + k) with (- ex) in Hle by lia. lia. }
  destruct (shift_of_below B m1 e1 HB He1 Hbelow) as [Hk2 He2].
  pose proof (div_below B m1 e1 _ Hk2 He2 Hbelow) as Hm2.
  set (e2 := e1 + shift_of m1 e1) in *.
  destruct (m1 / 2 ^ shift_of m1 e1) as [|m|m] eqn:Em; [done| |].
  - destruct (Z.leb_spec e2 971); [|lia]. rewrite <- (Z.opp_involutive e2) at 1 2.
    change (0 ≤ Z.shiftr (Zpos m) (- e2) ≤ B). rewrite Z.shiftr_div_pow2 by lia. split.
    + apply Z.div_pos; lia.
    + apply Z.div_le_upper_bound; [lia|]. lia.
  - assert (0 ≤ m1 / 2 ^ shift_of m1 e1) by (apply Z.div_pos; lia). lia.
Qed.

(** ** Literals *)

Definition mantissa_ok (f : float64) : Prop :=
  match f with S754_finite _ m _ => Zpos m < 2 ^ 53 | _ => True end.

Lemma binary_round_aux_ok sx mx ex l : 0 ≤ mx → mantissa_ok (binary_round_aux 53 1024 sx mx ex l).
Proof.
  intros Hm. destruct (binary_round_aux _ _ _ _ _ _) as [| | |s m e] eqn:E; [done..|].
  by eapply binary_round_aux_mantissa.
Qed.

Lemma binary_round_ok sx mx ex : mantissa_ok (binary_round 53 1024 sx mx ex).
Proof. unfold binary_round. destruct (shl_align _ _ _) as [m e]. by apply binary_round_aux_ok. Qed.

Lemma round_decimal_ok neg m e : mantissa_ok (round_decimal neg m e).
Proof.
  unfold round_decimal. destruct m as [|p|]; [done| |done]. destruct (Z.leb_spec 0 e).
  - destruct (_ * _); [done|apply binary_round_ok|done].
  - unfold SFdiv_core_binary. set (d := Z.min _ _). destruct (0 - 0 - d) as [|s|s]; cbv zeta;
      match goal with |- context [Z.div_eucl ?a ?b] =>
        pose proof (Z.div_pos a b) as Hq; unfold Z.div in Hq; destruct (Z.div_eucl a b) as [q r] end;
      apply binary_round_aux_ok, Hq; try lia. apply Z.shiftl_nonneg. lia.
Qed.

Lemma parseFloat_ok s f : parseFloat s = Some f → mantissa_ok f.
Proof.
  unfold parseFloat. destruct (special s) as [f'|] eqn:Hs.
  - intros [= <-]. unfold special in Hs. destruct (strip_sign s).
    repeat case_decide; by simplify_eq.
  - intros (f' & Hl & Hf)%bind_Some. assert (mantissa_ok f') as Hok; [|by destruct f'; simplify_eq].
    unfold read_literal in Hl. destruct (strip_sign s) as [neg s1].
    match type of Hl with context [match ?x with pair _ _ => _ end] => destruct x as [hex s2] end.
    destruct (scan_mantissa _ _ _) as [st rest]. destruct (negb _); [done|].
    apply bind_Some in Hl as ([[e u] rest'] & _ & Hl). destruct (decide _); [done|]. destruct (_ && _); [done|].
    injection Hl as <-. destruct hex; [|apply round_decimal_ok].
    unfold round_binary. destruct (sc_mantissa st); [done|apply binary_round_ok|done].
Qed.

(** ** Seconds *)

Lemma f64_60 : f64_of_Z 60 = S754_finite false (15 * 2 ^ 49) (-47).
Proof. vm_compute. reflexivity. Qed.
Lemma f64_second : f64_of_Z second = S754_finite false (1000000000 * 2 ^ 23) (-23).
Proof. vm_compute. reflexivity. Qed.

(** A finite literal that the guard lets through is zero, or at least one unit
    and at most 60. *)
Lemma good_seconds f :
  mantissa_ok f → bad_seconds f = false →
  match f with
  | S754_nan => True
  | S754_zero _ => True
  | S754_finite false m e => e ≤ -47 ∧ Zpos m ≤ 60 * 2 ^ (- e)
  | _ => False
  end.
Proof.
  unfold bad_seconds, f64_lt. rewrite f64_60. intros Hok Hbad.
  destruct f as [|[]| |[] m e]; cbn in Hok; try done.
  apply orb_false_iff in Hbad as [_ Hbad]. unfold SFltb, SFcompare in Hbad.
  assert (∀ k, 48 ≤ k → 2 ^ 53 ≤ 60 * 2 ^ k) as Hpow.
  { intros k Hk. replace k with (48 + (k - 48)) by lia. rewrite Z.pow_add_r by lia.
    pose proof (Z.pow_pos_nonneg 2 (k - 48) ltac:(lia) ltac:(lia)). lia. }
  destruct (Z.compare_spec (-47) e) as [<-|Hlt|Hgt]; [|done|].
  - split; [done|]. destruct (Pos.compare_cont Eq _ m) eqn:Ec; [| |].
    + apply Pos.compare_eq in Ec. subst m. done.
    + done.
    + change (Pos.compare (15 * 2 ^ 49) m = Gt) in Ec. apply Pos.compare_gt_iff in Ec.
      apply Pos2Z.pos_lt_pos in Ec. change (Zpos (15 * 2 ^ 49)) with (60 * 2 ^ 47) in Ec. cbn. lia.
  - split; [lia|]. specialize (Hpow (- e) ltac:(lia)). cbn in Hok. lia.
Qed.

(** [60 * second] is a bound for the product, and for its conversion. *)
Lemma seconds_to_duration_bounds odd s f :
  parseFloat s = Some f → bad_seconds f = false → f ≠ S754_nan →
  0 ≤ seconds_to_duration odd f ≤ 60 * second.
Proof.
  intros Hp Hbad Hnan. pose proof (good_seconds f (parseFloat_ok s f Hp) Hbad) as Hgood.
  unfold seconds_to_duration, f64_mul. rewrite f64_second.
  destruct f as [|[]| |[] m e]; cbn -[Z.pow Z.mul] in Hgood; try done.
  destruct Hgood as [He Hm]. cbn [SFmul xorb].
  assert (0 ≤ Zpos (m * (1000000000 * 2 ^ 23)) ≤ 60 * second * 2 ^ (- (e + -23))) as Hmx.
  { replace (- (e + -23)) with (- e + 23) by lia. rewrite Z.pow_add_r by lia.
    rewrite Pos2Z.inj_mul. change (Zpos (1000000000 * 2 ^ 23)) with (second * 2 ^ 23).
    pose proof (Z.pow_pos_nonneg 2 23 ltac:(lia) ltac:(lia)). unfold second in *. nia. }
  pose proof (round_below (60 * second) _ (e + -23) ltac:(done) ltac:(lia) Hmx) as Hr.
  unfold duration_of. destruct (binary_round_aux _ _ _ _ _ _) as [b| | |[] m' e']; [|done|done|done|].
  - by unfold second.
  - rewrite decide_True; [done|]. unfold in_int64, second in *. lia.
Qed.
