(* ===== verification/Http.v ===== *)
(** * Go's net/http, as far as the fixtures use it

    Header maps with canonical keys, query strings, the request a handler is
    given, and the [ResponseWriter] it writes to (server.go of net/http, the
    HTTP/1 side): header snapshots, informational responses, statuses without a
    body, [HEAD], a declared [Content-Length], trailers.  Not modelled: the
    header lines the server adds by itself (Date, Content-Length of a short
    body, Transfer-Encoding, sniffed Content-Type). *)

From S2P Require Import Prelude GoStrings Strconv Unicode.

(** ** Header maps *)

Abbreviation header := (gmap string (list string)).

(** [textproto.validHeaderFieldByte]: the token characters of RFC 7230. *)
Definition token_char (a : ascii) : bool :=
  let c := char_code a in
  ((48 <=? c) && (c <=? 57) || (65 <=? c) && (c <=? 90) || (97 <=? c) && (c <=? 122)
   || bool_decide (c ∈ [33; 35; 36; 37; 38; 39; 42; 43; 45; 46; 94; 95; 96; 124; 126]))%Z.

Definition upper_char (a : ascii) : ascii :=
  if ((97 <=? char_code a) && (char_code a <=? 122))%Z
  then char_of (char_code a - 32) else a.

Fixpoint canonical_from (upper : bool) (s : string) : string :=
  match s with
  | EmptyString => EmptyString
  | String a s' =>
      String (if upper then upper_char a else lower_char a)
        (canonical_from (bool_decide (a = "-"%char)) s')
  end.

(** [textproto.CanonicalMIMEHeaderKey]. *)
Definition canonicalKey (s : string) : string :=
  if sforall token_char s then canonical_from true s else s.

Definition header_values (h : header) (key : string) : list string :=
  default [] (h !! canonicalKey key).
Definition header_get (h : header) (key : string) : string :=
  default "" (head (header_values h key)).
Definition header_set (key value : string) (h : header) : header :=
  <[canonicalKey key := [value]]> h.
Definition header_add (key value : string) (h : header) : header :=
  <[canonicalKey key := header_values h key ++ [value]]> h.
Definition header_del (key : string) (h : header) : header :=
  delete (canonicalKey key) h.

(** ** Query strings: [url.ParseQuery], errors ignored as [URL.Query] does *)

Definition unhex (a : ascii) : option Z :=
  let c := char_code a in
  if ((48 <=? c) && (c <=? 57))%Z then Some (c - 48)%Z
  else if ((97 <=? c) && (c <=? 102))%Z then Some (c - 87)%Z
  else if ((65 <=? c) && (c <=? 70))%Z then Some (c - 55)%Z
  else None.

Fixpoint queryUnescape (s : string) : option string :=
  match s with
  | EmptyString => Some EmptyString
  | String "%" s' =>
      match s' with
      | String a (String b s'') =>
          x ← unhex a; y ← unhex b; r ← queryUnescape s'';
          Some (String (char_of (16 * x + y)) r)
      | _ => None
      end
  | String "+" s' => r ← queryUnescape s'; Some (String " " r)
  | String a s' => r ← queryUnescape s'; Some (String a r)
  end.

Abbreviation values := (gmap string (list string)).

Definition query_pair (m : values) (part : string) : values :=
  if negb (free_of ";" part) then m
  else if decide (part = "") then m
  else
    let '(k, v) := match splitN part "=" 2 with
                   | [k; v] => (k, v)
                   | _ => (part, "")
                   end in
    match queryUnescape k, queryUnescape v with
    | Some k, Some v => <[k := default [] (m !! k) ++ [v]]> m
    | _, _ => m
    end.

Definition parseQuery (raw : string) : values := foldl query_pair ∅ (split "&" raw).

(** [url.Values.Get]. *)
Definition values_get (m : values) (key : string) : string :=
  default "" (head (default [] (m !! key))).

(** ** Requests *)

(** The fields of [tls.ConnectionState] the server reports; a peer certificate
    is its subject, printed. *)
Record conn_state := ConnectionState {
  cs_version : Z;
  cs_cipher_suite : Z;
  cs_negotiated_protocol : string;
  cs_server_name : string;
  cs_did_resume : bool;
  cs_ech_accepted : bool;
  cs_peer_certificates : list string;
}.

(** A request body: the bytes that arrive, and the error that ends them, if it is
    not the end of the body. *)
Record body := Body { body_data : list byte; body_err : option string }.

(** [io.ReadAll(io.LimitReader(body, n))]. *)
Definition read_limited (b : body) (n : Z) : outcome (list byte) :=
  if decide (n ≤ len (body_data b))%Z then Ok (take (Z.to_nat n) (body_data b))
  else match body_err b with
       | Some e => Err e
       | None => Ok (body_data b)
       end.

Record request := Request {
  r_method : string;
  r_path : string;                  (* URL.Path *)
  r_rawquery : string;              (* URL.RawQuery *)
  r_request_uri : string;           (* URL.RequestURI() *)
  r_proto : string;
  r_host : string;
  r_header : header;
  r_tls : option conn_state;
  r_remote_addr : string;
  r_path_values : gmap string string;   (* set by the mux *)
  r_body : body;
}.

Definition r_query (r : request) : values := parseQuery (r_rawquery r).
Definition r_path_value (r : request) (name : string) : string :=
  default "" (r_path_values r !! name).

(** ** The response writer *)

Record writer := Writer {
  w_head : bool;                            (* the request was a HEAD *)
  w_header : header;                        (* what w.Header() returns *)
  w_informational : list (Z * header);      (* 1xx heads already sent *)
  w_sent : option (Z * header);             (* the status, and the header snapshot *)
  w_body : list byte;
  w_written : Z;                            (* bytes offered to Write so far *)
  w_flushes : list nat;                     (* body length at each flush *)
}.

Definition new_writer (head : bool) : writer := Writer head ∅ [] None [] 0 [].

(** Handlers: state passing over the writer, with panics. *)
Definition M (A : Type) : Type := writer → outcome (A * writer).
#[export] Instance M_ret : MRet M := λ A a w, Ok (a, w).
#[export] Instance M_bind : MBind M := λ A B f m w,
  match m w with
  | Ok (a, w) => f a w
  | Err e => Err e
  | Panic => Panic
  end.

Definition get_header : M header := λ w, Ok (w_header w, w).
Definition modify_header (f : header → header) : M unit := λ w,
  Ok ((), Writer (w_head w) (f (w_header w)) (w_informational w) (w_sent w) (w_body w)
            (w_written w) (w_flushes w)).
Definition setHeader (key value : string) : M unit := modify_header (header_set key value).

(** [response.WriteHeader]: 1xx other than 101 are sent at once and do not
    count; the first other code takes the snapshot; a later one is only logged.
    A code that is not three digits panics ([checkWriteHeaderCode]). *)
Definition writeHeader (code : Z) : M unit := λ w,
  match w_sent w with
  | Some _ => Ok ((), w)
  | None =>
      if decide (code < 100 ∨ 999 < code)%Z then Panic
      else if decide (code ≤ 199 ∧ code ≠ 101)%Z then
        Ok ((), Writer (w_head w) (w_header w) (w_informational w ++ [(code, w_header w)])
                  (w_sent w) (w_body w) (w_written w) (w_flushes w))
      else
        Ok ((), Writer (w_head w) (w_header w) (w_informational w) (Some (code, w_header w))
                  (w_body w) (w_written w) (w_flushes w))
  end.

Definition bodyAllowedForStatus (code : Z) : bool :=
  negb ((100 <=? code) && (code <=? 199) || (code =? 204) || (code =? 304))%Z.

(** The declared length: a [Content-Length] that is a non-negative [int64]. *)
Definition declared_length (h : header) : option Z :=
  match header_get h "Content-Length" with
  | "" => None
  | s => parseUint (trimSpace s) 63
  end.

(** The first write, or flush, sends a 200 head when none was sent. *)
Definition ensure_header : M unit := λ w,
  match w_sent w with None => writeHeader 200 w | Some _ => Ok ((), w) end.

(** [response.Write] after the head; the result is whether it succeeded. *)
Definition write_body (data : list byte) : M bool := λ w,
    match w_sent w with
    | None => Panic
    | Some (code, h) =>
        if decide (data = []) then Ok (true, w)
        else if negb (bodyAllowedForStatus code) then Ok (false, w)
        else
          let written := (w_written w + len data)%Z in
          let ok := match declared_length h with
                    | Some n => bool_decide (written ≤ n)%Z
                    | None => true
                    end in
          Ok (ok, Writer (w_head w) (w_header w) (w_informational w) (w_sent w)
                    (if ok && negb (w_head w) then w_body w ++ data else w_body w)
                    written (w_flushes w))
    end.
Definition write (data : list byte) : M bool := ensure_header ;; write_body data.

(** [flusher.Flush]: sends the head if it is not sent, then what is buffered. *)
Definition record_flush : M unit := λ w,
  Ok ((), Writer (w_head w) (w_header w) (w_informational w) (w_sent w) (w_body w)
            (w_written w) (w_flushes w ++ [length (w_body w)])).
Definition flush_writer : M unit := ensure_header ;; record_flush.

(** [http.Error]. *)
Definition httpError (msg : string) (code : Z) : M unit :=
  modify_header (header_del "Content-Length") ;;
  setHeader "Content-Type" "text/plain; charset=utf-8" ;;
  setHeader "X-Content-Type-Options" "nosniff" ;;
  writeHeader code ;;
  write (bytes (msg +:+ String (char_of 10) "")) ;;
  mret ().

(** ** Serving one request *)

Record response := Response {
  resp_status : Z;
  resp_header : header;
  resp_body : list byte;
  resp_informational : list (Z * header);
}.

(** Run a handler on a fresh writer, then finish the request: a handler that
    sent nothing has answered 200. *)
Definition serve (head : bool) (h : M ()) : outcome response :=
  match (h ;; ensure_header) (new_writer head) with
  | Ok (_, w) =>
      match w_sent w with
      | Some (code, hdr) => Ok (Response code hdr (w_body w) (w_informational w))
      | None => Panic
      end
  | Err e => Err e
  | Panic => Panic
  end.

(** ** Running handlers *)

Lemma run_bind {A B} (m : M A) (f : A → M B) w a w' :
  m w = Ok (a, w') → (m ≫= f) w = f a w'.
Proof. intros E. unfold mbind, M_bind. by rewrite E. Qed.

Lemma run_bind_Err {A B} (m : M A) (f : A → M B) w e :
  m w = Err e → (m ≫= f) w = Err e.
Proof. intros E. unfold mbind, M_bind. by rewrite E. Qed.

(** A writer to which nothing has been sent, with the header [h]. *)
Definition fresh_writer (head : bool) (h : header) : writer := Writer head h [] None [] 0 [].

Lemma run_setHeader key value head h :
  setHeader key value (fresh_writer head h) = Ok ((), fresh_writer head (header_set key value h)).
Proof. done. Qed.

Lemma run_delHeader key head h :
  modify_header (header_del key) (fresh_writer head h) = Ok ((), fresh_writer head (header_del key h)).
Proof. done. Qed.

Lemma run_writeHeader code head h :
  (200 ≤ code ≤ 999)%Z →
  writeHeader code (fresh_writer head h) = Ok ((), Writer head h [] (Some (code, h)) [] 0 []).
Proof.
  intros Hc. unfold writeHeader. cbn [w_sent fresh_writer].
  by rewrite decide_False, decide_False by lia.
Qed.

(** A write that fits what was declared. *)
Definition fits (h : header) (n : Z) : Prop :=
  match declared_length h with Some m => (n ≤ m)%Z | None => True end.

Lemma run_write code head h data :
  bodyAllowedForStatus code → fits h (len data) →
  ∃ w, write data (Writer head h [] (Some (code, h)) [] 0 []) = Ok (true, w) ∧
    w_sent w = Some (code, h) ∧ w_informational w = [] ∧
    w_body w = if head then [] else data.
Proof.
  intros Hb Hf. unfold write.
  rewrite (run_bind ensure_header _ (Writer head h [] (Some (code, h)) [] 0 []) () _ eq_refl).
  unfold write_body.
  cbn [w_sent]. case_decide as Hd; [eexists; split; [done|]; by destruct head; subst|].
  destruct (bodyAllowedForStatus code); [|done]. cbn [negb w_written].
  eexists. split.
  - do 2 f_equal. unfold fits in Hf. destruct (declared_length h); [|done].
    apply bool_decide_eq_true. lia.
  - cbn. split_and!; [done..|]. unfold fits in Hf.
    destruct (declared_length h); [rewrite bool_decide_eq_true_2 by lia|]; by destruct head.
Qed.

(** The same on any writer whose head is sent and whose body is empty so far. *)
Lemma run_write_sent w code h data :
  w_sent w = Some (code, h) → w_body w = [] → w_written w = 0%Z → fits h (len data) →
  ∃ ok w', write data w = Ok (ok, w') ∧
    w_sent w' = Some (code, h) ∧ w_informational w' = w_informational w ∧
    w_body w' = if bodyAllowedForStatus code && negb (w_head w) then data else [].
Proof.
  intros Hs Hb Hw Hf. unfold write.
  rewrite (run_bind ensure_header _ w () w) by (unfold ensure_header; by rewrite Hs).
  unfold write_body. rewrite Hs. case_decide as Hd.
  { eexists _, w. split; [done|]. subst data. rewrite Hb. by destruct (_ && _). }
  destruct (bodyAllowedForStatus code); cbn [negb andb]; [|by eexists _, w].
  rewrite Hw, Hb. eexists _, _. split; [reflexivity|]. cbn [w_sent w_informational w_body].
  split_and!; [done..|]. unfold fits in Hf. destruct (declared_length h); [|by destruct (w_head w)].
  rewrite bool_decide_true by lia. by destruct (w_head w).
Qed.

(** A first write without a status sends 200. *)
Lemma run_write_unsent w data :
  w_sent w = None → w_body w = [] → w_written w = 0%Z → fits (w_header w) (len data) →
  ∃ ok w', write data w = Ok (ok, w') ∧
    w_sent w' = Some (200%Z, w_header w) ∧ w_informational w' = w_informational w ∧
    w_body w' = if w_head w then [] else data.
Proof.
  intros Hs Hb Hw Hf.
  assert (ensure_header w = Ok ((), Writer (w_head w) (w_header w) (w_informational w)
    (Some (200%Z, w_header w)) (w_body w) (w_written w) (w_flushes w))) as He.
  { unfold ensure_header, writeHeader. by rewrite Hs. }
  destruct (run_write_sent (Writer (w_head w) (w_header w) (w_informational w)
    (Some (200%Z, w_header w)) (w_body w) (w_written w) (w_flushes w)) 200 (w_header w) data)
    as (ok & w' & Hwr & Hs' & Hi & Hb'); [done..|].
  exists ok, w'. split; [|split_and!; [done..|]].
  - unfold write in *. rewrite (run_bind _ _ _ _ _ He). exact Hwr.
  - rewrite Hb'. by destruct (w_head w).
Qed.

(** Head, status and body in one go: the shape of most replies. *)
Definition reply (code : Z) (data : list byte) : M () :=
  writeHeader code ;; write data ;; mret ().

Lemma run_reply code head h data :
  (200 ≤ code ≤ 999)%Z → bodyAllowedForStatus code → fits h (len data) →
  ∃ w, reply code data (fresh_writer head h) = Ok ((), w) ∧
    w_sent w = Some (code, h) ∧ w_informational w = [] ∧
    w_body w = if head then [] else data.
Proof.
  intros Hc Hb Hf. unfold reply.
  rewrite (run_bind _ _ _ _ _ (run_writeHeader code head h Hc)).
  destruct (run_write code head h data Hb Hf) as (w & Hw & Hs & Hi & Hbody).
  rewrite (run_bind _ _ _ _ _ Hw). by exists w.
Qed.

(** [write] with nothing sent sends 200 first. *)
Lemma run_write_fresh head h data :
  fits h (len data) →
  ∃ w, write data (fresh_writer head h) = Ok (true, w) ∧
    w_sent w = Some (200%Z, h) ∧ w_informational w = [] ∧
    w_body w = if head then [] else data.
Proof. intros Hf. by apply (run_write 200 head h data). Qed.

Lemma serve_done head m w code h :
  m (new_writer head) = Ok ((), w) → w_sent w = Some (code, h) →
  serve head m = Ok (Response code h (w_body w) (w_informational w)).
Proof.
  intros Hm Hs. unfold serve. rewrite (run_bind _ _ _ _ _ Hm). unfold ensure_header.
  rewrite Hs. cbn iota beta. by rewrite Hs.
Qed.

(** The response of [http.Error]. *)
Definition error_header (h : header) : header :=
  header_set "X-Content-Type-Options" "nosniff"
    (header_set "Content-Type" "text/plain; charset=utf-8" (header_del "Content-Length" h)).

Definition error_body (msg : string) : list byte := bytes (msg +:+ String (char_of 10) "").

Lemma declared_length_error h : declared_length (error_header h) = None.
Proof.
  unfold declared_length, header_get, header_values, error_header, header_set, header_del.
  change (canonicalKey "X-Content-Type-Options") with "X-Content-Type-Options".
  change (canonicalKey "Content-Type") with "Content-Type".
  change (canonicalKey "Content-Length") with "Content-Length".
  by simplify_map_eq.
Qed.

Lemma run_httpError msg code head h :
  (200 ≤ code ≤ 999)%Z → bodyAllowedForStatus code →
  ∃ w, httpError msg code (fresh_writer head h) = Ok ((), w) ∧
    w_sent w = Some (code, error_header h) ∧ w_informational w = [] ∧
    w_body w = if head then [] else error_body msg.
Proof.
  intros Hc Hb. unfold httpError.
  rewrite (run_bind _ _ _ _ _ (run_delHeader _ _ _)).
  rewrite (run_bind _ _ _ _ _ (run_setHeader _ _ _ _)).
  rewrite (run_bind _ _ _ _ _ (run_setHeader _ _ _ _)).
  apply (run_reply code head (error_header h) (error_body msg)); [done..|].
  unfold fits. by rewrite declared_length_error.
Qed.

Lemma serve_httpError msg code head :
  (200 ≤ code ≤ 999)%Z → bodyAllowedForStatus code →
  serve head (httpError msg code)
  = Ok (Response code (error_header ∅) (if head then [] else error_body msg) []).
Proof.
  intros Hc Hb. destruct (run_httpError msg code head ∅ Hc Hb) as (w & Hw & Hs & Hi & Hbody).
  by rewrite (serve_done _ _ _ _ _ Hw Hs), Hi, Hbody.
Qed.

(** ** Query strings of one parameter *)

Definition query_safe (a : ascii) : bool :=
  negb (bool_decide (a ∈ ["%"; "+"; "&"; ";"; "="]%char)).

Lemma queryUnescape_safe s : sforall query_safe s → queryUnescape s = Some s.
Proof.
  induction s as [|a s IH]; [done|]. cbn [sforall].
  intros [Ha Hs]%andb_True. specialize (IH Hs).
  destruct (decide (a = "%"%char)) as [->|H1]; [done|].
  destruct (decide (a = "+"%char)) as [->|H2]; [done|].
  assert (queryUnescape (String a s) = (r ← queryUnescape s; Some (String a r))) as ->.
  { destruct a as [[] [] [] [] [] [] [] []]; done. }
  by rewrite IH.
Qed.

Lemma safe_free c s : query_safe c = false → sforall query_safe s → free_of c s.
Proof.
  intros Hc. induction s as [|a s IH]; [done|]. cbn.
  intros [Ha Hs]%andb_True. apply andb_True. split; [|auto].
  rewrite bool_decide_false; [done|]. intros ->. by rewrite Hc in Ha.
Qed.

Lemma parseQuery_single key value :
  key ≠ "" → sforall query_safe key → sforall query_safe value →
  parseQuery (key +:+ String "=" value) = {[key := [value]]}.
Proof.
  intros Hne Hk Hv. unfold parseQuery.
  assert (sforall query_safe (key +:+ value)) as Hkv by (rewrite sforall_app; by apply andb_True).
  assert (∀ c, query_safe c = false → c ≠ "="%char → free_of c (key +:+ String "=" value)) as Hf.
  { intros c Hc Hceq. assert (free_of c key) by by eapply safe_free.
    assert (free_of c value) by by eapply safe_free.
    clear -H H0 Hceq. induction key as [|a key IH].
    - rewrite sapp_nil_l. cbn. by rewrite bool_decide_false.
    - rewrite sapp_cons_l. cbn in *. apply andb_True in H as [? ?]. apply andb_True; auto. }
  rewrite split_free by by apply Hf. cbn [foldl]. unfold query_pair.
  assert (free_of ";" (key +:+ String "=" value) = true) as ->
    by by apply Is_true_true, Hf.
  cbn [negb]. rewrite decide_False.
  2: { intros E. apply (f_equal String.length) in E. rewrite sapp_length in E. simpl in E. lia. }
  unfold splitN. cbn [pred]. rewrite split_cuts_app, split_cuts_O by by eapply safe_free.
  rewrite !queryUnescape_safe by done. by rewrite lookup_empty, insert_empty.
Qed.
