(* ===== verification/NetIP.v ===== *)
(** * Go's [net.ParseIP]

    IPv4 in dotted decimal and IPv6 with one ellipsis and a trailing IPv4, as
    [net/netip] parses them; the result is the 16 bytes of the address.  An
    address with a zone is not an IP to [net.ParseIP]. *)

From S2P Require Import Prelude GoStrings Strconv Http.

Open Scope Z_scope.

(** One field of an IPv4 address: digits without a leading zero, up to 255. *)
Definition ipv4_field (s : string) : option byte :=
  match s with
  | String "0" (String _ _) => None
  | _ => n ← parse_digits s; if decide (n ≤ 255) then Some (byte_of_Z n) else None
  end.

Definition parseIPv4Fields (s : string) : option (list byte) :=
  match split "." s with
  | [a; b; c; d] =>
      a ← ipv4_field a; b ← ipv4_field b; c ← ipv4_field c; d ← ipv4_field d;
      Some [a; b; c; d]
  | _ => None
  end.

(** The leading hexadecimal digits of a group, at most four of them, with their
    value and what follows; the inner result is [None] when there are five. *)
Fixpoint hex_group (n : nat) (acc : Z) (s : string) : option (nat * Z * string) :=
  match s with
  | String a s' =>
      match unhex a with
      | Some d => if decide (3 < n)%nat then None else hex_group (S n) (acc * 16 + d) s'
      | None => Some (n, acc, s)
      end
  | EmptyString => Some (n, acc, s)
  end.

(** The loop over the groups: [ip] the bytes so far, [ellipsis] where the
    zeros go.  Every turn adds bytes, so sixteen turns are enough. *)
Fixpoint ipv6_loop (fuel : nat) (ip : list byte) (ellipsis : option nat) (s : string) :
    option (list byte * option nat) :=
  match fuel with
  | O => None
  | S fuel =>
      if decide (16 ≤ length ip)%nat then (if decide (s = "") then Some (ip, ellipsis) else None)
      else
        '(off, acc, rest) ← hex_group 0 0 s;
        if decide (off = 0%nat) then None
        else match rest with
        | String "." _ =>
            if decide (ellipsis = None ∧ length ip ≠ 12%nat) then None
            else if decide (16 < length ip + 4)%nat then None
            else fields ← parseIPv4Fields s; Some (ip ++ fields, ellipsis)
        | _ =>
            let ip := ip ++ [byte_of_Z (acc / 256); byte_of_Z acc] in
            match rest with
            | EmptyString => Some (ip, ellipsis)
            | String ":" EmptyString => None
            | String ":" (String ":" rest) =>
                match ellipsis with
                | Some _ => None
                | None =>
                    if decide (rest = "") then Some (ip, Some (length ip))
                    else ipv6_loop fuel ip (Some (length ip)) rest
                end
            | String ":" rest => ipv6_loop fuel ip ellipsis rest
            | _ => None
            end
        end
  end.

(** Zeros where the ellipsis is; it stands for one group at least. *)
Definition expand (ip : list byte) (ellipsis : option nat) : option (list byte) :=
  if decide (length ip < 16)%nat then
    i ← ellipsis; Some (take i ip ++ replicate (16 - length ip) x00 ++ drop i ip)
  else match ellipsis with Some _ => None | None => Some ip end.

Definition parseIPv6 (s : string) : option (list byte) :=
  match s with
  | String ":" (String ":" EmptyString) => Some (replicate 16 x00)
  | String ":" (String ":" s) => '(ip, ellipsis) ← ipv6_loop 17 [] (Some 0%nat) s; expand ip ellipsis
  | _ => '(ip, ellipsis) ← ipv6_loop 17 [] None s; expand ip ellipsis
  end.

(** [netip.ParseAddr] decides by the first of the three characters. *)
Fixpoint ip_kind (s : string) : option ascii :=
  match s with
  | EmptyString => None
  | String a s' => if decide (a = "." ∨ a = ":" ∨ a = "%")%char then Some a else ip_kind s'
  end.

Definition ipv4_in_6 : list byte := replicate 10 x00 ++ [xff; xff].

Definition ParseIP (s : string) : option (list byte) :=
  match ip_kind s with
  | Some "."%char => ip ← parseIPv4Fields s; Some (ipv4_in_6 ++ ip)
  | Some ":"%char => if free_of "%" s then parseIPv6 s else None
  | _ => None
  end.

Example ParseIP_loopback : ParseIP "127.0.0.1" = Some (ipv4_in_6 ++ [x7f; x00; x00; x01]).
Proof. reflexivity. Qed.
Example ParseIP_loopback6 : ParseIP "::1" = Some (replicate 15 x00 ++ [x01]).
Proof. reflexivity. Qed.
Example ParseIP_mapped : ParseIP "::ffff:127.0.0.1" = ParseIP "127.0.0.1".
Proof. reflexivity. Qed.
Example ParseIP_not :
  ParseIP <$> ["localhost"; "1.2.3"; "01.2.3.4"; "1.2.3.256"; "::1%lo"; "1::2::3"; ":1"; "1:2:3:4:5:6:7:8:9"]
  = replicate 8 None.
Proof. reflexivity. Qed.

(** A dotted or coloned address is made of no other separators than these, so a
    name without a dot and a colon is never an address. *)
Lemma ip_kind_plain s : free_of "." s → free_of ":" s → ParseIP s = None.
Proof.
  intros Hd Hc. unfold ParseIP. assert (∀ a, ip_kind s = Some a → a = "%"%char) as Hk.
  { induction s as [|b s IH]; [done|]. intros a. cbn in *.
    apply andb_True in Hd as [Hd Hd'], Hc as [Hc Hc'].
    rewrite negb_True, bool_decide_spec in Hd, Hc.
    case_decide as H; [intros [= <-]; naive_solver | by apply IH]. }
  destruct (ip_kind s) as [a|]; [|done]. by rewrite (Hk a eq_refl).
Qed.
