(* ===== verification/X509.v ===== *)
(** * [crypto/x509] and [crypto/ecdsa], symbolically

    A certificate is the record of its fields; a signature is the key it was
    made with, so it verifies under that key's public half and no other.  A
    private key is the number of the draw from the entropy source that made it,
    and so is its public half: two draws never give the same key.  What DER
    looks like is left to an [X509Codec]: the laws are that reading gives back
    what was written.

    The second half is the specification: what RFC 5280 and RFC 6125 have a
    client check before it trusts a server. *)

From S2P Require Import Prelude GoStrings Unicode GoTime Pem NetIP.

Open Scope Z_scope.

Abbreviation key := nat.

Inductive keyUsage := DigitalSignature | KeyEncipherment | CertSign.
Inductive extKeyUsage := ServerAuth | ClientAuth.

#[export] Instance keyUsage_eq_dec : EqDecision keyUsage.
Proof. solve_decision. Defined.
#[export] Instance extKeyUsage_eq_dec : EqDecision extKeyUsage.
Proof. solve_decision. Defined.

(** [x509.Certificate], as a template and as parsed.  [MaxPathLen] is the
    constraint in effect: [Some 0] for [MaxPathLenZero]. *)
Record Certificate := X509 {
  SerialNumber : Z;
  Subject : string;                    (* the common name *)
  Issuer : string;
  NotBefore : Z;
  NotAfter : Z;
  KeyUsage : list keyUsage;
  ExtKeyUsage : list extKeyUsage;
  BasicConstraintsValid : bool;
  IsCA : bool;
  MaxPathLen : option Z;
  DNSNames : list string;
  IPAddresses : list (list byte);
  PublicKey : option key;
  SubjectKeyId : option key;           (* a hash of the public key *)
  AuthorityKeyId : option key;
  SignedBy : option key;
}.

#[export] Instance Certificate_eq_dec : EqDecision Certificate.
Proof. solve_decision. Defined.

(** The certificate [CreateCertificate] makes of a template. *)
Definition signed (template parent : Certificate) (pub priv : key) : Certificate :=
  X509 (SerialNumber template) (Subject template) (Subject parent)
    (NotBefore template) (NotAfter template) (KeyUsage template) (ExtKeyUsage template)
    (BasicConstraintsValid template) (IsCA template) (MaxPathLen template)
    (DNSNames template) (IPAddresses template)
    (Some pub)
    (match SubjectKeyId template with
     | Some id => Some id
     | None => if IsCA template then Some pub else None
     end)
    (match SubjectKeyId parent with
     | Some id => if decide (Subject parent = Subject template) then AuthorityKeyId template else Some id
     | None => AuthorityKeyId template
     end)
    (Some priv).

Section Create.
Context `{UnicodeTables}.

(** The checks of [CreateCertificate] that can fail on the fields used here;
    a name in a certificate is ASCII (an IA5String). *)
Definition CreateCertificate (template parent : Certificate) (pub priv : key) : outcome Certificate :=
  if decide (SerialNumber template < 0) then Err "x509: serial number must be positive"
  else if BasicConstraintsValid template && negb (IsCA template) && bool_decide (MaxPathLen template ≠ None)
  then Err "x509: only CAs are allowed to specify MaxPathLen"
  else if decide (is_Some (PublicKey parent) ∧ PublicKey parent ≠ Some priv)
  then Err "x509: provided PrivateKey doesn't match parent's PublicKey"
  else match List.find (λ name, negb (sforall is_ascii_char name)) (DNSNames template) with
       | Some name => Err ("x509: " +:+ (quote name +:+ " cannot be encoded as an IA5String"))
       | None => Ok (signed template parent pub priv)
       end.

Lemma CreateCertificate_ok template parent pub priv :
  0 ≤ SerialNumber template →
  (IsCA template = true ∨ MaxPathLen template = None) →
  (PublicKey parent = None ∨ PublicKey parent = Some priv) →
  Forall (λ name, sforall is_ascii_char name) (DNSNames template) →
  CreateCertificate template parent pub priv = Ok (signed template parent pub priv).
Proof.
  intros Hs Hm Hp Hn. unfold CreateCertificate. rewrite decide_False by lia.
  assert (BasicConstraintsValid template && negb (IsCA template)
    && bool_decide (MaxPathLen template ≠ None) = false) as ->.
  { destruct Hm as [-> | ->]; [by rewrite andb_false_r|]. rewrite bool_decide_false by (intros Hne; by apply Hne). by rewrite andb_false_r. }
  rewrite decide_False by (intros [[k Hk] Hne]; destruct Hp; congruence).
  destruct (List.find _ _) as [name|] eqn:E; [|done].
  apply List.find_some in E as [Hi Hf]. rewrite <- list_elem_of_In in Hi.
  rewrite Forall_forall in Hn. specialize (Hn _ Hi). cbn in Hf.
  destruct (sforall is_ascii_char name); done.
Qed.

(** A name that is not ASCII is refused. *)
Lemma CreateCertificate_non_ascii template parent pub priv name :
  name ∈ DNSNames template → ¬ sforall is_ascii_char name →
  ∃ e, CreateCertificate template parent pub priv = Err e.
Proof.
  intros Hi Hn. unfold CreateCertificate.
  destruct (List.find _ _) as [name'|] eqn:E; [|].
  { destruct (decide _); [by eexists|]. destruct (_ && _); [by eexists|].
    destruct (decide _); by eexists. }
  rewrite list_elem_of_In in Hi. pose proof (List.find_none _ _ E _ Hi) as Hf. cbn in Hf.
  destruct (sforall is_ascii_char name); [by destruct Hn|done].
Qed.
End Create.

(** ** DER *)

Class X509Codec := {
  cert_der : Certificate → list byte;
  ParseCertificate : list byte → outcome Certificate;
  ec_der : key → list byte;                 (* [MarshalECPrivateKey] *)
  pkcs8_der : key → list byte;              (* [MarshalPKCS8PrivateKey] *)
  parsePrivateKey : list byte → outcome key;       (* crypto/tls's, of either form *)
  ParseECPrivateKey : list byte → outcome key;
  parse_cert_der : ∀ c, ParseCertificate (cert_der c) = Ok c;
  parse_ec_der : ∀ k, parsePrivateKey (ec_der k) = Ok k;
  parse_pkcs8_der : ∀ k, parsePrivateKey (pkcs8_der k) = Ok k;
  parse_ec_key : ∀ k, ParseECPrivateKey (ec_der k) = Ok k;
}.

(** [tls.Certificate]: the chain as sent, leaf first, and the private key. *)
Record tls_certificate := TlsCertificate {
  Chain : list (list byte);
  PrivateKey : key;
}.

Section KeyPair.
Context `{X509Codec}.

Definition is_key_type (type : string) : bool :=
  bool_decide (type = "PRIVATE KEY" ∨ type = "EC PRIVATE KEY" ∨ type = "RSA PRIVATE KEY").

(** [tls.X509KeyPair]. *)
Definition X509KeyPair (certPEM keyPEM : string) : outcome tls_certificate :=
  match List.filter (λ b, bool_decide (b.1 = "CERTIFICATE")) (pem_all certPEM) with
  | [] => Err "tls: failed to find any PEM data in certificate input"
  | (b :: _) as blocks =>
      match List.find (λ b, is_key_type b.1) (pem_all keyPEM) with
      | None => Err "tls: failed to find any PEM data in key input"
      | Some (_, keyDER) =>
          leaf ← ParseCertificate b.2;
          k ← parsePrivateKey keyDER;
          if decide (PublicKey leaf = Some k) then Ok (TlsCertificate (snd <$> blocks) k)
          else Err "tls: private key does not match public key"
      end
  end.

Lemma X509KeyPair_pem c k keyType keyDER :
  PublicKey c = Some k → is_key_type keyType = true → free_of "-" keyType →
  parsePrivateKey keyDER = Ok k →
  X509KeyPair (pem_encode "CERTIFICATE" (cert_der c)) (pem_encode keyType keyDER)
  = Ok (TlsCertificate [cert_der c] k).
Proof.
  intros Hp Ht Hf Hk. unfold X509KeyPair. rewrite !pem_all_one by done.
  cbn [List.filter List.find fst snd]. rewrite bool_decide_true by done. rewrite Ht. cbn [snd].
  rewrite parse_cert_der. cbn [mbind outcome_bind]. rewrite Hk. cbn [mbind outcome_bind].
  by rewrite decide_True.
Qed.

(** The certificates a peer reads from a chain. *)
Definition chain_certs (c : tls_certificate) : option (list Certificate) :=
  mapM (λ der, match ParseCertificate der with Ok c => Some c | _ => None end) (Chain c).

Lemma chain_certs_one c k : chain_certs (TlsCertificate [cert_der c] k) = Some [c].
Proof. unfold chain_certs. cbn. by rewrite parse_cert_der. Qed.
End KeyPair.

(** ** What a client checks *)

(** RFC 5280 §6.1: the validity period. *)
Definition time_ok (t : Z) (c : Certificate) : Prop := NotBefore c ≤ t ≤ NotAfter c.
#[export] Instance time_ok_dec t c : Decision (time_ok t c).
Proof. unfold time_ok. apply _. Defined.

(** RFC 6125: an address is matched against the addresses, a name against the
    names, without regard to case, a leading [*.] standing for one label. *)
Definition dns_match (host pattern : string) : bool :=
  let host := smap lower_char host in
  let pattern := smap lower_char pattern in
  bool_decide (host = pattern) ||
  match pattern with
  | String "*" (String "." rest) =>
      match splitN host "." 2 with
      | [label; rest'] => negb (bool_decide (label = "")) && bool_decide (rest' = rest)
      | _ => false
      end
  | _ => false
  end.

Lemma dns_match_refl host : dns_match host host.
Proof. unfold dns_match. by rewrite bool_decide_true. Qed.

Definition host_ok (host : string) (c : Certificate) : Prop :=
  match ParseIP host with
  | Some ip => ip ∈ IPAddresses c
  | None => Exists (λ pattern, dns_match host pattern) (DNSNames c)
  end.
#[export] Instance host_ok_dec host c : Decision (host_ok host c).
Proof. unfold host_ok. destruct (ParseIP host); apply _. Defined.

(** [issuer] may have issued [c], and did: the names chain, the key identifiers
    agree where both are given, the issuer is a CA that may sign certificates,
    with [below] CAs under it at most what it allows, and its key made the
    signature. *)
Definition issued (below : Z) (issuer c : Certificate) : Prop :=
  Subject issuer = Issuer c ∧
  (match AuthorityKeyId c, SubjectKeyId issuer with Some a, Some s => a = s | _, _ => True end) ∧
  BasicConstraintsValid issuer = true ∧ IsCA issuer = true ∧ CertSign ∈ KeyUsage issuer ∧
  (match MaxPathLen issuer with Some n => below ≤ n | None => True end) ∧
  is_Some (SignedBy c) ∧ SignedBy c = PublicKey issuer.

(** A certification path at time [t] from [c] to one of the anchors [roots],
    through certificates the client holds; [below] counts the CAs passed. *)
Inductive certified (roots held : list Certificate) (t : Z) : Z → Certificate → Prop :=
| certified_root below c root :
    root ∈ roots → time_ok t root → issued below root c → certified roots held t below c
| certified_step below c ca :
    ca ∈ held → time_ok t ca → issued below ca c →
    certified roots held t (below + 1) ca → certified roots held t below c.

(** All the checks on a certificate presented for a purpose, by a client that
    holds some other certificates too. *)
Definition trusted (roots held : list Certificate) (t : Z) (purpose : extKeyUsage) (c : Certificate) : Prop :=
  time_ok t c ∧ purpose ∈ ExtKeyUsage c ∧ certified roots held t 0 c.

(** A signature by a key that no certificate in sight has ends every path. *)
Lemma not_certified roots held t below c :
  (∀ ca, ca ∈ roots ++ held → ¬ issued below ca c) → ¬ certified roots held t below c.
Proof. intros Hn Hc. destruct Hc; eapply Hn; eauto; set_solver. Qed.

Lemma issued_key below issuer c : issued below issuer c → PublicKey issuer = SignedBy c.
Proof. by intros (_ & _ & _ & _ & _ & _ & _ & ->). Qed.

(** Where the signature is not by the key of any CA, nobody issued it. *)
Lemma foreign_not_certified roots held t below c :
  (∀ ca, ca ∈ roots ++ held → PublicKey ca ≠ SignedBy c) → ¬ certified roots held t below c.
Proof.
  intros Hk. apply not_certified. intros ca Hi Hc. apply (Hk ca Hi). by eapply issued_key.
Qed.

(** What a CA signs, it issued. *)
Lemma issued_signed below template ca pub priv :
  PublicKey ca = Some priv → SubjectKeyId ca = Some priv →
  BasicConstraintsValid ca = true → IsCA ca = true → CertSign ∈ KeyUsage ca →
  AuthorityKeyId template = None →
  (match MaxPathLen ca with Some n => below ≤ n | None => True end) →
  issued below ca (signed template ca pub priv).
Proof.
  intros Hp Hs Hb Hc Hk Ha Hm. unfold issued, signed. cbn. rewrite Hs.
  split_and!; try done. case_decide; [by rewrite Ha|done].
Qed.

(** ** A codec, to show that the laws can hold *)

#[export] Instance keyUsage_countable : Countable keyUsage.
Proof.
  apply (inj_countable' (λ u, match u with DigitalSignature => 0 | KeyEncipherment => 1 | CertSign => 2 end)
    (λ n, if decide (n = 0) then DigitalSignature else if decide (n = 1) then KeyEncipherment else CertSign)).
  by intros [].
Defined.
#[export] Instance extKeyUsage_countable : Countable extKeyUsage.
Proof.
  apply (inj_countable' (λ u, match u with ServerAuth => true | ClientAuth => false end)
    (λ b : bool, if b then ServerAuth else ClientAuth)).
  by intros [].
Defined.
#[export] Instance byte_countable : Countable byte.
Proof. apply (inj_countable' Z_of_byte byte_of_Z byte_of_Z_of_byte). Defined.

#[export] Instance Certificate_countable : Countable Certificate.
Proof.
  apply (inj_countable'
    (λ c, ((SerialNumber c, Subject c, Issuer c, NotBefore c, NotAfter c, KeyUsage c, ExtKeyUsage c,
            BasicConstraintsValid c),
           (IsCA c, MaxPathLen c, DNSNames c, IPAddresses c, PublicKey c, SubjectKeyId c,
            AuthorityKeyId c, SignedBy c)))
    (λ '((a, b, c, d, e, f, g, h), (i, j, k, l, m, n, o, p)), X509 a b c d e f g h i j k l m n o p)).
  by intros [].
Defined.

(** A positive number as bytes, a bit each. *)
Fixpoint pos_bytes (p : positive) : list byte :=
  match p with xH => [] | xO p => x00 :: pos_bytes p | xI p => x01 :: pos_bytes p end.
Fixpoint bytes_pos (l : list byte) : positive :=
  match l with [] => xH | x00 :: l => xO (bytes_pos l) | _ :: l => xI (bytes_pos l) end.
Lemma bytes_pos_bytes p : bytes_pos (pos_bytes p) = p.
Proof. induction p; cbn; by f_equal. Qed.

Definition example_parse {A} `{Countable A} (l : list byte) : outcome A :=
  match decode (bytes_pos l) with Some a => Ok a | None => Err "malformed" end.
Lemma example_parse_encode {A} `{Countable A} (a : A) : example_parse (pos_bytes (encode a)) = Ok a.
Proof. unfold example_parse. by rewrite bytes_pos_bytes, decode_encode. Qed.

Definition example_codec : X509Codec := {|
  cert_der c := pos_bytes (encode c);
  ParseCertificate := example_parse;
  ec_der k := pos_bytes (encode k);
  pkcs8_der k := pos_bytes (encode k);
  parsePrivateKey := example_parse;
  ParseECPrivateKey := example_parse;
  parse_cert_der := example_parse_encode;
  parse_ec_der := example_parse_encode;
  parse_pkcs8_der := example_parse_encode;
  parse_ec_key := example_parse_encode;
|}.
