(* ===== verification/Mint.v ===== *)
(** * Drawing randomness, reading the clock

    The entropy source and the clock of a process are sequences, read one
    element at a time; a [mint] computation is what a Go function that uses them
    does, and its error ends the caller.  The lemmas run such a computation a
    step at a time. *)

From S2P Require Import Prelude GoStrings Unicode X509.

Open Scope Z_scope.

Record world := World { draws : nat; ticks : nat }.

(** The world after [n] more draws and [k] more clock readings. *)
Definition later (n k : nat) (w : world) : world := World (n + draws w) (k + ticks w).

Definition mint (A : Type) : Type := world → outcome (A * world).
#[export] Instance mint_ret : MRet mint := λ A a w, Ok (a, w).
#[export] Instance mint_bind : MBind mint := λ A B f m w,
  match m w with
  | Ok (a, w) => f a w
  | Err e => Err e
  | Panic => Panic
  end.
Definition lift {A} (o : outcome A) : mint A := λ w, a ← o; Ok (a, w).

Lemma run_mint {A B} (m : mint A) (f : A → mint B) w a w' :
  m w = Ok (a, w') → (m ≫= f) w = f a w'.
Proof. intros E. unfold mbind, mint_bind. by rewrite E. Qed.

Lemma run_lift {A B} (o : outcome A) (f : A → mint B) w a :
  o = Ok a → (lift o ≫= f) w = f a w.
Proof. by intros ->. Qed.

Section Sources.
Context `{UnicodeTables} `{X509Codec}.
(** The error of each draw, if it fails; the clock at each reading. *)
Context (entropy : nat → option string) (clock : nat → Z).

Definition now : mint Z := λ w, Ok (clock (ticks w), World (draws w) (S (ticks w))).

Definition draw : mint nat := λ w,
  match entropy (draws w) with
  | Some e => Err e
  | None => Ok (draws w, World (S (draws w)) (ticks w))
  end.

(** [ecdsa.GenerateKey]: the key is the draw. *)
Definition GenerateKey : mint key := draw.

(** [x509.CreateCertificate]: the signature draws too. *)
Definition createCertificate (template parent : Certificate) (pub priv : key) : mint (list byte) :=
  draw ;; c ← lift (CreateCertificate template parent pub priv); mret (cert_der c).

Hypothesis entropy_ok : ∀ n, entropy n = None.

Lemma run_draw {B} (f : nat → mint B) w :
  (draw ≫= f) w = f (draws w) (World (S (draws w)) (ticks w)).
Proof using entropy_ok. apply run_mint. unfold draw. by rewrite entropy_ok. Qed.

Lemma run_now {B} (f : Z → mint B) w :
  (now ≫= f) w = f (clock (ticks w)) (World (draws w) (S (ticks w))).
Proof using Type. by apply run_mint. Qed.

Lemma run_create {B} (f : list byte → mint B) template parent pub priv w :
  CreateCertificate template parent pub priv = Ok (signed template parent pub priv) →
  (createCertificate template parent pub priv ≫= f) w
  = f (cert_der (signed template parent pub priv)) (World (S (draws w)) (ticks w)).
Proof using entropy_ok.
  intros Hc. apply run_mint. unfold createCertificate. rewrite run_draw.
  by rewrite (run_lift _ _ _ _ Hc).
Qed.

Lemma run_create_err {B} (f : list byte → mint B) template parent pub priv w e :
  CreateCertificate template parent pub priv = Err e →
  (createCertificate template parent pub priv ≫= f) w = Err e.
Proof using entropy_ok.
  intros Hc. unfold mbind, mint_bind, createCertificate, mbind, mint_bind, draw, lift.
  by rewrite entropy_ok, Hc.
Qed.
End Sources.
