(* ===== verification/Mux.v ===== *)
(** * Go's [http.ServeMux], and what its patterns mean

    Patterns of Go 1.22 and later, without hosts: [METHOD /path] with literal
    segments, [{name}], [{name...}] at the end, and [{$}].  [matchPath] is the
    search of the routing tree ([routing_tree.go]): at every segment a literal
    first, then a wildcard, then a multi wildcard, going back where a branch
    fails; a tree node is the list of the patterns under it.  [path_matches] is
    the meaning the documentation gives a pattern, and the search finds a
    pattern that matches if there is one. *)

From S2P Require Import Prelude GoStrings Unicode StrOrder Http.

(** ** Paths *)

(** [url.PathUnescape]; a malformed escape leaves the string as it is. *)
Fixpoint unescape (s : string) : option string :=
  match s with
  | EmptyString => Some EmptyString
  | String "%" (String a (String b s')) =>
      x ← unhex a; y ← unhex b; rest ← unescape s'; Some (String (char_of (16 * x + y)) rest)
  | String "%" _ => None
  | String a s' => String a <$> unescape s'
  end.
Definition pathUnescape (s : string) : string := default s (unescape s).

(** The segments of a path, raw: what is between the slashes. *)
Definition raw_segments (path : string) : list string := tail (split "/" path).

(** [firstSegment]: unescaped, and a slash for a trailing slash. *)
Definition segment_of (raw : string) (rest : list string) : string :=
  if decide (raw = "" ∧ rest = []) then "/" else pathUnescape raw.

(** [path.Clean] of a rooted path, by segments. *)
Definition clean_step (acc : list string) (seg : string) : list string :=
  if decide (seg = "" ∨ seg = ".") then acc
  else if decide (seg = "..") then tail acc
  else seg :: acc.
Definition clean_segments (path : string) : list string :=
  rev (foldl clean_step [] (split "/" path)).

Definition ends_slash (s : string) : bool := bool_decide (last_char s = Some "/"%char).

Definition cleanPath (p : string) : string :=
  match p with
  | EmptyString => "/"
  | String a _ =>
      let p := if decide (a = "/"%char) then p else String "/" p in
      let np := "/" +:+ join (clean_segments p) "/" in
      if ends_slash p && negb (bool_decide (np = "/")) then np +:+ "/" else np
  end.

(** ** Patterns *)

Inductive segment := Lit (s : string) | Wild (name : string) | Multi (name : string).
#[export] Instance segment_eq_dec : EqDecision segment.
Proof. solve_decision. Defined.

Record pattern := Pattern { p_method : string; p_segments : list segment }.
#[export] Instance pattern_eq_dec : EqDecision pattern.
Proof. solve_decision. Defined.

Fixpoint cut_suffix (suffix s : string) : option string :=
  if decide (s = suffix) then Some "" else
  match s with EmptyString => None | String a s' => String a <$> cut_suffix suffix s' end.

(** The segments of a pattern; what Go refuses, by a panic, is [None]. *)
Fixpoint parse_segments (raws : list string) : option (list segment) :=
  match raws with
  | [] => Some []
  | [""] => Some [Multi ""]
  | raw :: rest =>
      match raw with
      | String "{" body =>
          if decide (last_char body ≠ Some "}"%char) then None
          else
            let name := without_last body in
            if decide (name = "$") then
              match rest with [] => Some [Lit "/"] | _ => None end
            else match cut_suffix "..." name with
                 | Some name =>
                     match rest with
                     | [] => if decide (name = "") then None else Some [Multi name]
                     | _ => None
                     end
                 | None =>
                     if decide (name = "") then None
                     else segments ← parse_segments rest; Some (Wild name :: segments)
                 end
      | _ =>
          if free_of "{" raw
          then segments ← parse_segments rest; Some (Lit (pathUnescape raw) :: segments)
          else None
      end
  end.

Definition parsePattern (s : string) : option pattern :=
  match splitN s " " 2 with
  | [path] => segments ← parse_segments (raw_segments path); Some (Pattern "" segments)
  | [method; path] => segments ← parse_segments (raw_segments path); Some (Pattern method segments)
  | _ => None
  end.

(** ** The search *)

Section Match.
Context {A : Type}.
Abbreviation node := (list (list segment * A)).

(** The patterns under the child for a literal, for a wildcard. *)
Definition lit_child (s : string) (n : node) : node :=
  omap (λ p, match p.1 with Lit s' :: segments => if decide (s' = s) then Some (segments, p.2) else None
                          | _ => None end) n.
Definition wild_child (n : node) : node :=
  omap (λ p, match p.1 with Wild _ :: segments => Some (segments, p.2) | _ => None end) n.
Definition multi_child (n : node) : option (string * A) :=
  head (omap (λ p, match p.1 with [Multi name] => Some (name, p.2) | _ => None end) n).
Definition leaf_pattern (n : node) : option A :=
  head (omap (λ p, match p.1 with [] => Some p.2 | _ => None end) n).

(** [matchPath]: the pattern, and what its wildcards matched. *)
Fixpoint matchPath (n : node) (raws : list string) : option (A * list string) :=
  match raws with
  | [] => a ← leaf_pattern n; Some (a, [])
  | raw :: rest =>
      let s := segment_of raw rest in
      match matchPath (lit_child s n) rest with
      | Some r => Some r
      | None =>
          match (if decide (s = "/") then None
                 else r ← matchPath (wild_child n) rest; Some (r.1, s :: r.2)) with
          | Some r => Some r
          | None =>
              '(name, a) ← multi_child n;
              Some (a, if decide (name = "") then [] else [pathUnescape (join raws "/")])
          end
      end
  end.

(** [matchMethodAndPath]: the method, GET for a HEAD, then any method. *)
Definition method_child (method : string) (ps : list (pattern * A)) : node :=
  omap (λ p, if decide (p_method p.1 = method) then Some (p_segments p.1, p.2) else None) ps.

Definition matchMethodAndPath (ps : list (pattern * A)) (method : string) (raws : list string) :
    option (A * list string) :=
  match (if decide (method = "") then None else matchPath (method_child method ps) raws) with
  | Some r => Some r
  | None =>
      match (if decide (method = "HEAD") then matchPath (method_child "GET" ps) raws else None) with
      | Some r => Some r
      | None => matchPath (method_child "" ps) raws
      end
  end.

(** ** What a pattern means *)

Inductive path_matches : list segment → list string → list string → Prop :=
| matches_end : path_matches [] [] []
| matches_lit s raw rest segments vals :
    segment_of raw rest = s → path_matches segments rest vals →
    path_matches (Lit s :: segments) (raw :: rest) vals
| matches_wild name raw rest segments vals :
    segment_of raw rest ≠ "/" → path_matches segments rest vals →
    path_matches (Wild name :: segments) (raw :: rest) (segment_of raw rest :: vals)
| matches_multi name raw rest :
    path_matches [Multi name] (raw :: rest)
      (if decide (name = "") then [] else [pathUnescape (join (raw :: rest) "/")]).

(** The methods a pattern takes. *)
Definition method_ok (p : pattern) (method : string) : Prop :=
  p_method p = "" ∨ p_method p = method ∨ (p_method p = "GET" ∧ method = "HEAD").

(** ** The search is sound and complete *)

Lemma head_omap {B C} (f : B → option C) l c : head (omap f l) = Some c → ∃ b, b ∈ l ∧ f b = Some c.
Proof.
  intros Hh. assert (c ∈ omap f l) as Hc by (destruct (omap f l); [done|]; injection Hh as ->; by left).
  by apply list_elem_of_omap in Hc.
Qed.

Lemma head_omap_None {B C} (f : B → option C) l b : head (omap f l) = None → b ∈ l → f b = None.
Proof.
  intros Hh Hb. destruct (f b) as [c|] eqn:E; [|done].
  assert (c ∈ omap f l) as Hc by (apply list_elem_of_omap; eauto).
  destruct (omap f l); [by apply elem_of_nil in Hc | done].
Qed.

Lemma elem_of_lit_child s n segments a :
  (segments, a) ∈ lit_child s n ↔ (Lit s :: segments, a) ∈ n.
Proof.
  unfold lit_child. rewrite list_elem_of_omap. split.
  - intros ([[|[s'| |] segs] a'] & Hi & E); cbn in E; try done. case_decide; naive_solver.
  - intros Hi. exists (Lit s :: segments, a). cbn. by rewrite decide_True.
Qed.

Lemma elem_of_wild_child n segments a :
  (segments, a) ∈ wild_child n ↔ ∃ name, (Wild name :: segments, a) ∈ n.
Proof.
  unfold wild_child. rewrite list_elem_of_omap. split.
  - intros ([[|[s'| |] segs] a'] & Hi & E); naive_solver.
  - intros [name Hi]. by exists (Wild name :: segments, a).
Qed.

Lemma matchPath_sound n raws a vals :
  matchPath n raws = Some (a, vals) → ∃ segments, (segments, a) ∈ n ∧ path_matches segments raws vals.
Proof.
  revert n vals. induction raws as [|raw rest IH]; intros n vals Hm; cbn [matchPath] in Hm.
  - apply bind_Some in Hm as (a' & Hl & [= <- <-]).
    apply head_omap in Hl as ([[] ?] & Hi & E); [|done]. injection E as <-.
    eexists. split; [exact Hi|constructor].
  - destruct (matchPath (lit_child _ n) rest) as [[a' v]|] eqn:El.
    { injection Hm as <- <-. apply IH in El as (segments & Hi%elem_of_lit_child & Hp).
      eexists. split; [exact Hi|]. by constructor. }
    destruct (decide (segment_of raw rest = "/")) as [Es|Es].
    2: destruct (matchPath (wild_child n) rest) as [[a' v]|] eqn:Ew.
    2: { injection Hm as <- <-. apply IH in Ew as (segments & Hi & Hp).
         apply elem_of_wild_child in Hi as [name Hi]. eexists. split; [exact Hi|]. by constructor. }
    all: cbn in Hm; destruct (multi_child n) as [[name a']|] eqn:Em; [|done];
      injection Hm as <- <-; apply head_omap in Em as ([segs a''] & Hi & E);
      destruct segs as [|[] []]; try done; injection E as <- <-;
      eexists; (split; [exact Hi|constructor]).
Qed.

Lemma matchPath_complete n raws segments a vals :
  (segments, a) ∈ n → path_matches segments raws vals → is_Some (matchPath n raws).
Proof.
  intros Hi Hp. revert n Hi. induction Hp as [|s raw rest segments vals Hs Hp IH
    |name raw rest segments vals Hs Hp IH|name raw rest]; intros n Hi; cbn [matchPath].
  - destruct (leaf_pattern n) as [a'|] eqn:E; [by eexists|].
    by pose proof (head_omap_None _ _ _ E Hi).
  - rewrite Hs. destruct (IH (lit_child s n)) as [r ->]; [by apply elem_of_lit_child | by eexists].
  - destruct (matchPath (lit_child _ n) rest); [by eexists|]. rewrite decide_False by done.
    destruct (IH (wild_child n)) as [r ->]; [apply elem_of_wild_child; eauto | by eexists].
  - destruct (matchPath (lit_child _ n) rest); [by eexists|].
    destruct (if decide _ then _ else _); [by eexists|].
    destruct (multi_child n) as [[name' a']|] eqn:E; [by eexists|].
    by pose proof (head_omap_None _ _ _ E Hi).
Qed.

Lemma elem_of_method_child method ps segments a :
  (segments, a) ∈ method_child method ps ↔ (Pattern method segments, a) ∈ ps.
Proof.
  unfold method_child. rewrite list_elem_of_omap. split.
  - intros ([[m segs] a'] & Hi & E); cbn in E. case_decide; naive_solver.
  - intros Hi. exists (Pattern method segments, a). cbn. by rewrite decide_True.
Qed.

Lemma matchMethodAndPath_sound ps method raws a vals :
  matchMethodAndPath ps method raws = Some (a, vals) →
  ∃ p, (p, a) ∈ ps ∧ method_ok p method ∧ path_matches (p_segments p) raws vals.
Proof.
  assert (∀ m, matchPath (method_child m ps) raws = Some (a, vals) →
    (m = "" ∨ m = method ∨ (m = "GET" ∧ method = "HEAD")) →
    ∃ p, (p, a) ∈ ps ∧ method_ok p method ∧ path_matches (p_segments p) raws vals) as Hs.
  { intros m (segments & Hi%elem_of_method_child & Hp)%matchPath_sound Hm. by eexists. }
  unfold matchMethodAndPath. intros Hm.
  destruct (if decide (method = "") then _ else _) as [r|] eqn:E1.
  { injection Hm as ->. case_decide; [done|]. apply (Hs method); auto. }
  destruct (if decide (method = "HEAD") then _ else _) as [r|] eqn:E2.
  { injection Hm as ->. case_decide; [|done]. apply (Hs "GET"); auto. }
  apply (Hs ""); auto.
Qed.

Lemma matchMethodAndPath_complete ps method raws p a vals :
  method ≠ "" → (p, a) ∈ ps → method_ok p method → path_matches (p_segments p) raws vals →
  is_Some (matchMethodAndPath ps method raws).
Proof.
  intros Hne Hi Hm Hp. destruct p as [m segments]. cbn in *.
  assert (is_Some (matchPath (method_child m ps) raws)) as [r Hr]
    by (eapply matchPath_complete; [by apply elem_of_method_child | done]).
  unfold matchMethodAndPath. rewrite (decide_False (P := method = "")) by done.
  destruct (matchPath (method_child method ps) raws) eqn:E1; [by eexists|].
  destruct (if decide (method = "HEAD") then _ else _) eqn:E2; [by eexists|].
  destruct Hm as [Hm|[Hm|[Hm Hh]]]; cbn in Hm; subst.
  - rewrite Hr. by eexists.
  - congruence.
  - rewrite decide_True in E2 by done. congruence.
Qed.
End Match.

(** ** Patterns that never overlap *)

(** Two patterns may match a path in common. *)
Fixpoint overlap (p q : list segment) : bool :=
  match p with
  | [] => match q with [] => true | _ => false end
  | x :: p =>
      match q with
      | [] => false
      | y :: q =>
          match x, y with
          | Multi _, _ | _, Multi _ => true
          | Lit a, Lit b => bool_decide (a = b) && overlap p q
          | Lit a, Wild _ | Wild _, Lit a => negb (bool_decide (a = "/")) && overlap p q
          | Wild _, Wild _ => overlap p q
          end
      end
  end.

Lemma overlap_matches p q raws v v' :
  path_matches p raws v → path_matches q raws v' → overlap p q = true.
Proof.
  intros Hp. revert q v'. induction Hp as [|s raw rest segments vals Hs Hp IH
    |name raw rest segments vals Hs Hp IH|name raw rest]; intros q v' Hq;
    inversion Hq; subst; cbn [overlap]; try done.
  - rewrite bool_decide_true by done. by eapply IH.
  - rewrite bool_decide_false by done. by eapply IH.
  - rewrite bool_decide_false by done. by eapply IH.
  - by eapply IH.
Qed.

Lemma matches_functional p raws v v' : path_matches p raws v → path_matches p raws v' → v = v'.
Proof.
  intros Hp. revert v'. induction Hp; intros v' Hq; inversion Hq; subst; try done; [auto | f_equal; auto].
Qed.

Fixpoint no_overlap (ps : list (list segment)) : bool :=
  match ps with
  | [] => true
  | p :: ps => forallb (λ q, negb (overlap p q)) ps && no_overlap ps
  end.

Lemma no_overlap_unique {B} (f : B → list segment) (l : list B) x y raws v v' :
  no_overlap (f <$> l) = true → x ∈ l → y ∈ l →
  path_matches (f x) raws v → path_matches (f y) raws v' → x = y.
Proof.
  induction l as [|z l IH]; intros Hno Hx Hy Mx My; [by apply elem_of_nil in Hx|].
  cbn in Hno. apply andb_true_iff in Hno as [Hz Hno]. rewrite forallb_forall in Hz.
  assert (∀ w vw vz, w ∈ l → path_matches (f z) raws vz → path_matches (f w) raws vw → False) as Hclash.
  { intros w vw vz Hw Mz Mw. specialize (Hz (f w)). rewrite <- list_elem_of_In in Hz.
    rewrite (overlap_matches _ _ _ _ _ Mz Mw) in Hz. by discriminate Hz; apply list_elem_of_fmap_2. }
  apply elem_of_cons in Hx as [->|Hx], Hy as [->|Hy]; [done|..|by apply IH].
  - by destruct (Hclash y v' v).
  - by destruct (Hclash x v v').
Qed.

(** The order of registration does not matter. *)
Lemma overlap_sym p q : overlap p q = overlap q p.
Proof.
  revert q. induction p as [|x p IH]; intros [|y q]; [done..|]. destruct x, y; cbn; try done; rewrite ?IH; try done.
  f_equal. by apply bool_decide_ext.
Qed.

Lemma no_overlap_perm l l' : l ≡ₚ l' → no_overlap l = true → no_overlap l' = true.
Proof.
  induction 1 as [|x l l' Hl IH|x y l|l1 l2 l3 _ IH1 _ IH2]; cbn; [done|..|by auto].
  - rewrite !andb_true_iff, !forallb_forall. intros [Hx Hno]. split; [|auto].
    intros q Hq. apply Hx. rewrite <- list_elem_of_In in *. by rewrite Hl.
  - rewrite !andb_true_iff. rewrite (overlap_sym y x). tauto.
Qed.

(** ** [findHandler] *)

Inductive routed (A : Type) :=
| Found (a : A) (path_values : list (string * string))
| RedirectTo (path : string)
| MethodNotAllowed (allow : list string)
| NotFound.
Arguments Found {A} a path_values.
Arguments RedirectTo {A} path.
Arguments MethodNotAllowed {A} allow.
Arguments NotFound {A}.

Definition wildcard_names (segments : list segment) : list string :=
  omap (λ s, match s with
             | Wild name => Some name
             | Multi name => if decide (name = "") then None else Some name
             | Lit _ => None
             end) segments.

Section Find.
Context {A : Type} (ps : list (pattern * A)).

(** The patterns, each leading to itself. *)
Definition targets : list (pattern * (pattern * A)) := (λ pa, (pa.1, pa)) <$> ps.

Definition find_match (method path : string) : option ((pattern * A) * list string) :=
  matchMethodAndPath targets method (raw_segments path).

Definition is_multi (p : pattern) : bool :=
  match last (p_segments p) with Some (Multi _) => true | _ => false end.

Definition exactMatch (m : option ((pattern * A) * list string)) (path : string) : bool :=
  match m with
  | None => false
  | Some ((p, _), _) =>
      if negb (is_multi p) then true
      else if negb (ends_slash path) then false
      else bool_decide (length (p_segments p) = length (raw_segments path))
  end.

(** Whether a trailing slash would give an exact match where there is none. *)
Definition slash_redirect (method path : string) : bool :=
  negb (exactMatch (find_match method path) path) && negb (ends_slash path) &&
  exactMatch (find_match method (path +:+ "/")) (path +:+ "/").

(** The methods whose patterns match; GET stands for HEAD too. *)
Definition methods_matching (path : string) : list string :=
  omap (λ m, if decide (m = "") then None
             else match matchPath (method_child m targets) (raw_segments path) with
                  | Some _ => Some m | None => None end)
    (remove_dups ((λ pa, p_method pa.1) <$> ps)).
Definition matchingMethods (path : string) : list string :=
  let found := remove_dups
    (methods_matching path ++ if ends_slash path then [] else methods_matching (path +:+ "/")) in
  sortStrings (if decide ("GET" ∈ found) then remove_dups (found ++ ["HEAD"]) else found).

Definition findHandler (method escapedPath : string) : routed (pattern * A) :=
  let path := if decide (method = "CONNECT") then escapedPath else cleanPath escapedPath in
  if slash_redirect method path then RedirectTo (path +:+ "/")
  else if decide (path ≠ escapedPath) then RedirectTo path
  else match find_match method path with
       | Some (pa, vals) => Found pa (zip (wildcard_names (p_segments pa.1)) vals)
       | None =>
           match matchingMethods path with
           | [] => NotFound
           | allow => MethodNotAllowed allow
           end
       end.

Lemma find_match_sound method path pa vals :
  find_match method path = Some (pa, vals) →
  pa ∈ ps ∧ method_ok pa.1 method ∧ path_matches (p_segments pa.1) (raw_segments path) vals.
Proof.
  intros (p & Hi & Hm & Hp)%matchMethodAndPath_sound. unfold targets in Hi.
  apply list_elem_of_fmap in Hi as ([p' a] & [= -> ->] & Hi). done.
Qed.

Lemma find_match_complete method path pa vals :
  method ≠ "" → pa ∈ ps → method_ok pa.1 method →
  path_matches (p_segments pa.1) (raw_segments path) vals → is_Some (find_match method path).
Proof.
  intros Hne Hi Hm Hp. eapply (matchMethodAndPath_complete _ _ _ pa.1 pa); [done| |done|done].
  unfold targets. by apply (list_elem_of_fmap_2 (λ pa, (pa.1, pa))).
Qed.

(** With patterns that never overlap the search finds the one that matches. *)
Lemma find_match_unique method path pa vals :
  no_overlap ((λ pa, p_segments pa.1) <$> ps) = true → method ≠ "" →
  pa ∈ ps → method_ok pa.1 method → path_matches (p_segments pa.1) (raw_segments path) vals →
  find_match method path = Some (pa, vals).
Proof.
  intros Hno Hne Hi Hm Hp. destruct (find_match_complete _ _ _ _ Hne Hi Hm Hp) as [[pb vb] E].
  rewrite E. apply find_match_sound in E as (Hib & _ & Hpb).
  assert (pb = pa) as -> by exact (no_overlap_unique (λ pa : pattern * A, p_segments pa.1) _ _ _ _ _ _ Hno Hib Hi Hpb Hp).
  by rewrite (matches_functional _ _ _ _ Hp Hpb).
Qed.

Lemma elem_of_methods_matching m path :
  m ∈ methods_matching path ↔
  m ≠ "" ∧ ∃ pa vals, pa ∈ ps ∧ p_method pa.1 = m ∧ path_matches (p_segments pa.1) (raw_segments path) vals.
Proof.
  unfold methods_matching. rewrite list_elem_of_omap. split.
  - intros (m' & _ & E). case_decide; [done|].
    destruct (matchPath _ _) as [[pa vals]|] eqn:Em; [|done]. injection E as ->. split; [done|].
    apply matchPath_sound in Em as (segments & Hi%elem_of_method_child & Hp). unfold targets in Hi.
    apply list_elem_of_fmap in Hi as ([p a] & [= Ep ->] & Hi). subst p. eexists _, _. by split_and!.
  - intros (Hne & pa & vals & Hi & <- & Hp). exists (p_method pa.1). split.
    + apply elem_of_remove_dups. by apply (list_elem_of_fmap_2 (λ pa : pattern * A, p_method pa.1)).
    + rewrite decide_False by done.
      destruct (matchPath_complete (method_child (p_method pa.1) targets) (raw_segments path)
        (p_segments pa.1) pa vals) as [r ->]; [|done|done].
      apply elem_of_method_child. unfold targets. apply list_elem_of_fmap. exists pa.
      split; [|done]. by destruct pa as [[] ?].
Qed.
End Find.

(** ** No redirect to a trailing slash *)

Lemma split_snoc_sep sep s : split sep (s +:+ String sep "") = split sep s ++ [""].
Proof.
  induction s as [|a s IH]; [rewrite sapp_nil_l; cbn [split]; by rewrite decide_True|].
  rewrite sapp_cons_l. cbn [split]. rewrite IH.
  destruct (decide (a = sep)); [done|]. pose proof (split_nonempty sep s). by destruct (split sep s).
Qed.

Lemma raw_segments_slash path :
  raw_segments path ≠ [] → raw_segments (path +:+ "/") = raw_segments path ++ [""].
Proof.
  unfold raw_segments. intros Hne. rewrite split_snoc_sep. by destruct (split "/" path).
Qed.

Lemma cleanPath_rooted p : ∃ s, cleanPath p = String "/" s.
Proof.
  unfold cleanPath. destruct p as [|a p]; [by eexists|]. cbv zeta.
  destruct (_ && _); eexists; by rewrite !sapp_cons_l.
Qed.

Lemma clean_segments_ne path : cleanPath path = path → raw_segments path ≠ [].
Proof.
  intros Hc. destruct (cleanPath_rooted path) as [s Hs]. rewrite <- Hc, Hs. unfold raw_segments.
  cbn [split]. rewrite decide_True by done. cbn. apply split_nonempty.
Qed.

(** Only a [{$}] or a multi wildcard matches a trailing slash. *)
Lemma matches_trailing segments raws vals :
  path_matches segments (raws ++ [""]) vals →
  last segments = Some (Lit "/") ∨ ∃ name, last segments = Some (Multi name).
Proof.
  intros Hp. remember (raws ++ [""]) as all eqn:E. revert raws E.
  induction Hp as [|s raw rest segments vals Hs Hp IH|name raw rest segments vals Hs Hp IH|name raw rest];
    intros raws E.
  - by destruct raws.
  - destruct raws as [|r raws]; injection E as -> ->.
    + inversion Hp; subst. by left.
    + destruct (IH raws eq_refl) as [Hl|[name Hl]]; [left|right; exists name]; by destruct segments.
  - destruct raws as [|r raws]; injection E as -> ->; [done|].
    destruct (IH raws eq_refl) as [Hl|[n Hl]]; [left|right; exists n]; by destruct segments.
  - right. by eexists.
Qed.

(** ** Finding a handler *)

(** A pattern that matches and ends in no multi wildcard is found, whatever else
    is registered beside it. *)
Lemma findHandler_exact {A} (ps : list (pattern * A)) pa method path vals :
  no_overlap ((λ pa, p_segments pa.1) <$> ps) = true → method ≠ "" → cleanPath path = path →
  pa ∈ ps → method_ok pa.1 method → is_multi pa.1 = false →
  path_matches (p_segments pa.1) (raw_segments path) vals →
  findHandler ps method path = Found pa (zip (wildcard_names (p_segments pa.1)) vals).
Proof.
  intros Hno Hm Hc Hi Hok Hmulti Hp. unfold findHandler. rewrite Hc.
  replace (if decide (method = "CONNECT") then path else path) with path by by case_decide.
  unfold slash_redirect. rewrite (find_match_unique ps method path pa vals Hno Hm Hi Hok Hp).
  destruct pa as [p a]. cbn [exactMatch fst] in *. rewrite Hmulti. cbn [negb andb].
  by rewrite decide_False by (intros Hne; by apply Hne).
Qed.

(** [/] alone takes every path as it is. *)
Lemma findHandler_root {A} (a : A) method path :
  method ≠ "" → method ≠ "CONNECT" → cleanPath path = path →
  findHandler [(Pattern "" [Multi ""], a)] method path = Found (Pattern "" [Multi ""], a) [].
Proof.
  intros Hm Hcon Hc. pose proof (clean_segments_ne path Hc) as Hne.
  assert (∀ p, raw_segments p ≠ [] →
    find_match [(Pattern "" [Multi ""], a)] method p = Some ((Pattern "" [Multi ""], a), [])) as Hfind.
  { intros p Hp. apply find_match_unique; [done|done|by left|by left|].
    destruct (raw_segments p) as [|raw rest]; [done|]. apply matches_multi. }
  assert (slash_redirect [(Pattern "" [Multi ""], a)] method path = false) as Hslash.
  { unfold slash_redirect. pose proof (raw_segments_slash path Hne) as Hr.
    rewrite (Hfind (path +:+ "/")) by (rewrite Hr; by destruct (raw_segments path)).
    cbn [exactMatch is_multi last p_segments negb]. rewrite Hr.
    destruct (raw_segments path) as [|x l]; [done|]. rewrite (bool_decide_false (length _ = _)).
    - destruct (negb (ends_slash (path +:+ "/"))); by rewrite !andb_false_r.
    - rewrite length_app. cbn. lia. }
  unfold findHandler. rewrite decide_False by done. rewrite Hc, Hslash.
  rewrite decide_False by (intros Hnn; by apply Hnn). by rewrite Hfind.
Qed.
