(* ===== verification/HttpSpec.v ===== *)
(** * RFC 9112: how a strict client reads a response from a connection

    The specification against which the hostile endpoints and the raw echo are
    stated: the verdict of a client that reads the bytes of one connection up to
    its close. *)

From S2P Require Import Prelude GoStrings Strconv.

Definition CR : ascii := char_of 13.
Definition LF : ascii := char_of 10.
Definition CRLF : string := String CR (String LF "").

Inductive verdict : Type :=
| NoResponse                                      (* closed with nothing sent *)
| IncompleteHead                                  (* closed inside a head *)
| BadStatusLine
| BadHeader
| Ambiguous                                       (* framings that disagree *)
| BadChunk
| TruncatedBody (status : Z) (got : string)       (* closed inside the body *)
| Complete (status : Z) (body rest : string).

#[export] Instance verdict_eq_dec : EqDecision verdict.
Proof. solve_decision. Defined.

(** ** Lines *)

(** Up to the first CRLF, and what follows it. *)
Fixpoint read_line (s : string) : option (string * string) :=
  match s with
  | EmptyString => None
  | String a s' =>
      match s' with
      | String b s'' =>
          if decide (a = CR ∧ b = LF) then Some ("", s'')
          else '(l, r) ← read_line s'; Some (String a l, r)
      | EmptyString => None
      end
  end.

(** [HTTP/1.1 SP 3DIGIT SP reason]. *)
Definition parse_status_line (l : string) : option Z :=
  match splitN l " " 3 with
  | version :: code :: _ =>
      if decide (version = "HTTP/1.1" ∧ String.length code = 3%nat) then parse_digits code
      else None
  | _ => None
  end.

Fixpoint skip_ows (s : string) : string :=
  match s with
  | String a s' => if decide (a = " "%char) then skip_ows s' else s
  | EmptyString => s
  end.

Definition parse_field (l : string) : option (string * string) :=
  match splitN l ":" 2 with
  | [name; value] =>
      if decide (name = "" ∨ ¬ (free_of " " name)) then None
      else Some (smap lower_char name, skip_ows value)
  | _ => None
  end.

(** The field lines up to the empty line: [None] when the input ends first, and
    [Some (None, _)] when a line is no field. *)
Fixpoint read_fields (fuel : nat) (s : string) :
    option (option (list (string * string)) * string) :=
  match fuel with
  | O => None
  | S fuel =>
      '(l, s) ← read_line s;
      if decide (l = "") then Some (Some [], s)
      else
        '(fs, s) ← read_fields fuel s;
        Some (f ← parse_field l; fs ← fs; Some (f :: fs), s)
  end.

Definition field_values (fs : list (string * string)) (name : string) : list string :=
  (filter (λ f, f.1 = name) fs).*2.

(** ** Bodies *)

Definition hex_digit (a : ascii) : option Z :=
  let c := char_code (lower_char a) in
  if ((97 <=? c) && (c <=? 102))%Z then Some (c - 87)%Z else digit_val a.

Fixpoint hex_from (acc : Z) (s : string) : option Z :=
  match s with
  | EmptyString => Some acc
  | String a s' => d ← hex_digit a; hex_from (16 * acc + d) s'
  end.
Definition parse_hex (s : string) : option Z :=
  match s with EmptyString => None | _ => hex_from 0 s end.

(** The first [n] characters, when there are that many. *)
Fixpoint stake (n : nat) (s : string) : option (string * string) :=
  match n, s with
  | O, _ => Some ("", s)
  | S n, String a s' => '(t, r) ← stake n s'; Some (String a t, r)
  | S _, EmptyString => None
  end.

Inductive chunked : Type :=
| ChunksDone (body rest : string)
| ChunksCut (got : string)
| ChunksBad.

Fixpoint read_chunks (fuel : nat) (got s : string) : chunked :=
  match fuel with
  | O => ChunksCut got
  | S fuel =>
      match read_line s with
      | None => ChunksCut got
      | Some (size, s) =>
          match parse_hex size with
          | None => ChunksBad
          | Some 0%Z =>
              match read_fields (S (String.length s)) s with
              | Some (Some _, rest) => ChunksDone got rest
              | Some (None, _) => ChunksBad
              | None => ChunksCut got
              end
          | Some n =>
              match stake (Z.to_nat n) s with
              | None => ChunksCut (got +:+ s)
              | Some (data, s) =>
                  match s with
                  | String a (String b s) =>
                      if decide (a = CR ∧ b = LF) then read_chunks fuel (got +:+ data) s
                      else ChunksBad
                  | _ => ChunksCut (got +:+ data)
                  end
              end
          end
      end
  end.

Definition read_body (status : Z) (fs : list (string * string)) (s : string) : verdict :=
  match field_values fs "content-length", field_values fs "transfer-encoding" with
  | [], [] => Complete status s ""
  | [], [te] =>
      if decide (te = "chunked") then
        match read_chunks (S (String.length s)) "" s with
        | ChunksDone body rest => Complete status body rest
        | ChunksCut got => TruncatedBody status got
        | ChunksBad => BadChunk
        end
      else BadHeader
  | [cl], [] =>
      match parse_digits cl with
      | None => BadHeader
      | Some n =>
          match stake (Z.to_nat n) s with
          | Some (body, rest) => Complete status body rest
          | None => TruncatedBody status s
          end
      end
  | _, _ => Ambiguous
  end.

(** ** Responses: interim ones are skipped *)

Fixpoint read_response (fuel : nat) (s : string) : verdict :=
  match fuel with
  | O => IncompleteHead
  | S fuel =>
      match read_line s with
      | None => IncompleteHead
      | Some (l, s) =>
          match parse_status_line l with
          | None => BadStatusLine
          | Some status =>
              match read_fields (S (String.length s)) s with
              | None => IncompleteHead
              | Some (None, _) => BadHeader
              | Some (Some fs, s) =>
                  if ((100 <=? status) && (status <=? 199))%Z then read_response fuel s
                  else read_body status fs s
              end
          end
      end
  end.

(** What a client makes of everything a connection delivered before it closed. *)
Definition client_reads (s : string) : verdict :=
  if decide (s = "") then NoResponse else read_response (S (String.length s)) s.

(** ** Lemmas *)

(** A line with no carriage return in it. *)
Lemma read_line_app l s : free_of CR l → read_line (l +:+ (CRLF +:+ s)) = Some (l, s).
Proof.
  induction l as [|a l IH]; intros Hl; [done|].
  cbn [free_of] in Hl. apply andb_True in Hl as [Ha Hl]. rewrite sapp_cons_l.
  assert (a ≠ CR) as Hne.
  { intros ->. by rewrite bool_decide_true in Ha. }
  specialize (IH Hl). cbn [read_line].
  destruct (l +:+ (CRLF +:+ s)) as [|b s'] eqn:E.
  { apply (f_equal String.length) in E. rewrite sapp_length in E. simpl in E. lia. }
  rewrite decide_False by naive_solver. by rewrite IH.
Qed.

Lemma read_fields_end fuel s : read_fields (S fuel) (CRLF +:+ s) = Some (Some [], s).
Proof. done. Qed.

Lemma read_fields_cons fuel l f s fs s' :
  free_of CR l → l ≠ "" → parse_field l = Some f →
  read_fields fuel s = Some (Some fs, s') →
  read_fields (S fuel) (l +:+ (CRLF +:+ s)) = Some (Some (f :: fs), s').
Proof.
  intros Hl Hne Hf Hs. cbn [read_fields]. rewrite read_line_app by done. cbn [mbind option_bind].
  rewrite decide_False by done. rewrite Hs. cbn. by rewrite Hf.
Qed.

Lemma stake_app s1 s2 : stake (String.length s1) (s1 +:+ s2) = Some (s1, s2).
Proof.
  induction s1 as [|a s1 IH]; [by destruct s2|].
  rewrite sapp_cons_l. cbn. by rewrite IH.
Qed.

Lemma stake_short n s : (String.length s < n)%nat → stake n s = None.
Proof.
  revert n. induction s as [|a s IH]; intros [|n] Hn; simpl in *; try lia; [done|].
  by rewrite IH by lia.
Qed.

(** ** Responses built line by line *)

(** [a ↵ b]: [a], CRLF, [b]. *)
Declare Scope wire_scope.
Delimit Scope wire_scope with wire.
Notation "a ↵ b" := (a +:+ (CRLF +:+ b)) (at level 60, right associativity) : wire_scope.
Open Scope wire_scope.

(** Lines, each ended by CRLF, in front of [s]. *)
Definition lines_then (ls : list string) (s : string) : string :=
  foldr (λ l s, l ↵ s) s ls.

Definition line_ok (l : string) (f : string * string) : Prop :=
  free_of CR l ∧ l ≠ "" ∧ parse_field l = Some f.

Lemma read_fields_lines ls fs s fuel :
  Forall2 line_ok ls fs → (length ls < fuel)%nat →
  read_fields fuel (lines_then ls (CRLF +:+ s)) = Some (Some fs, s).
Proof.
  intros Hls. revert fuel. induction Hls as [|l f ls fs (Hl & Hne & Hf) Hls IH]; intros fuel Hfuel.
  - destruct fuel; [simpl in Hfuel; lia|]. done.
  - destruct fuel as [|fuel]; simpl in Hfuel; [lia|].
    by apply read_fields_cons, IH; try lia.
Qed.

Lemma lines_then_length ls s :
  (length ls + String.length s ≤ String.length (lines_then ls s))%nat.
Proof.
  induction ls as [|l ls IH]; [simpl; lia|]. cbn [lines_then foldr length].
  rewrite !sapp_length. fold (lines_then ls s). simpl. lia.
Qed.

Lemma read_response_head fuel l ls status fs s :
  free_of CR l → parse_status_line l = Some status → Forall2 line_ok ls fs →
  read_response (S fuel) (l ↵ lines_then ls (CRLF +:+ s))
  = if ((100 <=? status) && (status <=? 199))%Z then read_response fuel s
    else read_body status fs s.
Proof.
  intros Hl Hst Hls. cbn [read_response]. rewrite read_line_app, Hst by done.
  rewrite (read_fields_lines ls fs s); [done|done|].
  pose proof (lines_then_length ls (CRLF +:+ s)). lia.
Qed.

Lemma client_reads_head l ls status fs s :
  free_of CR l → parse_status_line l = Some status → Forall2 line_ok ls fs →
  (200 ≤ status)%Z →
  client_reads (l ↵ lines_then ls (CRLF +:+ s)) = read_body status fs s.
Proof.
  intros Hl Hst Hls Hge. unfold client_reads. rewrite decide_False.
  2: { intros E. apply (f_equal String.length) in E. rewrite !sapp_length in E. simpl in E. lia. }
  rewrite (read_response_head _ _ _ status fs) by done.
  by rewrite (proj2 (Z.leb_gt status 199)), andb_false_r by lia.
Qed.

(** A [Content-Length] line. *)
Lemma parse_digits_first s n : parse_digits s = Some n → skip_ows s = s.
Proof.
  destruct s as [|a s]; [done|]. cbn. intros (d & Hd & _)%bind_Some.
  rewrite decide_False; [done|]. by intros ->.
Qed.

Lemma content_length_line n :
  (0 ≤ n)%Z → line_ok ("Content-Length: " +:+ itoa n) ("content-length", itoa n).
Proof.
  intros Hn. pose proof (parse_digits_itoa n Hn) as Hp. split_and!.
  - assert (free_of CR (itoa n)) by by eapply parse_digits_free. done.
  - done.
  - assert (free_of ":" (itoa n)) as Hf by by eapply parse_digits_free.
    unfold parse_field, splitN. cbn [pred].
    change ("Content-Length: " +:+ itoa n)
      with ("Content-Length" +:+ String ":" (String " " (itoa n))).
    rewrite split_cuts_app, split_cuts_O by done.
    rewrite decide_False by (intros [?|Hc]; [done | by apply Hc]).
    do 2 f_equal. change (skip_ows (String " " (itoa n))) with (skip_ows (itoa n)).
    by eapply parse_digits_first.
Qed.

Lemma read_body_length status fs n s :
  field_values fs "content-length" = [itoa n] → field_values fs "transfer-encoding" = [] →
  (0 ≤ n)%Z →
  read_body status fs s =
    match stake (Z.to_nat n) s with
    | Some (body, rest) => Complete status body rest
    | None => TruncatedBody status s
    end.
Proof.
  intros Hcl Hte Hn. unfold read_body. rewrite Hcl, Hte. by rewrite parse_digits_itoa.
Qed.
