(* ===== verification/Query.v ===== *)
(** * Query parameters of the test server

    [queryInt] and [queryDuration] of test-server/handlers.go: a parameter that
    is absent, malformed or out of range counts as not given. *)

From Stdlib Require Import Floats.SpecFloat.
From S2P Require Import Prelude GoStrings Strconv GoFloat FloatBounds Http.

Definition queryInt (query : values) (name : string) (fallback low high : Z) : Z :=
  match default [] (query !! name) with
  | [] => fallback
  | v :: _ =>
      match atoi v with
      | None => fallback
      | Some value => if decide (value < low ∨ high < value)%Z then fallback else value
      end
  end.

Section Duration.
(** Go leaves the conversion of a float that is no [int64] to the platform. *)
Context (odd : float64 → Z).

Definition queryDuration (query : values) (name : string) (fallback : Z) : Z :=
  match default [] (query !! name) with
  | [] => fallback
  | v :: _ =>
      match parseFloat v with
      | None => fallback
      | Some seconds =>
          if bad_seconds seconds then fallback else seconds_to_duration odd seconds
      end
  end.

(** C21: a duration parameter is between nothing and a minute.  Whatever the query
    holds, the result of [queryDuration] is within [0, 60 s] when its fallback is,
    in spite of the rounding of the product to a float, with one exception: a
    first value that reads as NaN passes the range check, every comparison with
    NaN being false, and the result is the platform's conversion of NaN to an
    integer; [nan] is such a value. *)
Theorem queryDuration_bounds query name fallback :
  (0 ≤ fallback ≤ 60 * second)%Z →
  ((0 ≤ queryDuration query name fallback ≤ 60 * second)%Z ∨
   ∃ v vs, query !! name = Some (v :: vs) ∧ parseFloat v = Some S754_nan ∧
     queryDuration query name fallback = odd S754_nan) ∧
  (query !! name = Some ["nan"] → queryDuration query name fallback = odd S754_nan).
Proof.
  intros Hf. split; [|intros Hq; unfold queryDuration; by rewrite Hq].
  unfold queryDuration. destruct (query !! name) as [[|v vs]|] eqn:Hq; [by left| |by left].
  cbn [default from_option id]. destruct (parseFloat v) as [f|] eqn:Hp; [|by left].
  destruct (bad_seconds f) eqn:Hbad; [by left|].
  assert (f = S754_nan ∨ f ≠ S754_nan) as [->|Hnan] by (destruct f; auto); [right; by exists v, vs|left].
  by eapply seconds_to_duration_bounds.
Qed.
End Duration.

Lemma queryDuration_bounds_witness :
  queryDuration (λ _, (-9223372036854775808)%Z) (parseQuery "delay=nan") "delay" 0
  = (-9223372036854775808)%Z.
Proof.
  apply (queryDuration_bounds (λ _, (-9223372036854775808)%Z) (parseQuery "delay=nan") "delay" 0).
  - unfold second. lia.
  - vm_compute. reflexivity.
Defined.

Lemma queryInt_value (query : values) name v vs n fallback low high :
  query !! name = Some (v :: vs) → atoi v = Some n →
  queryInt query name fallback low high
  = if decide (low ≤ n ≤ high)%Z then n else fallback.
Proof.
  intros Hq Hv. unfold queryInt. rewrite Hq. cbn [from_option id]. rewrite Hv.
  do 2 case_decide; lia.
Qed.

Lemma queryInt_bounds query name fallback low high :
  (low ≤ fallback ≤ high)%Z → (low ≤ queryInt query name fallback low high ≤ high)%Z.
Proof.
  intros Hf. unfold queryInt. destruct (default [] _) as [|v vs]; [done|].
  destruct (atoi v); [|done]. case_decide; lia.
Qed.

(** Decimal numbers travel through a query string as they are. *)
Lemma itoa_safe n : sforall query_safe (itoa n).
Proof. apply itoa_forall; [|done]. apply forall_digits. vm_compute. reflexivity. Qed.

(** C35: an integer parameter sent in a query string is the number that was
    sent when it is within the bounds and the fallback when it is not; and
    whatever the query holds (nothing, several values, no number, a number
    outside int64), the result is within the bounds. *)
Theorem queryInt_requested name fallback low high :
  name ≠ "" → sforall query_safe name → (low ≤ fallback ≤ high)%Z →
  (∀ n, in_int64 n →
    queryInt (parseQuery (name +:+ String "=" (itoa n))) name fallback low high
    = if decide (low ≤ n ≤ high)%Z then n else fallback) ∧
  (∀ query, (low ≤ queryInt query name fallback low high ≤ high)%Z).
Proof.
  intros Hne Hs Hf. split; [|intros query; by apply queryInt_bounds].
  intros n Hn. eapply queryInt_value; [|by apply atoi_itoa].
  rewrite parseQuery_single by (done || apply itoa_safe). apply lookup_singleton_eq.
Qed.

Lemma queryInt_requested_witness :
  queryInt (parseQuery "after=65537") "after" 8 0 65536 = 8%Z ∧
  queryInt (parseQuery "after=12") "after" 8 0 65536 = 12%Z.
Proof.
  destruct (queryInt_requested "after" 8 0 65536 ltac:(discriminate) I ltac:(lia)) as [H _].
  split.
  - apply (H 65537%Z). unfold in_int64. lia.
  - apply (H 12%Z). unfold in_int64. lia.
Defined.
