(* ===== verification/Hostile.v ===== *)
(** * The hostile endpoints

    test-server/hostile.go: [hijacked], the endpoints of [registerHostile] and
    [hostileIndex].  An endpoint is the operations it performs on the hijacked
    connection; its contract is the verdict of the RFC 9112 reader of HttpSpec
    on what it wrote. *)

From Stdlib Require Import Floats.SpecFloat.
From S2P Require Import Prelude GoStrings Strconv GoFloat Http HttpSpec Query.

(** ** Connections *)

Inductive conn_op : Type :=
| Write (s : string)
| WriteFailed (s : string)
| SetLinger0
| CloseWrite
| Sleep (nanoseconds : Z)
| SetDeadline (nanoseconds : Z)
| Close.

(** A hijacked connection: whether it is a TCP connection (or a TLS one over
    it), and whether its [i]-th write succeeds. *)
Record conn := Conn { is_tcp : bool; accepts : nat → bool }.

Definition writeString (s : string) : list conn_op := [Write s].

(** What the peer receives, when every write succeeds. *)
Fixpoint wire (ops : list conn_op) : string :=
  match ops with
  | [] => ""
  | Write s :: ops => s +:+ wire ops
  | _ :: ops => wire ops
  end.

Lemma wire_app ops1 ops2 : wire (ops1 ++ ops2) = wire ops1 +:+ wire ops2.
Proof.
  induction ops1 as [|[] ops1 IH]; cbn; rewrite ?IH, ?sapp_assoc; done.
Qed.

(** How the peer sees the connection end: RST when linger is zero. *)
Inductive ending := Fin | Rst | StillOpen.
Fixpoint ends (linger0 : bool) (ops : list conn_op) : ending :=
  match ops with
  | [] => StillOpen
  | SetLinger0 :: ops => ends true ops
  | Close :: _ => if linger0 then Rst else Fin
  | _ :: ops => ends linger0 ops
  end.

(** ** The endpoints *)

Definition millisecond : Z := 1000000.

Section Endpoints.
Context (odd : float64 → Z).
Local Open Scope wire_scope.

Definition endpoint : Type := conn → values → list conn_op.

Definition noResponse : endpoint := λ _ _, [].

Definition reset : endpoint := λ conn query,
  let after := queryInt query "after" 8 0 65536 in
  writeString ("HTTP/1.1 200 OK" ↵ "Content-Type: text/plain" ↵ "Content-Length: 1024" ↵ "" ↵ "")
  ++ writeString (srepeat "x" (Z.to_nat after))
  ++ if is_tcp conn then [SetLinger0] else [].

Definition truncatedBody : endpoint := λ _ query,
  let promised := queryInt query "promised" 1024 1 1048576 in
  let sent := queryInt query "sent" 16 0 1048576 in
  writeString ("HTTP/1.1 200 OK" ↵ "Content-Type: text/plain" ↵
    ("Content-Length: " +:+ itoa promised) ↵ "" ↵ "")
  ++ writeString (srepeat "x" (Z.to_nat (Z.min sent promised))).

Definition truncatedChunks : endpoint := λ _ _,
  writeString ("HTTP/1.1 200 OK" ↵ "Transfer-Encoding: chunked" ↵ "" ↵ "")
  ++ writeString ("8" ↵ "xxxxxxxx" ↵ "").

Definition invalidChunkSize : endpoint := λ _ _,
  writeString ("HTTP/1.1 200 OK" ↵ "Transfer-Encoding: chunked" ↵ "" ↵ "")
  ++ writeString ("zz" ↵ "xxxxxxxx" ↵ "0" ↵ "" ↵ "").

Definition invalidStatusLine : endpoint := λ _ _,
  writeString ("HTTP/1.1 2000 Not A Status" ↵ "Content-Length: 0" ↵ "" ↵ "").

Definition duplicateContentLength : endpoint := λ _ _,
  writeString ("HTTP/1.1 200 OK" ↵ "Content-Length: 4" ↵ "Content-Length: 8" ↵ "" ↵ "xxxx").

Definition contentLengthAndChunked : endpoint := λ _ _,
  writeString ("HTTP/1.1 200 OK" ↵ "Content-Length: 8" ↵ "Transfer-Encoding: chunked" ↵ "" ↵
    "4" ↵ "xxxx" ↵ "0" ↵ "" ↵ "").

Definition slow_head : string :=
  "HTTP/1.1 200 OK" ↵ "Content-Type: text/plain" ↵ "Content-Length: 2" ↵ "" ↵ "ok".

(** One byte and a pause at a time; the first write that fails ends it. *)
Fixpoint slow_loop (conn : conn) (pause : Z) (i : nat) (s : string) : list conn_op :=
  match s with
  | EmptyString => []
  | String b s' =>
      if accepts conn i then Write (String b "") :: Sleep pause :: slow_loop conn pause (S i) s'
      else [WriteFailed (String b "")]
  end.

Definition slowHeaders : endpoint := λ conn query,
  let pause := queryDuration odd query "delay" (100 * millisecond) in
  slow_loop conn pause 0 slow_head.

Definition hugeHeader : endpoint := λ _ query,
  let size := queryInt query "size" 65536 1 1048576 in
  writeString ("HTTP/1.1 200 OK" ↵ "Content-Length: 0" ↵
    ("X-Testbed-Huge: " +:+ srepeat "x" (Z.to_nat size)) ↵ "" ↵ "").

Fixpoint storm_loop (count : nat) : list conn_op :=
  match count with
  | O => []
  | S count => writeString ("HTTP/1.1 100 Continue" ↵ "" ↵ "") ++ storm_loop count
  end.

Definition informationalStorm : endpoint := λ _ query,
  let count := queryInt query "count" 5 1 100 in
  storm_loop (Z.to_nat count)
  ++ writeString ("HTTP/1.1 200 OK" ↵ "Content-Length: 2" ↵ "" ↵ "ok").

Definition halfClose : endpoint := λ conn _,
  writeString ("HTTP/1.1 200 OK" ↵ "Content-Length: 2" ↵ "" ↵ "ok")
  ++ (if is_tcp conn then [CloseWrite] else [])
  ++ [Sleep (100 * millisecond)].

(** The patterns of [registerHostile] that hijack. *)
Definition registerHostile : list (string * endpoint) :=
  [("/hostile/no-response", noResponse);
   ("/hostile/reset", reset);
   ("/hostile/truncated-body", truncatedBody);
   ("/hostile/truncated-chunks", truncatedChunks);
   ("/hostile/invalid-chunk-size", invalidChunkSize);
   ("/hostile/invalid-status-line", invalidStatusLine);
   ("/hostile/duplicate-content-length", duplicateContentLength);
   ("/hostile/content-length-and-chunked", contentLengthAndChunked);
   ("/hostile/slow-headers", slowHeaders);
   ("/hostile/huge-header", hugeHeader);
   ("/hostile/informational-storm", informationalStorm);
   ("/hostile/half-close", halfClose)].

(** [hostileIndex]: what [GET /hostile] lists. *)
Definition hostileIndex : list (string * string) :=
  [("/hostile/no-response", "accepts the connection and closes it, writing nothing");
   ("/hostile/reset?after=", "headers, part of a body, then RST");
   ("/hostile/truncated-body?promised=&sent=", "fewer body bytes than Content-Length promised");
   ("/hostile/truncated-chunks", "chunks with no terminating zero-length chunk");
   ("/hostile/invalid-chunk-size", "a chunk size that is not hexadecimal");
   ("/hostile/invalid-status-line", "a four-digit status code");
   ("/hostile/duplicate-content-length", "two Content-Length headers that disagree");
   ("/hostile/content-length-and-chunked", "both framings at once");
   ("/hostile/slow-headers?delay=", "the response head, one byte at a time");
   ("/hostile/huge-header?size=", "a response header far past any sane limit");
   ("/hostile/informational-storm?count=", "a run of 100 Continue before the real response");
   ("/hostile/half-close", "a complete response, then the write half shut")].

(** ** Hijacking *)

(** What asking the response writer for its connection gives. *)
Inductive hijack : Type :=
| NotHijacker
| HijackError (e : string)
| HijackOk (c : conn).

Inductive exchange : Type :=
| Replied (m : M ())                  (* an ordinary reply through the writer *)
| OnConnection (ops : list conn_op).  (* the connection is the handler's *)

(** [hijacked]: the endpoint's operations, then the deferred close. *)
Definition hijacked (write : endpoint) (h : hijack) (r : request) : exchange :=
  match h with
  | NotHijacker =>
      Replied (httpError
        ("this endpoint writes raw bytes and needs the connection to itself, which " +:+
         (r_proto r +:+ " does not allow; use the plain port or negotiate http/1.1")) 501)
  | HijackError e => Replied (httpError e 500)
  | HijackOk conn => OnConnection (write conn (r_query r) ++ [Close])
  end.
(** ** How the connections end *)

(** C34: on a hijacked connection every endpoint ends by closing it: with a RST
    exactly for [/hostile/reset] over plain TCP, and with a FIN in every other
    case, whether or not the peer still accepts the writes. *)
Theorem hostile_endpoints_end path write conn r :
  (path, write) ∈ registerHostile →
  hijacked write (HijackOk conn) r = OnConnection (write conn (r_query r) ++ [Close]) ∧
  ends false (write conn (r_query r) ++ [Close])
  = if decide (path = "/hostile/reset" ∧ is_tcp conn = true) then Rst else Fin.
Proof.
  intros Hin. split; [done|]. unfold registerHostile in Hin. rewrite !elem_of_cons in Hin.
  assert (∀ pause i s, ends false (slow_loop conn pause i s ++ [Close]) = Fin) as Hslow.
  { intros pause i s. revert i. induction s as [|b s IH]; intros i; [done|]. cbn.
    destruct (accepts conn i); cbn; auto. }
  assert (∀ n ops, ends false (storm_loop n ++ ops) = ends false ops) as Hstorm.
  { intros n ops. induction n; cbn; auto. }
  repeat (destruct Hin as [[= -> ->]|Hin]; [|]); [..|by apply elem_of_nil in Hin];
    try (rewrite decide_False by (by intros [? _]); done).
  - unfold reset. destruct (is_tcp conn); cbn; [rewrite decide_True by done | rewrite decide_False by naive_solver]; done.
  - rewrite decide_False by (by intros [? _]). apply Hslow.
  - rewrite decide_False by (by intros [? _]). unfold informationalStorm.
    rewrite <- app_assoc, Hstorm. done.
  - rewrite decide_False by (by intros [? _]). unfold halfClose. by destruct (is_tcp conn).
Qed.
End Endpoints.

Definition example_conn : conn := Conn true (λ _, true).

Lemma hostile_endpoints_end_witness :
  ends false (reset example_conn ∅ ++ [Close]) = Rst.
Proof.
  assert (("/hostile/reset", reset) ∈ registerHostile (λ _, 0%Z)) as Hin.
  { unfold registerHostile. rewrite !elem_of_cons. tauto. }
  set (r := Request "GET" "/hostile/reset" "" "/hostile/reset" "HTTP/1.1" "localhost" ∅ None
    "127.0.0.1:4711" ∅ (Body [] None)).
  destruct (hostile_endpoints_end (λ _, 0%Z) "/hostile/reset" reset example_conn r Hin) as [_ He].
  change (r_query r) with (parseQuery "") in He.
  change (parseQuery "") with (∅ : values) in He. rewrite He. reflexivity.
Defined.
