(* ===== verification/HostileSpec.v ===== *)
(** * What the hostile endpoints make a client see

    The verdict of the RFC 9112 reader on each endpoint, for every value of its
    parameters, and how each connection ends. *)

From Stdlib Require Import Floats.SpecFloat.
From S2P Require Import Prelude GoStrings Strconv GoFloat Http HttpSpec Query Hostile.

Definition xs (n : Z) : string := srepeat "x" (Z.to_nat n).

Section Spec.
Context (odd : float64 → Z).
Local Open Scope wire_scope.

(** What each endpoint is for. *)
Definition hostile_verdict (path : string) (query : values) : verdict :=
  if decide (path = "/hostile/no-response") then NoResponse
  else if decide (path = "/hostile/reset") then
    let after := queryInt query "after" 8 0 65536 in
    if decide (after < 1024)%Z then TruncatedBody 200 (xs after)
    else Complete 200 (xs 1024) (xs (after - 1024))
  else if decide (path = "/hostile/truncated-body") then
    let promised := queryInt query "promised" 1024 1 1048576 in
    let sent := queryInt query "sent" 16 0 1048576 in
    if decide (sent < promised)%Z then TruncatedBody 200 (xs sent)
    else Complete 200 (xs promised) ""
  else if decide (path = "/hostile/truncated-chunks") then TruncatedBody 200 "xxxxxxxx"
  else if decide (path = "/hostile/invalid-chunk-size") then BadChunk
  else if decide (path = "/hostile/invalid-status-line") then BadStatusLine
  else if decide (path = "/hostile/duplicate-content-length") then Ambiguous
  else if decide (path = "/hostile/content-length-and-chunked") then Ambiguous
  else if decide (path = "/hostile/huge-header") then Complete 200 "" ""
  else Complete 200 "ok" "".

Lemma stake_srepeat a n m :
  stake n (srepeat a m)
  = if decide (n ≤ m)%nat then Some (srepeat a n, srepeat a (m - n)) else None.
Proof.
  revert m. induction n as [|n IH]; intros m; [by rewrite Nat.sub_0_r|].
  destruct m as [|m]; [done|]. cbn [stake srepeat]. rewrite IH.
  rewrite (decide_ext (n ≤ m)%nat (S n ≤ S m)%nat) by lia.
  by case_decide.
Qed.

Lemma free_of_srepeat c a n : a ≠ c → free_of c (srepeat a n).
Proof.
  intros Hne. induction n; [done|]. cbn. apply andb_True. split; [|done].
  by rewrite bool_decide_false.
Qed.

(** A 200 response with a given length line and a body of [x]. *)
Lemma length_response (ls : list string) fs n m :
  Forall2 line_ok ls fs → field_values fs "content-length" = [itoa n] →
  field_values fs "transfer-encoding" = [] → (0 ≤ n)%Z → (0 ≤ m)%Z →
  client_reads ("HTTP/1.1 200 OK" ↵ lines_then ls (CRLF +:+ xs m))
  = if decide (m < n)%Z then TruncatedBody 200 (xs m)
    else Complete 200 (xs n) (xs (m - n)).
Proof.
  intros Hls Hcl Hte Hn Hm.
  rewrite (client_reads_head _ ls 200 fs) by done.
  rewrite (read_body_length _ _ n) by done. unfold xs. rewrite stake_srepeat.
  case_decide; case_decide; try lia; [|done].
  do 2 f_equal. lia.
Qed.

Lemma slow_loop_wire conn pause i s :
  (∀ i, accepts conn i = true) → wire (slow_loop conn pause i s) = s.
Proof.
  intros Ha. revert i. induction s as [|b s IH]; intros i; [done|].
  cbn [slow_loop]. rewrite Ha. cbn. by rewrite IH.
Qed.

Lemma storm_reads fuel count tail :
  (count ≤ fuel)%nat →
  read_response fuel (wire (storm_loop count) +:+ tail) = read_response (fuel - count) tail.
Proof.
  revert fuel. induction count as [|count IH]; intros fuel Hf.
  - by rewrite Nat.sub_0_r, sapp_nil_l.
  - destruct fuel as [|fuel]; [lia|]. cbn [storm_loop]. rewrite wire_app, sapp_assoc.
    change (wire (writeString _) +:+ ?s)
      with ("HTTP/1.1 100 Continue" ↵ lines_then [] (CRLF +:+ s)).
    rewrite (read_response_head _ _ _ 100 []) by done.
    cbn [Z.leb Z.compare andb]. rewrite IH by lia. done.
Qed.

Lemma storm_length count : (count ≤ String.length (wire (storm_loop count)))%nat.
Proof.
  induction count as [|count IH]; [done|]. cbn [storm_loop].
  rewrite wire_app, sapp_length. simpl. lia.
Qed.

Lemma storm_client count tail :
  tail ≠ "" →
  ∃ fuel, (String.length tail < fuel)%nat ∧
    client_reads (wire (storm_loop count) +:+ tail) = read_response fuel tail.
Proof.
  intros Ht. unfold client_reads. pose proof (storm_length count).
  assert (0 < String.length tail)%nat by (destruct tail; [done | simpl; lia]).
  rewrite decide_False.
  2: { intros E. apply (f_equal String.length) in E. rewrite sapp_length in E. simpl in E. lia. }
  rewrite storm_reads by (rewrite sapp_length; lia).
  eexists. split; [|done]. rewrite sapp_length. lia.
Qed.
Lemma huge_line n : line_ok ("X-Testbed-Huge: " +:+ xs n) ("x-testbed-huge", xs n).
Proof.
  unfold xs. set (k := Z.to_nat n). split_and!; [by apply free_of_srepeat|done|].
  unfold parse_field, splitN. cbn [pred].
  change ("X-Testbed-Huge: " +:+ srepeat "x" k)
    with ("X-Testbed-Huge" +:+ String ":" (String " " (srepeat "x" k))).
  rewrite split_cuts_app, split_cuts_O by done.
  rewrite decide_False by (intros [?|Hc]; [done | by apply Hc]).
  by destruct k.
Qed.

Lemma reset_wire conn query :
  client_reads (wire (reset conn query)) = hostile_verdict "/hostile/reset" query.
Proof.
  unfold reset. rewrite !wire_app.
  change (hostile_verdict "/hostile/reset" query) with
    (let after := queryInt query "after" 8 0 65536 in
     if decide (after < 1024)%Z then TruncatedBody 200 (xs after)
     else Complete 200 (xs 1024) (xs (after - 1024))).
  pose proof (queryInt_bounds query "after" 8 0 65536 ltac:(lia)) as Hb.
  cbv zeta. set (after := queryInt _ _ _ _ _) in *.
  replace (wire (writeString (srepeat "x" (Z.to_nat after)))
    +:+ wire (if is_tcp conn then [SetLinger0] else [])) with (xs after).
  2: { by destruct (is_tcp conn); cbn; rewrite !sapp_nil_r. }
  apply (length_response ["Content-Type: text/plain"; "Content-Length: 1024"]
    [("content-type", "text/plain"); ("content-length", "1024")] 1024); [|done..|lia].
  by repeat constructor.
Qed.

Lemma truncatedBody_wire conn query :
  client_reads (wire (truncatedBody conn query)) = hostile_verdict "/hostile/truncated-body" query.
Proof.
  unfold truncatedBody. rewrite !wire_app.
  change (hostile_verdict "/hostile/truncated-body" query) with
    (let promised := queryInt query "promised" 1024 1 1048576 in
     let sent := queryInt query "sent" 16 0 1048576 in
     if decide (sent < promised)%Z then TruncatedBody 200 (xs sent)
     else Complete 200 (xs promised) "").
  pose proof (queryInt_bounds query "promised" 1024 1 1048576 ltac:(lia)) as Hp.
  pose proof (queryInt_bounds query "sent" 16 0 1048576 ltac:(lia)) as Hs.
  cbv zeta. set (promised := queryInt query "promised" _ _ _) in *.
  set (sent := queryInt query "sent" _ _ _) in *.
  cbn [wire writeString]. rewrite !sapp_nil_r, !sapp_assoc.
  eapply eq_trans; [apply (length_response
    ["Content-Type: text/plain"; "Content-Length: " +:+ itoa promised]
    [("content-type", "text/plain"); ("content-length", itoa promised)] promised
    (Z.min sent promised)); [|done..|lia|lia]|].
  - repeat constructor; try done; by apply content_length_line; lia.
  - case_decide; case_decide; try lia.
    + by rewrite Z.min_l by lia.
    + rewrite Z.min_r by lia. by rewrite Z.sub_diag.
Qed.

Lemma hugeHeader_wire conn query :
  client_reads (wire (hugeHeader conn query)) = Complete 200 "" "".
Proof.
  unfold hugeHeader. cbn [wire writeString]. rewrite !sapp_nil_r.
  eapply eq_trans; [apply (length_response
    ["Content-Length: 0"; "X-Testbed-Huge: " +:+ xs (queryInt query "size" 65536 1 1048576)]
    [("content-length", "0"); ("x-testbed-huge", xs (queryInt query "size" 65536 1 1048576))]
    0 0); [|done..]|done].
  repeat constructor; try done; apply huge_line.
Qed.

Lemma informationalStorm_wire conn query :
  client_reads (wire (informationalStorm conn query)) = Complete 200 "ok" "".
Proof.
  unfold informationalStorm. rewrite wire_app.
  destruct (storm_client (Z.to_nat (queryInt query "count" 5 1 100))
    (wire (writeString ("HTTP/1.1 200 OK" ↵ "Content-Length: 2" ↵ "" ↵ "ok")))) as (fuel & Hf & ->).
  { done. }
  destruct fuel as [|fuel]; [simpl in Hf; lia|].
  cbn [wire writeString]. rewrite sapp_nil_r.
  apply (read_response_head fuel "HTTP/1.1 200 OK" ["Content-Length: 2"] 200
    [("content-length", "2")] "ok"); [done|done|]. by repeat constructor.
Qed.

(** C9: for every hostile endpoint and every query string, a client that reads
    the bytes of the connection by RFC 9112 comes to exactly the verdict the
    endpoint is listed for: nothing, a truncated body, a bad chunk, a bad status
    line, ambiguous framing, or a complete response (after informational ones).
    The two that truncate do so only when the query leaves something to
    truncate. *)
Theorem hostile_endpoints_verdict path write conn query :
  (path, write) ∈ registerHostile odd → (∀ i, accepts conn i = true) →
  client_reads (wire (write conn query)) = hostile_verdict path query.
Proof.
  intros Hin Ha. unfold registerHostile in Hin. rewrite !elem_of_cons in Hin.
  repeat (destruct Hin as [[= -> ->]|Hin]; [|]); [..|by apply elem_of_nil in Hin].
  - done.
  - apply reset_wire.
  - apply truncatedBody_wire.
  - by vm_compute.
  - by vm_compute.
  - by vm_compute.
  - by vm_compute.
  - by vm_compute.
  - unfold slowHeaders. rewrite slow_loop_wire by done. by vm_compute.
  - apply hugeHeader_wire.
  - apply informationalStorm_wire.
  - unfold halfClose. rewrite !wire_app. by destruct (is_tcp conn); vm_compute.
Qed.


End Spec.

Lemma hostile_endpoints_verdict_witness :
  client_reads (wire (truncatedBody example_conn (parseQuery "promised=8&sent=3")))
  = TruncatedBody 200 "xxx".
Proof.
  rewrite (hostile_endpoints_verdict (λ _, 0%Z) "/hostile/truncated-body" truncatedBody
    example_conn (parseQuery "promised=8&sent=3")).
  - vm_compute. reflexivity.
  - unfold registerHostile. rewrite !elem_of_cons. tauto.
  - reflexivity.
Defined.
