(* ===== verification/RawEcho.v ===== *)
(** * The raw listener

    [serveRaw] and [echoRequestHead] of test-server/hostile.go: the accept loop,
    and the reply that quotes the head of the request byte for byte.  One deadline
    bounds the reads and the writes of a connection: how the peer's stream ends,
    and how much of the reply is taken in time, are arguments. *)

From S2P Require Import Prelude GoStrings Strconv Http HttpSpec Query Hostile.

(** ** Reading *)

(** [io.LimitReader]: the first [n] bytes of what the connection delivers. *)
Fixpoint limit_reader (n : nat) (s : string) : string :=
  match n, s with
  | S n, String a s' => String a (limit_reader n s')
  | _, _ => ""
  end.

(** [reader.ReadString('\n')]: the line with its newline; [false] is a non-nil
    error, when the stream ends (end of file, error or deadline) before one. *)
Fixpoint readString (s : string) : string * bool * string :=
  match s with
  | EmptyString => ("", false, "")
  | String a s' =>
      if decide (a = LF) then (String a "", true, s')
      else let '(line, ok, rest) := readString s' in (String a line, ok, rest)
  end.

(** The [for] loop of [echoRequestHead]: the head, and whether the loop ended on
    a blank line ([err] nil); [None] is running out of fuel. *)
Fixpoint head_loop (fuel : nat) (head s : string) : option (string * bool) :=
  match fuel with
  | O => None
  | S fuel =>
      let '(line, ok, rest) := readString s in
      let head := head +:+ line in
      if decide (ok = false ∨ line = String CR (String LF "") ∨ line = String LF "") then Some (head, ok)
      else head_loop fuel head rest
  end.

(** [s] is everything that arrives before the stream ends. *)
Definition request_head (s : string) : string * bool :=
  let reader := limit_reader (Z.to_nat 65536) s in
  default ("", false) (head_loop (S (String.length reader)) "" reader).

(** ** Writing *)

(** How the peer's stream ends: it closes its side; nothing more comes until the
    deadline passes; or it resets the connection. *)
Inductive stream_end := Eof | DeadlinePassed | ConnReset.

(** [io.WriteString] calls in sequence, their errors ignored: all of them succeed,
    or only the first [n] bytes are taken before the deadline passes (or the
    connection is reset), and every later write fails. *)
Fixpoint writes (window : option nat) (ss : list string) : list conn_op :=
  match ss, window with
  | [], _ => []
  | s :: ss, None => writeString s ++ writes None ss
  | s :: ss, Some n =>
      writeString (limit_reader n s)
      ++ (if decide (n < String.length s)%nat then [WriteFailed s] else [])
      ++ writes (Some (n - String.length s)%nat) ss
  end.

(** The connection's own end has been reached by a read that failed: the limit
    was not the reason, and it was not the end of file. *)
Definition connection_dead (s : string) (ok : bool) (stream : stream_end) : Prop :=
  ok = false ∧ (Z.of_nat (String.length s) < 65536)%Z ∧ stream ≠ Eof.

#[export] Instance stream_end_eq_dec : EqDecision stream_end.
Proof. solve_decision. Defined.
#[export] Instance connection_dead_dec s ok stream : Decision (connection_dead s ok stream).
Proof. apply _. Defined.

Section Echo.
Local Open Scope wire_scope.

Definition echo_writes (body : string) : list string :=
  ["HTTP/1.1 200 OK" ↵ "";
   "Content-Type: text/plain; charset=utf-8" ↵ "";
   "Content-Length: " +:+ (itoa (Z.of_nat (String.length body)) ↵ "");
   "Connection: close" ↵ "" ↵ "";
   body].

Definition echoRequestHead (s : string) (stream : stream_end) (window : option nat) : list conn_op :=
  let '(body, ok) := request_head s in
  let window := if decide (connection_dead s ok stream) then Some 0%nat else window in
  [SetDeadline (30 * 1000 * millisecond)] ++ writes window (echo_writes body) ++ [Close].
End Echo.

(** ** Accepting *)

(** What [ln.Accept] returned: a connection, or an error that is or is not a
    [net.Error] that timed out. *)
Inductive accepted (C : Type) : Type :=
| Accepted (conn : C)
| AcceptError (timeout : bool).
Arguments Accepted {C} conn.
Arguments AcceptError {C} timeout.

(** The connections [serveRaw] starts an echo for, and whether it has returned. *)
Fixpoint serveRaw {C} (events : list (accepted C)) : list C * bool :=
  match events with
  | [] => ([], false)
  | Accepted conn :: events =>
      let '(conns, returned) := serveRaw events in (conn :: conns, returned)
  | AcceptError true :: events => serveRaw events
  | AcceptError false :: _ => ([], true)
  end.

(** ** Lines *)

(** A line of the head: not blank, its newline taken off. *)
Definition head_line (l : string) : Prop := free_of LF l ∧ l ≠ "" ∧ l ≠ String CR "".

Definition text (ls : list string) : string := foldr (λ l s, l +:+ String LF s) "" ls.

Definition blank_line (b : string) : Prop := b = String LF "" ∨ b = String CR (String LF "").

(** [head] is the head at the front of [s], up to and including the first blank
    line; or, when [s] has no blank line, all of it. *)
Definition blank_head (s head : string) : Prop :=
  ∃ ls blank rest, Forall head_line ls ∧ blank_line blank ∧
    head = text ls +:+ blank ∧ s = head +:+ rest.
Definition no_blank (s : string) : Prop :=
  ∃ ls last, Forall head_line ls ∧ free_of LF last ∧ s = text ls +:+ last.

Lemma readString_line l s :
  free_of LF l → readString (l +:+ String LF s) = (l +:+ String LF "", true, s).
Proof.
  induction l as [|a l IH]; intros Hl; [done|]. rewrite sapp_cons_l. cbn in Hl |- *.
  apply andb_True in Hl as [Ha Hl]. rewrite IH by done.
  rewrite decide_False by (intros ->; by rewrite bool_decide_true in Ha). done.
Qed.

Lemma readString_cases s :
  (free_of LF s ∧ readString s = (s, false, "")) ∨
  ∃ l rest, free_of LF l ∧ s = l +:+ String LF rest ∧
    readString s = (l +:+ String LF "", true, rest).
Proof.
  induction s as [|a s IH]; [by left|]. cbn [readString].
  destruct (decide (a = LF)) as [->|Ha].
  - right. exists "", s. done.
  - destruct IH as [[Hs ->]|(l & rest & Hl & -> & ->)].
    + left. split; [|done]. cbn. by rewrite bool_decide_false.
    + right. exists (String a l), rest. split_and!; [|done..]. cbn. by rewrite bool_decide_false.
Qed.

Lemma text_snoc ls l s : text (ls ++ [l]) +:+ s = text ls +:+ (l +:+ String LF s).
Proof.
  induction ls as [|l' ls IH]; [cbn; by rewrite sapp_assoc|].
  cbn [app text foldr]. fold (text (ls ++ [l])) (text ls).
  by rewrite !sapp_assoc, !sapp_cons_l, IH.
Qed.

(** The loop, from a position where only lines have been read. *)
Lemma head_loop_is_head fuel ls s :
  Forall head_line ls → (String.length s < fuel)%nat →
  ∃ head ok, head_loop fuel (text ls) s = Some (head, ok) ∧
    if ok : bool then blank_head (text ls +:+ s) head
    else no_blank (text ls +:+ s) ∧ head = text ls +:+ s.
Proof.
  revert ls s. induction fuel as [|fuel IH]; intros ls s Hls Hf; [lia|]. cbn [head_loop].
  destruct (readString_cases s) as [[Hs E]|(l & rest & Hl & -> & E)]; rewrite E.
  - rewrite decide_True by auto. do 2 eexists. split; [done|]. split; [|done]. by exists ls, s.
  - case_decide as Hd.
    + do 2 eexists. split; [done|]. exists ls, (l +:+ String LF ""), rest.
      split_and!; [done|by destruct Hd as [?|[?|?]]; [done|right|left]|done|].
      by rewrite !sapp_assoc.
    + assert (head_line l).
      { split_and!; [done|intros ->; apply Hd; auto|intros ->; apply Hd; auto]. }
      rewrite <- text_snoc. rewrite sapp_nil_r.
      destruct (IH (ls ++ [l]) rest) as (head & ok & -> & Hh).
      { apply Forall_app. auto. }
      { rewrite sapp_length in Hf. simpl in Hf. lia. }
      exists head, ok. split; [done|]. by rewrite text_snoc in Hh.
Qed.

Lemma request_head_is_head s :
  let reader := limit_reader (Z.to_nat 65536) s in
  if (request_head s).2 then blank_head reader (request_head s).1
  else no_blank reader ∧ (request_head s).1 = reader.
Proof.
  cbn zeta. unfold request_head. generalize (limit_reader (Z.to_nat 65536) s). intros r.
  destruct (head_loop_is_head (S (String.length r)) [] r) as (head & ok & E & Hh); [done|lia|].
  change (text []) with "" in E. by rewrite E.
Qed.

Lemma free_of_cons c a s : free_of c (String a s) ↔ a ≠ c ∧ free_of c s.
Proof.
  cbn. rewrite andb_True, negb_True. by rewrite bool_decide_spec.
Qed.

(** A text with a blank line is not one without. *)
Lemma line_unique l l' s s' :
  free_of LF l → free_of LF l' → l +:+ String LF s = l' +:+ String LF s' → l = l' ∧ s = s'.
Proof.
  revert l'. induction l as [|a l IH]; intros [|b l'] Hl Hl' E; rewrite ?sapp_nil_l, ?sapp_cons_l in E; simplify_eq;
    rewrite ?free_of_cons in Hl, Hl'; [done|naive_solver..|].
  destruct (IH l') as [-> ->]; tauto.
Qed.

Lemma free_of_no_lf l s last : free_of LF last → last = l +:+ String LF s → False.
Proof.
  intros Hf ->. revert Hf. induction l as [|a l IH]; rewrite ?sapp_nil_l, ?sapp_cons_l, free_of_cons; naive_solver.
Qed.

Lemma blank_line_cases b : blank_line b → ∃ l, b = l +:+ String LF "" ∧ free_of LF l ∧ ¬ head_line l.
Proof. intros [->| ->]; [exists ""|exists (String CR "")]; (split_and!; [done|done|by intros (? & ? & ?)]). Qed.

Lemma blank_excludes s head : blank_head s head → ¬ no_blank s.
Proof.
  intros (ls & blank & rest & Hls & Hb & -> & ->) (ls' & last & Hls' & Hlast & E).
  destruct (blank_line_cases blank Hb) as (b & -> & Hfree & Hnot).
  rewrite !sapp_assoc in E. change (String LF "" +:+ rest) with (String LF rest) in E.
  revert ls' Hls' E. induction Hls as [|l ls Hl Hls IH]; intros [|l' ls'] Hls' E; cbn [text foldr] in E;
    rewrite ?sapp_nil_l, ?sapp_assoc, ?sapp_cons_l in E.
  - symmetry in E. by apply (free_of_no_lf _ _ _ Hlast) in E.
  - apply Forall_cons in Hls' as [Hl' _]. apply line_unique in E as [-> _]; [done|done|apply Hl'].
  - symmetry in E. by apply (free_of_no_lf _ _ _ Hlast) in E.
  - apply Forall_cons in Hls' as [Hl' Hls']. apply line_unique in E as [-> E]; [|apply Hl|apply Hl'].
    by apply (IH ls').
Qed.

(** ** The reply *)

Lemma stake_all s : stake (String.length s) s = Some (s, "").
Proof. pose proof (stake_app s "") as E. by rewrite sapp_nil_r in E. Qed.

Definition echo_response (body : string) : string := foldr String.append "" (echo_writes body).

Lemma wire_writes_all ss : wire (writes None ss) = foldr String.append "" ss.
Proof. induction ss as [|s ss IH]; [done|]. cbn. by rewrite IH. Qed.

Lemma limit_reader_app n s t :
  limit_reader n (s +:+ t) = limit_reader n s +:+ limit_reader (n - String.length s) t.
Proof.
  revert n. induction s as [|a s IH]; intros [|n]; rewrite ?sapp_cons_l; [done| |done|].
  - rewrite !sapp_nil_l. done.
  - cbn. by rewrite IH.
Qed.

Lemma wire_writes_some n ss : wire (writes (Some n) ss) = limit_reader n (foldr String.append "" ss).
Proof.
  revert n. induction ss as [|s ss IH]; intros n; [by destruct n|]. cbn [writes foldr].
  rewrite limit_reader_app, <- IH, !wire_app. cbn. rewrite sapp_nil_r.
  by destruct (decide (n < String.length s)%nat).
Qed.

Lemma ends_writes window ss : ends false (writes window ss ++ [Close]) = Fin.
Proof.
  revert window. induction ss as [|s ss IH]; intros [n|]; cbn; [done..| |done].
  destruct (decide (n < String.length s)%nat); cbn; apply IH.
Qed.

Lemma echo_wire s stream window :
  wire (echoRequestHead s stream window) =
  match (if decide (connection_dead s (request_head s).2 stream) then Some 0%nat else window) with
  | None => echo_response (request_head s).1
  | Some n => limit_reader n (echo_response (request_head s).1)
  end.
Proof.
  unfold echoRequestHead. destruct (request_head s) as [body ok]. cbn [fst snd].
  destruct (if decide _ then _ else _) as [n|]; cbn [app wire];
    rewrite wire_app, ?wire_writes_some, ?wire_writes_all; cbn [wire]; apply sapp_nil_r.
Qed.

Lemma echo_reads body : client_reads (echo_response body) = Complete 200 body "".
Proof.
  unfold echo_response, echo_writes. cbn [foldr]. rewrite ?sapp_nil_r, !sapp_assoc, ?sapp_nil_l.
  pose proof (content_length_line (Z.of_nat (String.length body)) ltac:(lia)) as Hcl.
  eapply eq_trans; [apply (client_reads_head "HTTP/1.1 200 OK"
    ["Content-Type: text/plain; charset=utf-8";
     "Content-Length: " +:+ itoa (Z.of_nat (String.length body)); "Connection: close"] 200
    [("content-type", "text/plain; charset=utf-8");
     ("content-length", itoa (Z.of_nat (String.length body))); ("connection", "close")] body);
    [done|done| |lia]|].
  - repeat constructor; try done; apply Hcl.
  - rewrite (read_body_length _ _ (Z.of_nat (String.length body))) by (done || lia).
    by rewrite Nat2Z.id, stake_all.
Qed.

(** What the raw listener is owed before it answers: a blank line, or 65536 bytes,
    or the peer's end of stream. *)
Definition answerable (s : string) (stream : stream_end) : Prop :=
  (∃ head, blank_head (limit_reader (Z.to_nat 65536) s) head) ∨
  (65536 ≤ Z.of_nat (String.length s))%Z ∨ stream = Eof.

Lemma answerable_alive s stream : answerable s stream ↔ ¬ connection_dead s (request_head s).2 stream.
Proof.
  pose proof (request_head_is_head s) as Hh. cbn zeta in Hh. unfold answerable, connection_dead.
  destruct (request_head s).2; [split; [by intros _ [? _]|eauto]|]. destruct Hh as [Hno _]. split.
  - intros [[head Hb]|[Hlen|Heof]] (_ & Hl & Hs); [by eapply blank_excludes|lia|done].
  - intros Hd. right. destruct (decide (stream = Eof)) as [|Hs]; [by right|]. left.
    destruct (decide (65536 ≤ Z.of_nat (String.length s))%Z); [done|]. destruct Hd. split_and!; [done|lia|done].
Qed.

(** C37: whatever bytes a peer sends, and however its stream ends.  Once a blank
    line (ended by LF or by CRLF) has come, or 65536 bytes have, or the peer has
    closed its side, the answer is one complete response whose body is the head of
    the request, byte for byte: everything up to and including the first blank line
    within the first 65536 bytes, or all of those bytes when there is no blank line
    among them; a peer that takes only [n] bytes of it before the deadline has the
    first [n] bytes of that response.  In every other case (the deadline passes, or
    the connection is reset, while the head is incomplete) nothing is written at
    all, since the deadline and the reset hold for the writes too.  In all cases the
    connection is closed. *)
Theorem echoRequestHead_echoes s stream :
  let reader := limit_reader (Z.to_nat 65536) s in
  (answerable s stream →
     ∃ head, (blank_head reader head ∨ no_blank reader ∧ head = reader) ∧
       client_reads (wire (echoRequestHead s stream None)) = Complete 200 head "" ∧
       ∀ n, wire (echoRequestHead s stream (Some n))
            = limit_reader n (wire (echoRequestHead s stream None))) ∧
  (¬ answerable s stream → ∀ window, wire (echoRequestHead s stream window) = "") ∧
  (∀ window, ends false (echoRequestHead s stream window) = Fin).
Proof.
  cbn zeta. split_and!.
  - intros Ha%answerable_alive. exists (request_head s).1. split_and!.
    + pose proof (request_head_is_head s) as Hh. cbn zeta in Hh.
      by destruct (request_head s).2; [left|right].
    + rewrite echo_wire, decide_False by done. apply echo_reads.
    + intros n. rewrite !echo_wire, !decide_False by done. done.
  - intros Ha window. rewrite answerable_alive in Ha. apply dec_stable in Ha.
    by rewrite echo_wire, decide_True.
  - intros window. unfold echoRequestHead. destruct (request_head s). apply ends_writes.
Qed.

(** A head that the deadline cuts short is not answered; one that the peer ends is. *)
Lemma echoRequestHead_echoes_witness :
  ¬ answerable "GET / HTTP/1.1" DeadlinePassed ∧
  wire (echoRequestHead "GET / HTTP/1.1" DeadlinePassed None) = "" ∧
  answerable "GET / HTTP/1.1" Eof ∧
  ∀ n, wire (echoRequestHead "GET / HTTP/1.1" Eof (Some n))
       = limit_reader n (wire (echoRequestHead "GET / HTTP/1.1" Eof None)).
Proof.
  assert (¬ answerable "GET / HTTP/1.1" DeadlinePassed) as Hno.
  { rewrite answerable_alive. intros Hd. apply Hd. split_and!; [|done|done].
    unfold request_head. apply (bool_decide_unpack _). vm_compute. exact I. }
  assert (answerable "GET / HTTP/1.1" Eof) as Hyes by by right; right.
  destruct (echoRequestHead_echoes "GET / HTTP/1.1" Eof) as [Heof _].
  destruct (echoRequestHead_echoes "GET / HTTP/1.1" DeadlinePassed) as (_ & Hdead & _).
  destruct (Heof Hyes) as (head & _ & _ & Hwin). split_and!; [done|by apply Hdead|done|done].
Defined.

(** ** A well-formed request *)

Lemma limit_reader_le n s t :
  (String.length s ≤ n)%nat → ∃ u, limit_reader n (s +:+ t) = s +:+ u.
Proof.
  revert s. induction n as [|n IH]; intros s Hs.
  - destruct s; [|simpl in Hs; lia]. by exists "".
  - destruct s as [|a s].
    + rewrite sapp_nil_l. by exists (limit_reader (S n) t).
    + simpl in Hs. destruct (IH s ltac:(lia)) as [u Hu]. exists u.
      rewrite !sapp_cons_l. cbn [limit_reader]. by rewrite Hu.
Qed.

Lemma head_loop_lines ls s fuel head :
  Forall (λ l, free_of LF l ∧ l ≠ "") ls → (length ls < fuel)%nat →
  head_loop fuel head (lines_then ls (CRLF +:+ s)) = Some (head +:+ lines_then ls CRLF, true).
Proof.
  intros Hls. revert fuel head. induction Hls as [|l ls [Hl Hne] Hls IH]; intros fuel head Hf;
    (destruct fuel as [|fuel]; [simpl in Hf; lia|]); cbn [head_loop].
  - change (lines_then [] (CRLF +:+ s)) with (String CR "" +:+ String LF s).
    rewrite readString_line by done. by rewrite decide_True by auto.
  - assert (lines_then (l :: ls) (CRLF +:+ s)
      = (l +:+ String CR "") +:+ String LF (lines_then ls (CRLF +:+ s))) as ->.
    { cbn [lines_then foldr]. by rewrite sapp_assoc. }
    assert (free_of LF (l +:+ String CR "")) as Hlf.
    { clear -Hl. induction l as [|a l IH]; [done|]. rewrite sapp_cons_l. cbn in *.
      apply andb_True in Hl as [? ?]. apply andb_True; auto. }
    rewrite readString_line by done. rewrite decide_False.
    + simpl in Hf. rewrite IH by lia. cbn [lines_then foldr].
      by rewrite !sapp_assoc.
    + destruct l as [|a [|b l]]; [done| |]; rewrite !sapp_cons_l; intros [?|[?|?]]; simplify_eq.
Qed.

(** C36: a request whose head (request line and header fields, each ended by
    CRLF, then an empty line) fits in 65536 bytes is echoed exactly: the body of
    the response is that head, with the order, the casing and the duplicates of
    its lines as they were sent, and none of what followed it, however the stream
    ends after the head. *)
Theorem echoRequestHead_request ls rest stream :
  Forall (λ l, free_of LF l ∧ l ≠ "") ls →
  (String.length (lines_then ls CRLF) <= Z.to_nat 65536)%nat →
  client_reads (wire (echoRequestHead (lines_then ls (CRLF +:+ rest)) stream None))
  = Complete 200 (lines_then ls CRLF) "".
Proof.
  intros Hls Hlen. assert (request_head (lines_then ls (CRLF +:+ rest)) = (lines_then ls CRLF, true)) as E.
  2: { rewrite echo_wire, E, decide_False by by intros [? _]. apply echo_reads. }
  unfold request_head. revert Hlen.
  generalize (Z.to_nat 65536). intros n Hlen.
  assert (∀ t, lines_then ls (CRLF +:+ t) = lines_then ls CRLF +:+ t) as Happ.
  { intros t. clear. induction ls as [|l ls IH]; [done|]. cbn [lines_then foldr].
    fold (lines_then ls (CRLF +:+ t)) (lines_then ls CRLF). by rewrite IH, !sapp_assoc. }
  rewrite Happ. destruct (limit_reader_le n (lines_then ls CRLF) rest Hlen) as [u ->].
  rewrite <- Happ, head_loop_lines; [done|done|].
  pose proof (lines_then_length ls (CRLF +:+ u)). lia.
Qed.

Lemma echoRequestHead_request_witness :
  client_reads (wire (echoRequestHead (lines_then ["GET / HTTP/1.1"; "hOsT: a"] (CRLF +:+ "body")) DeadlinePassed None))
  = Complete 200 (lines_then ["GET / HTTP/1.1"; "hOsT: a"] CRLF) "".
Proof.
  apply (echoRequestHead_request ["GET / HTTP/1.1"; "hOsT: a"] "body" DeadlinePassed).
  - repeat constructor; discriminate.
  - apply Nat2Z.inj_le. rewrite Z2Nat.id by lia. vm_compute. discriminate.
Defined.
