(* ===== verification/TlsNames.v ===== *)
(** * Names of TLS code points

    [extensionNames], [extensionName], [versionName], [curveName] and
    [signatureSchemeName] of test-server/tls.go. *)

From S2P Require Import Prelude GoStrings Strconv.

Definition extensionEncryptedClientHello : Z := 65037.

Definition extensionNames : list (Z * string) :=
  [(0, "server_name"); (1, "max_fragment_length"); (5, "status_request");
   (10, "supported_groups"); (11, "ec_point_formats"); (13, "signature_algorithms");
   (14, "use_srtp"); (16, "application_layer_protocol_negotiation"); (17, "status_request_v2");
   (18, "signed_certificate_timestamp"); (21, "padding"); (22, "encrypt_then_mac");
   (23, "extended_master_secret"); (27, "compress_certificate"); (35, "session_ticket");
   (41, "pre_shared_key"); (42, "early_data"); (43, "supported_versions"); (44, "cookie");
   (45, "psk_key_exchange_modes"); (47, "certificate_authorities"); (49, "post_handshake_auth");
   (50, "signature_algorithms_cert"); (51, "key_share");
   (extensionEncryptedClientHello, "encrypted_client_hello"); (65281, "renegotiation_info");
   (17513, "application_settings")]%Z.

(** Looking a code up in a table. *)
Fixpoint name_of (table : list (Z * string)) (code : Z) : option string :=
  match table with
  | [] => None
  | (c, name) :: table => if decide (c = code) then Some name else name_of table code
  end.

(** [0x%04x]. *)
Definition hex_name (code : Z) : string := "0x" +:+ hex4 code.

Definition extensionName (extension : Z) : string :=
  match name_of extensionNames extension with
  | Some name => name
  | None =>
      if decide (Z.land extension 3855 = 2570 ∧ Z.shiftr extension 8 = Z.land extension 255)%Z
      then "GREASE(" +:+ (hex_name extension +:+ ")")
      else hex_name extension
  end.

Definition versionName (version : Z) : string :=
  if decide (version = 769)%Z then "TLSv1.0"
  else if decide (version = 770)%Z then "TLSv1.1"
  else if decide (version = 771)%Z then "TLSv1.2"
  else if decide (version = 772)%Z then "TLSv1.3"
  else hex_name version.

(** [String] of a stringer-generated type: the name, or the type and the number. *)
Definition stringer (type : string) (table : list (Z * string)) (code : Z) : string :=
  match name_of table code with
  | Some name => name
  | None => type +:+ ("(" +:+ (itoa code +:+ ")"))
  end.

Section Stringers.
(** The names crypto/tls has for [CurveID] and [SignatureScheme], which grow from
    one Go release to the next. *)
Context (CurveID_names SignatureScheme_names : list (Z * string)).

Definition curveName (curve : Z) : string :=
  let name := stringer "CurveID" CurveID_names curve in
  if negb (hasPrefix name "CurveID(") then name else hex_name (uint16 curve).

Definition signatureSchemeName (scheme : Z) : string :=
  let name := stringer "SignatureScheme" SignatureScheme_names scheme in
  if negb (hasPrefix name "SignatureScheme(") then name else hex_name (uint16 scheme).
End Stringers.

(** ** Tables *)

(** No name twice, and none that reads like one of the generated ones. *)
Definition table_ok (table : list (Z * string)) : Prop :=
  NoDup (snd <$> table) ∧ Forall (λ p, ¬ hasPrefix p.2 "0x" ∧ ¬ hasPrefix p.2 "GREASE(") table.

Lemma name_of_in table code name : name_of table code = Some name → (code, name) ∈ table.
Proof.
  induction table as [|[c n] table IH]; [done|]. cbn.
  case_decide; intros; simplify_eq; [by left|right; auto].
Qed.

Lemma name_of_inj table c1 c2 name :
  NoDup (snd <$> table) → name_of table c1 = Some name → name_of table c2 = Some name → c1 = c2.
Proof.
  induction table as [|[c n] table IH]; [done|]. cbn. intros [Hn Hnd]%NoDup_cons.
  assert (∀ k, name_of table k ≠ Some n) as Hnone.
  { intros k Hk%name_of_in. apply Hn, list_elem_of_fmap. by exists (k, n). }
  do 2 case_decide; intros E1 E2; simplify_eq; eauto; by edestruct Hnone.
Qed.

Lemma name_of_ok table code name :
  table_ok table → name_of table code = Some name →
  ¬ hasPrefix name "0x" ∧ ¬ hasPrefix name "GREASE(".
Proof.
  intros [_ Hf] Hc%name_of_in. rewrite Forall_forall in Hf. by apply Hf in Hc.
Qed.

Lemma hex_name_inj n m :
  (0 ≤ n < 65536)%Z → (0 ≤ m < 65536)%Z → hex_name n = hex_name m → n = m.
Proof.
  intros Hn Hm E. apply hex4_inj; [done..|].
  exact (f_equal (λ s, match s with String _ (String _ t) => t | _ => s end) E).
Qed.

#[local] Instance table_ok_dec table : Decision (table_ok table).
Proof. unfold table_ok. apply _. Defined.

Lemma extensionNames_ok : table_ok extensionNames.
Proof. by apply (bool_decide_unpack (table_ok extensionNames)). Qed.

(** ** GREASE *)

(** The sixteen values RFC 8701 reserves: 0x0a0a, 0x1a1a, .., 0xfafa. *)
Definition grease : list Z := (λ k, 2570 + 4112 * k)%Z <$> seqZ 0 16.

Definition grease_bits (n : Z) : bool :=
  (Z.land n 3855 =? 2570)%Z && (Z.shiftr n 8 =? Z.land n 255)%Z.

Lemma grease_bits_all :
  forallb (λ h, forallb (λ l,
    Bool.eqb (grease_bits (256 * h + l)) (existsb (Z.eqb (256 * h + l)) grease))
    (seqZ 0 256)) (seqZ 0 256) = true.
Proof. vm_compute. reflexivity. Qed.

Lemma grease_test n :
  (0 ≤ n < 65536)%Z →
  (Z.land n 3855 = 2570 ∧ Z.shiftr n 8 = Z.land n 255)%Z ↔ n ∈ grease.
Proof.
  intros Hn. pose proof grease_bits_all as Ha.
  rewrite forallb_forall in Ha. specialize (Ha (n / 256)%Z).
  rewrite <- list_elem_of_In, elem_of_seqZ, forallb_forall in Ha.
  specialize (Ha ltac:(Z.div_mod_to_equations; lia) (n mod 256)%Z).
  rewrite <- list_elem_of_In, elem_of_seqZ in Ha.
  specialize (Ha ltac:(Z.div_mod_to_equations; lia)).
  replace (256 * (n / 256) + n mod 256)%Z with n in Ha by (Z.div_mod_to_equations; lia).
  apply Bool.eqb_prop in Ha. unfold grease_bits in Ha.
  transitivity (existsb (Z.eqb n) grease = true).
  - rewrite <- Ha, andb_true_iff, !Z.eqb_eq. done.
  - rewrite existsb_exists. setoid_rewrite <- list_elem_of_In. setoid_rewrite Z.eqb_eq.
    naive_solver.
Qed.

Lemma extensionName_eq n :
  (0 ≤ n < 65536)%Z → extensionName n =
    (match name_of extensionNames n with
     | Some name => name
     | None => if decide (n ∈ grease) then "GREASE(" +:+ (hex_name n +:+ ")") else hex_name n
     end).
Proof.
  intros Hn. unfold extensionName. destruct (name_of _ _); [done|].
  by rewrite (decide_ext _ _ _ _ (grease_test n Hn)).
Qed.

Lemma extensionName_inj m n :
  (0 ≤ m < 65536)%Z → (0 ≤ n < 65536)%Z → extensionName m = extensionName n → m = n.
Proof.
  intros Hm Hn. rewrite !extensionName_eq by done.
  assert (∀ k, hasPrefix ("GREASE(" +:+ (hex_name k +:+ ")")) "GREASE(") as Hg
    by (intros; apply hasPrefix_app).
  assert (∀ k, hasPrefix (hex_name k) "0x") as Hx by done.
  destruct (name_of _ m) as [a|] eqn:Ea; destruct (name_of _ n) as [b|] eqn:Eb.
  - intros ->. eapply name_of_inj; [apply extensionNames_ok|done..].
  - pose proof (name_of_ok _ _ _ extensionNames_ok Ea) as [? ?].
    case_decide; intros ->; [by destruct (Hg n) | by destruct (Hx n)].
  - pose proof (name_of_ok _ _ _ extensionNames_ok Eb) as [? ?].
    case_decide; intros E; rewrite <- E in *; [by destruct (Hg m) | by destruct (Hx m)].
  - do 2 case_decide; intros E.
    + apply sapp_inj_l, sapp_inj_length in E as [E _]; [|done]. by apply hex_name_inj.
    + by injection E.
    + by injection E.
    + by apply hex_name_inj.
Qed.

(** C39: for a 16-bit extension code: a code in the table has its name; of the
    others, exactly the sixteen values RFC 8701 reserves are reported as GREASE,
    and the rest as four hexadecimal digits; and no two codes share a name. *)
Theorem extensionName_spec n :
  (0 ≤ n < 65536)%Z →
  extensionName n =
    (match name_of extensionNames n with
     | Some name => name
     | None => if decide (n ∈ grease) then "GREASE(" +:+ (hex_name n +:+ ")") else hex_name n
     end) ∧
  (∀ m, (0 ≤ m < 65536)%Z → extensionName m = extensionName n → m = n).
Proof.
  intros Hn. split; [by apply extensionName_eq|]. intros m Hm. by apply extensionName_inj.
Qed.

Lemma extensionName_spec_witness : extensionName 27242 = "GREASE(0x6a6a)".
Proof. rewrite (proj1 (extensionName_spec 27242 ltac:(lia))). vm_compute. reflexivity. Defined.

(** ** Versions, curves, signature schemes *)

Lemma versionName_inj n m :
  (0 ≤ n < 65536)%Z → (0 ≤ m < 65536)%Z → versionName n = versionName m → n = m.
Proof.
  intros Hn Hm. unfold versionName.
  repeat case_decide; subst; try done. by apply hex_name_inj.
Qed.

(** A stringer table whose names do not look generated. *)
Definition stringer_ok (type : string) (table : list (Z * string)) : Prop :=
  table_ok table ∧ Forall (λ p, ¬ hasPrefix p.2 (type +:+ "(")) table.

Lemma stringer_name type table code :
  stringer_ok type table →
  (if negb (hasPrefix (stringer type table code) (type +:+ "(")) then stringer type table code
   else hex_name code)
  = default (hex_name code) (name_of table code).
Proof.
  intros [_ Hf]. unfold stringer. destruct (name_of table code) as [name|] eqn:E.
  - apply name_of_in in E. rewrite Forall_forall in Hf. apply Hf in E. cbn [snd] in E.
    destruct (hasPrefix name _); [by destruct E|done].
  - rewrite <- sapp_assoc. by rewrite (Is_true_true_1 _ (hasPrefix_app _ _)).
Qed.

Lemma default_hex_inj table n m :
  table_ok table → (0 ≤ n < 65536)%Z → (0 ≤ m < 65536)%Z →
  default (hex_name n) (name_of table n) = default (hex_name m) (name_of table m) → n = m.
Proof.
  intros Hok Hn Hm.
  assert (∀ k, hasPrefix (hex_name k) "0x") as Hx by done.
  destruct (name_of table n) eqn:En, (name_of table m) eqn:Em; cbn; intros E; subst.
  - eapply name_of_inj; [apply Hok|done..].
  - by destruct (name_of_ok _ _ _ Hok En) as [[] _].
  - by destruct (name_of_ok _ _ _ Hok Em) as [[] _].
  - by apply hex_name_inj.
Qed.

Lemma curveName_inj CurveID_names n m :
  stringer_ok "CurveID" CurveID_names →
  (0 ≤ n < 65536)%Z → (0 ≤ m < 65536)%Z →
  curveName CurveID_names n = curveName CurveID_names m → n = m.
Proof.
  intros Hok Hn Hm. unfold curveName. rewrite !uint16_small by done.
  rewrite !(stringer_name "CurveID") by done. by apply default_hex_inj; [apply Hok|..].
Qed.

Lemma signatureSchemeName_inj SignatureScheme_names n m :
  stringer_ok "SignatureScheme" SignatureScheme_names →
  (0 ≤ n < 65536)%Z → (0 ≤ m < 65536)%Z →
  signatureSchemeName SignatureScheme_names n = signatureSchemeName SignatureScheme_names m → n = m.
Proof.
  intros Hok Hn Hm. unfold signatureSchemeName. rewrite !uint16_small by done.
  rewrite !(stringer_name "SignatureScheme") by done. by apply default_hex_inj; [apply Hok|..].
Qed.
