(* ===== verification/HelloCache.v ===== *)
(** * The ClientHello cache

    [helloCache] of test-server/tls.go, the two callbacks of [tlsServerWith]
    that feed it, and what it promises to [/tls]: a simulation between the cache,
    keyed by remote address, and the ClientHello of every live connection. *)

From stdpp Require Import pretty.
From S2P Require Import Prelude GoStrings.

(** The fields of [tls.ClientHelloInfo] the server reads; [hello_conn] is the
    remote address of [Conn], [None] when that is nil. *)
Record client_hello := ClientHello {
  hello_conn : option string;
  SupportedVersions : list Z;
  CipherSuites : list Z;
  SupportedCurves : list Z;
  SupportedPoints : list byte;
  SignatureSchemes : list Z;
  SupportedProtos : list string;
  ServerName : string;
  Extensions : list Z;
}.

#[export] Instance client_hello_eq_dec : EqDecision client_hello.
Proof. solve_decision. Defined.

(** Every method holds the mutex throughout, so each is one step. *)
Abbreviation helloCache := (gmap string client_hello).

Definition newHelloCache : helloCache := ∅.

Definition hello_put (c : helloCache) (hello : client_hello) : helloCache :=
  match hello_conn hello with
  | None => c
  | Some remoteAddr =>
      let c := if decide (1024 < size c)%nat then ∅ else c in
      <[remoteAddr := hello]> c
  end.

Definition hello_get (c : helloCache) (remoteAddr : string) : option client_hello :=
  c !! remoteAddr.

Definition hello_drop (c : helloCache) (remoteAddr : string) : helloCache :=
  delete remoteAddr c.

(** ** The callbacks *)

Inductive connState := StateNew | StateActive | StateIdle | StateHijacked | StateClosed.

#[export] Instance connState_eq_dec : EqDecision connState.
Proof. solve_decision. Defined.

(** [GetConfigForClient] records the hello and keeps the configuration. *)
Definition getConfigForClient (c : helloCache) (hello : client_hello) : helloCache :=
  hello_put c hello.

(** The [ConnState] callback. *)
Definition connStateChanged (c : helloCache) (remoteAddr : string) (state : connState) : helloCache :=
  if decide (state = StateClosed ∨ state = StateHijacked) then hello_drop c remoteAddr else c.

(** ** The connections of the server

    [live] is the specification: the hello of every connection that has sent one
    and is not closed or hijacked yet. *)

Record hello_state := HelloState {
  cache : helloCache;
  live : gmap nat client_hello;
}.

Section Connections.
(** The remote address of a connection, by the number of the connection. *)
Context (addr : nat → string).

(** Live connections have different remote addresses: TCP guarantees it for one
    listener, not for several. *)
Definition address_free (l : gmap nat client_hello) (c : nat) : Prop :=
  ∀ c', is_Some (l !! c') → addr c' = addr c → c' = c.

Inductive hello_step : hello_state → hello_state → Prop :=
| step_hello s c hello :
    address_free (live s) c → hello_conn hello = Some (addr c) →
    hello_step s (HelloState (getConfigForClient (cache s) hello) (<[c := hello]> (live s)))
| step_state s c state :
    is_Some (live s !! c) →
    hello_step s (HelloState (connStateChanged (cache s) (addr c) state)
      (if decide (state = StateClosed ∨ state = StateHijacked) then delete c (live s) else live s)).

(** A step that leaves at most 1024 connections alive. *)
Definition small_step (s s' : hello_state) : Prop :=
  hello_step s s' ∧ (size (live s') ≤ 1024)%nat.

Definition hello_init : hello_state := HelloState newHelloCache ∅.

(** ** The simulation *)

Record hello_inv (s : hello_state) : Prop := {
  inv_size : (size (cache s) ≤ 1025)%nat;
  inv_unique : ∀ c, is_Some (live s !! c) → address_free (live s) c;
  inv_sound : ∀ a hello, cache s !! a = Some hello → ∃ c, live s !! c = Some hello ∧ addr c = a;
}.

Definition complete (s : hello_state) : Prop :=
  ∀ c hello, live s !! c = Some hello → cache s !! addr c = Some hello.

Lemma remove_dups_length {A} `{EqDecision A} (l : list A) : (length (remove_dups l) ≤ length l)%nat.
Proof. induction l as [|x l IH]; [done|]. cbn. case_decide; cbn; lia. Qed.

Lemma size_cache_le s : hello_inv s → (size (cache s) ≤ size (live s))%nat.
Proof.
  intros [_ _ Hs]. rewrite <- !(size_dom (D:=gset _)).
  set (l := addr <$> elements (dom (live s))).
  transitivity (size (list_to_set (C:=gset string) (remove_dups l))).
  - apply subseteq_size. intros a [hello Ha]%elem_of_dom.
    destruct (Hs a hello Ha) as (c & Hc & <-).
    rewrite elem_of_list_to_set, elem_of_remove_dups. unfold l.
    apply list_elem_of_fmap. exists c. split; [done|].
    by apply elem_of_elements, elem_of_dom.
  - rewrite size_list_to_set by apply NoDup_remove_dups.
    rewrite remove_dups_length. unfold l. by rewrite length_fmap.
Qed.

Lemma put_cache c hello a :
  hello_conn hello = Some a →
  hello_put c hello = <[a := hello]> (if decide (1024 < size c)%nat then ∅ else c).
Proof. intros E. unfold hello_put. by rewrite E. Qed.

Lemma hello_step_inv s s' : hello_inv s → hello_step s s' → hello_inv s'.
Proof.
  intros Hi Hstep. pose proof Hi as [Hsz Hu Hs].
  destruct Hstep as [s c hello Hfree Hc|s c state Hc]; split; cbn [cache live].
  - unfold getConfigForClient. rewrite (put_cache _ _ _ Hc).
    rewrite map_size_insert. case_decide.
    + rewrite map_size_empty. destruct (_ !! _); cbn; lia.
    + destruct (_ !! _); cbn; lia.
  - intros c1 Hc1 c2 Hc2 E. destruct (decide (c1 = c)) as [->|H1], (decide (c2 = c)) as [->|H2]; [done|..].
    + rewrite lookup_insert_ne in Hc2 by done. by apply Hfree.
    + rewrite lookup_insert_ne in Hc1 by done. symmetry. by apply Hfree.
    + rewrite lookup_insert_ne in Hc1, Hc2 by done. by apply (Hu c1).
  - unfold getConfigForClient. rewrite (put_cache _ _ _ Hc). intros a h.
    destruct (decide (a = addr c)) as [->|Ha].
    + rewrite lookup_insert_eq. intros [= <-]. exists c. by rewrite lookup_insert_eq.
    + rewrite lookup_insert_ne by done. intros Hl.
      destruct (Hs a h) as (c' & Hc' & <-); [by case_decide|].
      exists c'. rewrite lookup_insert_ne; [done|]. congruence.
  - unfold connStateChanged, hello_drop. case_decide; [|done].
    rewrite map_size_delete. case_match; unfold id; lia.
  - case_decide; [|done]. intros c1 [_ Hc1]%lookup_delete_is_Some c2 [_ Hc2]%lookup_delete_is_Some E.
    by apply (Hu c1).
  - unfold connStateChanged, hello_drop. case_decide; [|done]. intros a h.
    rewrite lookup_delete_Some. intros [Hne Hl]. destruct (Hs a h Hl) as (c' & Hc' & <-).
    exists c'. rewrite lookup_delete_ne; [done|congruence].
Qed.

Lemma hello_step_complete s s' :
  hello_inv s → (size (live s) ≤ 1024)%nat → complete s → hello_step s s' → complete s'.
Proof.
  intros Hi Hsz Hc Hstep. pose proof (size_cache_le s Hi) as Hle.
  destruct Hstep as [s c hello Hfree Hconn|s c state Hlive]; intros c' h; cbn [cache live] in *.
  - unfold getConfigForClient. rewrite (put_cache _ _ _ Hconn).
    destruct (decide (c' = c)) as [->|Hne]; [by rewrite !lookup_insert_eq|].
    rewrite lookup_insert_ne by done. intros Hl.
    rewrite lookup_insert_ne by (intros E; apply Hne, Hfree; [by eexists|done]).
    rewrite decide_False by lia. by apply Hc.
  - unfold connStateChanged, hello_drop. case_decide; [|apply Hc].
    rewrite lookup_delete_Some. intros [Hne Hl].
    rewrite lookup_delete_ne; [by apply Hc|].
    intros E. apply Hne, (inv_unique s Hi c'); [by eexists|done..].
Qed.

Lemma hello_init_inv : hello_inv hello_init.
Proof.
  split; unfold hello_init, newHelloCache; cbn [cache live].
  - apply Nat.le_0_l.
  - intros c [h Hc]. by rewrite lookup_empty in Hc.
  - intros a h Ha. by rewrite lookup_empty in Ha.
Qed.

Lemma reachable_inv s : rtc hello_step hello_init s → hello_inv s.
Proof.
  intros H. refine (rtc_ind_r (R:=hello_step) hello_inv hello_init hello_init_inv _ s H).
  intros s1 s2 _ Hstep Hi. by eapply hello_step_inv.
Qed.

Lemma reachable_complete s :
  rtc small_step hello_init s →
  hello_inv s ∧ (size (live s) ≤ 1024)%nat ∧ complete s.
Proof.
  intros H. refine (rtc_ind_r (R:=small_step)
    (λ s, hello_inv s ∧ (size (live s) ≤ 1024)%nat ∧ complete s) hello_init _ _ s H);
    [|clear s H; intros s1 s2 _ [Hstep Hsz] (Hi & Hb & Hc)].
  - split_and!; [apply hello_init_inv | apply Nat.le_0_l |].
    intros c h Hc. unfold hello_init in Hc. cbn [live] in Hc. by rewrite lookup_empty in Hc.
  - split_and!; [by eapply hello_step_inv | done | by eapply hello_step_complete].
Qed.

(** C5: when live connections have different remote addresses, then in every
    reachable state the cache has at most 1025 entries, and looking up the
    address of a live connection gives the ClientHello of that very connection
    or, after the cache was emptied, nothing: never that of another one; and if
    there were never more than 1024 live connections, it gives exactly the
    ClientHello of that connection. *)
Theorem helloCache_simulation s :
  rtc hello_step hello_init s →
  (size (cache s) ≤ 1025)%nat ∧
  ∀ c hello, live s !! c = Some hello →
  (hello_get (cache s) (addr c) = Some hello ∨ hello_get (cache s) (addr c) = None) ∧
  (rtc small_step hello_init s → hello_get (cache s) (addr c) = Some hello).
Proof.
  intros Hr. pose proof (reachable_inv s Hr) as Hi. pose proof Hi as [Hsz Hu Hs].
  unfold hello_get. split; [done|]. intros c hello Hl. split.
  - destruct (cache s !! addr c) as [h|] eqn:E; [left|by right].
    destruct (Hs _ _ E) as (c' & Hc' & Ha). f_equal.
    enough (c' = c) as -> by congruence. apply (Hu c); [by eexists..|done].
  - intros (_ & _ & Hc)%reachable_complete. by apply Hc.
Qed.
End Connections.

Definition example_hello (remoteAddr : string) (extensions : list Z) : client_hello :=
  ClientHello (Some remoteAddr) [772%Z] [4865%Z] [29%Z] [x00] [1027%Z] ["h2"] "localhost" extensions.

Definition example_addr (c : nat) : string := "127.0.0.1:" +:+ pretty c.

Lemma helloCache_simulation_witness :
  let h := example_hello "127.0.0.1:7" [0; 16]%Z in
  hello_get (getConfigForClient newHelloCache h) "127.0.0.1:7" = Some h.
Proof.
  intros h.
  destruct (helloCache_simulation example_addr
    (HelloState (getConfigForClient newHelloCache h) {[7%nat := h]})) as [_ H].
  - eapply rtc_l; [|apply rtc_refl].
    apply (step_hello example_addr hello_init 7 h); [|reflexivity].
    intros c' [x Hx]. change (live hello_init) with (∅ : gmap nat client_hello) in Hx. by rewrite lookup_empty in Hx.
  - apply (H 7%nat h); [apply lookup_singleton_eq|]. eapply rtc_l; [|apply rtc_refl]. split.
    + apply (step_hello example_addr hello_init 7 h); [|reflexivity].
      intros c' [x Hx]. change (live hello_init) with (∅ : gmap nat client_hello) in Hx. by rewrite lookup_empty in Hx.
    + cbn. rewrite map_size_singleton. lia.
Defined.

(** Two connections with one remote address, which connections to two
    different listeners of the server can be, share an entry of the cache: the
    later ClientHello replaces the earlier, and closing either connection drops
    it. *)
Lemma helloCache_shared_address c hello1 hello2 a :
  hello_conn hello1 = Some a → hello_conn hello2 = Some a →
  let c' := getConfigForClient (getConfigForClient c hello1) hello2 in
  hello_get c' a = Some hello2 ∧ hello_get (connStateChanged c' a StateClosed) a = None.
Proof.
  intros H1 H2 c'. unfold c', getConfigForClient. rewrite (put_cache _ hello2 _ H2).
  split; [apply lookup_insert_eq|].
  unfold connStateChanged. rewrite decide_True by auto. apply lookup_delete_eq.
Qed.

Lemma helloCache_shared_address_witness :
  hello_get (getConfigForClient
    (getConfigForClient newHelloCache (example_hello "10.0.0.1:4711" [0]%Z))
    (example_hello "10.0.0.1:4711" [16]%Z)) "10.0.0.1:4711"
  = Some (example_hello "10.0.0.1:4711" [16]%Z).
Proof.
  apply (helloCache_shared_address newHelloCache (example_hello "10.0.0.1:4711" [0]%Z)
    (example_hello "10.0.0.1:4711" [16]%Z) "10.0.0.1:4711"); reflexivity.
Defined.
