(* ===== verification/Handshake.v ===== *)
(** * The handshake report

    [handshakeReport], [clientHelloInfo] and [handshake] of test-server/tls.go:
    what [/tls], [/info] and [/anything] say about the connection a request came
    in on. *)

From S2P Require Import Prelude GoStrings Strconv Http TlsNames HelloCache.

(** What the client offered.  [SupportedVersions] is the one slice that is not
    made before it is appended to, so an empty one is nil ([None]). *)
Record clientHelloInfo := ClientHelloInfo {
  o_SupportedVersions : option (list string);
  o_CipherSuites : list string;
  o_SupportedCurves : list string;
  o_SupportedPoints : list Z;
  o_SignatureSchemes : list string;
  o_ALPNProtocols : list string;
  o_ServerName : string;
  o_Extensions : list string;
  o_EncryptedClientHelloOffered : bool;
}.

Record handshakeReport := HandshakeReport {
  h_Version : string;
  h_CipherSuite : string;
  h_NegotiatedProtocol : string;
  h_ServerName : string;
  h_Resumed : bool;
  h_ECHAccepted : bool;
  h_ClientCertificates : list string;
  h_HTTPProtocol : string;
  h_Offered : option clientHelloInfo;
  h_OfferedUnavailable : string;
  h_CertificateSelfMade : bool;
}.

(** [append] in a loop: one element after the other. *)
Definition append_all {A B} (f : A → B) (dst : list B) (l : list A) : list B :=
  foldl (λ dst x, dst ++ [f x]) dst l.

Section Report.
(** [tls.CipherSuiteName], and the names of curves and signature schemes. *)
Context (CipherSuiteName : Z → string).
Context (CurveID_names SignatureScheme_names : list (Z * string)).

(** The loop over [hello.Extensions]. *)
Definition extensions_loop (names : list string) (ech : bool) (extensions : list Z) :
    list string * bool :=
  foldl (λ acc extension,
      let '(names, ech) := acc in
      (names ++ [extensionName extension],
       if decide (extension = extensionEncryptedClientHello) then true else ech))
    (names, ech) extensions.

Definition offer (hello : client_hello) : clientHelloInfo :=
  let '(extensions, ech) := extensions_loop [] false (Extensions hello) in
  ClientHelloInfo
    (match SupportedVersions hello with
     | [] => None
     | versions => Some (append_all versionName [] versions)
     end)
    (append_all CipherSuiteName [] (CipherSuites hello))
    (append_all (curveName CurveID_names) [] (SupportedCurves hello))
    (append_all Z_of_byte [] (SupportedPoints hello))
    (append_all (signatureSchemeName SignatureScheme_names) [] (SignatureSchemes hello))
    (SupportedProtos hello)
    (ServerName hello)
    extensions
    ech.

(** [handshake]: nil for a request that did not come over TLS. *)
Definition handshake (selfMade : bool) (hellos : helloCache) (r : request) : option handshakeReport :=
  match r_tls r with
  | None => None
  | Some state =>
      let report := HandshakeReport
        (versionName (cs_version state))
        (CipherSuiteName (cs_cipher_suite state))
        (cs_negotiated_protocol state)
        (cs_server_name state)
        (cs_did_resume state)
        (cs_ech_accepted state)
        (append_all id [] (cs_peer_certificates state))
        (r_proto r) in
      match hello_get hellos (r_remote_addr r) with
      | None => Some (report None "no ClientHello recorded for this connection" selfMade)
      | Some hello => Some (report (Some (offer hello)) "" selfMade)
      end
  end.

(** ** The loops are maps *)

Lemma append_all_fmap {A B} (f : A → B) dst l : append_all f dst l = dst ++ (f <$> l).
Proof.
  revert dst. induction l as [|x l IH]; intros dst; [by rewrite app_nil_r|].
  cbn. unfold append_all in IH. by rewrite IH, <- app_assoc.
Qed.

Lemma extensions_loop_eq names ech l :
  extensions_loop names ech l
  = (names ++ (extensionName <$> l), ech || bool_decide (extensionEncryptedClientHello ∈ l)).
Proof.
  revert names ech. induction l as [|x l IH]; intros names ech.
  { cbn. by rewrite app_nil_r, bool_decide_false, orb_false_r by apply not_elem_of_nil. }
  cbn [extensions_loop foldl]. unfold extensions_loop in IH. rewrite IH. f_equal.
  - by rewrite <- app_assoc.
  - destruct (decide (x = extensionEncryptedClientHello)) as [Hx|Hx].
    + rewrite (bool_decide_true (_ ∈ x :: l)) by (rewrite Hx; by left). by rewrite orb_true_r.
    + f_equal. apply bool_decide_ext. rewrite elem_of_cons. naive_solver.
Qed.

Lemma offer_eq hello :
  offer hello = ClientHelloInfo
    (if decide (SupportedVersions hello = []) then None
     else Some (versionName <$> SupportedVersions hello))
    (CipherSuiteName <$> CipherSuites hello)
    (curveName CurveID_names <$> SupportedCurves hello)
    (Z_of_byte <$> SupportedPoints hello)
    (signatureSchemeName SignatureScheme_names <$> SignatureSchemes hello)
    (SupportedProtos hello) (ServerName hello)
    (extensionName <$> Extensions hello)
    (bool_decide (extensionEncryptedClientHello ∈ Extensions hello)).
Proof.
  unfold offer. rewrite extensions_loop_eq, !append_all_fmap. cbn [app orb].
  destruct (SupportedVersions hello); [done|]. by rewrite append_all_fmap.
Qed.

(** C7: a request on a live TLS connection is reported with the ClientHello of its
    own connection, when of the connections to all the TLS listeners, which share
    the one cache, no two that are alive have the same remote address, and never
    more than 1024 are.  The report is exactly: the negotiated version, cipher
    suite, protocol and server name, resumption, ECH acceptance, the subjects of the
    client certificates and the HTTP version; and of the offer the versions (null
    when there is none), cipher suites, curves, signature schemes and extensions by
    their names, and the point formats and ALPN protocols, each list whole and in
    the order it was sent, the server name, and ECH as offered exactly when
    extension 0xfe0d was among the extensions.  A request that came in without TLS
    has no report. *)
Theorem handshake_reports (addr : nat → string) s c hello selfMade r state :
  rtc (small_step addr) hello_init s → live s !! c = Some hello →
  r_tls r = Some state → r_remote_addr r = addr c →
  handshake selfMade (cache s) r = Some {|
    h_Version := versionName (cs_version state);
    h_CipherSuite := CipherSuiteName (cs_cipher_suite state);
    h_NegotiatedProtocol := cs_negotiated_protocol state;
    h_ServerName := cs_server_name state;
    h_Resumed := cs_did_resume state;
    h_ECHAccepted := cs_ech_accepted state;
    h_ClientCertificates := cs_peer_certificates state;
    h_HTTPProtocol := r_proto r;
    h_Offered := Some {|
      o_SupportedVersions :=
        if decide (SupportedVersions hello = []) then None
        else Some (versionName <$> SupportedVersions hello);
      o_CipherSuites := CipherSuiteName <$> CipherSuites hello;
      o_SupportedCurves := curveName CurveID_names <$> SupportedCurves hello;
      o_SupportedPoints := Z_of_byte <$> SupportedPoints hello;
      o_SignatureSchemes := signatureSchemeName SignatureScheme_names <$> SignatureSchemes hello;
      o_ALPNProtocols := SupportedProtos hello;
      o_ServerName := ServerName hello;
      o_Extensions := extensionName <$> Extensions hello;
      o_EncryptedClientHelloOffered := bool_decide (65037%Z ∈ Extensions hello) |};
    h_OfferedUnavailable := "";
    h_CertificateSelfMade := selfMade |} ∧
  (∀ r', r_tls r' = None → handshake selfMade (cache s) r' = None).
Proof.
  intros Hr Hl Htls Ha. split; [|intros r' Hr'; unfold handshake; by rewrite Hr'].
  destruct (reachable_complete addr s Hr) as (_ & _ & Hc).
  unfold handshake, hello_get. rewrite Htls, Ha, (Hc c hello Hl).
  by rewrite append_all_fmap, list_fmap_id, offer_eq.
Qed.

(** ** Nothing is lost in naming *)

Definition uint16_code (z : Z) : Prop := (0 ≤ z < 65536)%Z.
Definition code_points (hello : client_hello) : Prop :=
  Forall uint16_code (Extensions hello) ∧ Forall uint16_code (SupportedVersions hello) ∧
  Forall uint16_code (SupportedCurves hello) ∧ Forall uint16_code (SignatureSchemes hello).

Lemma fmap_inj_on {A B} (f : A → B) (P : A → Prop) l1 l2 :
  (∀ x y, P x → P y → f x = f y → x = y) → Forall P l1 → Forall P l2 →
  f <$> l1 = f <$> l2 → l1 = l2.
Proof.
  intros Hf H1. revert l2. induction H1 as [|x l1 Hx H1 IH]; intros [|y l2] H2 E; try done.
  apply Forall_cons in H2 as [Hy H2]. cbn in E. injection E as Exy E.
  f_equal; [by apply Hf | by apply IH].
Qed.

(** C38: the report of an offer determines the offer: two ClientHellos with
    16-bit code points that are reported the same have the same extensions in
    the same order, versions, curves, signature schemes, point formats, ALPN
    protocols and server name.  The names crypto/tls gives to curves and schemes
    are taken to be different from each other and from the ones generated
    here. *)
Theorem offer_inj hello1 hello2 :
  stringer_ok "CurveID" CurveID_names → stringer_ok "SignatureScheme" SignatureScheme_names →
  code_points hello1 → code_points hello2 → offer hello1 = offer hello2 →
  Extensions hello1 = Extensions hello2 ∧ SupportedVersions hello1 = SupportedVersions hello2 ∧
  SupportedCurves hello1 = SupportedCurves hello2 ∧
  SignatureSchemes hello1 = SignatureSchemes hello2 ∧
  SupportedPoints hello1 = SupportedPoints hello2 ∧
  SupportedProtos hello1 = SupportedProtos hello2 ∧ ServerName hello1 = ServerName hello2.
Proof.
  intros HC HS (He1 & Hv1 & Hc1 & Hs1) (He2 & Hv2 & Hc2 & Hs2). rewrite !offer_eq.
  intros [= Ev _ Ec Ep Es Ea En Ee _]. split_and!; try done.
  - eapply fmap_inj_on; [|exact He1|exact He2|exact Ee]. apply extensionName_inj.
  - repeat case_decide; simplify_eq; [by congruence|].
    eapply fmap_inj_on; [|exact Hv1|exact Hv2|eassumption]. apply versionName_inj.
  - eapply fmap_inj_on; [|exact Hc1|exact Hc2|exact Ec].
    intros x y Hx Hy. by apply curveName_inj.
  - eapply fmap_inj_on; [|exact Hs1|exact Hs2|exact Es].
    intros x y Hx Hy. by apply signatureSchemeName_inj.
  - by apply (inj (fmap Z_of_byte)) in Ep.
Qed.
End Report.

Definition example_request (tls : option conn_state) (remoteAddr : string) : request :=
  Request "GET" "/tls" "" "/tls" "HTTP/1.1" "localhost:8443" ∅ tls remoteAddr ∅ (Body [] None).

Definition example_curves : list (Z * string) := [(23%Z, "CurveP256"); (29%Z, "X25519")].
Definition example_schemes : list (Z * string) := [(1027%Z, "ECDSAWithP256AndSHA256")].

(** One live connection, the seventh. *)
Definition example_state (h : client_hello) : hello_state :=
  HelloState (getConfigForClient newHelloCache h) {[7%nat := h]}.

Lemma example_reachable h :
  hello_conn h = Some (example_addr 7) → rtc (small_step example_addr) hello_init (example_state h).
Proof.
  intros Hh. eapply rtc_l; [|apply rtc_refl]. split.
  - apply (step_hello example_addr hello_init 7 h); [|done].
    intros c' [x Hx]. change (live hello_init) with (∅ : gmap nat client_hello) in Hx.
    by rewrite lookup_empty in Hx.
  - cbn. rewrite map_size_singleton. lia.
Qed.

Definition grease_hello : client_hello := example_hello "127.0.0.1:7" [10794; 0; 65037]%Z.
Definition localhost_state : conn_state := ConnectionState 772 4865 "h2" "localhost" false false [].
Definition grease_request : request := example_request (Some localhost_state) "127.0.0.1:7".

Lemma grease_conn : hello_conn grease_hello = Some (example_addr 7).
Proof. vm_compute. reflexivity. Qed.
Lemma grease_addr : r_remote_addr grease_request = example_addr 7.
Proof. vm_compute. reflexivity. Qed.
Lemma grease_live : live (example_state grease_hello) !! 7%nat = Some grease_hello.
Proof. apply lookup_singleton_eq. Qed.
Lemma grease_extensions :
  extensionName <$> Extensions grease_hello = ["GREASE(0x2a2a)"; "server_name"; "encrypted_client_hello"].
Proof. vm_compute. reflexivity. Qed.
Lemma grease_ech : 65037%Z ∈ Extensions grease_hello.
Proof. cbn. set_solver. Qed.

Lemma handshake_reports_witness :
  ∃ report offered,
    handshake hex_name example_curves example_schemes true
      (cache (example_state grease_hello)) grease_request = Some report ∧
    h_Offered report = Some offered ∧
    o_Extensions offered = ["GREASE(0x2a2a)"; "server_name"; "encrypted_client_hello"] ∧
    o_EncryptedClientHelloOffered offered = true.
Proof.
  destruct (handshake_reports hex_name example_curves example_schemes example_addr
    (example_state grease_hello) 7 grease_hello true grease_request localhost_state
    (example_reachable _ grease_conn) grease_live eq_refl grease_addr) as [Hh _].
  do 2 eexists. split; [exact Hh|]. split; [reflexivity|]. split.
  - exact grease_extensions.
  - apply bool_decide_eq_true_2, grease_ech.
Defined.

Lemma offer_inj_witness :
  offer hex_name example_curves example_schemes (example_hello "a" [0; 16]%Z)
  ≠ offer hex_name example_curves example_schemes (example_hello "b" [16; 0]%Z).
Proof.
  intros E.
  assert (stringer_ok "CurveID" example_curves ∧ stringer_ok "SignatureScheme" example_schemes)
    as [HC HS].
  { split; split; try (split; [|repeat constructor; intros []]);
      try (by apply (bool_decide_unpack _)); repeat constructor; intros []. }
  assert (∀ a l, Forall uint16_code l → code_points (example_hello a l)) as Hcp.
  { intros a l Hl. split_and!; [exact Hl|..]; repeat constructor; unfold uint16_code; lia. }
  destruct (offer_inj hex_name example_curves example_schemes (example_hello "a" [0; 16]%Z)
    (example_hello "b" [16; 0]%Z) HC HS) as [He _].
  - apply Hcp. repeat constructor; unfold uint16_code; lia.
  - apply Hcp. repeat constructor; unfold uint16_code; lia.
  - exact E.
  - discriminate He.
Defined.
