(* ===== verification/Server.v ===== *)
(** * The server and its listeners

    test-server/main.go: [env], [scheme], [baseURL], [listener], the startup
    sequence of [main]; the TLS servers of tls.go ([perVersionListeners],
    [tlsServerWith], [mtlsServer]) and the addresses of badchains.go.  [main]
    is the list of listeners it starts, each with the configuration it is started
    with, and the fatal error it may come to instead of waiting for them; the
    goroutines that run and stop them are in Lifecycle. *)

From S2P Require Import Prelude GoStrings Strconv Unicode Http TlsNames.

(** ** Small helpers *)

(** [os.LookupEnv], trimmed; a variable that is set but blank is the empty
    string, which disables a listener. *)
Definition env (environ : gmap string string) (name fallback : string) : string :=
  match environ !! name with
  | Some value => trimSpace value
  | None => fallback
  end.

Definition scheme (r : request) : string :=
  let forwarded := header_get (r_header r) "X-Forwarded-Proto" in
  if decide (forwarded = "") then
    match r_tls r with Some _ => "https" | None => "http" end
  else forwarded.

Definition baseURL (r : request) : string := scheme r +:+ ("://" +:+ r_host r).

(** What a client calls the server: the scheme the proxy in front reports, if one
    does, or that of the connection; and the authority of the request, port and
    all. *)
Definition client_scheme (r : request) (sch : string) : Prop :=
  match r_header r !! "X-Forwarded-Proto" with
  | Some (forwarded :: _) =>
      if decide (forwarded = "") then sch = (if r_tls r is Some _ then "https" else "http")
      else sch = forwarded
  | _ => sch = (if r_tls r is Some _ then "https" else "http")
  end.

Lemma scheme_client r : client_scheme r (scheme r).
Proof.
  unfold client_scheme, scheme, header_get, header_values.
  change (canonicalKey "X-Forwarded-Proto") with "X-Forwarded-Proto".
  destruct (r_header r !! "X-Forwarded-Proto") as [[|f l]|]; cbn; [done| |done].
  by destruct (decide (f = "")).
Qed.

Lemma client_scheme_unique r a b : client_scheme r a → client_scheme r b → a = b.
Proof.
  unfold client_scheme. destruct (r_header r !! _) as [[|f l]|]; [|case_decide|]; by intros -> ->.
Qed.

(** ** Listeners *)

Record listener := Listener {
  Name : string;
  Addr : string;
  TLS : bool;
  MinVersion : string;
  MaxVersion : string;
  ALPN : string;
  Note : string;
}.

Inductive client_auth := RequestClientCert | RequireAndVerifyClientCert.

#[export] Instance client_auth_eq_dec : EqDecision client_auth.
Proof. solve_decision. Defined.

Definition VersionTLS10 : Z := 769.
Definition VersionTLS11 : Z := 770.
Definition VersionTLS12 : Z := 771.
Definition VersionTLS13 : Z := 772.
Definition X25519MLKEM768 : Z := 4588.

Record tlsVersions := TlsVersions { min : Z; max : Z }.

(** The environment variable of a bad chain, and its default address. *)
Definition badChainEnv (name : string) : string :=
  if decide (name = "expired") then "BADCHAIN_EXPIRED_ADDR"
  else if decide (name = "wrong-host") then "BADCHAIN_WRONG_HOST_ADDR"
  else if decide (name = "self-signed") then "BADCHAIN_SELF_SIGNED_ADDR"
  else if decide (name = "untrusted-root") then "BADCHAIN_UNTRUSTED_ROOT_ADDR"
  else if decide (name = "incomplete-chain") then "BADCHAIN_INCOMPLETE_CHAIN_ADDR"
  else "".

Definition badChainDefaultAddr : gmap string string :=
  list_to_map
    [("expired", ":8420"); ("wrong-host", ":8421"); ("self-signed", ":8422");
     ("untrusted-root", ":8423"); ("incomplete-chain", ":8424")].

Definition badChainAddr (environ : gmap string string) (name : string) : string :=
  env environ (badChainEnv name) (default "" (badChainDefaultAddr !! name)).

Record versionListener := VersionListener {
  v_name : string;
  v_addr : string;
  v_label : string;
  v_version : Z;
  v_note : string;
  v_optional : bool;
}.

Definition perVersionListeners (environ : gmap string string) : list versionListener :=
  let note := "Go refuses TLS 1.0 and 1.1 by default; this listener enables them explicitly" in
  [VersionListener "tls10" (env environ "TLS10_ADDR" ":8410") "TLSv1.0" VersionTLS10 note true;
   VersionListener "tls11" (env environ "TLS11_ADDR" ":8411") "TLSv1.1" VersionTLS11 note true;
   VersionListener "tls12" (env environ "TLS12_ADDR" ":8412") "TLSv1.2" VersionTLS12 "" false;
   VersionListener "tls13" (env environ "TLS13_ADDR" ":8413") "TLSv1.3" VersionTLS13 "" false].

Section Servers.
(** A certificate with its key, and a pool to verify clients against. *)
Context {certificate pool : Type}.

Record badChain := BadChain {
  chain_name : string;
  chain_why : string;
  chain_certificate : certificate;
  chain_withheld : list byte;
}.

Record certificates := Certificates {
  leaf : certificate;
  caPEM : list byte;
  selfMade : bool;
  hosts : list string;
  badChains : list badChain;
  clientPEM : list byte;
  clientCAs : option pool;
}.

(** [tls.Config], the fields that are set: [MaxVersion] 0 is the newest version
    crypto/tls has, [CipherSuites] and [CurvePreferences] nil its default. *)
Record tls_config := TlsConfig {
  cfg_certificate : certificate;
  cfg_MinVersion : Z;
  cfg_MaxVersion : Z;
  cfg_ClientAuth : client_auth;
  cfg_ClientCAs : option pool;
  cfg_CipherSuites : option (list Z);
  cfg_CurvePreferences : option (list Z);
}.

(** [http.Server]: without TLS, with TLS and HTTP/2 or not; or the raw
    listener. *)
Inductive running : Type :=
| HttpServer (addr : string)
| TlsServer (addr : string) (config : tls_config) (http2 optional : bool)
| RawListener (addr : string).

(** [tls.InsecureCipherSuites] then [tls.CipherSuites], by ID. *)
Context (insecure_suites suites : list Z).
Definition obsoleteCipherSuites : list Z := insecure_suites ++ suites.

Definition tlsServerWith (versions : tlsVersions) (cert : certificate) : tls_config :=
  let config := TlsConfig cert VersionTLS12 0 RequestClientCert None None None in
  let config :=
    if decide (min versions ≠ 0)%Z
    then TlsConfig cert (min versions) (max versions) RequestClientCert None None None
    else config in
  if decide (min versions ≤ VersionTLS11 ∧ min versions ≠ 0)%Z
  then TlsConfig cert (cfg_MinVersion config) (cfg_MaxVersion config) RequestClientCert None
         (Some obsoleteCipherSuites) None
  else config.

Definition no_versions : tlsVersions := TlsVersions 0 0.

Definition mtlsServer (certs : certificates) : tls_config :=
  let config := tlsServerWith no_versions (leaf certs) in
  TlsConfig (cfg_certificate config) (cfg_MinVersion config) (cfg_MaxVersion config)
    RequireAndVerifyClientCert (clientCAs certs) (cfg_CipherSuites config)
    (cfg_CurvePreferences config).

(** ** [main] *)

(** [listen addr] is the error of [net.Listen("tcp", addr)], if it has one. *)
Context (environ : gmap string string) (certs : certificates) (listen : string → option string).

Definition start_http : list (listener * running) :=
  let addr := env environ "HTTP_ADDR" ":8080" in
  if decide (addr = "") then []
  else [(Listener "http" addr false "" "" "http/1.1" "", HttpServer addr)].

Definition start_https : list (listener * running) :=
  let addr := env environ "HTTPS_ADDR" ":8443" in
  if decide (addr = "") then []
  else [(Listener "https" addr true "TLSv1.2" "TLSv1.3" "h2, http/1.1" "",
         TlsServer addr (tlsServerWith no_versions (leaf certs)) true false)].

Definition start_version (v : versionListener) : list (listener * running) :=
  if decide (v_addr v = "") then []
  else [(Listener (v_name v) (v_addr v) true (v_label v) (v_label v) "http/1.1" (v_note v),
         TlsServer (v_addr v)
           (tlsServerWith (TlsVersions (v_version v) (v_version v)) (leaf certs))
           false (v_optional v))].

Definition start_pqc : list (listener * running) :=
  let addr := env environ "PQC_ADDR" ":8414" in
  if decide (addr = "") then []
  else
    let config := tlsServerWith (TlsVersions VersionTLS13 VersionTLS13) (leaf certs) in
    [(Listener "pqc" addr true "TLSv1.3" "TLSv1.3" "http/1.1"
        "requires the X25519MLKEM768 post-quantum hybrid named group",
      TlsServer addr
        (TlsConfig (cfg_certificate config) (cfg_MinVersion config) (cfg_MaxVersion config)
           (cfg_ClientAuth config) (cfg_ClientCAs config) (cfg_CipherSuites config)
           (Some [X25519MLKEM768]))
        false false)].

Definition start_mtls : list (listener * running) :=
  let addr := env environ "MTLS_ADDR" ":8425" in
  if decide (addr ≠ "" ∧ clientCAs certs ≠ None) then
    [(Listener "mtls" addr true "TLSv1.2" "TLSv1.3" "http/1.1"
        "requires a client certificate signed by the fixture CA; see /client.pem",
      TlsServer addr (mtlsServer certs) false false)]
  else [].

Definition start_badchain (chain : badChain) : list (listener * running) :=
  let addr := badChainAddr environ (chain_name chain) in
  if decide (addr = "") then []
  else [(Listener ("badchain-" +:+ chain_name chain) addr true "TLSv1.2" "TLSv1.3" "http/1.1"
           (chain_why chain),
         TlsServer addr (tlsServerWith no_versions (chain_certificate chain)) false false)].

(** The only socket that [main] opens itself: when it cannot, [log.Fatalf]. *)
Definition start_raw : list (listener * running) * option string :=
  let addr := env environ "RAW_ADDR" ":8081" in
  if decide (addr = "") then ([], None)
  else match listen addr with
       | Some err => ([], Some ("raw: " +:+ err))
       | None =>
           ([(Listener "raw" addr false "" "" "" "echoes the request head verbatim; not an HTTP server",
              RawListener addr)], None)
       end.

(** The listeners in the order they are added and started, and the fatal error
    that comes after them, if one does. *)
Definition main_listeners : list (listener * running) * option string :=
  (start_http ++ start_https ++ concat (start_version <$> perVersionListeners environ)
   ++ start_pqc ++ start_mtls ++ concat (start_badchain <$> badChains certs) ++ start_raw.1,
   start_raw.2).

(** ** What is reported is what is started *)

(** The versions a configuration negotiates, TLS 1.3 being the newest. *)
Definition version_range (config : tls_config) : Z * Z :=
  (cfg_MinVersion config,
   if decide (cfg_MaxVersion config = 0)%Z then VersionTLS13 else cfg_MaxVersion config).

(** What runs, with another certificate. *)
Definition with_certificate (cert : certificate) (config : tls_config) : tls_config :=
  TlsConfig cert (cfg_MinVersion config) (cfg_MaxVersion config) (cfg_ClientAuth config)
    (cfg_ClientCAs config) (cfg_CipherSuites config) (cfg_CurvePreferences config).

(** The main TLS listener at an address; with HTTP/2 left out, it is what the
    other listeners differ from. *)
Definition https_at (addr : string) (http2 : bool) : running :=
  TlsServer addr (TlsConfig (leaf certs) VersionTLS12 0 RequestClientCert None None None) http2 false.

Definition presenting (cert : certificate) (r : running) : running :=
  match r with
  | TlsServer addr config http2 optional => TlsServer addr (with_certificate cert config) http2 optional
  | _ => r
  end.

Definition is_badchain (l : listener) : Prop := hasPrefix (Name l) "badchain-".

(** A listener entry that tells the truth about what runs. *)
Definition honest (l : listener) (run : running) : Prop :=
  match run with
  | HttpServer addr =>
      Addr l = addr ∧ TLS l = false ∧ MinVersion l = "" ∧ MaxVersion l = "" ∧ ALPN l = "http/1.1"
  | RawListener addr =>
      Addr l = addr ∧ TLS l = false ∧ MinVersion l = "" ∧ MaxVersion l = "" ∧ ALPN l = "" ∧
      listen addr = None
  | TlsServer addr config http2 optional =>
      Addr l = addr ∧ TLS l = true ∧
      MinVersion l = versionName (version_range config).1 ∧
      MaxVersion l = versionName (version_range config).2 ∧
      ALPN l = (if http2 then "h2, http/1.1" else "http/1.1") ∧
      (http2 = true ↔ Name l = "https") ∧
      (* the obsolete suites, exactly where an obsolete version is the only one,
         which is also where a failure to serve is not fatal *)
      cfg_CipherSuites config =
        (if decide ((version_range config).2 ≤ VersionTLS11)%Z then Some obsoleteCipherSuites else None) ∧
      (optional = true ↔ (version_range config).2 ≤ VersionTLS11)%Z ∧
      (* the post-quantum group is the only one on the pqc listener *)
      cfg_CurvePreferences config = (if decide (Name l = "pqc") then Some [X25519MLKEM768] else None) ∧
      (* a client certificate is verified on the mtls listener, against the pool of
         the fixture CA, and only asked for on the others *)
      (if decide (Name l = "mtls")
       then cfg_ClientAuth config = RequireAndVerifyClientCert ∧
            cfg_ClientCAs config = clientCAs certs ∧ clientCAs certs ≠ None
       else cfg_ClientAuth config = RequestClientCert ∧ cfg_ClientCAs config = None) ∧
      (* the certificate that is wrong is on the bad-chain listeners only *)
      (cfg_certificate config = leaf certs ∧ ¬ is_badchain l ∨
       ∃ chain, chain ∈ badChains certs ∧ Name l = "badchain-" +:+ chain_name chain ∧
         Note l = chain_why chain ∧ run = presenting (chain_certificate chain) (https_at addr false))
  end.

Lemma in_guarded (P : Prop) `{!Decision P} (x y : listener * running) :
  x ∈ (if decide P then [] else [y]) → x = y ∧ ¬ P.
Proof. case_decide; [by intros ?%elem_of_nil | by intros ->%list_elem_of_singleton]. Qed.

Lemma in_raw l run : (l, run) ∈ start_raw.1 →
  l = Listener "raw" (env environ "RAW_ADDR" ":8081") false "" "" "" "echoes the request head verbatim; not an HTTP server" ∧
  run = RawListener (env environ "RAW_ADDR" ":8081") ∧
  env environ "RAW_ADDR" ":8081" ≠ "" ∧ listen (env environ "RAW_ADDR" ":8081") = None.
Proof.
  unfold start_raw. case_decide; [by intros ?%elem_of_nil|]. destruct (listen _) eqn:E; cbn.
  - by intros ?%elem_of_nil.
  - by intros [= -> ->]%list_elem_of_singleton.
Qed.

Lemma version_honest v l run :
  v ∈ perVersionListeners environ → (l, run) ∈ start_version v → honest l run ∧ Addr l ≠ "".
Proof.
  intros Hv [[= -> ->] Ha]%in_guarded. split; [|done].
  unfold perVersionListeners in Hv. rewrite !elem_of_cons in Hv.
  destruct Hv as [->|[->|[->|[->|[]%elem_of_nil]]]]; split_and!; try done; left; (split; [done|]); unfold is_badchain; cbn; tauto.
Qed.

Lemma badchain_honest chain l run :
  chain ∈ badChains certs → (l, run) ∈ start_badchain chain → honest l run ∧ Addr l ≠ "".
Proof.
  intros Hc [[= -> ->] Ha]%in_guarded. split; [|done].
  split_and!; try done; right. by exists chain.
Qed.

Lemma listeners_honest l run : (l, run) ∈ main_listeners.1 → honest l run ∧ Addr l ≠ "".
Proof.
  unfold main_listeners. cbn [fst]. rewrite !elem_of_app.
  intros [H|[H|[H|[H|[H|[H|H]]]]]].
  - apply in_guarded in H as [[= -> ->] Ha]. by split_and!.
  - apply in_guarded in H as [[= -> ->] Ha]. split; [|done]. split_and!; try done. left. split; [done|]. unfold is_badchain; cbn; tauto.
  - apply elem_of_concat in H as (ls & Hl & (v & -> & Hv)%list_elem_of_fmap). by eapply version_honest.
  - apply in_guarded in H as [[= -> ->] Ha]. split; [|done]. split_and!; try done. left. split; [done|]. unfold is_badchain; cbn; tauto.
  - unfold start_mtls in H. case_decide as Hd; [|by apply elem_of_nil in H].
    destruct Hd as [Ha Hc]. apply list_elem_of_singleton in H as [= -> ->].
    split; [|done]. split_and!; try done. left. split; [done|]. unfold is_badchain; cbn; tauto.
  - apply elem_of_concat in H as (ls & Hl & (chain & -> & Hc)%list_elem_of_fmap). by eapply badchain_honest.
  - apply in_raw in H as (-> & -> & Ha & Hl). by split_and!.
Qed.

Lemma raw_only_raw l addr : (l, RawListener addr) ∈ main_listeners.1 → (l, RawListener addr) ∈ start_raw.1.
Proof.
  unfold main_listeners. cbn [fst]. rewrite !elem_of_app. intros [H|[H|[H|[H|[H|[H|H]]]]]]; [..|done].
  - by apply in_guarded in H as [[=] _].
  - by apply in_guarded in H as [[=] _].
  - apply elem_of_concat in H as (ls & Hl & (v & -> & Hv)%list_elem_of_fmap). by apply in_guarded in Hl as [[=] _].
  - by apply in_guarded in H as [[=] _].
  - unfold start_mtls in H. case_decide; [by apply list_elem_of_singleton in H as [=]|by apply elem_of_nil in H].
  - apply elem_of_concat in H as (ls & Hl & (v & -> & Hv)%list_elem_of_fmap). by apply in_guarded in Hl as [[=] _].
Qed.

(** C14: every listener [main] starts is reported by /info as what it is: its
    address, which is not blank; whether it speaks TLS; the lowest and highest
    version it negotiates; the protocols it offers, HTTP/2 on the main TLS listener
    only.  The obsolete cipher suites are enabled, and a failure to serve is
    forgiven, exactly where an obsolete version is the only one; the pqc listener
    has the post-quantum group and no other; the mtls listener requires a client
    certificate and verifies it against the pool of the fixture CA, and the others
    only ask for one.  A bad chain's listener is what the main TLS listener would be
    at its address with the chain's certificate and without HTTP/2 (two differences
    where the source says one).  [main] comes to a fatal error exactly when the
    address of the raw listener, not blank, cannot be bound; then there is no raw
    listener, and otherwise there is one wherever its address is not blank. *)
Theorem main_listeners_honest :
  (∀ l run, (l, run) ∈ main_listeners.1 → honest l run ∧ Addr l ≠ "") ∧
  (∀ addr, env environ "HTTPS_ADDR" ":8443" = addr → addr ≠ "" →
     (Listener "https" addr true "TLSv1.2" "TLSv1.3" "h2, http/1.1" "", https_at addr true)
       ∈ main_listeners.1) ∧
  let raw := env environ "RAW_ADDR" ":8081" in
  main_listeners.2 = (if decide (raw = "") then None else String.append "raw: " <$> listen raw) ∧
  ((∃ l addr, (l, RawListener addr) ∈ main_listeners.1) ↔ raw ≠ "" ∧ listen raw = None).
Proof.
  cbn zeta. split_and!.
  - apply listeners_honest.
  - intros addr <- Ha. unfold main_listeners, start_https. cbn [fst]. rewrite !elem_of_app.
    right. left. rewrite decide_False by done. by left.
  - unfold main_listeners, start_raw. cbn [snd]. case_decide; [done|]. by destruct (listen _).
  - split.
    + by intros (l & addr & (_ & _ & Ha & Hl)%raw_only_raw%in_raw).
    + intros [Hr Hl]. do 2 eexists. unfold main_listeners, start_raw. cbn [fst]. rewrite !elem_of_app.
      do 6 right. rewrite decide_False, Hl by done. by left.
Qed.
End Servers.
Arguments badChain : clear implicits.
Arguments certificates : clear implicits.
Arguments tls_config : clear implicits.
Arguments running : clear implicits.

Definition example_certs : certificates nat nat :=
  Certificates 0 [] true ["localhost"] [BadChain "expired" "the leaf expired yesterday" 1 []] [] (Some 9).

Definition example_environ : gmap string string := {["BADCHAIN_EXPIRED_ADDR" := " :9000 "]}.
Definition in_use (addr : string) : option string := Some "address already in use".

Lemma main_listeners_honest_witness :
  honest [5%Z] [4865%Z] example_certs in_use
    (Listener "badchain-expired" ":9000" true "TLSv1.2" "TLSv1.3" "http/1.1"
       "the leaf expired yesterday")
    (TlsServer ":9000" (tlsServerWith [5%Z] [4865%Z] no_versions 1) false false) ∧
  (main_listeners [5%Z] [4865%Z] example_environ example_certs in_use).2
  = Some "raw: address already in use".
Proof.
  destruct (main_listeners_honest [5%Z] [4865%Z] example_environ example_certs in_use)
    as (Hl & _ & Hraw & _). split; [|exact Hraw].
  apply Hl. unfold main_listeners. cbn [fst]. rewrite !elem_of_app. do 5 right. left.
  apply elem_of_concat. eexists. split; [|by left].
  vm_compute. by left.
Defined.
