(* ===== verification/Lifecycle.v ===== *)
(** * The life of the process

    test-server/main.go: [main] and its goroutines.  [main] starts its listeners
    one after the other; each has a goroutine that serves ([serve], counted by the
    wait group) and one that waits for the signal and shuts it down
    ([shutdownWith]; for the raw listener, the one that closes it); [main] then
    waits for the ones that serve.  The steps are of two kinds: the ones the
    program takes by itself ([internal]), and what the system and the clients do
    to it ([external] and new requests).  A theorem over all executions is one
    over all their interleavings; one that needs the program to go on relies on
    internal steps only. *)

From S2P Require Import Prelude GoStrings Strconv Unicode Http HttpSpec Query Hostile RawEcho TlsNames Server.

(** ** A listener's two goroutines *)

Section Lifecycle.
Context {certificate pool : Type}.

(** [Shutdown] not called yet; called, and waiting for requests to end, with so
    many seconds left on the timer of its context; returned. *)
Inductive stage := Waiting | Draining (seconds : nat) | Finished.

(** Where [run] is: before its socket is open (the raw listener's is opened by
    [main]); accepting; returned, with [wg.Done]. *)
Inductive phase := Opening | Accepting | Returned.

#[export] Instance phase_eq_dec : EqDecision phase.
Proof. solve_decision. Defined.

Record job := Job {
  j_name : string;
  j_running : running certificate pool;
  j_phase : phase;
  j_active : nat;            (* requests in flight *)
  j_stage : stage;
}.

Definition is_raw (r : running certificate pool) : bool :=
  match r with RawListener _ => true | _ => false end.

(** The goroutines of a listener, when they start. *)
Definition new_job (p : listener * running certificate pool) : job :=
  Job (Name p.1) p.2 (if is_raw p.2 then Accepting else Opening) 0 Waiting.

Inductive run_error := ErrServerClosed | OtherError (e : string).

(** What [ListenAndServe], [ListenAndServeTLS] or [serveRaw] returns once the
    listener is shut down: [ErrServerClosed], at once; and [serveRaw] what it
    makes of the error that [Accept] has on a closed listener. *)
Inductive run_returns (j : job) : option run_error → Prop :=
| returns_closed :
    is_raw (j_running j) = false → j_stage j ≠ Waiting →
    run_returns j (Some ErrServerClosed)
| returns_nil :
    is_raw (j_running j) = true → j_stage j ≠ Waiting →
    (serveRaw (C:=unit) [AcceptError false]).2 = true → run_returns j None.

(** What it returns when the system fails it: an address that cannot be bound
    (also when the shutdown comes in between); an error of [Accept], which for
    [serveRaw] is the end, but no failure. *)
Inductive run_fails (j : job) : option run_error → Prop :=
| fails_open e :
    is_raw (j_running j) = false → j_phase j = Opening → run_fails j (Some (OtherError e))
| fails_accept e :
    is_raw (j_running j) = false → j_phase j = Accepting → j_stage j = Waiting →
    run_fails j (Some (OtherError e))
| fails_raw :
    is_raw (j_running j) = true → (serveRaw (C:=unit) [AcceptError false]).2 = true →
    run_fails j None.

(** The [run] that [serve] is given: an obsolete version that is unavailable
    costs its listener only. *)
Definition run (r : running certificate pool) (err : option run_error) : option run_error :=
  match r, err with
  | TlsServer _ _ _ true, Some (OtherError _) => None
  | _, _ => err
  end.

(** The goroutine of [serve]: [log.Fatalf], or [wg.Done]. *)
Definition serve_exit (name : string) (err : option run_error) : option string :=
  match err with
  | Some (OtherError e) => Some (name +:+ (": " +:+ e))
  | _ => None
  end.

(** The goroutine of [shutdownWith] when the signal is there: five seconds;
    closing the raw listener waits for nothing. *)
Definition shut (r : running certificate pool) : stage :=
  match r with RawListener _ => Finished | _ => Draining 5 end.

(** ** The process *)

Inductive life := Alive | Stopped | Fatal (msg : string).

Record process := Process {
  jobs : list job;
  (* what [main] has still to start, and the fatal error it comes to then *)
  starting : list (listener * running certificate pool);
  main_error : option string;
  cancelled : bool;          (* a signal has arrived *)
  state : life;
}.

Definition with_phase (ph : phase) (j : job) : job :=
  Job (j_name j) (j_running j) ph (j_active j) (j_stage j).
Definition with_active (n : nat) (j : job) : job :=
  Job (j_name j) (j_running j) (j_phase j) n (j_stage j).
Definition with_stage (st : stage) (j : job) : job :=
  Job (j_name j) (j_running j) (j_phase j) (j_active j) st.

Definition set_job (s : process) (i : nat) (j : job) : process :=
  Process (<[i := j]> (jobs s)) (starting s) (main_error s) (cancelled s) (state s).
Definition with_state (st : life) (s : process) : process :=
  Process (jobs s) (starting s) (main_error s) (cancelled s) st.

(** [run] has returned [err] to the goroutine of [serve]. *)
Definition returned (s : process) (i : nat) (j : job) (err : option run_error) : process :=
  match serve_exit (j_name j) (run (j_running j) err) with
  | Some msg => with_state (Fatal msg) s
  | None => set_job s i (with_phase Returned j)
  end.

(** [wg.Wait] returns. *)
Definition all_returned (s : process) : Prop := Forall (λ j, j_phase j = Returned) (jobs s).

(** The steps of the program. *)
Inductive internal (s : process) : process → Prop :=
| step_start p rest :
    state s = Alive → starting s = p :: rest →
    internal s (Process (jobs s ++ [new_job p]) rest (main_error s) (cancelled s) Alive)
| step_fatal msg :
    state s = Alive → starting s = [] → main_error s = Some msg →
    internal s (with_state (Fatal msg) s)
| step_open i j :
    state s = Alive → jobs s !! i = Some j → j_phase j = Opening → j_stage j = Waiting →
    internal s (set_job s i (with_phase Accepting j))
| step_shutdown i j :
    state s = Alive → cancelled s = true → jobs s !! i = Some j → j_stage j = Waiting →
    internal s (set_job s i (with_stage (shut (j_running j)) j))
| step_drained i j n :
    state s = Alive → jobs s !! i = Some j → j_stage j = Draining n → j_active j = 0 →
    internal s (set_job s i (with_stage Finished j))
| step_timeout i j :
    state s = Alive → jobs s !! i = Some j → j_stage j = Draining 0 →
    internal s (set_job s i (with_stage Finished j))
| step_return i j err :
    state s = Alive → jobs s !! i = Some j → j_phase j ≠ Returned → run_returns j err →
    internal s (returned s i j err)
| step_stop :
    state s = Alive → starting s = [] → main_error s = None → all_returned s →
    internal s (with_state Stopped s).

(** The signal, the end of a request, a second that passes for a [Shutdown], an
    error of the system. *)
Inductive external (s : process) : process → Prop :=
| step_signal :
    state s = Alive → cancelled s = false →
    external s (Process (jobs s) (starting s) (main_error s) true Alive)
| step_finish i j n :
    state s = Alive → jobs s !! i = Some j → j_active j = S n →
    external s (set_job s i (with_active n j))
| step_tick i j n :
    state s = Alive → jobs s !! i = Some j → j_stage j = Draining (S n) →
    external s (set_job s i (with_stage (Draining n) j))
| step_fail i j err :
    state s = Alive → jobs s !! i = Some j → j_phase j ≠ Returned → run_fails j err →
    external s (returned s i j err).

(** All steps but new requests. *)
Inductive progress (s s' : process) : Prop :=
| progress_internal : internal s s' → progress s s'
| progress_external : external s s' → progress s s'.

Inductive step (s : process) : process → Prop :=
| step_progress s' : progress s s' → step s s'
| step_request i j :
    state s = Alive → jobs s !! i = Some j → j_phase j = Accepting → j_stage j = Waiting →
    step s (set_job s i (with_active (S (j_active j)) j)).

(** [main] begins: [startup] is [main_listeners], what it starts and the fatal
    error it comes to when the raw listener's address cannot be bound. *)
Definition started (startup : list (listener * running certificate pool) * option string) : process :=
  Process [] startup.1 startup.2 false Alive.

(** ** The steps come to an end *)

Definition stage_left (st : stage) : nat :=
  match st with Waiting => 7 | Draining n => S n | Finished => 0 end.
Definition phase_left (ph : phase) : nat :=
  match ph with Opening => 2 | Accepting => 1 | Returned => 0 end.
Definition job_left (j : job) : nat :=
  stage_left (j_stage j) + phase_left (j_phase j) + j_active j.
Definition left (s : process) : nat :=
  sum_list (job_left <$> jobs s) + 10 * length (starting s) + (if cancelled s then 0 else 1)
  + match state s with Alive => 1 | _ => 0 end.

Lemma left_set_job s i j j' :
  jobs s !! i = Some j → (job_left j' < job_left j)%nat → (left (set_job s i j') < left s)%nat.
Proof.
  intros Hi Hlt. unfold left, set_job. cbn [jobs starting cancelled state].
  assert (sum_list (job_left <$> <[i:=j']> (jobs s)) < sum_list (job_left <$> jobs s))%nat; [|lia].
  revert i Hi. induction (jobs s) as [|k l IH]; intros [|i] Hi; try done; cbn in *.
  - injection Hi as ->. lia.
  - apply Nat.add_lt_mono_l. by apply IH.
Qed.

Lemma left_state s st : state s = Alive → st ≠ Alive → (left (with_state st s) < left s)%nat.
Proof. intros Ha Hst. unfold left. cbn [jobs starting cancelled state with_state]. rewrite Ha. destruct st; [done|lia..]. Qed.

Lemma left_returned s i j err :
  state s = Alive → jobs s !! i = Some j → j_phase j ≠ Returned → (left (returned s i j err) < left s)%nat.
Proof.
  intros Ha Hi Hp. unfold returned. destruct (serve_exit _ _); [by apply left_state|].
  apply (left_set_job s i j); [done|]. unfold job_left. cbn. destruct (j_phase j); [cbn; lia..|done].
Qed.

Lemma new_job_left p : (job_left (new_job p) < 10)%nat.
Proof. unfold job_left, new_job. cbn. destruct (is_raw _); cbn; lia. Qed.

Lemma sum_list_snoc (l : list nat) n : sum_list (l ++ [n]) = (sum_list l + n)%nat.
Proof. induction l as [|m l IH]; cbn; [lia|]. rewrite IH. lia. Qed.

Lemma internal_left s s' : internal s s' → (left s' < left s)%nat.
Proof.
  intros Hp. destruct Hp as [p rest Ha Hs|msg Ha Hs He|i j Ha Hi Hph Hs|i j Ha Hc Hi Hs|i j n Ha Hi Hs Hn|i j Ha Hi Hs
    |i j err Ha Hi Hs Hr|Ha Hs He Hall].
  - unfold left. cbn [jobs starting cancelled state]. rewrite Hs, Ha, fmap_app. cbn [fmap list_fmap].
    rewrite sum_list_snoc. pose proof (new_job_left p). cbn [length]. lia.
  - by apply left_state.
  - apply (left_set_job s i j); [done|]. unfold job_left. cbn. rewrite Hph. cbn. lia.
  - apply (left_set_job s i j); [done|]. unfold job_left. cbn. rewrite Hs. destruct (j_running j); cbn; lia.
  - apply (left_set_job s i j); [done|]. unfold job_left. cbn. rewrite Hs. cbn. lia.
  - apply (left_set_job s i j); [done|]. unfold job_left. cbn. rewrite Hs. cbn. lia.
  - by apply left_returned.
  - by apply left_state.
Qed.

Lemma external_left s s' : external s s' → (left s' < left s)%nat.
Proof.
  intros Hp. destruct Hp as [Ha Hc|i j n Ha Hi Hn|i j n Ha Hi Hs|i j err Ha Hi Hs Hr].
  - unfold left. cbn [jobs starting cancelled state]. rewrite Ha, Hc. lia.
  - apply (left_set_job s i j); [done|]. unfold job_left. cbn. lia.
  - apply (left_set_job s i j); [done|]. unfold job_left. cbn. rewrite Hs. cbn. lia.
  - by apply left_returned.
Qed.

Lemma progress_sn s : sn progress s.
Proof.
  assert (well_founded (flip progress)) as Hwf; [|apply Hwf].
  apply (wf_projected lt left); [|apply lt_wf].
  intros s1 s2 [Hp|Hp]; [by apply internal_left|by apply external_left].
Qed.

(** ** Once cancelled, nothing is stuck *)

(** A listener that was shut down returns, without an error that is fatal. *)
Lemma shut_returns j : j_stage j ≠ Waiting → ∃ err, run_returns j err.
Proof.
  intros Hs. destruct (is_raw (j_running j)) eqn:E.
  - exists None. by constructor.
  - exists (Some ErrServerClosed). by constructor.
Qed.

Lemma returns_quietly j err : run_returns j err → serve_exit (j_name j) (run (j_running j) err) = None.
Proof. intros []; [by destruct (j_running j) as [|? ? ? []|]|by destruct (j_running j) as [|? ? ? []|]]. Qed.

Lemma returned_quietly s i j err :
  run_returns j err → returned s i j err = set_job s i (with_phase Returned j).
Proof. intros Hr. unfold returned. by rewrite returns_quietly. Qed.

Lemma cancelled_internal s : state s = Alive → cancelled s = true → ∃ s', internal s s'.
Proof.
  intros Ha Hc. destruct (starting s) as [|p rest] eqn:Es; [|eexists; by eapply step_start].
  destruct (main_error s) as [msg|] eqn:Em; [eexists; by eapply step_fatal|].
  destruct (decide (Exists (λ j, j_phase j ≠ Returned) (jobs s))) as [He|He].
  - apply Exists_exists in He as (j & Hj & Hs). apply list_elem_of_lookup in Hj as [i Hi].
    destruct (j_stage j) eqn:Est; [eexists; by eapply step_shutdown|..];
      (destruct (shut_returns j) as (err & Hr); [by rewrite Est|]); eexists; by eapply step_return.
  - eexists. apply step_stop; [done..|]. unfold all_returned. apply not_Exists_Forall in He; [|apply _].
    eapply Forall_impl; [exact He|]. cbn. intros j Hj. by apply dec_stable.
Qed.

(** What the end is when the system does not interfere. *)
Definition final_state (s : process) : life :=
  match main_error s with Some msg => Fatal msg | None => Stopped end.

(** [main] goes on to its end whatever the signal finds it doing: it starts the
    rest of its listeners, *)
Lemma starts_from js todo c e :
  rtc internal (Process js todo e c Alive) (Process (js ++ (new_job <$> todo)) [] e c Alive).
Proof.
  revert js. induction todo as [|p todo IH]; intros js; [cbn; by rewrite app_nil_r|].
  eapply rtc_l; [by eapply (step_start (Process js (p :: todo) e c Alive))|]. cbn [jobs main_error cancelled].
  specialize (IH (js ++ [new_job p])). by rewrite <- app_assoc in IH.
Qed.

(** the signal reaches every one of them, *)
Definition shut_job (j : job) : job :=
  match j_stage j with Waiting => with_stage (shut (j_running j)) j | _ => j end.

Lemma shut_from pre todo :
  rtc internal (Process (pre ++ todo) [] None true Alive) (Process (pre ++ (shut_job <$> todo)) [] None true Alive).
Proof.
  revert pre. induction todo as [|j todo IH]; intros pre; [done|].
  assert (rtc internal (Process (pre ++ j :: todo) [] None true Alive)
    (Process ((pre ++ [shut_job j]) ++ todo) [] None true Alive)) as Hfirst.
  { unfold shut_job. rewrite <- app_assoc. destruct (j_stage j) eqn:Es; [|done..]. apply rtc_once.
    pose proof (step_shutdown (Process (pre ++ j :: todo) [] None true Alive) (length pre) j eq_refl eq_refl
      (list_lookup_middle pre todo j _ eq_refl) Es) as Hstep.
    unfold set_job in Hstep. cbn [jobs starting main_error cancelled state] in Hstep.
    by rewrite insert_app_r_alt, Nat.sub_diag in Hstep by done. }
  etransitivity; [exact Hfirst|]. cbn [fmap list_fmap].
  change (shut_job j :: ?l) with ([shut_job j] ++ l) at 2. rewrite app_assoc. apply IH.
Qed.

Lemma shut_job_stage j : j_stage (shut_job j) ≠ Waiting.
Proof. unfold shut_job. destruct (j_stage j) eqn:E; [|by rewrite E..]. by destruct (j_running j). Qed.

(** they return, one after the other, and [main] stops. *)
Lemma stops_from pre todo c :
  Forall (λ j, j_phase j = Returned) pre → Forall (λ j, j_stage j ≠ Waiting) todo →
  rtc internal (Process (pre ++ todo) [] None c Alive)
    (Process (pre ++ (with_phase Returned <$> todo)) [] None c Stopped).
Proof.
  revert pre. induction todo as [|j todo IH]; intros pre Hpre Htodo.
  - apply rtc_once. rewrite app_nil_r. cbn. rewrite app_nil_r. by apply (step_stop (Process pre [] None c Alive)).
  - apply Forall_cons in Htodo as [Hj Htodo].
    assert (rtc internal (Process (pre ++ j :: todo) [] None c Alive)
      (Process ((pre ++ [with_phase Returned j]) ++ todo) [] None c Alive)) as Hfirst.
    { destruct (decide (j_phase j = Returned)) as [Es|Es].
      - rewrite <- app_assoc. destruct j; cbn in Es; subst. done.
      - destruct (shut_returns j Hj) as (err & Hr). apply rtc_once.
        pose proof (step_return (Process (pre ++ j :: todo) [] None c Alive) (length pre) j err eq_refl
          (list_lookup_middle pre todo j _ eq_refl) Es Hr) as Hstep.
        rewrite returned_quietly in Hstep by done. unfold set_job in Hstep.
        cbn [jobs starting main_error cancelled state] in Hstep.
        rewrite insert_app_r_alt, Nat.sub_diag in Hstep by done. by rewrite <- app_assoc. }
    etransitivity; [exact Hfirst|]. cbn [fmap list_fmap].
    change (with_phase Returned j :: ?l) with ([with_phase Returned j] ++ l) at 2.
    rewrite app_assoc. apply IH; [|done]. apply Forall_app. split; [done|]. by apply Forall_singleton.
Qed.

(** After the signal, [main] comes to its end by itself, whatever is in flight. *)
Lemma stops_when_cancelled js :
  rtc internal (Process js [] None true Alive)
    (Process (with_phase Returned <$> (shut_job <$> js)) [] None true Stopped).
Proof.
  etransitivity; [apply (shut_from [])|]. apply (stops_from []); [done|].
  apply Forall_fmap, Forall_true. intros j. apply shut_job_stage.
Qed.

Lemma ends_when_cancelled s :
  cancelled s = true → state s = Alive → ∃ s', rtc internal s s' ∧ state s' = final_state s.
Proof.
  destruct s as [js todo e c st]. cbn. intros -> ->. unfold final_state. cbn. destruct e as [msg|].
  - eexists. split; [|shelve]. etransitivity; [apply starts_from|]. apply rtc_once.
    by eapply (step_fatal (Process _ [] _ _ _)). Unshelve. done.
  - eexists. split; [etransitivity; [apply starts_from|apply stops_when_cancelled]|done].
Qed.

(** What a signal and a fatal error of [main] are not changed by. *)
Lemma progress_keeps s s' :
  progress s s' → main_error s' = main_error s ∧ (cancelled s = true → cancelled s' = true).
Proof.
  intros [Hp|Hp]; destruct Hp; try done; unfold returned; by destruct (serve_exit _ _).
Qed.

Lemma internal_state s s' :
  internal s s' → state s' = Alive ∨ state s' = final_state s.
Proof.
  unfold final_state. intros Hp; destruct Hp; cbn; try (by left); try by (right; simplify_option_eq).
  rewrite returned_quietly by done. by left.
Qed.

Lemma internal_from_alive s s' : internal s s' → state s = Alive.
Proof. by destruct 1. Qed.

Definition reachable (startup : list (listener * running certificate pool) * option string) (s : process) : Prop :=
  rtc step (started startup) s.

(** C11: once the signal has arrived, the process ends, and by the program's own
    steps.  From any state in which it has, however the goroutines, the requests
    in flight, the timers and the errors of the system are interleaved: there is no
    endless sequence of steps other than new requests; a state in which the program
    has no step of its own left (nobody has to finish a request, no time has to
    pass and no error has to occur for it to have one) is one where it has ended,
    with [main] returning or with a fatal error; and if the system reports no
    error, that end is [main] returning, or the fatal error [main] was coming to
    for want of the raw listener's socket. *)
Theorem shutdown_ends s :
  cancelled s = true → state s = Alive →
  sn progress s ∧
  (∀ s', rtc progress s s' → nf internal s' → state s' = Stopped ∨ ∃ msg, state s' = Fatal msg) ∧
  (∀ s', rtc internal s s' → nf internal s' → state s' = final_state s) ∧
  ∃ s', rtc internal s s' ∧ state s' = final_state s.
Proof.
  intros Hc Ha. split; [apply progress_sn|]. split_and!.
  - intros s' Hr Hnf. assert (cancelled s' = true) as Hc'.
    { clear Ha Hnf. induction Hr as [|s1 s2 s3 Hp _ IH]; [done|]. by apply IH, (progress_keeps s1). }
    destruct (state s') eqn:E; [|by left|right; by eexists].
    destruct Hnf. by apply cancelled_internal.
  - intros s' Hr Hnf. revert Hc Ha. induction Hr as [s|s1 s2 s3 Hp Hr IH]; intros Hc Ha.
    { destruct Hnf. by apply cancelled_internal. }
    destruct (progress_keeps s1 s2 (progress_internal _ _ Hp)) as [He Hc2].
    assert (final_state s2 = final_state s1) as Hends by (unfold final_state; by rewrite He).
    destruct (internal_state s1 s2 Hp) as [E|E]; [rewrite <- Hends; auto|].
    destruct Hr as [s2|s2 s2' s3 Hp2 Hr]; [done|].
    apply internal_from_alive in Hp2. rewrite Hp2 in E. unfold final_state in E. by destruct (main_error s1).
  - by apply ends_when_cancelled.
Qed.

(** The listeners whose failure is fatal: not the raw one, and not those of the
    obsolete versions. *)
Definition essential (r : running certificate pool) : Prop :=
  match r with HttpServer _ => True | TlsServer _ _ _ optional => optional = false | RawListener _ => False end.

Definition quiet_job (j : job) : Prop :=
  j_stage j = Waiting ∧ (j_phase j = Returned → ¬ essential (j_running j)).

Definition process_inv (startup : list (listener * running certificate pool) * option string) (s : process) : Prop :=
  (((λ j, (j_name j, j_running j)) <$> jobs s) ++ ((λ p, (Name p.1, p.2)) <$> starting s)
     = (λ p, (Name p.1, p.2)) <$> startup.1 ∧ main_error s = startup.2) ∧
  (state s = Stopped → starting s = [] ∧ startup.2 = None ∧ all_returned s ∧
     (cancelled s = true ∨ Forall (λ j, ¬ essential (j_running j)) (jobs s))) ∧
  (∀ msg, state s = Fatal msg →
     (starting s = [] ∧ startup.2 = Some msg) ∨
     ∃ j e, j ∈ jobs s ∧ (j_phase j = Opening ∨ j_phase j = Accepting ∧ j_stage j = Waiting) ∧
       essential (j_running j) ∧ msg = j_name j +:+ (": " +:+ e)) ∧
  (cancelled s = false → Forall quiet_job (jobs s)).

Lemma set_job_inv l s i j j' :
  process_inv l s → state s = Alive → jobs s !! i = Some j →
  j_name j' = j_name j → j_running j' = j_running j →
  (cancelled s = false → quiet_job j → quiet_job j') → process_inv l (set_job s i j').
Proof.
  intros ([Hl He] & _ & _ & Hw) Ha Hi Hn Hr Hst. unfold process_inv, set_job.
  cbn [jobs starting main_error cancelled state]. rewrite Ha. split_and!; try done.
  - rewrite <- Hl, list_fmap_insert, Hn, Hr. f_equal. apply list_insert_id. by rewrite list_lookup_fmap, Hi.
  - intros Hc. specialize (Hw Hc). apply Forall_insert; [done|]. apply Hst; [done|].
    rewrite Forall_lookup in Hw. eauto.
Qed.

Lemma fatal_essential j err msg :
  run_fails j err → serve_exit (j_name j) (run (j_running j) err) = Some msg →
  (j_phase j = Opening ∨ j_phase j = Accepting ∧ j_stage j = Waiting) ∧ essential (j_running j) ∧
  ∃ e, msg = j_name j +:+ (": " +:+ e).
Proof.
  intros Hm Hx. assert (essential (j_running j) ∧ ∃ e, msg = j_name j +:+ (": " +:+ e)) as [? ?].
  { destruct Hm; destruct (j_running j) as [|? ? ? []|]; cbn in *; simplify_eq; eauto. }
  split; [|done]. destruct Hm; [by left|by right|by destruct (j_running j) as [|? ? ? []|]].
Qed.

Lemma fails_quietly j err :
  run_fails j err → serve_exit (j_name j) (run (j_running j) err) = None → ¬ essential (j_running j).
Proof. intros [] Hx; destruct (j_running j) as [|? ? ? []|]; cbn in *; simplify_eq; tauto || done. Qed.

Lemma internal_inv l s s' : process_inv l s → internal s s' → process_inv l s'.
Proof.
  intros Hinv Hp. pose proof Hinv as ([Hl He] & Hstop & Hfatal & Hw).
  destruct Hp as [p rest Ha Hs|msg Ha Hs Hm|i j Ha Hi Hph Hs|i j Ha Hc Hi Hs|i j n Ha Hi Hs Hn|i j Ha Hi Hs
    |i j err Ha Hi Hs Hr|Ha Hs Hm Hall].
  - split_and!; try done.
    + rewrite <- Hl, Hs. cbn [jobs starting]. by rewrite fmap_app, <- app_assoc.
    + intros Hc. cbn [jobs]. apply Forall_app. split; [by apply Hw|]. apply Forall_singleton.
      split; [done|]. cbn. by destruct (is_raw _).
  - split_and!; try done. intros m [= <-]. left. by rewrite <- He.
  - by apply (set_job_inv l s i j); [..|intros _ [? _]].
  - apply (set_job_inv l s i j); try done. by rewrite Hc.
  - apply (set_job_inv l s i j); try done. intros _ [? _]. congruence.
  - apply (set_job_inv l s i j); try done. intros _ [? _]. congruence.
  - rewrite returned_quietly by done. apply (set_job_inv l s i j); try done. intros _ [? _].
    by destruct Hr.
  - split_and!; try done. intros _. split_and!; [done|by rewrite <- He|done|].
    cbn [jobs cancelled with_state]. destruct (cancelled s); [by left|right]. specialize (Hw eq_refl).
    unfold all_returned in Hall. rewrite Forall_forall in Hall. rewrite Forall_forall in Hw.
    apply Forall_forall. intros j Hj. apply (Hw j Hj), (Hall j Hj).
Qed.

Lemma external_inv l s s' : process_inv l s → external s s' → process_inv l s'.
Proof.
  intros Hinv Hp. pose proof Hinv as ([Hl He] & Hstop & Hfatal & Hw).
  destruct Hp as [Ha Hc|i j n Ha Hi Hn|i j n Ha Hi Hs|i j err Ha Hi Hs Hr].
  - by split_and!.
  - by apply (set_job_inv l s i j).
  - apply (set_job_inv l s i j); try done. intros _ [? _]. congruence.
  - unfold returned. destruct (serve_exit _ _) as [msg|] eqn:E.
    + destruct (fatal_essential _ _ _ Hr E) as (Hst & Hess & e & ->). split_and!; try done.
      intros m [= <-]. right. exists j, e. split_and!; try done. by eapply list_elem_of_lookup_2.
    + apply (set_job_inv l s i j); try done. intros _ [? _]. split; [done|]. intros _. exact (fails_quietly j err Hr E).
Qed.

Lemma step_inv l s s' : process_inv l s → step s s' → process_inv l s'.
Proof.
  intros Hinv [s'' [Hp|Hp]|i j Ha Hi Hs Hst]; [by eapply internal_inv|by eapply external_inv|].
  by apply (set_job_inv l s i j).
Qed.

(** C20: in every state the process can reach: the listeners in service and the
    ones still to come are those of [main_listeners]; [main] has returned only if
    it has started all of them and every goroutine that serves one has returned,
    after a signal or with no listener but the raw one and the obsolete versions';
    and a fatal error was [main]'s own, when the raw listener's address could not
    be bound, or the error of a listener that was opening its socket or in service
    and not shut down, never the raw one's, nor that of an obsolete version, which
    cost themselves only. *)
Theorem process_safe startup s : reachable startup s → process_inv startup s.
Proof.
  unfold reachable. intros Hr. assert (process_inv startup (started startup)) as H0.
  { unfold process_inv, started. by split_and!. }
  revert Hr H0. generalize (started startup) as s0. intros s0 Hr Hinv.
  induction Hr as [|s1 s2 s3 Hs _ IH]; [done|]. apply IH. by eapply step_inv.
Qed.

Lemma steps_internal s s' : rtc internal s s' → rtc step s s'.
Proof. apply rtc_subrel. intros x y Hp. by apply step_progress, progress_internal. Qed.

(** C40: [main] does not wait for the requests in flight.  For any server whose
    listeners all start and that has an HTTP one, there is an execution in which
    the signal arrives while a request is being answered, [Shutdown] is waiting
    for that request and its timer still has all of its five seconds, and the
    process is over. *)
Theorem main_does_not_drain startup i p addr :
  startup.2 = None → startup.1 !! i = Some p → p.2 = HttpServer addr →
  ∃ s j, reachable startup s ∧ state s = Stopped ∧ jobs s !! i = Some j ∧
    j_stage j = Draining 5 ∧ j_active j = 1.
Proof.
  intros He Hi Hp. set (s0 := Process (new_job <$> startup.1) [] None false Alive).
  set (j0 := new_job p). assert (jobs s0 !! i = Some j0) as Hj0 by (cbn; by rewrite list_lookup_fmap, Hi).
  set (j1 := with_phase Accepting j0). set (s1 := set_job s0 i j1).
  assert (internal s0 s1) as H1.
  { apply (step_open s0 i j0); [done..| |done]. unfold j0, new_job. cbn. by rewrite Hp. }
  assert (jobs s1 !! i = Some j1) as Hj1 by (apply list_lookup_insert_eq; by eapply lookup_lt_Some).
  set (j2 := with_active 1 j1). set (s2 := set_job s1 i j2).
  assert (step s1 s2) as H2 by by apply (step_request s1 i j1).
  assert (jobs s2 !! i = Some j2) as Hj2 by (apply list_lookup_insert_eq; by eapply lookup_lt_Some).
  assert (progress s2 (Process (jobs s2) [] None true Alive)) as H3 by (by apply progress_external, (step_signal s2)).
  do 2 eexists. split_and!.
  - unfold reachable, started. rewrite He. etransitivity; [apply steps_internal, starts_from|].
    eapply rtc_l; [by apply step_progress, progress_internal|]. eapply rtc_l; [exact H2|].
    eapply rtc_l; [by apply step_progress|]. apply steps_internal, stops_when_cancelled.
  - done.
  - cbn [jobs]. rewrite !list_lookup_fmap, Hj2. reflexivity.
  - unfold shut_job, j2, j1, j0. cbn. by rewrite Hp.
  - done.
Qed.
End Lifecycle.

(** ** Witnesses *)

Definition example_listeners : list (listener * running nat nat) :=
  [(Listener "http" ":8080" false "" "" "http/1.1" "", HttpServer ":8080");
   (Listener "raw" ":8081" false "" "" "" "", RawListener ":8081")].

Definition example_signalled : process (certificate := nat) (pool := nat) :=
  Process [] example_listeners None true Alive.

Lemma shutdown_ends_witness : ∃ s', rtc internal example_signalled s' ∧ state s' = Stopped.
Proof. apply (shutdown_ends example_signalled); reflexivity. Defined.

Lemma process_safe_witness : process_inv (example_listeners, None) example_signalled.
Proof.
  apply (process_safe (example_listeners, None)). apply rtc_once, step_progress, progress_external.
  apply (step_signal (started (example_listeners, None))); reflexivity.
Defined.

Lemma main_does_not_drain_witness :
  ∃ s j, reachable (example_listeners, None) s ∧ state s = Stopped ∧ jobs s !! 0 = Some j ∧
    j_stage j = Draining 5 ∧ j_active j = 1.
Proof.
  apply (main_does_not_drain (example_listeners, None) 0
    (Listener "http" ":8080" false "" "" "http/1.1" "", HttpServer ":8080") ":8080"); reflexivity.
Defined.
