(* ===== verification/Certs.v ===== *)
(** * The certificates of the test server

    test-server/tls.go: [loadCertificates], [certHosts], [newCA], [newKey],
    [newLeaf], [newLeafWith], [newClientIdentity], [serialNumber];
    test-server/badchains.go: [newBadChains], [newIntermediate]. *)

From S2P Require Import Prelude GoStrings Unicode GoTime Pem NetIP X509 Mint Http TlsNames Server.

Open Scope Z_scope.

Section Certs.
Context `{UnicodeTables} `{X509Codec}.
(** The error of each draw from the entropy source, if it fails; the number it
    gives; the clock at each reading. *)
Context (entropy : nat → option string) (random : nat → Z) (clock : nat → Z).

Abbreviation now := (now clock).
Abbreviation createCertificate := (createCertificate entropy).

Definition newKey : mint key := GenerateKey entropy.

(** A number below 2^128; the entropy source failing is a panic. *)
Definition serialNumber : mint Z := λ w,
  match entropy (draws w) with
  | Some _ => Panic
  | None => Ok (random (draws w) mod 2 ^ 128, World (S (draws w)) (ticks w))
  end.

Definition ca_template (serial : Z) (subject : string) (notBefore notAfter : Z)
    (maxPathLen : option Z) : Certificate :=
  X509 serial subject "" notBefore notAfter [CertSign; DigitalSignature] [] true true maxPathLen
    [] [] None None None None.

Definition newCA : mint (Certificate * key * string) :=
  key ← newKey;
  serial ← serialNumber;
  before ← now;
  after ← now;
  let template :=
    ca_template serial "okhttp-testbed test-server CA" (before - hour) (addDate after 1 0 0) None in
  der ← createCertificate template template key key;
  cert ← lift (ParseCertificate der);
  mret (cert, key, pem_encode "CERTIFICATE" der).

(** The zero [time.Time] is [None]. *)
Record leafOptions := LeafOptions {
  opt_hosts : list string;
  opt_notBefore : option Z;
  opt_notAfter : option Z;
}.

(** A date that was given, or one reckoned from the clock. *)
Definition or_now (given : option Z) (f : Z → Z) : mint Z :=
  match given with
  | Some t => mret t
  | None => t ← now; mret (f t)
  end.

(** The loop that sorts the hosts into addresses and names. *)
Definition add_host (sans : list (list byte) * list string) (host : string) :
    list (list byte) * list string :=
  match ParseIP host with
  | Some ip => (sans.1 ++ [ip], sans.2)
  | None => (sans.1, sans.2 ++ [host])
  end.

Definition leaf_template (serial : Z) (subject : string) (notBefore notAfter : Z)
    (hosts : list string) : Certificate :=
  let '(ips, names) := foldl add_host ([], []) hosts in
  X509 serial subject "" notBefore notAfter [DigitalSignature; KeyEncipherment] [ServerAuth]
    false false None names ips None None None None.

(** [caCert] and [caKey] are nil together. *)
Definition newLeafWith (ca : option (Certificate * key)) (opts : leafOptions) : mint tls_certificate :=
  key ← newKey;
  notBefore ← or_now (opt_notBefore opts) (λ t, t - hour);
  notAfter ← or_now (opt_notAfter opts) (λ t, addDate t 1 0 0);
  serial ← serialNumber;
  subject ← lift (index (opt_hosts opts) 0);
  let template := leaf_template serial subject notBefore notAfter (opt_hosts opts) in
  let '(issuer, issuerKey) := default (template, key) ca in
  der ← createCertificate template issuer key issuerKey;
  lift (X509KeyPair (pem_encode "CERTIFICATE" der) (pem_encode "EC PRIVATE KEY" (ec_der key))).

Definition newLeaf (caCert : Certificate) (caKey : key) (hosts : list string) : mint tls_certificate :=
  newLeafWith (Some (caCert, caKey)) (LeafOptions hosts None None).

Definition newClientIdentity (caCert : Certificate) (caKey : key) : mint string :=
  key ← newKey;
  serial ← serialNumber;
  before ← now;
  after ← now;
  let template := X509 serial "okhttp-testbed client" "" (before - hour) (addDate after 1 0 0)
    [DigitalSignature] [ClientAuth] false false None [] [] None None None None in
  der ← createCertificate template caCert key caKey;
  mret (pem_encode "CERTIFICATE" der +:+ pem_encode "PRIVATE KEY" (pkcs8_der key)).

Definition newIntermediate (caCert : Certificate) (caKey : key) : mint (Certificate * key) :=
  key ← newKey;
  serial ← serialNumber;
  before ← now;
  after ← now;
  let template := ca_template serial "okhttp-testbed test-server intermediate"
    (before - hour) (addDate after 1 0 0) (Some 0) in
  der ← createCertificate template caCert key caKey;
  cert ← lift (ParseCertificate der);
  mret (cert, key).

Definition newBadChains (caCert : Certificate) (caKey : key) (hosts : list string) :
    mint (list (@badChain tls_certificate)) :=
  t ← now;
  '(untrustedCA, untrustedKey, _) ← newCA;
  '(intermediate, intermediateKey) ← newIntermediate caCert caKey;
  expired ← newLeafWith (Some (caCert, caKey))
    (LeafOptions hosts (Some (addDate t 0 0 (-30))) (Some (addDate t 0 0 (-1))));
  wrongHost ← newLeafWith (Some (caCert, caKey)) (LeafOptions ["wrong.host.invalid"] None None);
  selfSigned ← newLeafWith None (LeafOptions hosts None None);
  untrustedRoot ← newLeafWith (Some (untrustedCA, untrustedKey)) (LeafOptions hosts None None);
  incomplete ← newLeafWith (Some (intermediate, intermediateKey)) (LeafOptions hosts None None);
  mret
    [BadChain "expired" "the leaf expired yesterday; everything else about it is correct" expired [];
     BadChain "wrong-host" "a valid chain for wrong.host.invalid, served on a name it does not cover"
       wrongHost [];
     BadChain "self-signed" "the leaf is its own issuer, so there is no path to any anchor" selfSigned [];
     BadChain "untrusted-root"
       "signed by a second CA this server mints and never publishes at /ca.pem" untrustedRoot [];
     BadChain "incomplete-chain"
       "signed by an intermediate the server holds back, so the path cannot be built" incomplete
       (bytes (pem_encode "CERTIFICATE" (cert_der intermediate)))].

(** ** Loading *)

Context (environ : gmap string string).

(** The body of the loop: a blank entry is skipped. *)
Definition extend_hosts (hosts : list string) (host : string) : list string :=
  if decide (trimSpace host = "") then hosts else hosts ++ [trimSpace host].

Definition certHosts : list string :=
  foldl extend_hosts ["localhost"; "127.0.0.1"; "::1"] (split "," (env environ "CERT_HOSTS" "")).

(** [tls.LoadX509KeyPair] reads two files. *)
Context (LoadX509KeyPair : string → string → outcome tls_certificate).

Definition loadCertificates : mint (certificates tls_certificate (list Certificate)) :=
  let hosts := certHosts in
  let certFile := env environ "TLS_CERT_FILE" "" in
  let keyFile := env environ "TLS_KEY_FILE" "" in
  if decide (bool_decide (certFile = "") ≠ bool_decide (keyFile = "")) then
    lift (Err "TLS_CERT_FILE and TLS_KEY_FILE must be set together")
  else if decide (certFile ≠ "") then
    leaf ← lift (LoadX509KeyPair certFile keyFile);
    mret (Certificates leaf [] false hosts [] [] None)
  else
    '(caCert, caKey, caPEM) ← newCA;
    leaf ← newLeaf caCert caKey hosts;
    badChains ← newBadChains caCert caKey hosts;
    clientPEM ← newClientIdentity caCert caKey;
    mret (Certificates leaf (bytes caPEM) true hosts badChains (bytes clientPEM) (Some [caCert])).
End Certs.
