(* ===== verification/CertsSpec.v ===== *)
(** * What the minted certificates are worth

    Every certificate [loadCertificates] mints, as a function of the draws and
    the clock readings it uses; and what a client that trusts the fixture CA
    makes of each: the good leaf passes every check, and each bad chain fails
    exactly one. *)

From S2P Require Import Prelude GoStrings Unicode GoTime Pem NetIP X509 Mint Http TlsNames Server Certs.

Open Scope Z_scope.

(** ** The names and addresses of a leaf *)

(** [add_host] only ever adds. *)
Lemma add_host_mono hosts sans :
  (∀ ip, ip ∈ sans.1 → ip ∈ (foldl add_host sans hosts).1) ∧
  (∀ name, name ∈ sans.2 → name ∈ (foldl add_host sans hosts).2).
Proof.
  revert sans. induction hosts as [|h hosts IH]; intros sans; [done|]. cbn [foldl].
  destruct (IH (add_host sans h)) as [H1 H2]. unfold add_host in *.
  split; intros x Hx; [apply H1 | apply H2]; destruct (ParseIP h); cbn; set_solver.
Qed.

(** Every host is covered, an address as an address and a name as a name. *)
Lemma add_host_covers hosts host sans :
  host ∈ hosts →
  match ParseIP host with
  | Some ip => ip ∈ (foldl add_host sans hosts).1
  | None => host ∈ (foldl add_host sans hosts).2
  end.
Proof.
  revert sans. induction hosts as [|h hosts IH]; intros sans Hh; [by apply elem_of_nil in Hh|].
  cbn [foldl]. apply elem_of_cons in Hh as [->|Hh]; [|by apply IH].
  destruct (add_host_mono hosts (add_host sans h)) as [H1 H2].
  destruct (ParseIP h) as [ip|] eqn:E; [apply H1 | apply H2]; unfold add_host; rewrite E; cbn; set_solver.
Qed.

(** Nothing else is. *)
Lemma add_host_only hosts sans name :
  name ∈ (foldl add_host sans hosts).2 → name ∈ sans.2 ∨ name ∈ hosts.
Proof.
  revert sans. induction hosts as [|h hosts IH]; intros sans Hn; [by left|]. cbn [foldl] in Hn.
  destruct (IH _ Hn) as [Hs|Hs]; [|set_solver]. unfold add_host in Hs.
  destruct (ParseIP h); cbn in Hs; set_solver.
Qed.

(** ** Verdicts *)

(** What is wrong with a bad chain, by its name. *)
Inductive fault := OutOfDate | WrongName | NoPath.
Definition fault_of (name : string) : fault :=
  if decide (name = "expired") then OutOfDate
  else if decide (name = "wrong-host") then WrongName
  else NoPath.

(** Refused for [f], and every other check passes. *)
Definition refused_for (f : fault) (roots held : list Certificate) (t : Z) (host : string)
    (c : Certificate) : Prop :=
  ServerAuth ∈ ExtKeyUsage c ∧
  (time_ok t c ↔ f ≠ OutOfDate) ∧ (host_ok host c ↔ f ≠ WrongName) ∧
  (certified roots held t 0 c ↔ f ≠ NoPath).

Section Minting.
Context `{UnicodeTables} `{X509Codec}.
Context (entropy : nat → option string) (random : nat → Z) (clock : nat → Z).
Hypothesis entropy_ok : ∀ n, entropy n = None.

Abbreviation run_draw := (run_draw entropy entropy_ok).
Abbreviation run_create := (run_create entropy entropy_ok).
Abbreviation run_create_err := (run_create_err entropy entropy_ok).

Abbreviation newKey := (newKey entropy).
Abbreviation serialNumber := (serialNumber entropy random).
Abbreviation newCA := (newCA entropy random clock).
Abbreviation newLeafWith := (newLeafWith entropy random clock).
Abbreviation newIntermediate := (newIntermediate entropy random clock).
Abbreviation newClientIdentity := (newClientIdentity entropy random clock).

(** ** Each minted certificate *)

Definition serial_at (w : world) : Z := random (draws w) mod 2 ^ 128.

Lemma run_serial {B} (f : Z → mint B) w :
  (serialNumber ≫= f) w = f (serial_at w) (World (S (draws w)) (ticks w)).
Proof. apply run_mint. unfold Certs.serialNumber. by rewrite entropy_ok. Qed.

Lemma serial_nonneg w : 0 ≤ serial_at w.
Proof. unfold serial_at. apply Z.mod_pos_bound. lia. Qed.

Definition ca_fields (name : string) (pathlen : option Z) (w : world) : Certificate :=
  ca_template (serial_at (later 1 0 w)) name (clock (ticks w) - hour)
    (addDate (clock (S (ticks w))) 1 0 0) pathlen.

Definition root_name : string := "okhttp-testbed test-server CA".
Definition minted_root (w : world) : Certificate :=
  let template := ca_fields root_name None w in signed template template (draws w) (draws w).

Lemma newCA_run w :
  newCA w = Ok ((minted_root w, draws w, pem_encode "CERTIFICATE" (cert_der (minted_root w))),
                later 3 2 w).
Proof.
  unfold Certs.newCA, Certs.newKey, GenerateKey. rewrite run_draw, run_serial, !run_now.
  rewrite run_create by (apply CreateCertificate_ok; [apply serial_nonneg | by left.. | constructor]).
  by rewrite (run_lift _ _ _ _ (parse_cert_der _)).
Qed.

Definition minted_intermediate (ca : Certificate) (caKey : key) (w : world) : Certificate :=
  signed (ca_fields "okhttp-testbed test-server intermediate" (Some 0) w) ca (draws w) caKey.

Lemma newIntermediate_run ca caKey w :
  PublicKey ca = Some caKey →
  newIntermediate ca caKey w = Ok ((minted_intermediate ca caKey w, draws w), later 3 2 w).
Proof.
  intros Hca. unfold Certs.newIntermediate, Certs.newKey, GenerateKey. rewrite run_draw, run_serial, !run_now.
  rewrite run_create by (apply CreateCertificate_ok; [apply serial_nonneg | by left | by right | constructor]).
  by rewrite (run_lift _ _ _ _ (parse_cert_der _)).
Qed.

(** A leaf: the clock is read for each date that is not given. *)
Definition opt_ticks (o : option Z) : nat := if o is Some _ then 0 else 1.

Lemma run_or_now {B} (f : Z → mint B) o g w :
  (or_now clock o g ≫= f) w = f (default (g (clock (ticks w))) o) (later 0 (opt_ticks o) w).
Proof. destruct o; [by destruct w | done]. Qed.

Definition leaf_fields (opts : leafOptions) (w : world) : Certificate :=
  let n := opt_ticks (opt_notBefore opts) in
  leaf_template (serial_at (later 1 0 w)) (default "" (head (opt_hosts opts)))
    (default (clock (ticks w) - hour) (opt_notBefore opts))
    (default (addDate (clock (n + ticks w)) 1 0 0) (opt_notAfter opts))
    (opt_hosts opts).
Definition minted_leaf (ca : option (Certificate * key)) (opts : leafOptions) (w : world) : Certificate :=
  let template := leaf_fields opts w in
  let '(issuer, issuerKey) := default (template, draws w) ca in
  signed template issuer (draws w) issuerKey.

Lemma leaf_template_fields serial subject before after hosts :
  let c := leaf_template serial subject before after hosts in
  SerialNumber c = serial ∧ Subject c = subject ∧ NotBefore c = before ∧ NotAfter c = after ∧
  ExtKeyUsage c = [ServerAuth] ∧ MaxPathLen c = None ∧ PublicKey c = None ∧
  SubjectKeyId c = None ∧ AuthorityKeyId c = None ∧
  DNSNames c = (foldl add_host ([], []) hosts).2 ∧ IPAddresses c = (foldl add_host ([], []) hosts).1.
Proof. unfold leaf_template. by destruct (foldl _ _ _). Qed.

Lemma newLeafWith_run ca opts w :
  opt_hosts opts ≠ [] → Forall (λ name, sforall is_ascii_char name) (opt_hosts opts) →
  (∀ c k, ca = Some (c, k) → PublicKey c = Some k) →
  newLeafWith ca opts w
  = Ok (TlsCertificate [cert_der (minted_leaf ca opts w)] (draws w),
        later 3 (opt_ticks (opt_notBefore opts) + opt_ticks (opt_notAfter opts)) w).
Proof.
  intros Hne Hascii Hca. unfold Certs.newLeafWith, Certs.newKey, GenerateKey. rewrite run_draw.
  set (n := opt_ticks (opt_notBefore opts)). set (k := opt_ticks (opt_notAfter opts)).
  rewrite !run_or_now.
  rewrite run_serial.
  rewrite (run_lift _ _ _ (default "" (head (opt_hosts opts))))
    by (destruct (opt_hosts opts) eqn:E; done).
  change (serial_at (later 0 _ _)) with (serial_at (later 1 0 w)).
  change (leaf_template _ _ _ _ _) with (leaf_fields opts w).
  pose proof (leaf_template_fields (serial_at (later 1 0 w)) (default "" (head (opt_hosts opts)))
    (default (clock (ticks w) - hour) (opt_notBefore opts))
    (default (addDate (clock (n + ticks w)) 1 0 0) (opt_notAfter opts)) (opt_hosts opts)) as Hf.
  change (leaf_template _ _ _ _ _) with (leaf_fields opts w) in Hf. cbv zeta in Hf.
  destruct Hf as (Hser & _ & _ & _ & _ & Hmax & Hpub & _ & _ & Hdns & _).
  unfold minted_leaf. destruct (default (leaf_fields opts w, draws w) ca) as [issuer issuerKey] eqn:E.
  assert (PublicKey issuer = None ∨ PublicKey issuer = Some issuerKey) as Hp.
  { destruct ca as [[c ck]|]; injection E as <- <-; [right; by apply Hca | by left]. }
  rewrite run_create.
  2: { apply CreateCertificate_ok; [rewrite Hser; apply serial_nonneg | by right | done |].
       rewrite Hdns. apply Forall_forall. intros name Hn.
       apply add_host_only in Hn as [Hn|Hn]; [by apply elem_of_nil in Hn|].
       rewrite Forall_forall in Hascii. by apply Hascii. }
  unfold lift. rewrite (X509KeyPair_pem _ (draws w)); [|done..|apply parse_ec_der].
  unfold later. cbn [mbind outcome_bind draws ticks]. do 3 f_equal. lia.
Qed.

(** A name that is not ASCII makes the leaf an error. *)
Lemma newLeaf_non_ascii ca caKey hosts host w :
  host ∈ hosts → ParseIP host = None → ¬ sforall is_ascii_char host →
  ∃ e, newLeaf entropy random clock ca caKey hosts w = Err e.
Proof.
  intros Hh Hip Hn. unfold newLeaf, Certs.newLeafWith, Certs.newKey, GenerateKey. cbn [opt_hosts opt_notBefore opt_notAfter].
  rewrite run_draw, !run_or_now, run_serial.
  rewrite (run_lift _ _ _ (default "" (head hosts))) by (destruct hosts; [by apply elem_of_nil in Hh | done]).
  set (template := leaf_template _ _ _ _ _).
  change (default _ (Some (ca, caKey))) with (ca, caKey). cbv beta iota.
  destruct (CreateCertificate_non_ascii template ca (draws w) caKey host) as [e He].
  - assert (DNSNames template = (foldl add_host ([], []) hosts).2) as -> by apply leaf_template_fields.
    pose proof (add_host_covers hosts host ([], []) Hh) as Hc. by rewrite Hip in Hc.
  - done.
  - exists e. by rewrite (run_create_err _ _ _ _ _ _ e).
Qed.

Definition client_fields (w : world) : Certificate :=
  X509 (serial_at (later 1 0 w)) "okhttp-testbed client" "" (clock (ticks w) - hour)
    (addDate (clock (S (ticks w))) 1 0 0) [DigitalSignature] [ClientAuth] false false None [] []
    None None None None.
Definition minted_client (ca : Certificate) (caKey : key) (w : world) : Certificate :=
  signed (client_fields w) ca (draws w) caKey.

Lemma newClientIdentity_run ca caKey w :
  PublicKey ca = Some caKey →
  newClientIdentity ca caKey w
  = Ok (pem_encode "CERTIFICATE" (cert_der (minted_client ca caKey w))
        +:+ pem_encode "PRIVATE KEY" (pkcs8_der (draws w)), later 3 2 w).
Proof.
  intros Hca. unfold Certs.newClientIdentity, Certs.newKey, GenerateKey. rewrite run_draw, run_serial, !run_now.
  by rewrite run_create by (apply CreateCertificate_ok; [apply serial_nonneg | by right.. | constructor]).
Qed.

(** ** Everything [loadCertificates] mints, from a world [w0]

    Each certificate takes three draws; the worlds are named after what is
    minted in them. *)

Section Load.
Context (w0 : world) (hosts : list string).
Hypothesis hosts_ne : hosts ≠ [].
Hypothesis hosts_ascii : Forall (λ name, sforall is_ascii_char name) hosts.

Definition w_leaf : world := later 3 2 w0.
Definition w_bad : world := later 3 2 w_leaf.
Definition w_untrusted : world := later 0 1 w_bad.
Definition w_intermediate : world := later 3 2 w_untrusted.
Definition w_expired : world := later 3 2 w_intermediate.
Definition w_wrong : world := later 3 0 w_expired.
Definition w_self : world := later 3 2 w_wrong.
Definition w_untrusted_leaf : world := later 3 2 w_self.
Definition w_incomplete : world := later 3 2 w_untrusted_leaf.
Definition w_client : world := later 3 2 w_incomplete.

Definition root : Certificate := minted_root w0.
Definition rootKey : key := draws w0.
Definition good_options : leafOptions := LeafOptions hosts None None.
Definition good_leaf : Certificate := minted_leaf (Some (root, rootKey)) good_options w_leaf.

Definition untrusted_root : Certificate := minted_root w_untrusted.
Definition intermediate : Certificate := minted_intermediate root rootKey w_intermediate.
Definition bad_day : Z := clock (ticks w_bad).
Definition expired_options : leafOptions :=
  LeafOptions hosts (Some (addDate bad_day 0 0 (-30))) (Some (addDate bad_day 0 0 (-1))).
Definition expired_leaf : Certificate :=
  minted_leaf (Some (root, rootKey)) expired_options w_expired.
Definition wrong_options : leafOptions := LeafOptions ["wrong.host.invalid"] None None.
Definition wrong_leaf : Certificate :=
  minted_leaf (Some (root, rootKey)) wrong_options w_wrong.
Definition self_leaf : Certificate := minted_leaf None good_options w_self.
Definition untrusted_leaf : Certificate :=
  minted_leaf (Some (untrusted_root, draws w_untrusted)) good_options w_untrusted_leaf.
Definition incomplete_leaf : Certificate :=
  minted_leaf (Some (intermediate, draws w_intermediate)) good_options w_incomplete.
Definition client_cert : Certificate := minted_client root rootKey w_client.

(** The chain of a bad listener: its name, its leaf and key, what it withholds. *)
Definition bad_leaves : list (string * (Certificate * key) * list Certificate) :=
  [("expired", (expired_leaf, draws w_expired), []);
   ("wrong-host", (wrong_leaf, draws w_wrong), []);
   ("self-signed", (self_leaf, draws w_self), []);
   ("untrusted-root", (untrusted_leaf, draws w_untrusted_leaf), []);
   ("incomplete-chain", (incomplete_leaf, draws w_incomplete), [intermediate])].

Lemma root_key : PublicKey root = Some rootKey.
Proof. done. Qed.

Lemma newBadChains_run :
  ∃ chains, newBadChains entropy random clock root rootKey hosts w_bad = Ok (chains, w_client) ∧
    (λ b, (chain_name b, chain_certificate b, chain_withheld b)) <$> chains
    = (λ l, (l.1.1, TlsCertificate [cert_der l.1.2.1] l.1.2.2,
             concat ((λ c, bytes (pem_encode "CERTIFICATE" (cert_der c))) <$> l.2))) <$> bad_leaves.
Proof.
  assert (∀ c k, Some (root, rootKey) = Some (c, k) → PublicKey c = Some k) as Hroot
    by by intros c k [= <- <-].
  unfold newBadChains. rewrite run_now. change (World _ _) with w_untrusted.
  rewrite (run_mint _ _ _ _ _ (newCA_run w_untrusted)). cbv beta iota.
  change (later 3 2 w_untrusted) with w_intermediate.
  rewrite (run_mint _ _ _ _ _ (newIntermediate_run root rootKey w_intermediate root_key)).
  change (later 3 2 w_intermediate) with w_expired. cbv beta iota.
  rewrite (run_mint _ _ _ _ _ (newLeafWith_run _ expired_options w_expired hosts_ne hosts_ascii Hroot)).
  change (later 3 _ w_expired) with w_wrong.
  rewrite (run_mint _ _ _ _ _ (newLeafWith_run _ wrong_options w_wrong
    ltac:(done) ltac:(by repeat constructor) Hroot)).
  change (later 3 _ w_wrong) with w_self.
  rewrite (run_mint _ _ _ _ _ (newLeafWith_run None good_options w_self hosts_ne hosts_ascii ltac:(done))).
  change (later 3 _ w_self) with w_untrusted_leaf.
  rewrite (run_mint _ _ _ _ _ (newLeafWith_run (Some (untrusted_root, draws w_untrusted)) good_options
    w_untrusted_leaf hosts_ne hosts_ascii ltac:(by intros c k [= <- <-]))).
  change (later 3 _ w_untrusted_leaf) with w_incomplete.
  rewrite (run_mint _ _ _ _ _ (newLeafWith_run (Some (intermediate, draws w_intermediate)) good_options
    w_incomplete hosts_ne hosts_ascii ltac:(by intros c k [= <- <-]))).
  change (later 3 _ w_incomplete) with w_client.
  eexists. split; [reflexivity|]. cbn [fmap list_fmap bad_leaves concat chain_name chain_certificate
    chain_withheld fst snd]. by rewrite app_nil_r.
Qed.

(** ** What a client makes of them *)

Context (t : Z).
(** The client's clock is at most an hour behind the server's when it minted,
    and at most 365 days ahead. *)
Hypothesis clock_ok : ∀ i, t - 365 * day_seconds ≤ clock i ≤ t + hour.

Lemma clock_window i j : clock i - hour ≤ t ≤ addDate (clock j) 1 0 0.
Proof.
  pose proof (clock_ok i). pose proof (clock_ok j). pose proof (addDate_year (clock j)). lia.
Qed.

Lemma time_ok_root w : time_ok t (minted_root w).
Proof. apply clock_window. Qed.
Lemma time_ok_intermediate ca k w : time_ok t (minted_intermediate ca k w).
Proof. apply clock_window. Qed.

(** The fields of a minted leaf. *)
Lemma minted_leaf_fields ca opts w :
  let c := minted_leaf ca opts w in
  NotBefore c = default (clock (ticks w) - hour) (opt_notBefore opts) ∧
  NotAfter c = default (addDate (clock (opt_ticks (opt_notBefore opts) + ticks w)) 1 0 0)
                 (opt_notAfter opts) ∧
  ExtKeyUsage c = [ServerAuth] ∧
  SignedBy c = Some (default (draws w) (snd <$> ca)) ∧
  DNSNames c = (foldl add_host ([], []) (opt_hosts opts)).2 ∧
  IPAddresses c = (foldl add_host ([], []) (opt_hosts opts)).1.
Proof.
  unfold minted_leaf, leaf_fields, leaf_template.
  destruct (foldl add_host ([], []) (opt_hosts opts)) as [ips names].
  by destruct ca as [[c k]|].
Qed.

Lemma leaf_time_ok ca w hs : time_ok t (minted_leaf ca (LeafOptions hs None None) w).
Proof.
  destruct (minted_leaf_fields ca (LeafOptions hs None None) w) as (Hb & Ha & _).
  unfold time_ok. rewrite Hb, Ha. apply clock_window.
Qed.

Lemma leaf_host_ok ca opts w host : host ∈ opt_hosts opts → host_ok host (minted_leaf ca opts w).
Proof.
  intros Hh. destruct (minted_leaf_fields ca opts w) as (_ & _ & _ & _ & Hd & Hi).
  unfold host_ok. rewrite Hd, Hi. pose proof (add_host_covers _ host ([], []) Hh) as Hc.
  destruct (ParseIP host); [done|]. apply Exists_exists. eexists. split; [exact Hc|].
  apply dns_match_refl.
Qed.

(** A leaf under a CA that may sign it. *)
Lemma leaf_issued ca k opts w :
  PublicKey ca = Some k → SubjectKeyId ca = Some k →
  BasicConstraintsValid ca = true → IsCA ca = true → CertSign ∈ KeyUsage ca →
  (match MaxPathLen ca with Some n => 0 ≤ n | None => True end) →
  issued 0 ca (minted_leaf (Some (ca, k)) opts w).
Proof.
  intros. unfold minted_leaf. cbn [default]. apply issued_signed; try done.
  unfold leaf_fields, leaf_template. by destruct (foldl _ _ _).
Qed.

Lemma root_issued opts w : issued 0 root (minted_leaf (Some (root, rootKey)) opts w).
Proof. apply leaf_issued; try done. cbn. left. Qed.

Lemma root_certified held opts w : certified [root] held t 0 (minted_leaf (Some (root, rootKey)) opts w).
Proof. eapply certified_root; [by left | apply time_ok_root | apply root_issued]. Qed.

Lemma intermediate_certified held below : certified [root] held t below intermediate.
Proof.
  eapply certified_root; [by left | apply time_ok_root |].
  apply issued_signed; try done. cbn. left.
Qed.

Lemma incomplete_certified : certified [root] [intermediate] t 0 incomplete_leaf.
Proof.
  eapply certified_step; [by left | apply time_ok_intermediate | | apply intermediate_certified].
  apply leaf_issued; try done. cbn. left.
Qed.

(** A leaf signed by another key than the root's has no path to it. *)
Lemma foreign_leaf ca opts w :
  default (draws w) (snd <$> ca) ≠ rootKey → ¬ certified [root] [] t 0 (minted_leaf ca opts w).
Proof.
  intros Hk. apply foreign_not_certified. rewrite app_nil_r. intros c ->%list_elem_of_singleton.
  destruct (minted_leaf_fields ca opts w) as (_ & _ & _ & -> & _). intros [= E]. by apply Hk.
Qed.

Lemma expired_not_time : ¬ time_ok t expired_leaf.
Proof.
  destruct (minted_leaf_fields (Some (root, rootKey)) expired_options w_expired) as (_ & Ha & _).
  unfold time_ok, expired_leaf. rewrite Ha. cbn [expired_options opt_notAfter default].
  rewrite addDate_days. pose proof (clock_ok (ticks w_bad)). unfold bad_day, day_seconds, hour in *. unfold id. lia.
Qed.

Lemma wrong_not_host host : smap lower_char host ≠ "wrong.host.invalid" → ¬ host_ok host wrong_leaf.
Proof.
  intros Hne. destruct (minted_leaf_fields (Some (root, rootKey)) wrong_options w_wrong)
    as (_ & _ & _ & _ & Hd & Hi).
  unfold host_ok, wrong_leaf. rewrite Hd, Hi. change (foldl _ _ _) with
    (@nil (list byte), ["wrong.host.invalid"]). cbn [fst snd].
  destruct (ParseIP host); [by intros ?%elem_of_nil|].
  intros [Hm | Hm]%Exists_cons; [|by apply Exists_nil in Hm].
  unfold dns_match in Hm. change (smap lower_char "wrong.host.invalid") with "wrong.host.invalid" in Hm.
  by rewrite bool_decide_false in Hm.
Qed.

Lemma leaf_purpose ca opts w : ServerAuth ∈ ExtKeyUsage (minted_leaf ca opts w).
Proof. destruct (minted_leaf_fields ca opts w) as (_ & _ & -> & _). by left. Qed.

(** Each bad leaf fails the check it is named after, and no other. *)
Lemma bad_leaves_verdict l host :
  l ∈ bad_leaves → host ∈ hosts → smap lower_char host ≠ "wrong.host.invalid" →
  refused_for (fault_of l.1.1) [root] [] t host l.1.2.1.
Proof.
  intros Hl Hh Hw.
  assert (∀ ca w, default (draws w) (snd <$> ca) ≠ rootKey →
    refused_for NoPath [root] [] t host (minted_leaf ca good_options w)) as Hforeign.
  { intros ca w Hk. split; [apply leaf_purpose|]. split; [|split]; split; try done; intros Hx.
    - apply leaf_time_ok.
    - by apply leaf_host_ok.
    - by apply foreign_leaf in Hx. }
  unfold bad_leaves in Hl. rewrite !elem_of_cons in Hl.
  destruct Hl as [->|[->|[->|[->|[->|Hl]]]]]; [..|by apply elem_of_nil in Hl]; cbn [fst snd].
  - split; [apply leaf_purpose|]. split; [|split]; split; try done; intros Hx.
    + by apply expired_not_time in Hx.
    + by apply leaf_host_ok.
    + apply root_certified.
  - split; [apply leaf_purpose|]. split; [|split]; split; try done; intros Hx.
    + apply leaf_time_ok.
    + by apply wrong_not_host in Hx.
    + apply root_certified.
  - apply Hforeign. unfold rootKey. cbn. lia.
  - apply Hforeign. unfold rootKey. cbn. lia.
  - apply Hforeign. unfold rootKey. cbn. lia.
Qed.

(** With what it withholds, the chain that is short is complete. *)
Lemma incomplete_mended : trusted [root] [intermediate] t ServerAuth incomplete_leaf.
Proof. split; [apply leaf_time_ok | split; [apply leaf_purpose | apply incomplete_certified]]. Qed.

Lemma client_trusted : trusted [root] [] t ClientAuth client_cert.
Proof.
  split; [apply clock_window | split; [by left|]]. eapply certified_root; [by left | apply time_ok_root |].
  apply issued_signed; try done. cbn. left.
Qed.
End Load.
End Minting.

(** ** The promise of [loadCertificates] *)

Definition bad_names : list string :=
  ["expired"; "wrong-host"; "self-signed"; "untrusted-root"; "incomplete-chain"].

(** The certificates in a PEM text. *)
Definition read_certs `{X509Codec} (text : list byte) : list Certificate :=
  omap (λ b, if decide (b.1 = "CERTIFICATE") then
               match ParseCertificate b.2 with Ok c => Some c | _ => None end
             else None) (pem_all (str text)).

Lemma read_certs_one `{X509Codec} c :
  read_certs (bytes (pem_encode "CERTIFICATE" (cert_der c))) = [c].
Proof.
  unfold read_certs. rewrite str_bytes, pem_all_one by done. cbn. by rewrite parse_cert_der.
Qed.

(** The certificates, at time [t], are what the fixture promises its clients. *)
Record sound_certificates `{X509Codec} (t : Z) (ca : Certificate)
    (certs : certificates tls_certificate (list Certificate)) : Prop := {
  sound_made : selfMade certs = true;
  (* /ca.pem is the anchor, and what clients are verified against *)
  sound_ca : read_certs (caPEM certs) = [ca] ∧ clientCAs certs = Some [ca];
  (* the good leaf passes every check on every host *)
  sound_leaf : ∃ c, chain_certs (leaf certs) = Some [c] ∧ trusted [ca] [] t ServerAuth c ∧
    ∀ host, host ∈ hosts certs → host_ok host c;
  (* each bad chain fails one check *)
  sound_names : chain_name <$> badChains certs = bad_names;
  sound_bad : ∀ chain, chain ∈ badChains certs →
    ∃ c, chain_certs (chain_certificate chain) = Some [c] ∧
      (∀ host, host ∈ hosts certs → smap lower_char host ≠ "wrong.host.invalid" →
         refused_for (fault_of (chain_name chain)) [ca] [] t host c) ∧
      (* and the chain that is short is mended by what it withholds *)
      (chain_name chain = "incomplete-chain" →
       trusted [ca] (read_certs (chain_withheld chain)) t ServerAuth c);
  (* /client.pem is an identity the mTLS listener accepts *)
  sound_client : ∃ c k, pem_all (str (clientPEM certs)) =
      [("CERTIFICATE", cert_der c); ("PRIVATE KEY", pkcs8_der k)] ∧
    PublicKey c = Some k ∧ trusted [ca] [] t ClientAuth c;
}.

(** The loopback hosts come first, whatever [CERT_HOSTS] says. *)
Lemma certHosts_loopback `{UnicodeTables} environ :
  ∃ more, certHosts environ = ["localhost"; "127.0.0.1"; "::1"] ++ more.
Proof.
  unfold certHosts. generalize (split "," (env environ "CERT_HOSTS" "")) as l.
  generalize ["localhost"; "127.0.0.1"; "::1"] as acc. intros acc l. revert acc.
  induction l as [|h l IH]; intros acc; [exists []; by rewrite app_nil_r|]. cbn [foldl].
  destruct (IH (extend_hosts acc h)) as [more ->]. unfold extend_hosts. case_decide; [by eexists|].
  rewrite <- app_assoc. by eexists.
Qed.

Lemma certHosts_ne `{UnicodeTables} environ : certHosts environ ≠ [].
Proof. by destruct (certHosts_loopback environ) as [more ->]. Qed.

Section Loaded.
Context `{UnicodeTables} `{X509Codec}.
Context (entropy : nat → option string) (random : nat → Z) (clock : nat → Z).
Context (environ : gmap string string) (LoadX509KeyPair : string → string → outcome tls_certificate).

Abbreviation load := (loadCertificates entropy random clock environ LoadX509KeyPair).
Abbreviation certHosts := (certHosts environ).

(** The result, certificate by certificate. *)
Lemma load_self_made w0 :
  (∀ n, entropy n = None) → Forall (λ name, sforall is_ascii_char name) certHosts →
  env environ "TLS_CERT_FILE" "" = "" → env environ "TLS_KEY_FILE" "" = "" →
  ∃ chains w',
    newBadChains entropy random clock (root random clock w0) (rootKey w0) certHosts (w_bad w0)
      = Ok (chains, w_client w0) ∧
    load w0 = Ok (Certificates
      (TlsCertificate [cert_der (good_leaf random clock w0 certHosts)] (draws (w_leaf w0)))
      (bytes (pem_encode "CERTIFICATE" (cert_der (root random clock w0)))) true certHosts chains
      (bytes (pem_encode "CERTIFICATE" (cert_der (client_cert random clock w0))
        +:+ pem_encode "PRIVATE KEY" (pkcs8_der (draws (w_client w0)))))
      (Some [root random clock w0]), w').
Proof.
  intros Hent Hascii Hc Hk.
  destruct (newBadChains_run entropy random clock Hent w0 certHosts (certHosts_ne environ) Hascii)
    as (chains & Hrun & _).
  exists chains. eexists. split; [exact Hrun|].
  unfold loadCertificates. cbv zeta. rewrite Hc, Hk.
  rewrite decide_False by (intros Hne; by apply Hne). rewrite decide_False by (intros Hne; by apply Hne).
  rewrite (run_mint _ _ _ _ _ (newCA_run entropy random clock Hent w0)). cbv beta iota.
  unfold newLeaf. fold (good_options certHosts).
  rewrite (run_mint _ _ _ _ _ (newLeafWith_run entropy random clock Hent
    (Some (root random clock w0, rootKey w0)) (good_options certHosts) (w_leaf w0)
    (certHosts_ne environ) Hascii ltac:(by intros c k [= <- <-]))).
  rewrite (run_mint _ _ _ _ _ Hrun).
  by rewrite (run_mint _ _ _ _ _ (newClientIdentity_run entropy random clock Hent
    (root random clock w0) (rootKey w0) (w_client w0) eq_refl)).
Qed.

(** The result meets the promise, for a client whose clock is near enough. *)
Lemma load_sound w0 t :
  (∀ n, entropy n = None) → Forall (λ name, sforall is_ascii_char name) certHosts →
  env environ "TLS_CERT_FILE" "" = "" → env environ "TLS_KEY_FILE" "" = "" →
  (∀ i, t - 365 * day_seconds ≤ clock i ≤ t + hour) →
  ∃ certs w ca, load w0 = Ok (certs, w) ∧ hosts certs = certHosts ∧ sound_certificates t ca certs.
Proof.
  intros Hent Hascii Hc Hk Hclock.
  destruct (load_self_made w0 Hent Hascii Hc Hk) as (chains & w & Hchains & Hload).
  do 3 eexists. split; [exact Hload|]. split; [done|].
  destruct (newBadChains_run entropy random clock Hent w0 certHosts (certHosts_ne environ) Hascii)
    as (chains' & Hrun & Hfields).
  rewrite Hchains in Hrun. injection Hrun as <-.
  split; cbn [selfMade caPEM clientCAs Server.leaf hosts badChains clientPEM]; [done|..].
  - split; [apply read_certs_one | done].
  - eexists. split; [apply chain_certs_one|]. split.
    + split; [by apply leaf_time_ok|]. split; [|by apply root_certified].
      destruct (minted_leaf_fields random clock (Some (root random clock w0, rootKey w0))
        (good_options certHosts) (w_leaf w0)) as (_ & _ & He & _). unfold good_leaf. rewrite He. by left.
    + intros host Hh. by apply leaf_host_ok.
  - transitivity ((λ l, l.1.1) <$> ((λ b, (chain_name b, chain_certificate b, chain_withheld b)) <$> chains));
      [by rewrite <- list_fmap_compose | by rewrite Hfields].
  - intros chain Hi.
    assert ((chain_name chain, chain_certificate chain, chain_withheld chain) ∈
      ((λ b, (chain_name b, chain_certificate b, chain_withheld b)) <$> chains)) as Hl
      by (by apply (list_elem_of_fmap_2 (λ b, (chain_name b, chain_certificate b, chain_withheld b)))).
    rewrite Hfields in Hl. apply list_elem_of_fmap in Hl as (l & El & Hl). injection El as -> -> ->.
    exists l.1.2.1. split; [apply chain_certs_one|]. split.
    + intros host Hh Hw. by eapply bad_leaves_verdict.
    + intros Hname. assert (l.2 = [intermediate random clock w0] ∧
        l.1.2.1 = incomplete_leaf random clock w0 certHosts) as [-> ->].
      { unfold bad_leaves in Hl. rewrite !elem_of_cons in Hl.
        destruct Hl as [->|[->|[->|[->|[->|Hl]]]]]; [done..|by apply elem_of_nil in Hl]. }
      cbn [fmap list_fmap concat]. rewrite app_nil_r, read_certs_one. by apply incomplete_mended.
  - do 2 eexists. split; [rewrite str_bytes; by apply pem_all_two|]. split; [done|]. by apply client_trusted.
Qed.

(** C2: with no certificate supplied, and names that are ASCII, [loadCertificates]
    mints certificates that are what the fixture promises.  For a client that
    trusts the CA served at /ca.pem, whose clock is at most an hour behind the
    server's and at most 365 days ahead, the good leaf passes every check (dates,
    purpose, host name, certification path) on every host the server covers; each
    of the five bad chains fails exactly one check, the one it is named after,
    and passes the others; the chain that is incomplete is mended by the
    intermediate it withholds; and the identity at /client.pem is one the mTLS
    listener, verifying against the same CA, accepts. *)
Theorem loadCertificates_sound w0 t :
  (∀ n, entropy n = None) → Forall (λ name, sforall is_ascii_char name) certHosts →
  env environ "TLS_CERT_FILE" "" = "" → env environ "TLS_KEY_FILE" "" = "" →
  (∀ i, t - 365 * day_seconds ≤ clock i ≤ t + hour) →
  ∃ certs w ca, load w0 = Ok (certs, w) ∧ hosts certs = certHosts ∧ sound_certificates t ca certs.
Proof. apply load_sound. Qed.

(** Files that were supplied, and nothing else. *)
Definition supplied (leaf : tls_certificate) : certificates tls_certificate (list Certificate) :=
  Certificates leaf [] false certHosts [] [] None.

(** C19: the ways [loadCertificates] can go.  One of the two files without the
    other is an error.  With both, the result is what they hold, and nothing is
    minted: no CA, no bad chains, no client identity, and not one draw from the
    entropy source.  With neither, an entropy source that fails at the first draw
    is an error, and so is a name in [CERT_HOSTS] that is not ASCII: the server
    does not start, instead of presenting a certificate that does not cover it. *)
Theorem loadCertificates_choices w0 :
  let certFile := env environ "TLS_CERT_FILE" "" in
  let keyFile := env environ "TLS_KEY_FILE" "" in
  ((certFile = "" ∧ keyFile ≠ "" ∨ certFile ≠ "" ∧ keyFile = "") →
   load w0 = Err "TLS_CERT_FILE and TLS_KEY_FILE must be set together") ∧
  (certFile ≠ "" → keyFile ≠ "" →
   load w0 = (leaf ← LoadX509KeyPair certFile keyFile;
              Ok (supplied leaf, w0))) ∧
  (certFile = "" → keyFile = "" →
   (∀ e, entropy (draws w0) = Some e → load w0 = Err e) ∧
   (∀ host, (∀ n, entropy n = None) → host ∈ certHosts → ParseIP host = None →
      ¬ sforall is_ascii_char host → ∃ e, load w0 = Err e)).
Proof.
  intros certFile keyFile. unfold loadCertificates. fold certFile keyFile. cbv zeta. split_and!.
  - intros [[-> Hk]|[Hc ->]]; (rewrite decide_True; [done|]).
    + by rewrite bool_decide_true, bool_decide_false.
    + by rewrite bool_decide_false, bool_decide_true.
  - intros Hc Hk. rewrite decide_False by (rewrite !bool_decide_false by done; intros Hne; by apply Hne).
    rewrite decide_True by done. unfold lift. unfold mbind at 1, mint_bind. by destruct (LoadX509KeyPair _ _).
  - intros -> ->. rewrite decide_False by (intros Hne; by apply Hne).
    rewrite decide_False by (intros Hne; by apply Hne). split.
    + intros e He. unfold newCA, newKey, GenerateKey, draw. unfold mbind, mint_bind. by rewrite He.
    + intros host Hent Hh Hip Hn.
      rewrite (run_mint _ _ _ _ _ (newCA_run entropy random clock Hent w0)). cbv beta iota.
      destruct (newLeaf_non_ascii entropy random clock Hent (minted_root random clock w0)
        (draws w0) certHosts host (later 3 2 w0) Hh Hip Hn) as [e He].
      exists e. unfold mbind, mint_bind. by rewrite He.
Qed.
End Loaded.

(** ** Witnesses *)

Definition example_load : mint (certificates tls_certificate (list Certificate)) :=
  @loadCertificates ascii_tables example_codec (λ _, None) Z.of_nat (λ _, date 2026 3 1)
    {["CERT_HOSTS" := "test.example, 10.0.0.7"]} (λ _ _, Err "no file").

Lemma load_example :
  ∃ certs w ca, example_load (World 0 0) = Ok (certs, w) ∧
    @sound_certificates example_codec (date 2026 3 2) ca certs.
Proof.
  destruct (@load_sound ascii_tables example_codec (λ _, None) Z.of_nat
    (λ _, date 2026 3 1) {["CERT_HOSTS" := "test.example, 10.0.0.7"]} (λ _ _, Err "no file")
    (World 0 0) (date 2026 3 2)) as (certs & w & ca & Hload & _ & Hsound).
  - reflexivity.
  - vm_compute. repeat constructor.
  - reflexivity.
  - reflexivity.
  - intros _. vm_compute. split; discriminate.
  - exists certs, w, ca. exact (conj Hload Hsound).
Qed.

Lemma loadCertificates_sound_witness :
  ∃ certs w ca, example_load (World 0 0) = Ok (certs, w) ∧
    hosts certs = ["localhost"; "127.0.0.1"; "::1"; "test.example"; "10.0.0.7"] ∧
    @sound_certificates example_codec (date 2026 3 2) ca certs.
Proof.
  destruct (@loadCertificates_sound ascii_tables example_codec (λ _, None) Z.of_nat
    (λ _, date 2026 3 1) {["CERT_HOSTS" := "test.example, 10.0.0.7"]} (λ _ _, Err "no file")
    (World 0 0) (date 2026 3 2)) as (certs & w & ca & Hload & Hhosts & Hsound).
  - reflexivity.
  - vm_compute. repeat constructor.
  - reflexivity.
  - reflexivity.
  - intros _. vm_compute. split; discriminate.
  - exists certs, w, ca. split; [exact Hload|]. split; [|exact Hsound].
    rewrite Hhosts. vm_compute. reflexivity.
Defined.

Lemma loadCertificates_choices_witness :
  @loadCertificates ascii_tables example_codec (λ _, None) Z.of_nat (λ _, 0)
    {["TLS_CERT_FILE" := "/cert.pem"]} (λ _ _, Err "no file") (World 0 0)
  = Err "TLS_CERT_FILE and TLS_KEY_FILE must be set together".
Proof.
  destruct (@loadCertificates_choices ascii_tables example_codec (λ _, None) Z.of_nat (λ _, 0)
    {["TLS_CERT_FILE" := "/cert.pem"]} (λ _ _, Err "no file") (World 0 0)) as [H _].
  apply H. right. split; vm_compute; [discriminate | reflexivity].
Defined.
