(* ===== verification/Startup.v ===== *)
(** * The server as it starts by default

    The listeners of [main], with the certificates of [loadCertificates]: what
    a deployment that configures no address gets. *)

From S2P Require Import Prelude GoStrings Unicode GoTime Pem NetIP X509 Mint Http TlsNames Server Certs CertsSpec.

(** The variables that hold an address. *)
Definition address_variables : list string :=
  ["HTTP_ADDR"; "HTTPS_ADDR"; "TLS10_ADDR"; "TLS11_ADDR"; "TLS12_ADDR"; "TLS13_ADDR"; "PQC_ADDR";
   "MTLS_ADDR"; "BADCHAIN_EXPIRED_ADDR"; "BADCHAIN_WRONG_HOST_ADDR"; "BADCHAIN_SELF_SIGNED_ADDR";
   "BADCHAIN_UNTRUSTED_ROOT_ADDR"; "BADCHAIN_INCOMPLETE_CHAIN_ADDR"; "RAW_ADDR"].

Lemma NoDup_fmap_elem {A B} (f : A → B) l x y :
  NoDup (f <$> l) → x ∈ l → y ∈ l → f x = f y → x = y.
Proof.
  induction l as [|z l IH]; intros Hnd Hx Hy E; [by apply elem_of_nil in Hx|].
  cbn in Hnd. apply NoDup_cons in Hnd as [Hz Hnd].
  apply elem_of_cons in Hx as [->|Hx], Hy as [->|Hy]; [done|..|by apply IH].
  - destruct Hz. rewrite E. by apply list_elem_of_fmap_2.
  - destruct Hz. rewrite <- E. by apply list_elem_of_fmap_2.
Qed.

Section Startup.
Context `{X509Codec}.
Context (insecure_suites suites : list Z) (environ : gmap string string) (listen : string → option string).

Definition unconfigured : Prop := Forall (λ name, environ !! name = None) address_variables.
Hypothesis no_addresses : unconfigured.
Hypothesis raw_bound : listen ":8081" = None.

Lemma env_address name fallback : name ∈ address_variables → env environ name fallback = fallback.
Proof.
  intros Hn. unfold env. unfold unconfigured in no_addresses. rewrite Forall_forall in no_addresses.
  by rewrite (no_addresses name Hn).
Qed.

(** The listener of a bad chain, and the configuration it runs with. *)
Definition bad_listener (chain : @badChain tls_certificate) :
    listener * running tls_certificate (list Certificate) :=
  let addr := default "" (badChainDefaultAddr !! chain_name chain) in
  (Listener ("badchain-" +:+ chain_name chain) addr true "TLSv1.2" "TLSv1.3" "http/1.1" (chain_why chain),
   TlsServer addr (tlsServerWith insecure_suites suites no_versions (chain_certificate chain)) false false).

Lemma start_badchain_default chain :
  chain_name chain ∈ bad_names →
  start_badchain insecure_suites suites environ chain = [bad_listener chain].
Proof.
  intros Hn. unfold start_badchain, badChainAddr, bad_listener.
  rewrite env_address.
  - rewrite decide_False; [done|]. unfold bad_names in Hn. rewrite !elem_of_cons in Hn.
    by destruct Hn as [->|[->|[->|[->|[->|Hn]]]]]; [..|apply elem_of_nil in Hn].
  - unfold bad_names in Hn. rewrite !elem_of_cons in Hn.
    destruct Hn as [->|[->|[->|[->|[->|Hn]]]]]; [..|by apply elem_of_nil in Hn];
      apply (bool_decide_unpack _); vm_compute; exact I.
Qed.

Lemma start_badchains_default chains :
  Forall (λ chain, chain_name chain ∈ bad_names) chains →
  concat (start_badchain insecure_suites suites environ <$> chains) = bad_listener <$> chains.
Proof.
  induction 1 as [|chain chains Hc Hcs IH]; [done|]. cbn. by rewrite start_badchain_default, <- IH.
Qed.

(** The listeners that come before the bad chains, but for the last two. *)
Lemma started_default certs cas :
  clientCAs certs = Some cas → chain_name <$> badChains certs = bad_names →
  ∃ versions pqc,
    (main_listeners insecure_suites suites environ certs listen).1
    = [(Listener "http" ":8080" false "" "" "http/1.1" "", HttpServer ":8080");
       (Listener "https" ":8443" true "TLSv1.2" "TLSv1.3" "h2, http/1.1" "",
        TlsServer ":8443" (tlsServerWith insecure_suites suites no_versions (leaf certs)) true false)]
      ++ versions ++ [pqc]
      ++ [(Listener "mtls" ":8425" true "TLSv1.2" "TLSv1.3" "http/1.1"
             "requires a client certificate signed by the fixture CA; see /client.pem",
           TlsServer ":8425" (mtlsServer insecure_suites suites certs) false false)]
      ++ (bad_listener <$> badChains certs)
      ++ [(Listener "raw" ":8081" false "" "" "" "echoes the request head verbatim; not an HTTP server",
           RawListener ":8081")] ∧
    ((λ p, (Name p.1, Addr p.1)) <$> versions) =
      [("tls10", ":8410"); ("tls11", ":8411"); ("tls12", ":8412"); ("tls13", ":8413")] ∧
    (Name pqc.1, Addr pqc.1) = ("pqc", ":8414").
Proof.
  intros Hcas Hnames. unfold main_listeners, start_http, start_https, start_pqc, start_mtls, start_raw,
    perVersionListeners.
  assert (∀ name fallback, name ∈ address_variables → env environ name fallback = fallback) as Henv
    by apply env_address.
  rewrite !Henv by (apply (bool_decide_unpack _); vm_compute; exact I). rewrite raw_bound.
  rewrite start_badchains_default.
  2: { rewrite <- Hnames. apply Forall_forall. intros c Hc. by apply list_elem_of_fmap_2. }
  rewrite Hcas. do 2 eexists. split; [reflexivity|]. split; reflexivity.
Qed.

(** The names and addresses of them all. *)
Lemma started_table (certs : certificates tls_certificate (list Certificate)) cas :
  clientCAs certs = Some cas → chain_name <$> badChains certs = bad_names →
  (λ p, (Name p.1, Addr p.1)) <$> (main_listeners insecure_suites suites environ certs listen).1 =
    [("http", ":8080"); ("https", ":8443"); ("tls10", ":8410"); ("tls11", ":8411"); ("tls12", ":8412");
     ("tls13", ":8413"); ("pqc", ":8414"); ("mtls", ":8425"); ("badchain-expired", ":8420");
     ("badchain-wrong-host", ":8421"); ("badchain-self-signed", ":8422");
     ("badchain-untrusted-root", ":8423"); ("badchain-incomplete-chain", ":8424"); ("raw", ":8081")].
Proof.
  intros Hcas Hnames. destruct (started_default certs cas Hcas Hnames) as (versions & pqc & -> & Hv & Hp).
  rewrite !fmap_app, Hv. cbn [fmap list_fmap]. rewrite Hp, <- list_fmap_compose.
  assert ((λ p, (Name p.1, Addr p.1)) ∘ bad_listener <$> badChains certs =
    (λ n, ("badchain-" +:+ n, default "" (badChainDefaultAddr !! n))) <$> (chain_name <$> badChains certs))
    as -> by by rewrite <- list_fmap_compose.
  by rewrite Hnames.
Qed.

(** A name belongs to one listener. *)
Lemma started_names (certs : certificates tls_certificate (list Certificate)) cas :
  clientCAs certs = Some cas → chain_name <$> badChains certs = bad_names →
  NoDup ((λ p, Name p.1) <$> (main_listeners insecure_suites suites environ certs listen).1).
Proof.
  intros Hcas Hnames. pose proof (started_table certs cas Hcas Hnames) as Hall.
  apply (f_equal (fmap fst)) in Hall. rewrite <- list_fmap_compose in Hall.
  change (NoDup ((fst ∘ (λ p, (Name p.1, Addr p.1))) <$> (main_listeners insecure_suites suites environ certs listen).1)).
  rewrite Hall. apply (bool_decide_unpack _). vm_compute. exact I.
Qed.

End Startup.

(** C12: with no address configured, the certificates the server mints, and a raw
    listener's port that can be bound, [main] starts fourteen listeners on fourteen
    different addresses and comes to no fatal error of its own.  The main
    TLS listener presents a certificate that passes every check of a client that
    trusts /ca.pem; the listener named after a bad chain presents one that fails
    the check it is named after and no other; and the mTLS listener requires a
    client certificate and verifies it against the CA that signed the identity at
    /client.pem, which passes. *)
Theorem default_listeners `{X509Codec} insecure_suites suites environ listen t ca certs :
  unconfigured environ → listen ":8081" = None →
  sound_certificates t ca certs →
  let started := (main_listeners insecure_suites suites environ certs listen).1 in
  (main_listeners insecure_suites suites environ certs listen).2 = None ∧
  length started = 14%nat ∧ NoDup ((λ p, Addr p.1) <$> started) ∧ NoDup ((λ p, Name p.1) <$> started) ∧
  (∀ l run, (l, run) ∈ started → Name l = "https" →
     ∃ addr config c, run = TlsServer addr config true false ∧
       chain_certs (cfg_certificate config) = Some [c] ∧ trusted [ca] [] t ServerAuth c ∧
       ∀ host, host ∈ hosts certs → host_ok host c) ∧
  (∀ l run bad, (l, run) ∈ started → bad ∈ bad_names → Name l = "badchain-" +:+ bad →
     ∃ addr config c, run = TlsServer addr config false false ∧
       chain_certs (cfg_certificate config) = Some [c] ∧
       ∀ host, host ∈ hosts certs → smap lower_char host ≠ "wrong.host.invalid" →
         refused_for (fault_of bad) [ca] [] t host c) ∧
  (∀ l run, (l, run) ∈ started → Name l = "mtls" →
     ∃ addr config c k, run = TlsServer addr config false false ∧
       cfg_ClientAuth config = RequireAndVerifyClientCert ∧ cfg_ClientCAs config = Some [ca] ∧
       pem_all (str (clientPEM certs)) = [("CERTIFICATE", cert_der c); ("PRIVATE KEY", pkcs8_der k)] ∧
       PublicKey c = Some k ∧ trusted [ca] [] t ClientAuth c).
Proof.
  intros Hno Hbind [Hmade [Hca Hcas] Hleaf Hnames Hbad Hclient] started.
  destruct (started_default insecure_suites suites environ listen Hno Hbind certs [ca] Hcas Hnames) as (versions & pqc & Hs & _ & _).
  pose proof (started_table insecure_suites suites environ listen Hno Hbind certs [ca] Hcas Hnames) as Hall. fold started in Hall.
  pose proof (started_names insecure_suites suites environ listen Hno Hbind certs [ca] Hcas Hnames) as Hnd. fold started in Hnd.
  assert (∀ l run l' run', (l, run) ∈ started → (l', run') ∈ started → Name l = Name l' → run = run') as Hone.
  { intros l run l' run' Hi Hi' Hn.
    by pose proof (NoDup_fmap_elem (λ p : listener * running tls_certificate (list Certificate), Name p.1)
      started _ _ Hnd Hi Hi' Hn) as [= _ ->]. }
  split_and!.
  - unfold main_listeners, start_raw. cbn [snd].
    rewrite (env_address environ Hno) by (apply (bool_decide_unpack _); vm_compute; exact I).
    by rewrite decide_False, Hbind by done.
  - rewrite <- (length_fmap (λ p : listener * running tls_certificate (list Certificate),
      (Name p.1, Addr p.1))), Hall. reflexivity.
  - replace ((λ p, Addr p.1) <$> started) with (snd <$> ((λ p, (Name p.1, Addr p.1)) <$> started))
      by by rewrite <- list_fmap_compose.
    rewrite Hall. apply (bool_decide_unpack _). vm_compute. exact I.
  - exact Hnd.
  - intros l run Hi Hn. destruct Hleaf as (c & Hc & Htrust & Hhost). eexists _, _, c. split.
    + refine (Hone l run _ _ Hi (_ : (Listener "https" _ _ _ _ _ _, _) ∈ started) Hn).
      unfold started. rewrite Hs. right; left.
    + exact (conj Hc (conj Htrust Hhost)).
  - intros l run bad Hi Hb Hn. rewrite <- Hnames in Hb. apply list_elem_of_fmap in Hb as (chain & -> & Hb).
    destruct (Hbad chain Hb) as (c & Hc & Hrefused & _). eexists _, _, c. split.
    + refine (Hone l run (bad_listener insecure_suites suites chain).1 (bad_listener insecure_suites suites chain).2 Hi _ Hn).
      unfold started. rewrite Hs, !elem_of_app. do 4 right. left. rewrite <- surjective_pairing.
      by apply list_elem_of_fmap_2.
    + exact (conj Hc Hrefused).
  - intros l run Hi Hn. destruct Hclient as (c & k & Hpem & Hk & Ht). eexists _, _, c, k. split.
    + refine (Hone l run _ _ Hi (_ : (Listener "mtls" _ _ _ _ _ _, _) ∈ started) Hn).
      unfold started. rewrite Hs, !elem_of_app. do 3 right. left. left.
    + by split_and!.
Qed.

Lemma default_listeners_witness :
  ∃ certs ca, @sound_certificates example_codec (date 2026 3 2) ca certs ∧
    length (main_listeners [] [] ∅ certs (λ _, None)).1 = 14%nat.
Proof.
  destruct load_example as (certs & w & ca & _ & Hs). exists certs, ca. split; [exact Hs|].
  assert (unconfigured ∅) as Hno
    by by repeat constructor.
  exact (proj1 (proj2 (@default_listeners example_codec [] [] ∅ (λ _, None) (date 2026 3 2) ca certs
    Hno eq_refl Hs))).
Defined.
