(* ===== verification/Handlers.v ===== *)
(** * The test server's endpoints

    test-server/handlers.go: the handlers, over the response writer of Http and
    the JSON values of Json.  What they wait for and what they draw at random
    are arguments. *)

From Stdlib Require Import Floats.SpecFloat Sorting.Sorted.
From stdpp Require Import sorting.
From S2P Require Import Prelude GoStrings Strconv Unicode StrOrder Json Base64 GoFloat Http.
From S2P Require Import Query TlsNames HelloCache Handshake Server.

Definition maxEchoBody : Z := 1048576.

(** ** Replies *)

Definition newline : string := String (char_of 10) "".

(** [writeJSON]; [json.MarshalIndent] cannot fail on the values it is given. *)
Definition writeJSON (code : Z) (body : json) : M () :=
  let payload := bytes (marshalIndent body +:+ newline) in
  setHeader "Content-Type" "application/json" ;;
  setHeader "Content-Length" (itoa (len payload)) ;;
  writeHeader code ;;
  write payload ;;
  mret ().

Definition io_WriteString (s : string) : M bool := write (bytes s).

(** A Go map as JSON: its keys sorted. *)
Definition json_map {A} (f : A → json) (m : gmap string A) : json :=
  JObj ((λ p, (p.1, f p.2)) <$> sorted_map m).
Definition json_strings (l : list string) : json := JArr (JStr <$> l).
Definition json_header (h : gmap string (list string)) : json := json_map json_strings h.

(** [,omitempty] on a string. *)
Definition omit_empty (k v : string) : list (string * json) :=
  if decide (v = "") then [] else [(k, JStr v)].

(** ** Reports as JSON *)

Definition offered_json (o : clientHelloInfo) : json :=
  JObj [("supportedVersions", match o_SupportedVersions o with
                              | None => JNull | Some l => json_strings l end);
        ("cipherSuites", json_strings (o_CipherSuites o));
        ("supportedCurves", json_strings (o_SupportedCurves o));
        ("supportedPoints", JArr (JInt <$> o_SupportedPoints o));
        ("signatureSchemes", json_strings (o_SignatureSchemes o));
        ("alpnProtocols", json_strings (o_ALPNProtocols o));
        ("serverName", JStr (o_ServerName o));
        ("extensions", json_strings (o_Extensions o));
        ("encryptedClientHelloOffered", JBool (o_EncryptedClientHelloOffered o))].

Definition handshake_json (h : handshakeReport) : json :=
  JObj ([("version", JStr (h_Version h)); ("cipherSuite", JStr (h_CipherSuite h));
         ("negotiatedProtocol", JStr (h_NegotiatedProtocol h)); ("serverName", JStr (h_ServerName h));
         ("resumed", JBool (h_Resumed h)); ("echAccepted", JBool (h_ECHAccepted h));
         ("clientCertificates", json_strings (h_ClientCertificates h));
         ("httpProtocol", JStr (h_HTTPProtocol h))]
        ++ (match h_Offered h with Some o => [("offered", offered_json o)] | None => [] end)
        ++ omit_empty "offeredUnavailable" (h_OfferedUnavailable h)
        ++ [("certificateSelfMade", JBool (h_CertificateSelfMade h))]).

Definition listener_json (l : listener) : json :=
  JObj ([("name", JStr (Name l)); ("addr", JStr (Addr l)); ("tls", JBool (TLS l))]
        ++ omit_empty "minVersion" (MinVersion l) ++ omit_empty "maxVersion" (MaxVersion l)
        ++ omit_empty "alpn" (ALPN l) ++ omit_empty "note" (Note l)).

(** ** The request body and headers *)

Definition readBody (r : request) : outcome (list byte * bool) :=
  body ← read_limited (r_body r) (maxEchoBody + 1);
  if decide (maxEchoBody < len body)%Z then
    body ← slice body 0 maxEchoBody; Ok (body, true)
  else Ok (body, false).

(** The loop runs over the header map in the order [pairs], which Go leaves
    open. *)
Definition headerList_of (pairs : list (string * list string)) : list string :=
  sortStrings (concat (List.map (λ p, List.map (λ value, p.1 +:+ (": " +:+ value)) p.2) pairs)).
Definition headerList (r : request) : list string := headerList_of (map_to_list (r_header r)).

Section Handlers.
Context {certificate pool : Type}.
Context (CipherSuiteName : Z → string).
Context (CurveID_names SignatureScheme_names : list (Z * string)).

(** The server: certificates, ClientHello cache, listeners. *)
Record server := TestServer {
  certs : certificates certificate pool;
  hellos : helloCache;
  listeners : list listener;
}.

Definition s_handshake (s : server) (r : request) : option handshakeReport :=
  handshake CipherSuiteName CurveID_names SignatureScheme_names (selfMade (certs s)) (hellos s) r.

Definition addListener (s : server) (l : listener) : server :=
  TestServer (certs s) (hellos s) (listeners s ++ [l]).

(** [snapshot]; a copy of no listeners is nil. *)
Definition snapshot (s : server) : json :=
  match listeners s with [] => JNull | ls => JArr (listener_json <$> ls) end.

Definition caURL (r : request) (selfMade : bool) : string :=
  if negb selfMade then "" else baseURL r +:+ "/ca.pem".

Definition health : M () :=
  setHeader "Content-Type" "text/plain; charset=utf-8" ;;
  io_WriteString ("ok" +:+ newline) ;;
  mret ().

Definition info_json (s : server) (r : request) : json :=
  JObj [("certificate", JObj [("caUrl", JStr (caURL r (selfMade (certs s))));
                              ("hosts", json_strings (hosts (certs s)));
                              ("selfMade", JBool (selfMade (certs s)))]);
        ("listeners", snapshot s);
        ("observed", JObj [("baseUrl", JStr (baseURL r)); ("host", JStr (r_host r));
                           ("protocol", JStr (r_proto r));
                           ("tls", match s_handshake s r with
                                   | Some h => handshake_json h | None => JNull end)]);
        ("server", JStr "okhttp-testbed/test-server")].
Definition info (s : server) (r : request) : M () := writeJSON 200 (info_json s r).

Definition caPEM_handler (s : server) : M () :=
  if negb (selfMade (certs s)) then
    httpError "this server presents a supplied certificate; there is no fixture CA" 404
  else
    setHeader "Content-Type" "application/x-pem-file" ;;
    write (caPEM (certs s)) ;;
    mret ().

Definition clientPEM_handler (s : server) : M () :=
  if decide (len (clientPEM (certs s)) = 0)%Z then
    httpError "this server presents a supplied certificate; there is no CA to sign a client identity" 404
  else
    setHeader "Content-Type" "application/x-pem-file" ;;
    write (clientPEM (certs s)) ;;
    mret ().

Definition tlsInfo_json (s : server) (r : request) : json :=
  match s_handshake s r with
  | None => JObj [("protocol", JStr (r_proto r)); ("tls", JBool false)]
  | Some h => handshake_json h
  end.
Definition tlsInfo (s : server) (r : request) : M () := writeJSON 200 (tlsInfo_json s r).

(** [echo], the struct [/anything] answers with. *)
Definition echo_fields (s : server) (r : request) (body : list byte) (truncated : bool) :
    list (string * json) :=
        [("method", JStr (r_method r)); ("url", JStr (baseURL r +:+ r_request_uri r));
         ("path", JStr (r_path r)); ("query", json_header (r_query r));
         ("protocol", JStr (r_proto r)); ("host", JStr (r_host r)); ("scheme", JStr (scheme r));
         ("remoteAddr", JStr (r_remote_addr r)); ("headers", json_header (r_header r));
         ("headerList", json_strings (headerList r));
         ("body", JStr (if utf8_valid body then str body else ""))]
        ++ omit_empty "bodyBase64" (if utf8_valid body then "" else stdEncode body)
        ++ [("bodyLength", JInt (len body))]
        ++ (if truncated then [("truncated", JBool true)] else [])
        ++ (match s_handshake s r with Some h => [("tls", handshake_json h)] | None => [] end).
Definition echo_json (s : server) (r : request) (body : list byte) (truncated : bool) : json :=
  JObj (echo_fields s r body truncated).

Definition anything (s : server) (r : request) : M () :=
  match readBody r with
  | Err e => httpError ("cannot read request body: " +:+ e) 400
  | Panic => λ _, Panic
  | Ok (body, truncated) => writeJSON 200 (echo_json s r body truncated)
  end.

Definition headers_json (r : request) : json :=
  JObj [("headerList", json_strings (headerList r)); ("headers", json_header (r_header r));
        ("host", JStr (r_host r)); ("protocol", JStr (r_proto r))].
Definition headers (r : request) : M () := writeJSON 200 (headers_json r).
End Handlers.

(** ** Replies as responses *)

Lemma trimSpace_itoa n : trimSpace (itoa n) = itoa n.
Proof.
  apply trimSpace_solid, itoa_forall; [|done]. apply forall_digits. vm_compute. reflexivity.
Qed.

Lemma header_get_set_eq key value h :
  header_get (header_set key value h) key = value.
Proof. unfold header_get, header_values, header_set. by rewrite lookup_insert_eq. Qed.

(** A declared length that is the length of the body is no obstacle. *)
Lemma fits_length h n : header_get h "Content-Length" = itoa n → (0 ≤ n)%Z → fits h n.
Proof.
  intros Hh Hn. unfold fits, declared_length. rewrite Hh.
  destruct (itoa n) as [|a t] eqn:E; [done|]. rewrite <- E, trimSpace_itoa.
  unfold parseUint. rewrite parse_digits_itoa by done. cbn. by case_decide.
Qed.

Definition json_head (payload : list byte) (h : header) : header :=
  header_set "Content-Length" (itoa (len payload))
    (header_set "Content-Type" "application/json" h).

Definition json_payload (v : json) : list byte := bytes (marshalIndent v +:+ newline).

Lemma run_writeJSON code v head h :
  (200 ≤ code ≤ 999)%Z → bodyAllowedForStatus code →
  ∃ w, writeJSON code v (fresh_writer head h) = Ok ((), w) ∧
    w_sent w = Some (code, json_head (json_payload v) h) ∧ w_informational w = [] ∧
    w_body w = if head then [] else json_payload v.
Proof.
  intros Hc Hb. unfold writeJSON.
  rewrite (run_bind _ _ _ _ _ (run_setHeader _ _ _ _)).
  rewrite (run_bind _ _ _ _ _ (run_setHeader _ _ _ _)).
  apply (run_reply code head (json_head (json_payload v) h) (json_payload v)); [done..|].
  apply fits_length; [apply header_get_set_eq | apply len_nonneg].
Qed.

Lemma serve_writeJSON code v head :
  (200 ≤ code ≤ 999)%Z → bodyAllowedForStatus code →
  serve head (writeJSON code v)
  = Ok (Response code (json_head (json_payload v) ∅) (if head then [] else json_payload v) []).
Proof.
  intros Hc Hb. destruct (run_writeJSON code v head ∅ Hc Hb) as (w & Hw & Hs & Hi & Hbody).
  by rewrite (serve_done _ _ _ _ _ Hw Hs), Hi, Hbody.
Qed.

(** What a client reads in the body. *)
Lemma parse_payload v : parse_json (str (json_payload v)) = Some (utf8_json v).
Proof. unfold json_payload. rewrite str_bytes. apply parse_print. Qed.

(** The first member of an object with a name. *)
Fixpoint find_member (k : string) (ms : list (string * json)) : option json :=
  match ms with
  | [] => None
  | (k', v) :: ms => if decide (k' = k) then Some v else find_member k ms
  end.
Definition member (k : string) (v : json) : option json :=
  match v with JObj ms => find_member k ms | _ => None end.

(** How a suite gets the echoed body back. *)
Definition echoed_body (v : json) : option (list byte) :=
  match member "bodyBase64" v, member "body" v with
  | Some (JStr s), _ => stdDecode s
  | _, Some (JStr s) => Some (bytes s)
  | _, _ => None
  end.

Lemma find_member_app k ms1 ms2 :
  find_member k (ms1 ++ ms2)
  = match find_member k ms1 with Some v => Some v | None => find_member k ms2 end.
Proof. induction ms1 as [|[k' v] ms1 IH]; [done|]. cbn. by case_decide. Qed.

Definition ascii_keys (ms : list (string * json)) : Prop := Forall (λ m, sforall is_ascii_char m.1) ms.

Lemma member_utf8 k ms :
  ascii_keys ms → member k (utf8_json (JObj ms)) = utf8_json <$> find_member k ms.
Proof.
  cbn [utf8_json member]. induction 1 as [|[k' v] ms Hk Hms IH]; [done|]. cbn [List.map find_member fst].
  rewrite sanitize_ascii by done. by case_decide.
Qed.

Lemma find_omit k k' v :
  find_member k (omit_empty k' v) = if decide (k' = k ∧ v ≠ "") then Some (JStr v) else None.
Proof.
  unfold omit_empty. destruct (decide (v = "")) as [->|Hv]; [by rewrite decide_False by naive_solver|].
  cbn. case_decide; [by rewrite decide_True | by rewrite decide_False by naive_solver].
Qed.

Lemma readBody_ok r data :
  r_body r = Body data None →
  readBody r = Ok (take (Z.to_nat maxEchoBody) data, bool_decide (maxEchoBody < len data)%Z).
Proof.
  intros Hb. unfold readBody, read_limited. rewrite Hb. cbn [body_data body_err].
  assert (0 < maxEchoBody)%Z as Hmax by done. revert Hmax. generalize maxEchoBody. intros n Hmax.
  case_decide as Hd; cbn [mbind outcome_bind].
  - assert (len (take (Z.to_nat (n + 1)) data) = n + 1)%Z as Hlen.
    { unfold len in *. rewrite length_take. lia. }
    rewrite decide_True, slice_in by lia. cbn [mbind outcome_bind].
    rewrite bool_decide_true by lia. rewrite drop_0, take_take. do 3 f_equal. lia.
  - rewrite decide_False, bool_decide_false by lia. do 2 f_equal.
    symmetry. apply take_ge. unfold len in Hd. lia.
Qed.

Lemma readBody_err r data e :
  r_body r = Body data (Some e) → (len data ≤ maxEchoBody)%Z → readBody r = Err e.
Proof.
  intros Hb Hl. unfold readBody, read_limited. rewrite Hb. cbn [body_data body_err].
  by rewrite decide_False by lia.
Qed.

(** The header list is a function of the headers: whatever order Go runs
    over the header map in, the list is the same, sorted bytewise, and has
    exactly one line per value of each header. *)
Lemma headerList_deterministic r pairs :
  pairs ≡ₚ map_to_list (r_header r) →
  headerList_of pairs = headerList r ∧
  StronglySorted str_le (headerList r) ∧
  headerList r ≡ₚ concat (List.map (λ p, List.map (λ v, p.1 +:+ (": " +:+ v)) p.2) pairs).
Proof.
  intros Hp. split_and!.
  - unfold headerList, headerList_of. apply sortStrings_unique.
    induction Hp as [|p l1 l2 Hp IH|p q l|l1 l2 l3 _ IH1 _ IH2]; cbn [List.map concat].
    + done.
    + by rewrite IH.
    + rewrite !(assoc (++)). apply Permutation_app_tail, Permutation_app_comm.
    + by rewrite IH1.
  - apply sortStrings_sorted.
  - unfold headerList, headerList_of. rewrite sortStrings_perm.
    symmetry. induction Hp as [|p l1 l2 Hp IH|p q l|l1 l2 l3 _ IH1 _ IH2]; cbn [List.map concat].
    + done.
    + by rewrite IH.
    + rewrite !(assoc (++)). apply Permutation_app_tail, Permutation_app_comm.
    + by rewrite IH1.
Qed.

(** A list of strings as a client reads it. *)
Definition texts (l : list string) : json := JArr (List.map JStr (List.map sanitize l)).

Lemma utf8_strings l : utf8_json (json_strings l) = texts l.
Proof.
  unfold json_strings, texts. cbn [utf8_json]. f_equal. induction l as [|x l IH]; [done|]. cbn. by rewrite IH.
Qed.

(** Replies to requests that are not HEAD. *)
Section Echo.
Context {certificate pool : Type}.
Context (CipherSuiteName : Z → string).
Context (CurveID_names SignatureScheme_names : list (Z * string)).
Implicit Types (s : @server certificate pool) (r : request).


Abbreviation echo_fields := (echo_fields CipherSuiteName CurveID_names SignatureScheme_names).
Abbreviation echo_json := (echo_json CipherSuiteName CurveID_names SignatureScheme_names).
Abbreviation anything := (anything CipherSuiteName CurveID_names SignatureScheme_names).

Lemma echo_member k s r body truncated :
  member k (utf8_json (echo_json s r body truncated))
  = utf8_json <$> find_member k (echo_fields s r body truncated).
Proof.
  apply member_utf8. unfold ascii_keys, Handlers.echo_fields, omit_empty. rewrite !Forall_app.
  split_and!; repeat case_match; repeat constructor; by vm_compute.
Qed.

Lemma find_after k k' v ms : k' ≠ k → find_member k ((k', v) :: ms) = find_member k ms.
Proof. intros Hk. cbn. by rewrite decide_False. Qed.

Lemma echo_body_member s r body truncated :
  echoed_body (utf8_json (echo_json s r body truncated)) = Some body.
Proof.
  unfold echoed_body. rewrite !echo_member.
  assert (find_member "body" (echo_fields s r body truncated)
    = Some (JStr (if utf8_valid body then str body else ""))) as -> by reflexivity.
  assert (find_member "bodyBase64" (echo_fields s r body truncated)
    = if utf8_valid body then None else Some (JStr (stdEncode body))) as ->.
  { unfold Handlers.echo_fields. rewrite !find_member_app, find_omit. cbn [find_member].
    rewrite !decide_False by done. destruct (utf8_valid body) eqn:Hv.
    - rewrite decide_False by (by intros [_ ?]). by destruct truncated, (s_handshake _ _ _ s r).
    - rewrite decide_True; [done|]. split; [done|]. intros E%stdEncode_nil. by subst body. }
  destruct (utf8_valid body) eqn:Hv; cbn [fmap option_fmap option_map utf8_json].
  - by rewrite sanitize_valid, bytes_str by (by rewrite bytes_str, Hv).
  - rewrite sanitize_ascii by apply stdEncode_ascii. apply stdDecode_encode.
Qed.

(** ** The report of the handshake, as a client reads it *)

Definition describes_offer (hello : client_hello) (o : json) : Prop :=
  member "supportedVersions" o =
    Some (if decide (SupportedVersions hello = []) then JNull
          else texts (versionName <$> SupportedVersions hello)) ∧
  member "cipherSuites" o = Some (texts (CipherSuiteName <$> CipherSuites hello)) ∧
  member "supportedCurves" o = Some (texts (curveName CurveID_names <$> SupportedCurves hello)) ∧
  member "supportedPoints" o = Some (JArr (JInt ∘ Z_of_byte <$> SupportedPoints hello)) ∧
  member "signatureSchemes" o =
    Some (texts (signatureSchemeName SignatureScheme_names <$> SignatureSchemes hello)) ∧
  member "alpnProtocols" o = Some (texts (SupportedProtos hello)) ∧
  member "serverName" o = Some (JStr (sanitize (ServerName hello))) ∧
  member "extensions" o = Some (texts (extensionName <$> Extensions hello)) ∧
  member "encryptedClientHelloOffered" o = Some (JBool (bool_decide (65037%Z ∈ Extensions hello))).

Definition describes_tls (state : conn_state) (hello : option client_hello) (t : json) : Prop :=
  member "version" t = Some (JStr (sanitize (versionName (cs_version state)))) ∧
  member "cipherSuite" t = Some (JStr (sanitize (CipherSuiteName (cs_cipher_suite state)))) ∧
  member "negotiatedProtocol" t = Some (JStr (sanitize (cs_negotiated_protocol state))) ∧
  member "serverName" t = Some (JStr (sanitize (cs_server_name state))) ∧
  member "resumed" t = Some (JBool (cs_did_resume state)) ∧
  member "echAccepted" t = Some (JBool (cs_ech_accepted state)) ∧
  member "clientCertificates" t = Some (texts (cs_peer_certificates state)) ∧
  match hello with
  | Some hello => ∃ o, member "offered" t = Some o ∧ describes_offer hello o
  | None => member "offered" t = None
  end.

(** A member of an object whose fields are written out. *)
Ltac read_member :=
  rewrite member_utf8 by (repeat constructor; by vm_compute);
  match goal with |- context [find_member ?k ?ms] =>
    let v := eval hnf in (find_member k ms) in change (find_member k ms) with v
  end; cbn [fmap option_fmap option_map]; rewrite ?utf8_strings.

Lemma offered_described hello :
  describes_offer hello (utf8_json (offered_json (offer CipherSuiteName CurveID_names SignatureScheme_names hello))).
Proof.
  rewrite offer_eq. unfold describes_offer, offered_json.
  cbn [o_SupportedVersions o_CipherSuites o_SupportedCurves o_SupportedPoints o_SignatureSchemes
    o_ALPNProtocols o_ServerName o_Extensions o_EncryptedClientHelloOffered].
  split_and!; read_member; try done.
  - destruct (decide (SupportedVersions hello = [])); [done|]. by rewrite utf8_strings.
  - cbn [utf8_json]. do 2 f_equal. induction (SupportedPoints hello) as [|x l IH]; [done|]. cbn. by rewrite IH.
Qed.

Lemma handshake_described s r state :
  r_tls r = Some state →
  ∃ h, s_handshake CipherSuiteName CurveID_names SignatureScheme_names s r = Some h ∧
    describes_tls state (hellos s !! r_remote_addr r) (utf8_json (handshake_json h)).
Proof.
  intros Htls. unfold s_handshake, handshake, hello_get. rewrite Htls, append_all_fmap, list_fmap_id.
  destruct (hellos s !! r_remote_addr r) as [hello|]; (eexists; split; [reflexivity|]);
    unfold describes_tls, handshake_json; cbn [h_Version h_CipherSuite h_NegotiatedProtocol h_ServerName
      h_Resumed h_ECHAccepted h_ClientCertificates h_HTTPProtocol h_Offered h_OfferedUnavailable
      h_CertificateSelfMade app];
    split_and!; try (read_member; done).
  eexists. read_member. split; [reflexivity|]. apply offered_described.
Qed.

(** The members after the body. *)
Lemma find_echo_tail k s r body truncated :
  bool_decide (k ∈ ["bodyLength"; "truncated"; "tls"]) = true →
  find_member k (echo_fields s r body truncated) = find_member k
    ([("bodyLength", JInt (len body))]
     ++ (if truncated then [("truncated", JBool true)] else [])
     ++ (match s_handshake CipherSuiteName CurveID_names SignatureScheme_names s r with
         | Some h => [("tls", handshake_json h)] | None => [] end)).
Proof.
  intros Hk%bool_decide_eq_true. unfold Handlers.echo_fields.
  rewrite (find_member_app k [_; _; _; _; _; _; _; _; _; _; _]), (find_member_app k (omit_empty _ _)).
  rewrite find_omit. rewrite !elem_of_cons in Hk.
  destruct Hk as [->|[->|[->|[]%elem_of_nil]]];
    rewrite decide_False by (by intros [? _]); reflexivity.
Qed.

(** C8: [/anything] tells the truth about the request.  Whatever bytes the body
    is made of, whatever the URL, the headers and the rest: the reply is a
    complete 200 whose body is a JSON text, and in it a client finds the very
    bytes it sent, up to the first 1048576 of them (as text when they are UTF-8,
    in base64 when not), their number, a mark exactly when some were cut off; the
    method; the URL, which is the scheme (what X-Forwarded-Proto says, or that of
    the connection), the Host of the request with its port, and the request URI; one
    line for each value of each header, in bytewise order; no report of a handshake
    when it came without TLS, and otherwise one of the negotiated parameters of its
    own connection and of the ClientHello recorded for its remote address, list by
    list, if there is one.  Text that is not UTF-8 has U+FFFD in place of the bytes
    that are not. *)
Theorem anything_echoes s r data :
  r_body r = Body data None →
  ∃ payload v sch lines,
    serve false (anything s r) = Ok (Response 200 (json_head payload ∅) payload []) ∧
    parse_json (str payload) = Some v ∧
    echoed_body v = Some (take (Z.to_nat 1048576) data) ∧
    member "bodyLength" v = Some (JInt (Z.min (len data) 1048576)) ∧
    member "truncated" v = (if decide (1048576 < len data)%Z then Some (JBool true) else None) ∧
    member "method" v = Some (JStr (sanitize (r_method r))) ∧
    client_scheme r sch ∧
    member "url" v = Some (JStr (sanitize ((sch +:+ ("://" +:+ r_host r)) +:+ r_request_uri r))) ∧
    StronglySorted str_le lines ∧
    lines ≡ₚ concat (List.map (λ p, List.map (λ v, p.1 +:+ (": " +:+ v)) p.2) (map_to_list (r_header r))) ∧
    member "headerList" v = Some (texts lines) ∧
    match r_tls r with
    | None => member "tls" v = None
    | Some state => ∃ t, member "tls" v = Some t ∧ describes_tls state (hellos s !! r_remote_addr r) t
    end.
Proof.
  intros Hb. pose proof (readBody_ok r data Hb) as Hr. unfold maxEchoBody in Hr.
  set (body := take (Z.to_nat 1048576) data) in *.
  assert (len body = Z.min (len data) 1048576)%Z as Hlen.
  { unfold body, len. rewrite length_take. lia. }
  clearbody body. set (truncated := bool_decide _) in Hr.
  exists (json_payload (echo_json s r body truncated)), (utf8_json (echo_json s r body truncated)),
    (scheme r), (headerList r).
  destruct (headerList_deterministic r (map_to_list (r_header r)) (reflexivity _)) as (_ & Hsorted & Hperm).
  split; [unfold Handlers.anything; rewrite Hr; by apply serve_writeJSON|].
  split; [apply parse_payload|]. split; [apply echo_body_member|]. rewrite !echo_member.
  rewrite (find_echo_tail "bodyLength"), (find_echo_tail "truncated"), (find_echo_tail "tls")
    by reflexivity.
  split; [cbn [find_member app fmap option_fmap option_map utf8_json]; by rewrite Hlen|].
  split; [|split; [done|split; [apply scheme_client|split; [done|split; [done|split; [done|split]]]]]].
  - unfold truncated. destruct (decide (1048576 < len data)%Z) as [Hd|Hd].
    + by rewrite bool_decide_true.
    + rewrite bool_decide_false by done. by destruct (s_handshake _ _ _ s r).
  - rewrite <- utf8_strings. reflexivity.
  - destruct (r_tls r) as [state|] eqn:Htls.
    + destruct (handshake_described s r state Htls) as (h & Hh & Hd). exists (utf8_json (handshake_json h)).
      split; [|done]. rewrite Hh. by destruct truncated.
    + unfold s_handshake, handshake. rewrite Htls. by destruct truncated.
Qed.

Lemma anything_read_error s r data e :
  r_body r = Body data (Some e) → (len data ≤ 1048576)%Z →
  serve false (anything s r)
  = Ok (Response 400 (error_header ∅) (error_body ("cannot read request body: " +:+ e)) []).
Proof.
  intros Hb Hl. unfold Handlers.anything. rewrite (readBody_err r data e Hb Hl).
  by rewrite serve_httpError.
Qed.
End Echo.

Definition example_server : @server nat nat := TestServer example_certs newHelloCache [].

Definition example_post (data : list byte) : request :=
  Request "POST" "/anything" "a=b" "/anything?a=b" "HTTP/1.1" "localhost:8080"
    {["Accept" := ["*/*"]]} None "127.0.0.1:4711" ∅ (Body data None).

Lemma anything_echoes_witness :
  ∃ payload v,
    serve false (anything hex_name [] [] example_server (example_post [xff; x00]))
    = Ok (Response 200 (json_head payload ∅) payload []) ∧
    parse_json (str payload) = Some v ∧ echoed_body v = Some [xff; x00] ∧
    member "headerList" v = Some (JArr [JStr "Accept: */*"]).
Proof.
  destruct (anything_echoes hex_name [] [] example_server (example_post [xff; x00]) [xff; x00]
    eq_refl) as (payload & v & sch & lines & Hs & Hp & Hb & _ & _ & _ & _ & _ & _ & Hperm & Hh & _).
  exists payload, v. split; [exact Hs|]. split; [exact Hp|]. split.
  - rewrite Hb. rewrite take_ge; [reflexivity|]. apply Nat2Z.inj_le. rewrite Z2Nat.id by lia.
    vm_compute. discriminate.
  - assert (lines ≡ₚ ["Accept: */*"]) as Hl by exact Hperm.
    symmetry in Hl. apply Permutation_singleton_l in Hl. rewrite Hh, <- Hl. vm_compute. reflexivity.
Defined.

Lemma headerList_deterministic_witness :
  headerList_of [("B", ["2"; "1"]); ("A", ["3"])] = ["A: 3"; "B: 1"; "B: 2"].
Proof.
  set (r := Request "GET" "/" "" "/" "HTTP/1.1" "a" {["A" := ["3"]; "B" := ["2"; "1"]]} None
    "127.0.0.1:1" ∅ (Body [] None)).
  assert (map_to_list (r_header r) = [("A", ["3"]); ("B", ["2"; "1"])]
    ∨ map_to_list (r_header r) = [("B", ["2"; "1"]); ("A", ["3"])]) as Hl
    by (vm_compute; tauto).
  destruct (headerList_deterministic r [("B", ["2"; "1"]); ("A", ["3"])]) as (H & _ & _).
  - destruct Hl as [-> | ->]; [apply perm_swap | reflexivity].
  - rewrite H. vm_compute. reflexivity.
Defined.
