(* ===== verification/Endpoints.v ===== *)
(** * The test server's endpoints with parameters

    test-server/handlers.go: statuses, redirects, delays, generated bodies and
    compressed ones.  Each handler is followed by what it answers. *)

From Stdlib Require Import Floats.SpecFloat.
From S2P Require Import Prelude GoStrings Strconv Unicode StrOrder Json Base64 GoFloat FloatBounds Http.
From S2P Require Import Query TlsNames HelloCache Handshake Server Handlers.

(** ** Shared pieces *)

(** A path value that is an integer within bounds. *)
Definition path_int (r : request) (name : string) (low high : Z) : option Z :=
  match atoi (r_path_value r name) with
  | None => None
  | Some n => if decide (n < low ∨ high < n)%Z then None else Some n
  end.

Lemma path_int_itoa r name low high n :
  r_path_value r name = itoa n → in_int64 n →
  path_int r name low high = if decide (low ≤ n ≤ high)%Z then Some n else None.
Proof.
  intros Hp Hn. unfold path_int. rewrite Hp, atoi_itoa by done. repeat case_decide; done || lia.
Qed.

(** ** [/status/{code}] *)

Section Status.
(** [http.StatusText]. *)
Context (StatusText : Z → string).

Definition status_line (code : Z) : string := itoa code +:+ (" " +:+ (StatusText code +:+ newline)).

Definition set_location (location : string) : M () :=
  if decide (location = "") then mret () else setHeader "Location" location.

Definition status (r : request) : M () :=
  match path_int r "code" 100 599 with
  | None => httpError "status must be between 100 and 599" 400
  | Some code =>
      set_location (values_get (r_query r) "location") ;;
      writeHeader code ;;
      if decide (code ≠ 204 ∧ code ≠ 304 ∧ r_method r ≠ "HEAD")%Z
      then write (bytes (status_line code)) ;; mret ()
      else mret ()
  end.

Definition location_header (location : string) : header :=
  if decide (location = "") then ∅ else header_set "Location" location ∅.

Lemma run_set_location location :
  set_location location (fresh_writer false ∅) = Ok ((), fresh_writer false (location_header location)).
Proof. unfold set_location, location_header. by case_decide. Qed.

Lemma location_fits location n : fits (location_header location) n.
Proof.
  unfold fits, declared_length, location_header, header_get, header_values, header_set.
  change (canonicalKey "Content-Length") with "Content-Length".
  change (canonicalKey "Location") with "Location". case_decide; by simplify_map_eq.
Qed.

(** C25: for any integer in the path, [/status/{code}] answers 400 outside 100
    to 599.  Within, the answer has that status, the [Location] that was asked
    for, and the code and its text as the body where the status allows one:
    except that a code from 100 to 199 other than 101 goes out as an
    informational response, and the status the client gets in the end is
    200. *)
Theorem status_replies r n :
  r_path_value r "code" = itoa n → in_int64 n → r_method r ≠ "HEAD" →
  let h := location_header (values_get (r_query r) "location") in
  serve false (status r) = Ok
    (if decide (100 ≤ n ≤ 599)%Z then
       if decide (n ≤ 199 ∧ n ≠ 101)%Z
       then Response 200 h (bytes (status_line n)) [(n, h)]
       else Response n h (if bodyAllowedForStatus n then bytes (status_line n) else []) []
     else Response 400 (error_header ∅) (error_body "status must be between 100 and 599") []).
Proof.
  intros Hp Hn Hm h. unfold status. rewrite (path_int_itoa _ _ _ _ n) by done.
  case_decide as Hr; [|by apply serve_httpError].
  change (new_writer false) with (fresh_writer false ∅).
  assert (∀ m w c hd, m (fresh_writer false h) = Ok ((), w) → w_sent w = Some (c, hd) →
    serve false (set_location (values_get (r_query r) "location") ;; m)
    = Ok (Response c hd (w_body w) (w_informational w))) as Hserve.
  { intros m w c hd Hw Hs. eapply serve_done; [|done].
    change (new_writer false) with (fresh_writer false ∅).
    by rewrite (run_bind _ _ _ _ _ (run_set_location _)). }
  set (line := bytes (status_line n)).
  assert (fits h (len line)) as Hf by apply location_fits.
  destruct (decide (n ≤ 199 ∧ n ≠ 101)%Z) as [Hinf|Hinf].
  - rewrite decide_True by (split_and!; [lia..|done]).
    destruct (run_write_unsent (Writer false h [(n, h)] None [] 0 []) line) as
      (ok & w & Hw & Hs & Hi & Hb); [done..|].
    erewrite Hserve; [by rewrite Hb, Hi| |exact Hs].
    assert (writeHeader n (fresh_writer false h)
      = Ok ((), Writer false h [(n, h)] None [] 0 [])) as Hwh.
    { unfold writeHeader. cbn [w_sent fresh_writer]. by rewrite decide_False, decide_True by lia. }
    rewrite (run_bind _ _ _ _ _ Hwh). fold line. by rewrite (run_bind _ _ _ _ _ Hw).
  - assert (writeHeader n (fresh_writer false h)
      = Ok ((), Writer false h [] (Some (n, h)) [] 0 [])) as Hwh.
    { unfold writeHeader. cbn [w_sent fresh_writer]. by rewrite decide_False, decide_False by lia. }
    destruct (run_write_sent (Writer false h [] (Some (n, h)) [] 0 []) n h line) as
      (ok & w & Hw & Hs & Hi & Hb); [done..|].
    destruct (decide (n ≠ 204 ∧ n ≠ 304 ∧ r_method r ≠ "HEAD")%Z) as [Hbody|Hbody].
    + erewrite Hserve; [by rewrite Hb, Hi, andb_true_r| |exact Hs].
      rewrite (run_bind _ _ _ _ _ Hwh). fold line. by rewrite (run_bind _ _ _ _ _ Hw).
    + rewrite (Hserve _ (Writer false h [] (Some (n, h)) [] 0 []) n h);
        [|by rewrite (run_bind _ _ _ _ _ Hwh)|done].
      assert (bodyAllowedForStatus n = false) as ->; [|done].
      unfold bodyAllowedForStatus. destruct (Z.eqb_spec n 204), (Z.eqb_spec n 304);
        rewrite ?orb_true_r; try done. by destruct Hbody.
Qed.
End Status.

Lemma status_replies_witness :
  let r := Request "GET" "/status/103" "" "/status/103" "HTTP/1.1" "localhost" ∅ None
    "127.0.0.1:1" {["code" := "103"]} (Body [] None) in
  serve false (status (λ _, "Early Hints") r)
  = Ok (Response 200 ∅ (bytes ("103 Early Hints" +:+ newline)) [(103%Z, ∅)]).
Proof.
  intros r. rewrite (status_replies (λ _, "Early Hints") r 103).
  - reflexivity.
  - vm_compute. reflexivity.
  - unfold in_int64. lia.
  - discriminate.
Defined.

(** ** Redirects *)

(** [s[:strings.LastIndex(s, sep)]]; without the separator the slice panics. *)
Fixpoint before_last (sep : ascii) (s : string) : option string :=
  match s with
  | EmptyString => None
  | String a s' =>
      match before_last sep s' with
      | Some p => Some (String a p)
      | None => if decide (a = sep) then Some "" else None
      end
  end.

(** [strings.Trim] with a one-byte cutset. *)
Fixpoint trim_left (c : ascii) (s : string) : string :=
  match s with
  | String a s' => if decide (a = c) then trim_left c s' else s
  | EmptyString => s
  end.
Fixpoint trim_right (c : ascii) (s : string) : string :=
  match s with
  | EmptyString => ""
  | String a s' =>
      match trim_right c s' with
      | EmptyString => if decide (a = c) then "" else String a ""
      | t => String a t
      end
  end.
Definition trim (c : ascii) (s : string) : string := trim_right c (trim_left c s).

Definition redirect (absolute : bool) (r : request) : M () :=
  match path_int r "count" 1 100 with
  | None => httpError "count must be between 1 and 100" 400
  | Some count =>
      let relative :=
        if decide (1 < count)%Z then
          match before_last "/" (r_path r) with
          | Some path => Some ("/" +:+ (trim "/" path +:+ ("/" +:+ itoa (count - 1))))
          | None => None
          end
        else Some "/anything" in
      match relative with
      | None => λ _, Panic
      | Some target =>
          let target := if absolute then baseURL r +:+ target else target in
          setHeader "Location" target ;;
          writeHeader 302
      end
  end.

Definition redirectTo (r : request) : M () :=
  let target := values_get (r_query r) "url" in
  if decide (target = "") then httpError "url is required" 400
  else
    let raw := values_get (r_query r) "status" in
    let code :=
      if decide (raw = "") then Some 302%Z
      else match atoi raw with
           | None => None
           | Some parsed => if decide (parsed < 300 ∨ 399 < parsed)%Z then None else Some parsed
           end in
    match code with
    | None => httpError "status must be between 300 and 399" 400
    | Some code =>
        setHeader "Location" target ;;
        writeHeader code
    end.

Lemma serve_location code target :
  (200 ≤ code ≤ 999)%Z →
  serve false (setHeader "Location" target ;; writeHeader code)
  = Ok (Response code (header_set "Location" target ∅) [] []).
Proof.
  intros Hc.
  rewrite (serve_done false _ (Writer false (header_set "Location" target ∅) []
    (Some (code, header_set "Location" target ∅)) [] 0 []) code (header_set "Location" target ∅));
    [done| |done].
  change (new_writer false) with (fresh_writer false ∅).
  rewrite (run_bind _ _ _ _ _ (run_setHeader _ _ _ _)). by apply run_writeHeader.
Qed.

Lemma before_last_app sep p s :
  free_of sep s → before_last sep (p +:+ String sep s) = Some p.
Proof.
  intros Hs. assert (before_last sep s = None) as Hn.
  { induction s as [|a s IH]; [done|]. cbn in Hs |- *. apply andb_True in Hs as [Ha Hs].
    rewrite IH by done. rewrite decide_False; [done|].
    intros ->. by rewrite bool_decide_true in Ha. }
  induction p as [|a p IH].
  - rewrite sapp_nil_l. cbn. rewrite Hn. by rewrite decide_True.
  - rewrite sapp_cons_l. cbn. by rewrite IH.
Qed.

(** ** Following the redirects *)

(** The server's routes the redirects go through. *)
Definition prefix_of (absolute : bool) : string :=
  if absolute then "/absolute-redirect" else "/redirect".

(** The request the mux hands to [redirect] for [<prefix>/<seg>]. *)
Definition redirect_request (absolute : bool) (r : request) (seg : string) : request :=
  let path := prefix_of absolute +:+ String "/" seg in
  Request "GET" path "" path (r_proto r) (r_host r) (r_header r) (r_tls r) (r_remote_addr r)
    {["count" := seg]} (Body [] None).

(** A client that calls the server [origin] is sent on to a path of it: by an
    absolute URL that begins with [origin], or by the path itself. *)
Definition resolve (absolute : bool) (origin location : string) : option string :=
  if absolute then strip origin location else Some location.

(** The [Location]s a client is sent to, until one is not a redirect. *)
Fixpoint follow (fuel : nat) (absolute : bool) (origin : string) (r : request) (seg : string) :
    option (list string) :=
  match fuel with
  | O => None
  | S fuel =>
      match serve false (redirect absolute (redirect_request absolute r seg)) with
      | Ok resp =>
          if decide (resp_status resp = 302%Z) then
            let location := header_get (resp_header resp) "Location" in
            path ← resolve absolute origin location;
            match strip (prefix_of absolute +:+ "/") path with
            | Some seg => rest ← follow fuel absolute origin r seg; Some (location :: rest)
            | None => Some [location]
            end
          else None
      | _ => None
      end
  end.

Lemma redirect_step absolute r n :
  (1 ≤ n ≤ 100)%Z →
  serve false (redirect absolute (redirect_request absolute r (itoa n)))
  = Ok (Response 302 (header_set "Location"
      ((if absolute then baseURL r else "") +:+
       (if decide (1 < n)%Z then prefix_of absolute +:+ String "/" (itoa (n - 1)) else "/anything")) ∅)
      [] []).
Proof.
  intros Hn. unfold redirect.
  rewrite (path_int_itoa _ _ _ _ n); [|reflexivity|unfold in_int64; lia].
  rewrite decide_True by done.
  assert (free_of "/" (itoa n)) as Hfree.
  { eapply parse_digits_free; [done|]. apply parse_digits_itoa. lia. }
  change (r_path (redirect_request absolute r (itoa n)))
    with (prefix_of absolute +:+ String "/" (itoa n)).
  rewrite before_last_app by done.
  change (baseURL (redirect_request absolute r (itoa n))) with (baseURL r).
  assert ("/" +:+ (trim "/" (prefix_of absolute) +:+ ("/" +:+ itoa (n - 1)))
    = prefix_of absolute +:+ String "/" (itoa (n - 1))) as Htarget by (by destruct absolute).
  destruct (decide (1 < n)%Z).
  - rewrite Htarget, serve_location by done. by destruct absolute; rewrite ?sapp_nil_l.
  - rewrite serve_location by done. by destruct absolute; rewrite ?sapp_nil_l.
Qed.

Lemma strip_app p s : strip p (p +:+ s) = Some s.
Proof. induction p as [|a p IH]; [done|]. rewrite sapp_cons_l. cbn. by rewrite decide_True. Qed.

(** The paths of a chain of [n] redirects, on [base]. *)
Definition chain (absolute : bool) (base : string) (n : nat) : list string :=
  ((λ k, base +:+ (prefix_of absolute +:+ String "/" (itoa (Z.of_nat k)))) <$> reverse (seq 1 (n - 1)))
  ++ [base +:+ "/anything"].

Lemma follow_chain absolute r n :
  (1 ≤ Z.of_nat n ≤ 100)%Z →
  follow n absolute (baseURL r) r (itoa (Z.of_nat n))
  = Some (chain absolute (if absolute then baseURL r else "") n).
Proof.
  unfold chain. set (base := if absolute then baseURL r else "").
  induction n as [|n IH]; intros Hn; [lia|]. cbn [follow].
  rewrite redirect_step by done. cbn [resp_status resp_header]. rewrite decide_True by done.
  rewrite header_get_set_eq. fold base. cbv zeta.
  set (path := if decide _ then _ else _).
  assert (resolve absolute (baseURL r) (base +:+ path) = Some path) as ->.
  { unfold resolve, base. destruct absolute; [apply strip_app|done]. }
  cbn [mbind option_bind]. subst path.
  destruct (decide (1 < Z.of_nat (S n))%Z) as [H1|H1].
  - replace (Z.of_nat (S n) - 1)%Z with (Z.of_nat n) by lia.
    replace (prefix_of absolute +:+ String "/" (itoa (Z.of_nat n)))
      with ((prefix_of absolute +:+ "/") +:+ itoa (Z.of_nat n)) by by rewrite sapp_assoc.
    rewrite strip_app, IH by lia. cbn [mbind option_bind].
    replace (S n - 1) with (S (n - 1)) by lia. rewrite seq_S, reverse_snoc, fmap_cons.
    replace (1 + (n - 1)) with n by lia. by rewrite sapp_assoc.
  - replace (S n - 1) with 0 by lia. by destruct absolute.
Qed.

(** C23: for n from 1 to 100, a client that starts at [/redirect/n], or at
    [/absolute-redirect/n], and follows every redirect is redirected exactly n
    times: to n-1, n-2 and so on down to 1 under the same prefix, and at last to
    [/anything].  The first form sends it to the bare path; the absolute form to the
    path on the very origin the client used: the scheme X-Forwarded-Proto reports,
    or that of the connection, then the Host of its request with its port.  Any
    other number is answered with 400. *)
Theorem redirect_chain absolute r sch n :
  in_int64 n → client_scheme r sch →
  let origin := sch +:+ ("://" +:+ r_host r) in
  (if decide (1 ≤ n ≤ 100)%Z then
     follow (Z.to_nat n) absolute origin r (itoa n)
     = Some (chain absolute (if absolute then origin else "") (Z.to_nat n))
   else
     serve false (redirect absolute (redirect_request absolute r (itoa n)))
     = Ok (Response 400 (error_header ∅) (error_body "count must be between 1 and 100") [])).
Proof.
  intros Hi Hsch origin. assert (origin = baseURL r) as ->.
  { unfold origin. by rewrite (client_scheme_unique r sch (scheme r) Hsch (scheme_client r)). }
  case_decide as Hn.
  - replace n with (Z.of_nat (Z.to_nat n)) at 2 by lia. apply follow_chain. lia.
  - unfold redirect. rewrite (path_int_itoa _ _ _ _ n) by done.
    rewrite decide_False by done. by apply serve_httpError.
Qed.

Definition example_get (path : string) : request :=
  Request "GET" path "" path "HTTP/1.1" "localhost:8080" ∅ None "127.0.0.1:4711" ∅ (Body [] None).

Lemma redirect_chain_witness :
  follow 3 true "http://localhost:8080" (example_get "/") "3"
  = Some ["http://localhost:8080/absolute-redirect/2"; "http://localhost:8080/absolute-redirect/1";
          "http://localhost:8080/anything"].
Proof.
  assert (in_int64 3) as H3 by (unfold in_int64; lia).
  pose proof (redirect_chain true (example_get "/") "http" 3 H3 eq_refl) as H.
  rewrite decide_True in H by lia. exact H.
Defined.

(** ** Delays *)

Section Delay.
(** Go leaves the conversion of a float that is no [int64] to the platform. *)
Context (odd : float64 → Z).
Context {certificate pool : Type}.
Context (CipherSuiteName : Z → string).
Context (CurveID_names SignatureScheme_names : list (Z * string)).

(** The result is the pauses that were waited out; [interrupted d] is whether
    the client goes away during a pause of [d] nanoseconds. *)
Definition delay (interrupted : Z → bool) (s : @server certificate pool) (r : request) : M (list Z) :=
  let refuse := httpError "seconds must be between 0 and 60" 400 ;; mret [] in
  match parseFloat (r_path_value r "seconds") with
  | None => refuse
  | Some seconds =>
      if bad_seconds seconds then refuse
      else
        let pause := seconds_to_duration odd seconds in
        if interrupted pause then mret []
        else anything CipherSuiteName CurveID_names SignatureScheme_names s r ;; mret [pause]
  end.

Lemma serve_mret {A} head (m : M A) (x : list Z) : serve head ((m ;; mret x) ;; mret ()) = serve head (m ;; mret ()).
Proof. unfold serve, mbind, M_bind. by destruct (m _) as [[]| |]. Qed.

Lemma serve_unit head (m : M ()) : serve head (m ;; mret ()) = serve head m.
Proof. unfold serve, mbind, M_bind. by destruct (m _) as [[[]]| |]. Qed.

(** Whole seconds are exact. *)
Definition whole_seconds_convert (n : Z) : bool :=
  match parseFloat (itoa n) with
  | None | Some S754_nan => false
  | Some f => negb (bad_seconds f) && bool_decide (seconds_to_duration odd f = n * second)%Z
  end.

Lemma whole_seconds n :
  (0 ≤ n ≤ 60)%Z →
  ∃ f, parseFloat (itoa n) = Some f ∧ bad_seconds f = false ∧ f ≠ S754_nan ∧
    seconds_to_duration odd f = (n * second)%Z.
Proof using Type.
  intros Hn. assert (forallb whole_seconds_convert (seqZ 0 61) = true) as Hall by (vm_compute; reflexivity).
  rewrite forallb_forall in Hall. specialize (Hall n). rewrite <- list_elem_of_In, elem_of_seqZ in Hall.
  specialize (Hall ltac:(lia)). unfold whole_seconds_convert in Hall.
  destruct (parseFloat (itoa n)) as [f|]; [|done]. exists f.
  assert (f ≠ S754_nan) as Hnan by by intros ->.
  assert (negb (bad_seconds f) && bool_decide (seconds_to_duration odd f = n * second)%Z = true) as Hf
    by by destruct f.
  by apply andb_true_iff in Hf as [Hbad%negb_true_iff Hd%bool_decide_eq_true].
Qed.

Definition delay_refused : response :=
  Response 400 (error_header ∅) (error_body "seconds must be between 0 and 60") [].

(** A refusal: the reply, and no pause waited out before or after it. *)
Definition refused (run : M (list Z)) : Prop :=
  (∃ w, run (new_writer false) = Ok ([], w)) ∧ serve false (run ;; mret ()) = Ok delay_refused.

(** C28: [/delay/s] waits at most a minute, and then is [/anything].  A value that
    is no number, or below 0 or above 60, is a 400 and no wait at all; no whole
    number from 0 to 60 is refused.  Any value that is not refused, but NaN, is a
    pause of 0 to 60 seconds, whatever the rounding: if the client goes away
    meanwhile, nothing is written; if not, the reply is that of [/anything], and
    that one pause has been waited out.  A whole number of seconds is a pause of
    exactly that many. *)
Theorem delay_replies interrupted s r :
  let value := r_path_value r "seconds" in
  let run := delay interrupted s r in
  let whole := λ n, (0 ≤ n ≤ 60)%Z ∧ value = itoa n in
  match parseFloat value with
  | None => refused run ∧ ¬ ∃ n, whole n
  | Some S754_nan => True
  | Some f =>
      if bad_seconds f then refused run ∧ ¬ ∃ n, whole n
      else ∃ pause, (0 ≤ pause ≤ 60 * second)%Z ∧
        (∀ n, whole n → pause = (n * second)%Z) ∧
        if interrupted pause then run (new_writer false) = Ok ([], new_writer false)
        else (∀ waited w, run (new_writer false) = Ok (waited, w) → waited = [pause]) ∧
          serve false (run ;; mret ())
          = serve false (anything CipherSuiteName CurveID_names SignatureScheme_names s r ;; mret ())
  end.
Proof.
  intros value run whole. unfold run, delay. fold value. cbv zeta.
  set (refuse := httpError _ _ ;; mret []).
  assert (refused refuse) as Hrefuse.
  { split; [by eexists|]. unfold refuse. rewrite serve_mret, serve_unit. by apply serve_httpError. }
  assert (∀ n, whole n → ∃ f, parseFloat value = Some f ∧ bad_seconds f = false ∧
    seconds_to_duration odd f = (n * second)%Z) as Hwhole.
  { intros n [Hn ->]. destruct (whole_seconds n Hn) as (f & ? & ? & _ & ?). eauto. }
  destruct (parseFloat value) as [f|] eqn:Hp.
  2: { split; [done|]. intros [n (f & Hf & _)%Hwhole]. congruence. }
  assert (f = S754_nan ∨ f ≠ S754_nan) as [->|Hnan] by (destruct f; auto); [done|].
  destruct (bad_seconds f) eqn:Hbad.
  { assert (¬ ∃ n, whole n) as Hno by (intros [n (f' & [= ->] & Hf & _)%Hwhole]; congruence).
    destruct f; done. }
  pose proof (seconds_to_duration_bounds odd value f Hp Hbad Hnan) as Hb.
  assert (∀ n, whole n → seconds_to_duration odd f = (n * second)%Z) as Hn.
  { by intros n (f' & [= ->] & _ & Hd)%Hwhole. }
  destruct f; try done; (eexists; split; [exact Hb|split; [exact Hn|]]);
    (destruct (interrupted _); [done|split; [|by rewrite serve_mret]]);
    intros waited w; unfold mbind, M_bind; destruct (anything _ _ _ s r _) as [[]| |]; by intros [=].
Qed.
End Delay.

Definition example_delay : request :=
  Request "GET" "/delay/1.5" "" "/delay/1.5" "HTTP/1.1" "localhost:8080" ∅ None "127.0.0.1:1"
    {["seconds" := "1.5"]} (Body [] None).

Lemma example_delay_parsed :
  parseFloat (r_path_value example_delay "seconds") = Some (S754_finite false (3 * 2 ^ 51) (-52)).
Proof. vm_compute. reflexivity. Qed.
Lemma example_delay_good : bad_seconds (S754_finite false (3 * 2 ^ 51) (-52)) = false.
Proof. vm_compute. reflexivity. Qed.

Lemma delay_replies_witness :
  serve false (delay (λ _, 0%Z) hex_name [] [] (λ _, false) example_server example_delay ;; mret ())
  = serve false (anything hex_name [] [] example_server example_delay ;; mret ()).
Proof.
  pose proof (delay_replies (λ _, 0%Z) hex_name [] [] (λ _, false) example_server example_delay) as H.
  cbv zeta in H. rewrite example_delay_parsed in H. cbv iota in H. rewrite example_delay_good in H.
  destruct H as (pause & _ & _ & _ & H). exact H.
Defined.

(** ** Generated bodies *)

Section Random.
(** [rand.Read] filling a slice of [n] bytes. *)
Context (rand_Read : Z → outcome (list byte)).

Definition bytes_handler (r : request) : M () :=
  match path_int r "count" 0 10485760 with
  | None => httpError "count must be between 0 and 10485760" 400
  | Some count =>
      match rand_Read count with
      | Err e => httpError e 500
      | Panic => λ _, Panic
      | Ok body =>
          setHeader "Content-Type" "application/octet-stream" ;;
          setHeader "Content-Length" (itoa count) ;;
          write body ;;
          mret ()
      end
  end.

(** C32: [/bytes/n] for n from 0 to 10485760 is a 200 with exactly the n bytes
    drawn at random and a [Content-Length] of n, or a 500 when drawing them
    fails; any other integer is a 400. *)
Theorem bytes_replies r n :
  r_path_value r "count" = itoa n → in_int64 n →
  ((0 ≤ n ≤ 10485760)%Z →
   (∀ body, rand_Read n = Ok body → len body = n →
      serve false (bytes_handler r) = Ok (Response 200
        (header_set "Content-Length" (itoa n)
           (header_set "Content-Type" "application/octet-stream" ∅)) body [])) ∧
   (∀ e, rand_Read n = Err e →
      serve false (bytes_handler r) = Ok (Response 500 (error_header ∅) (error_body e) []))) ∧
  (¬ (0 ≤ n ≤ 10485760)%Z →
   serve false (bytes_handler r) = Ok (Response 400 (error_header ∅)
     (error_body "count must be between 0 and 10485760") [])).
Proof.
  intros Hp Hi. unfold bytes_handler. rewrite (path_int_itoa _ _ _ _ n) by done.
  split; intros Hn; [rewrite decide_True by done | rewrite decide_False by done; by apply serve_httpError].
  split; [|intros e ->; by apply serve_httpError]. intros body -> Hlen.
  set (h := header_set "Content-Length" (itoa n) _).
  destruct (run_write_fresh false h body) as (w & Hw & Hs & Hinf & Hb).
  { apply fits_length; [|apply len_nonneg]. rewrite Hlen. apply header_get_set_eq. }
  rewrite (serve_done false _ w 200 h); [by rewrite Hb, Hinf| |done].
  change (new_writer false) with (fresh_writer false ∅).
  rewrite (run_bind _ _ _ _ _ (run_setHeader _ _ _ _)).
  rewrite (run_bind _ _ _ _ _ (run_setHeader _ _ _ _)).
  by rewrite (run_bind _ _ _ _ _ Hw).
Qed.
End Random.

Lemma bytes_replies_witness :
  let r := Request "GET" "/bytes/2" "" "/bytes/2" "HTTP/1.1" "localhost" ∅ None "127.0.0.1:1"
    {["count" := "2"]} (Body [] None) in
  serve false (bytes_handler (λ n, Ok (replicate (Z.to_nat n) x2a)) r)
  = Ok (Response 200 (header_set "Content-Length" "2"
      (header_set "Content-Type" "application/octet-stream" ∅)) [x2a; x2a] []).
Proof.
  intros r. destruct (bytes_replies (λ n, Ok (replicate (Z.to_nat n) x2a)) r 2) as [H _].
  - reflexivity.
  - unfold in_int64. lia.
  - apply H; [lia|reflexivity|reflexivity].
Defined.

Section Stream.
Context `{UnicodeTables}.

Definition stream_line (proto : string) (i : Z) : string :=
  ("{" +:+ String dquote ("line" +:+ String dquote ":")) +:+ (itoa i +:+
   (("," +:+ String dquote ("protocol" +:+ String dquote ":")) +:+ (quote proto +:+ ("}" +:+ newline)))).

(** One line and a flush per turn, [i] counting up to [lines]. *)
Fixpoint stream_loop (proto : string) (i : Z) (count : nat) : M () :=
  match count with
  | O => mret ()
  | S count =>
      write (bytes (stream_line proto i)) ;;
      flush_writer ;;
      stream_loop proto (i + 1) count
  end.

Definition stream (r : request) : M () :=
  match path_int r "lines" 1 1000 with
  | None => httpError "lines must be between 1 and 1000" 400
  | Some lines =>
      setHeader "Content-Type" "application/json" ;;
      stream_loop (r_proto r) 0 (Z.to_nat lines)
  end.
End Stream.

(** [drip]: a star and a pause at a time; [i] counts the pauses.  The result is
    the pauses that were waited out. *)
Fixpoint drip_loop (interrupted : nat → bool) (pause : Z) (i count : nat) : M (list Z) :=
  match count with
  | O => mret []
  | S count =>
      ok ← write [x2a];
      if negb ok then mret []
      else
        flush_writer ;;
        if interrupted i then mret []
        else waited ← drip_loop interrupted pause (S i) count; mret (pause :: waited)
  end.

Section Drip.
Context (odd : float64 → Z).

(** The initial pause, the number of bytes, and the pause after each. *)
Definition drip_plan (query : values) : Z * Z * Z :=
  let total := queryInt query "bytes" 10 1 1048576 in
  let duration := queryDuration odd query "duration" 1000000000 in
  let initial := queryDuration odd query "delay" 0 in
  (initial, total, Z.quot duration (Z.max total 1)).

Definition drip (interrupted_first : bool) (interrupted : nat → bool) (r : request) : M (list Z) :=
  let '(initial, total, pause) := drip_plan (r_query r) in
  if (0 <? initial)%Z && interrupted_first then mret []
  else
    setHeader "Content-Type" "application/octet-stream" ;;
    setHeader "Content-Length" (itoa total) ;;
    waited ← drip_loop interrupted pause 0 (Z.to_nat total);
    mret ((if (0 <? initial)%Z then [initial] else []) ++ waited).
End Drip.

(** ** Bodies written piece by piece *)

(** A reply under way: status 200, [body] written, flushed at [flushes]. *)
Definition under_way (h : header) (body : list byte) (flushes : list nat) : writer :=
  Writer false h [] (Some (200%Z, h)) body (len body) flushes.

(** The writer before the first write, or under way. *)
Definition ready (h : header) (body : list byte) (flushes : list nat) : writer :=
  if decide (body = []) then fresh_writer false h else under_way h body flushes.

Lemma write_more h body flushes data :
  data ≠ [] → (body = [] → flushes = []) → fits h (len body + len data) →
  write data (ready h body flushes) = Ok (true, under_way h (body ++ data) flushes).
Proof.
  intros Hd Hfl Hf. unfold ready.
  assert (∀ flushes, write data (under_way h body flushes)
    = Ok (true, under_way h (body ++ data) flushes)) as Hgo.
  { intros fl. unfold write.
    rewrite (run_bind ensure_header _ _ () (under_way h body fl)) by done.
    unfold write_body. cbn [under_way w_sent]. rewrite decide_False by done.
    change (bodyAllowedForStatus 200) with true. unfold fits in Hf. unfold under_way.
    rewrite len_app. cbn [negb andb w_written w_head w_header w_informational w_sent w_body w_flushes].
    destruct (declared_length h); [rewrite bool_decide_true by lia|]; done. }
  case_decide as Hb; [|apply Hgo]. rewrite (Hfl Hb). rewrite <- (Hgo []). subst body.
  unfold write. rewrite (run_bind ensure_header _ _ () (under_way h [] [])) by done.
  by rewrite (run_bind ensure_header _ (under_way h [] []) () (under_way h [] [])) by done.
Qed.

Lemma flush_under_way h body flushes :
  body ≠ [] →
  flush_writer (under_way h body flushes) = Ok ((), ready h body (flushes ++ [length body])).
Proof.
  intros Hb. unfold flush_writer.
  rewrite (run_bind ensure_header _ _ () (under_way h body flushes)) by done.
  unfold ready. by rewrite decide_False.
Qed.

(** ** What the client of [/stream] reads *)

Section StreamSpec.
Context `{UnicodeTables}.

Definition stream_body (proto : string) (i : Z) (count : nat) : list byte :=
  concat (List.map (λ k, bytes (stream_line proto (i + Z.of_nat k))) (seq 0 count)).

Lemma stream_line_ne proto i : bytes (stream_line proto i) ≠ [].
Proof. done. Qed.

Lemma stream_body_S proto i count :
  stream_body proto i (S count) = bytes (stream_line proto i) ++ stream_body proto (i + 1) count.
Proof.
  unfold stream_body. cbn [seq List.map concat]. f_equal; [by rewrite Z.add_0_r|].
  rewrite <- seq_shift, List.map_map. f_equal. apply List.map_ext. intros k.
  do 2 f_equal. lia.
Qed.

Lemma run_stream_loop proto h i count body flushes :
  (∀ n, fits h n) → (body = [] → flushes = []) →
  ∃ fl, stream_loop proto i count (ready h body flushes)
        = Ok ((), ready h (body ++ stream_body proto i count) (flushes ++ fl)) ∧ length fl = count.
Proof.
  intros Hf. revert i body flushes. induction count as [|count IH]; intros i body flushes Hfl.
  - exists []. rewrite !app_nil_r. done.
  - cbn [stream_loop]. rewrite (run_bind _ _ _ _ _ (write_more h body flushes _
      (stream_line_ne proto i) Hfl (Hf _))).
    assert (body ++ bytes (stream_line proto i) ≠ []) as Hne.
    { intros [_ E]%app_nil. by apply stream_line_ne in E. }
    rewrite (run_bind _ _ _ _ _ (flush_under_way h _ flushes Hne)).
    destruct (IH (i + 1)%Z (body ++ bytes (stream_line proto i))
      (flushes ++ [length (body ++ bytes (stream_line proto i))])) as (fl & -> & Hlen); [done|].
    exists (length (body ++ bytes (stream_line proto i)) :: fl).
    rewrite stream_body_S, <- !app_assoc. split; [done|]. simpl. by rewrite Hlen.
Qed.

Definition stream_record (proto : string) (i : Z) : json :=
  JObj [("line", JInt i); ("protocol", JStr proto)].

Lemma stream_line_json proto i :
  quote proto = json_string proto →
  stream_line proto i = marshal (stream_record proto i) +:+ newline.
Proof.
  intros Hq. unfold stream_line, marshal, stream_record.
  cbn [print List.map wrap break deeper fmap option_fmap option_map fst snd colon].
  change (json_string "line") with (String dquote ("line" +:+ String dquote "")).
  change (json_string "protocol") with (String dquote ("protocol" +:+ String dquote "")).
  rewrite Hq. rewrite join_cons by done.
  change (join [?x] ?s) with x. repeat (rewrite ?sapp_assoc, ?sapp_cons_l, ?sapp_nil_l; try reflexivity).
Qed.

(** The names net/http gives the protocols. *)
Definition protocols : list string := ["HTTP/1.0"; "HTTP/1.1"; "HTTP/2.0"].

(** C30: [/stream/n] for n from 1 to 1000 is a 200 whose body is n lines, flushed
    one at a time: the i-th, from 0, is a JSON text with the number i and the
    protocol the request came over.  Any other integer is a 400. *)
Theorem stream_replies r n :
  r_path_value r "lines" = itoa n → in_int64 n → r_proto r ∈ protocols →
  (if decide (1 ≤ n ≤ 1000)%Z then
     let lines := List.map (λ k, stream_line (r_proto r) (Z.of_nat k)) (seq 0 (Z.to_nat n)) in
     (∃ w, stream r (new_writer false) = Ok ((), w) ∧ length (w_flushes w) = Z.to_nat n) ∧
     serve false (stream r) = Ok (Response 200 (header_set "Content-Type" "application/json" ∅)
       (concat (List.map (λ l, bytes l) lines)) []) ∧
     List.map parse_json lines
     = List.map (λ k, Some (stream_record (r_proto r) (Z.of_nat k))) (seq 0 (Z.to_nat n))
   else serve false (stream r) = Ok (Response 400 (error_header ∅)
     (error_body "lines must be between 1 and 1000") [])).
Proof.
  intros Hp Hi Hproto.
  assert (quote (r_proto r) = json_string (r_proto r) ∧ sanitize (r_proto r) = r_proto r) as [Hq Hsan].
  { unfold protocols in Hproto. rewrite !elem_of_cons in Hproto.
    destruct Hproto as [->|[->|[->|[]%elem_of_nil]]]; by vm_compute. }
  case_decide as Hn.
  2: { unfold stream. rewrite (path_int_itoa _ _ _ _ n), decide_False by done.
       by apply serve_httpError. }
  set (h := header_set "Content-Type" "application/json" ∅).
  assert (∀ k, fits h k) as Hf by done.
  destruct (run_stream_loop (r_proto r) h 0 (Z.to_nat n) [] [] Hf ltac:(done)) as (fl & Hloop & Hfl).
  assert (stream_body (r_proto r) 0 (Z.to_nat n) ≠ []) as Hne.
  { replace (Z.to_nat n) with (S (Z.to_nat n - 1)) by lia. rewrite stream_body_S.
    intros [E _]%app_nil. by apply stream_line_ne in E. }
  assert (stream r (new_writer false)
    = Ok ((), under_way h (stream_body (r_proto r) 0 (Z.to_nat n)) fl)) as Hrun.
  { unfold stream. rewrite (path_int_itoa _ _ _ _ n), decide_True by done.
    change (new_writer false) with (fresh_writer false ∅).
    rewrite (run_bind _ _ _ _ _ (run_setHeader _ _ _ _)). fold h.
    change (fresh_writer false h) with (ready h [] []). rewrite Hloop. unfold ready.
    by rewrite decide_False. }
  split_and!.
  - eexists. split; [exact Hrun|]. by rewrite <- Hfl.
  - rewrite (serve_done _ _ _ 200 h Hrun) by done. cbn [under_way w_body w_informational].
    do 2 f_equal. unfold stream_body. by rewrite List.map_map.
  - rewrite List.map_map. apply List.map_ext. intros k.
    rewrite stream_line_json by done. unfold marshal.
    change newline with (String (char_of 10) "").
    rewrite parse_print. cbn [stream_record utf8_json List.map fst snd].
    change (sanitize "line") with "line". change (sanitize "protocol") with "protocol".
    by rewrite Hsan.
Qed.
End StreamSpec.

Lemma stream_replies_witness :
  let r := Request "GET" "/stream/2" "" "/stream/2" "HTTP/1.1" "localhost" ∅ None "127.0.0.1:1"
    {["lines" := "2"]} (Body [] None) in
  List.map (λ l, parse_json l)
    [@stream_line ascii_tables "HTTP/1.1" 0; @stream_line ascii_tables "HTTP/1.1" 1]
  = [Some (stream_record "HTTP/1.1" 0); Some (stream_record "HTTP/1.1" 1)].
Proof.
  intros r. pose proof (@stream_replies ascii_tables r 2) as H.
  rewrite decide_True in H by lia.
  destruct H as (_ & _ & Hl).
  - reflexivity.
  - unfold in_int64. lia.
  - unfold r, protocols. cbn. rewrite !elem_of_cons. tauto.
  - exact Hl.
Defined.

(** ** What the client of [/drip] reads *)

Definition drip_header (total : Z) : header :=
  header_set "Content-Length" (itoa total)
    (header_set "Content-Type" "application/octet-stream" ∅).

Lemma run_drip_loop h interrupted pause total i count flushes :
  (∀ n, (n ≤ Z.of_nat total)%Z → fits h n) → (i + count = total)%nat → (i = 0 → flushes = []) →
  ∃ k fl, drip_loop interrupted pause i count (ready h (replicate i x2a) flushes)
      = Ok (replicate (k - i) pause, ready h (replicate (Nat.min total (S k)) x2a) fl) ∧
    (i ≤ k ≤ total)%nat ∧ (∀ j, (i ≤ j < k)%nat → interrupted j = false) ∧
    ((k < total)%nat → interrupted k = true).
Proof.
  intros Hf. revert i flushes. induction count as [|count IH]; intros i flushes Hsum Hfl.
  - exists i, flushes. replace (Nat.min total (S i)) with i by lia. rewrite Nat.sub_diag.
    split; [done|]. split; [lia|]. split; [intros; lia | intros; lia].
  - cbn [drip_loop].
    rewrite (run_bind _ _ _ _ _ (write_more h (replicate i x2a) flushes [x2a] ltac:(done)
      ltac:(intros E; apply Hfl; by destruct i)
      ltac:(apply Hf; rewrite len_cons, len_nil; unfold len; rewrite length_replicate; lia))).
    cbn [negb].
    assert (replicate i x2a ++ [x2a] = replicate (S i) x2a) as -> by by rewrite replicate_S_end.
    rewrite (run_bind _ _ _ _ _ (flush_under_way h (replicate (S i) x2a) flushes ltac:(done))).
    destruct (interrupted i) eqn:Hi.
    + eexists i, _. replace (Nat.min total (S i)) with (S i) by lia. rewrite Nat.sub_diag. split; [done|].
      split; [lia|]. split; [intros; lia|done].
    + destruct (IH (S i) (flushes ++ [length (replicate (S i) x2a)]) ltac:(lia) ltac:(done))
        as (k & fl & Hrun & Hk & Hbefore & Hat).
      exists k, fl. rewrite (run_bind _ _ _ _ _ Hrun). replace (k - i) with (S (k - S i)) by lia.
      split; [done|]. split; [lia|]. split; [|done].
      intros j Hj. destruct (decide (j = i)) as [->|]; [done|]. apply Hbefore. lia.
Qed.

Lemma Z_quot_mul_le a b : (0 ≤ a)%Z → (0 < b)%Z → (Z.quot a b * b ≤ a)%Z.
Proof. intros Ha Hb. rewrite Z.quot_div_nonneg by lia. rewrite Z.mul_comm. by apply Z.mul_div_le. Qed.

(** The number a query asks for, or else the default. *)
Definition number_asked (value : string) (low high fallback : Z) : Z :=
  match atoi value with
  | Some n => if decide (low ≤ n ≤ high)%Z then n else fallback
  | None => fallback
  end.

Lemma queryInt_asked query name fallback low high :
  queryInt query name fallback low high = number_asked (values_get query name) low high fallback.
Proof.
  unfold queryInt, number_asked, values_get. destruct (default [] (query !! name)) as [|v vs]; [done|].
  change (default "" (head (v :: vs))) with v. destruct (atoi v); [|done]. do 2 case_decide; lia.
Qed.

Section DripSpec.
Context (odd : float64 → Z).

(** The duration a query asks for, in seconds, or else the default. *)
Definition duration_asked (value : string) (fallback d : Z) : Prop :=
  match parseFloat value with
  | None => d = fallback
  | Some f =>
      if bad_seconds f then d = fallback
      else (f ≠ S754_nan → (0 ≤ d ≤ 60 * second)%Z) ∧
        ∀ n, (0 ≤ n ≤ 60)%Z → value = itoa n → d = (n * second)%Z
  end.

Lemma queryDuration_asked query name fallback :
  duration_asked (values_get query name) fallback (queryDuration odd query name fallback).
Proof.
  unfold queryDuration, duration_asked, values_get.
  destruct (default [] (query !! name)) as [|v vs]; [done|].
  change (default "" (head (v :: vs))) with v.
  destruct (parseFloat v) as [f|] eqn:Hp; [|done]. destruct (bad_seconds f) eqn:Hb; [done|]. split.
  - intros Hf. by apply (seconds_to_duration_bounds odd v).
  - intros n Hn ->. destruct (whole_seconds odd n Hn) as (f' & Hf & _ & _ & Hd).
    rewrite Hp in Hf. by injection Hf as ->.
Qed.

End DripSpec.


(** ** Encoded bodies *)

Section Compressed.
(** What a gzip or flate writer writes to the reply for one payload, piece by
    piece, up to its [Close]; [Err] is the error of [flate.NewWriter]. *)
Context (gzip : list byte → list (list byte)) (flate : list byte → outcome (list (list byte))).

Fixpoint write_all (pieces : list (list byte)) : M () :=
  match pieces with
  | [] => mret ()
  | piece :: pieces => write piece ;; write_all pieces
  end.

Definition compressed_json (encoding : string) (r : request) : json :=
  JObj [("encoding", JStr encoding); ("headers", json_header (r_header r));
        ("protocol", JStr (r_proto r))].

Definition compressed (encoding : string) (r : request) : M () :=
  let payload := bytes (marshal (compressed_json encoding r)) in
  setHeader "Content-Type" "application/json" ;;
  setHeader "Content-Encoding" encoding ;;
  if decide (encoding = "gzip") then write_all (gzip payload)
  else match flate payload with
       | Ok pieces => write_all pieces
       | Err e => httpError e 500
       | Panic => λ _, Panic
       end.

Definition encoding_header (encoding : string) : header :=
  header_set "Content-Encoding" encoding (header_set "Content-Type" "application/json" ∅).

(** A reply of status 200 with header [h] and [body] so far. *)
Definition replying (h : header) (body : list byte) (w : writer) : Prop :=
  w_head w = false ∧ w_header w = h ∧ w_informational w = [] ∧ w_body w = body ∧
  w_written w = len body ∧ (w_sent w = Some (200%Z, h) ∨ w_sent w = None ∧ body = []).

Lemma write_replying h body w data :
  (∀ n, fits h n) → replying h body w →
  ∃ w', write data w = Ok (true, w') ∧ replying h (body ++ data) w' ∧ w_sent w' = Some (200%Z, h).
Proof.
  intros Hf (Hhd & Hh & Hi & Hb & Hw & Hs).
  assert (∃ w1, ensure_header w = Ok ((), w1) ∧ replying h body w1 ∧ w_sent w1 = Some (200%Z, h))
    as (w1 & He & (Hhd1 & Hh1 & Hi1 & Hb1 & Hw1 & _) & Hs1).
  { unfold ensure_header. destruct Hs as [Hs|[Hs ->]]; rewrite Hs.
    - exists w. split; [done|]. split; [|done]. by split_and!; auto.
    - unfold writeHeader. rewrite Hs. eexists. split; [reflexivity|].
      cbn [w_head w_header w_informational w_body w_written w_sent]. rewrite Hh.
      split; [|done]. split_and!; auto. }
  unfold write. rewrite (run_bind _ _ _ _ _ He). unfold write_body. rewrite Hs1.
  case_decide as Hd.
  { subst data. exists w1. rewrite app_nil_r. split; [done|]. split; [|done].
    by split_and!; auto. }
  change (bodyAllowedForStatus 200) with true. cbn [negb andb].
  specialize (Hf (w_written w1 + len data)%Z). unfold fits in Hf.
  rewrite Hhd1, Hb1. eexists. split.
  - do 2 f_equal. destruct (declared_length h); [by rewrite bool_decide_true|done].
  - cbn [w_sent]. split; [|done]. unfold replying.
    cbn [w_head w_header w_informational w_body w_written w_sent].
    rewrite len_app, Hw1. destruct (declared_length h);
      [rewrite bool_decide_true by (by rewrite <- Hw1)|]; split_and!; auto.
Qed.

Lemma run_write_all h pieces body w :
  (∀ n, fits h n) → replying h body w →
  ∃ w', write_all pieces w = Ok ((), w') ∧ replying h (body ++ concat pieces) w'.
Proof.
  intros Hf. revert body w. induction pieces as [|p pieces IH]; intros body w Hr.
  { exists w. by rewrite app_nil_r. }
  cbn [write_all concat].
  destruct (write_replying h body w p Hf Hr) as (w1 & Hw & Hr1 & _).
  rewrite (run_bind _ _ _ _ _ Hw). destruct (IH _ _ Hr1) as (w2 & -> & Hr2).
  exists w2. by rewrite app_assoc.
Qed.

Lemma serve_replying m h body w :
  m (new_writer false) = Ok ((), w) → replying h body w →
  serve false m = Ok (Response 200 h body []).
Proof.
  intros Hm (Hhd & Hh & Hi & Hb & Hw & Hs). unfold serve. rewrite (run_bind _ _ _ _ _ Hm).
  unfold ensure_header. destruct Hs as [Hs|[Hs ->]]; rewrite Hs.
  - by rewrite Hs, Hb, Hi.
  - unfold writeHeader. rewrite Hs. cbn. by rewrite Hh, Hb, Hi.
Qed.

(** The decoder a client picks by the [Content-Encoding] of the reply. *)
Definition decode_reply (gunzip inflate : list byte → option (list byte)) (resp : response) :
    option (list byte) :=
  match header_values (resp_header resp) "Content-Encoding" with
  | ["gzip"] => gunzip (resp_body resp)
  | ["deflate"] => inflate (resp_body resp)
  | _ => None
  end.

(** C31: a client of [/gzip] or [/deflate] that decodes the body as the
    [Content-Encoding] of the reply tells it to (with gunzip, which undoes the gzip
    writer, for gzip, and with inflate, which undoes the flate writer, for deflate)
    reads a JSON text with the encoding, the headers it sent and the protocol; the
    encoding is the one of the path, whether or not it was asked for.  When the
    flate writer cannot be made, [/deflate] is a 500. *)
Theorem compressed_decodes r (gunzip inflate : list byte → option (list byte)) :
  (∀ payload, gunzip (concat (gzip payload)) = Some payload) →
  (∀ payload pieces, flate payload = Ok pieces → inflate (concat pieces) = Some payload) →
  let sent encoding := ∃ body v,
    let resp := Response 200 (encoding_header encoding) body [] in
    serve false (compressed encoding r) = Ok resp ∧
    header_values (resp_header resp) "Content-Encoding" = [encoding] ∧
    (payload ← decode_reply gunzip inflate resp; parse_json (str payload)) = Some v ∧
    member "encoding" v = Some (JStr encoding) ∧
    member "headers" v = Some (utf8_json (json_header (r_header r))) ∧
    member "protocol" v = Some (JStr (sanitize (r_proto r))) in
  sent "gzip" ∧
  match flate (bytes (marshal (compressed_json "deflate" r))) with
  | Ok _ => sent "deflate"
  | Err e => serve false (compressed "deflate" r)
      = Ok (Response 500 (error_header (encoding_header "deflate")) (error_body e) [])
  | Panic => True
  end.
Proof.
  intros Hgz Hfl sent.
  assert (∀ encoding ps, encoding ∈ ["gzip"; "deflate"] →
    compressed encoding r = (setHeader "Content-Type" "application/json" ;;
      setHeader "Content-Encoding" encoding ;; write_all ps) →
    decode_reply gunzip inflate (Response 200 (encoding_header encoding) (concat ps) [])
      = Some (bytes (marshal (compressed_json encoding r))) → sent encoding) as Hsent.
  { intros encoding ps Henc Hc Hdec. unfold sent. rewrite Hc. set (h := encoding_header encoding).
    assert (∀ n, fits h n) as Hf.
    { rewrite !elem_of_cons in Henc. by destruct Henc as [->|[->|[]%elem_of_nil]]. }
    destruct (run_write_all h ps [] (fresh_writer false h) Hf) as (w & Hw & Hr); [by split_and!; auto|].
    exists (concat ps), (utf8_json (compressed_json encoding r)). cbv zeta. fold h in Hdec. rewrite Hdec. split.
    - eapply serve_replying; [|exact Hr].
      change (new_writer false) with (fresh_writer false ∅).
      rewrite (run_bind _ _ _ _ _ (run_setHeader _ _ _ _)).
      by rewrite (run_bind _ _ _ _ _ (run_setHeader _ _ _ _)).
    - split; [by cbn [resp_header]; unfold h, encoding_header, header_values, header_set; rewrite lookup_insert_eq|].
      cbn [mbind option_bind]. rewrite str_bytes, parse_marshal. split; [done|]. unfold compressed_json.
      rewrite !member_utf8 by (repeat constructor; by vm_compute).
      rewrite !elem_of_cons in Henc. by destruct Henc as [->|[->|[]%elem_of_nil]]. }
  split.
  - apply (Hsent "gzip" (gzip (bytes (marshal (compressed_json "gzip" r))))); [by left|done|]. apply Hgz.
  - destruct (flate _) as [pieces|e|] eqn:Hflate; [| |done].
    + apply (Hsent "deflate" pieces); [by right; left| |by apply Hfl].
      unfold compressed. by rewrite decide_False, Hflate by done.
    + destruct (run_httpError e 500 false (encoding_header "deflate")) as (w & Hw & Hs & Hi & Hb); [done..|].
      rewrite (serve_done false _ w 500 (error_header (encoding_header "deflate"))); [by rewrite Hb, Hi| |done].
      unfold compressed. rewrite decide_False, Hflate by done.
      change (new_writer false) with (fresh_writer false ∅).
      rewrite (run_bind _ _ _ _ _ (run_setHeader _ _ _ _)).
      by rewrite (run_bind _ _ _ _ _ (run_setHeader _ _ _ _)).
Qed.
End Compressed.

Definition tag_decoder (tag : byte) (body : list byte) : option (list byte) :=
  match body with
  | b :: payload => if decide (b = tag) then Some payload else None
  | [] => None
  end.

Lemma compressed_decodes_witness :
  ∃ body v,
    let resp := Response 200 (encoding_header "deflate") body [] in
    serve false (compressed (λ p, [[x1f]; p]) (λ p, Ok [x78 :: p]) "deflate" (example_get "/deflate")) = Ok resp ∧
    (payload ← decode_reply (tag_decoder x1f) (tag_decoder x78) resp; parse_json (str payload)) = Some v ∧
    member "encoding" v = Some (JStr "deflate").
Proof.
  destruct (compressed_decodes (λ p, [[x1f]; p]) (λ p, Ok [x78 :: p]) (example_get "/deflate")
    (tag_decoder x1f) (tag_decoder x78)) as [_ (body & v & Hs & _ & Hp & He & _)].
  - intros payload. cbn. by rewrite app_nil_r.
  - intros payload pieces [= <-]. cbn. by rewrite app_nil_r.
  - exists body, v. cbv zeta in *. split; [exact Hs|]. split; [exact Hp|exact He].
Defined.
