(* ===== verification/Auth.v ===== *)
(** * Authentication, caching, trailers

    test-server/handlers.go: [basicAuth], [cache], [cacheControl] and
    [trailers], each followed by what it answers. *)

From Stdlib Require Import Floats.SpecFloat.
From S2P Require Import Prelude GoStrings Strconv Unicode StrOrder Json Base64 GoFloat Http.
From S2P Require Import Query TlsNames HelloCache Handshake Server Handlers Endpoints.

(** ** [/basic-auth/{user}/{password}] *)

(** [s] after its first [n] characters. *)
Fixpoint sdrop (n : nat) (s : string) : string :=
  match n, s with S n, String _ s => sdrop n s | _, _ => s end.

(** [strings.Cut]. *)
Definition cut (s : string) (sep : ascii) : option (string * string) :=
  match splitN s sep 2 with [a; b] => Some (a, b) | _ => None end.

(** [parseBasicAuth] of net/http: the scheme in any case, then the credentials
    in base64. *)
Definition parseBasicAuth (auth : string) : option (string * string) :=
  if decide (String.length auth < 6)%nat then None
  else if decide (smap lower_char (String.substring 0 6 auth) = "basic ") then
    c ← stdDecode (sdrop 6 auth); cut (str c) ":"
  else None.

Definition BasicAuth (r : request) : option (string * string) :=
  let auth := header_get (r_header r) "Authorization" in
  if decide (auth = "") then None else parseBasicAuth auth.

Definition challenge : string :=
  "Basic realm=" +:+ String dquote ("okhttp-testbed" +:+ String dquote "").

Definition basicAuth (r : request) : M () :=
  let wantUser := r_path_value r "user" in
  let wantPassword := r_path_value r "password" in
  match BasicAuth r with
  | Some (user, password) =>
      if decide (user ≠ wantUser ∨ password ≠ wantPassword) then
        setHeader "WWW-Authenticate" challenge ;; writeHeader 401
      else writeJSON 200 (JObj [("authenticated", JBool true); ("user", JStr user)])
  | None => setHeader "WWW-Authenticate" challenge ;; writeHeader 401
  end.

(** What a client with a user and a password sends (RFC 7617), the scheme
    written in any case. *)
Definition credentials (scheme user password : string) : string :=
  scheme +:+ (" " +:+ stdEncode (bytes (user +:+ String ":" password))).

Lemma BasicAuth_credentials r scheme user password :
  smap lower_char scheme = "basic" → free_of ":" user →
  header_get (r_header r) "Authorization" = credentials scheme user password →
  BasicAuth r = Some (user, password).
Proof.
  intros Hs Hu Hh. unfold BasicAuth. rewrite Hh.
  destruct scheme as [|c0 [|c1 [|c2 [|c3 [|c4 [|c5 s]]]]]]; try done.
  unfold credentials, parseBasicAuth. rewrite !sapp_cons_l, !sapp_nil_l.
  set (rest := stdEncode _). rewrite decide_False by done.
  rewrite decide_False by (cbn; lia).
  assert (∀ t, String.substring 0 0 t = "") as Hsub by by intros [].
  rewrite decide_True.
  2: { cbn [String.substring]. rewrite Hsub.
       change (smap _ (String c0 _)) with
         (smap lower_char (String c0 (String c1 (String c2 (String c3 (String c4 ""))))) +:+ " ").
       by rewrite Hs. }
  cbn [sdrop]. unfold rest. rewrite stdDecode_encode. cbn [mbind option_bind]. rewrite str_bytes.
  unfold cut, splitN. cbn [pred]. by rewrite split_cuts_app, split_cuts_O.
Qed.

Lemma serve_challenge :
  serve false (setHeader "WWW-Authenticate" challenge ;; writeHeader 401)
  = Ok (Response 401 (header_set "WWW-Authenticate" challenge ∅) [] []).
Proof. done. Qed.

(** C26: [/basic-auth/{user}/{password}] lets in a client that sends the
    credentials in the path, whatever the case of the scheme and whatever bytes
    the two are made of (a user name has no colon, RFC 7617), and answers every
    other request, with other credentials or none, with 401 and the
    challenge. *)
Theorem basicAuth_replies r scheme user password :
  smap lower_char scheme = "basic" → free_of ":" user →
  (header_get (r_header r) "Authorization" = credentials scheme user password →
   serve false (basicAuth r) =
     (if decide (r_path_value r "user" = user ∧ r_path_value r "password" = password) then
        let payload := json_payload (JObj [("authenticated", JBool true); ("user", JStr user)]) in
        Ok (Response 200 (json_head payload ∅) payload [])
      else Ok (Response 401 (header_set "WWW-Authenticate" challenge ∅) [] []))) ∧
  (BasicAuth r = None →
   serve false (basicAuth r) = Ok (Response 401 (header_set "WWW-Authenticate" challenge ∅) [] [])).
Proof.
  intros Hs Hu. unfold basicAuth. split; [|by intros ->].
  intros Hh. rewrite (BasicAuth_credentials r scheme user password) by done.
  destruct (decide (r_path_value r "user" = user ∧ r_path_value r "password" = password))
    as [[Hu' Hp']|Hne].
  - rewrite decide_False by naive_solver. by apply serve_writeJSON.
  - rewrite decide_True; [done|].
    destruct (decide (user = r_path_value r "user")) as [E|E]; [right|by left].
    intros Hp. by apply Hne.
Qed.

Definition example_auth (authorization : string) : request :=
  Request "GET" "/basic-auth/joe/s3:cret" "" "/basic-auth/joe/s3:cret" "HTTP/1.1" "localhost"
    {["Authorization" := [authorization]]} None "127.0.0.1:1"
    {["user" := "joe"; "password" := "s3:cret"]} (Body [] None).

Lemma basicAuth_replies_witness :
  (∃ h b, serve false (basicAuth (example_auth (credentials "BASIC" "joe" "s3:cret")))
    = Ok (Response 200 h b [])) ∧
  serve false (basicAuth (example_auth (credentials "Basic" "joe" "s3")))
    = Ok (Response 401 (header_set "WWW-Authenticate" challenge ∅) [] []).
Proof.
  split.
  - destruct (basicAuth_replies (example_auth (credentials "BASIC" "joe" "s3:cret"))
      "BASIC" "joe" "s3:cret") as [H _]; [vm_compute; reflexivity | exact I |].
    rewrite H by (vm_compute; reflexivity). case_decide as Hd; [by eexists _, _|].
    exfalso. apply Hd. split; vm_compute; reflexivity.
  - destruct (basicAuth_replies (example_auth (credentials "Basic" "joe" "s3"))
      "Basic" "joe" "s3") as [H _]; [vm_compute; reflexivity | exact I |].
    rewrite H by (vm_compute; reflexivity). case_decide as Hd; [|reflexivity].
    destruct Hd as [_ Hd]. vm_compute in Hd. discriminate.
Defined.

(** ** [/cache] *)

Definition etag : string := String dquote ("okhttp-testbed" +:+ String dquote "").

Section Cache.
(** [http.ParseTime], in seconds since 1970. *)
Context (ParseTime : string → option Z).

(** 2026-01-01 00:00:00 UTC, and its [http.TimeFormat]. *)
Definition modified : Z := 1767225600.
Definition last_modified : string := "Thu, 01 Jan 2026 00:00:00 GMT".

Definition cache_json (r : request) : json :=
  JObj [("cached", JBool true); ("protocol", JStr (r_proto r))].

Definition cache (r : request) : M () :=
  setHeader "ETag" etag ;;
  setHeader "Last-Modified" last_modified ;;
  if decide (header_get (r_header r) "If-None-Match" = etag) then writeHeader 304
  else match ParseTime (header_get (r_header r) "If-Modified-Since") with
       | Some since =>
           if decide (modified ≤ since)%Z then writeHeader 304 else writeJSON 200 (cache_json r)
       | None => writeJSON 200 (cache_json r)
       end.

Definition validators : header :=
  header_set "Last-Modified" last_modified (header_set "ETag" etag ∅).

(** The request already has the current representation, as the handler sees it. *)
Definition fresh_enough (r : request) : bool :=
  bool_decide (header_get (r_header r) "If-None-Match" = etag) ||
  match ParseTime (header_get (r_header r) "If-Modified-Since") with
  | Some since => (modified <=? since)%Z
  | None => false
  end.

Lemma serve_cache r :
  serve false (cache r) = Ok
    (if fresh_enough r then Response 304 validators [] []
     else let payload := json_payload (cache_json r) in
          Response 200 (json_head payload validators) payload []).
Proof.
  assert (∀ m w c h, m (fresh_writer false validators) = Ok ((), w) → w_sent w = Some (c, h) →
    serve false (setHeader "ETag" etag ;; setHeader "Last-Modified" last_modified ;; m)
    = Ok (Response c h (w_body w) (w_informational w))) as Hserve.
  { intros m w c h Hm Hs. eapply serve_done; [|done].
    change (new_writer false) with (fresh_writer false ∅).
    rewrite (run_bind _ _ _ _ _ (run_setHeader _ _ _ _)).
    by rewrite (run_bind _ _ _ _ _ (run_setHeader _ _ _ _)). }
  pose proof (Hserve (writeHeader 304) (Writer false validators [] (Some (304%Z, validators)) [] 0 [])
    304%Z validators eq_refl eq_refl) as H304.
  destruct (run_writeJSON 200 (cache_json r) false validators) as (w & Hw & Hs & Hi & Hb); [done..|].
  pose proof (Hserve _ _ _ _ Hw Hs) as H200. rewrite Hi, Hb in H200.
  unfold cache, fresh_enough.
  destruct (decide (header_get (r_header r) "If-None-Match" = etag)) as [E|E].
  - rewrite bool_decide_true by done. exact H304.
  - rewrite bool_decide_false by done. cbn [orb].
    destruct (ParseTime _) as [since|]; [|exact H200].
    destruct (Z.leb_spec modified since).
    + rewrite decide_True by done. exact H304.
    + rewrite decide_False by lia. exact H200.
Qed.

(** C27: a client that revalidates [/cache] with the [ETag] or with the
    [Last-Modified] it was given gets a 304 with the validators and no body; a
    request without validators gets the representation, with both of them; and
    a request with an [If-None-Match] that does not match but an
    [If-Modified-Since] that is current is answered 304 as well, although RFC
    9110 has a server ignore the date then. *)
Theorem cache_revalidates r :
  ParseTime last_modified = Some modified → ParseTime "" = None →
  let inm := header_get (r_header r) "If-None-Match" in
  let ims := header_get (r_header r) "If-Modified-Since" in
  let payload := json_payload (cache_json r) in
  ((inm = etag ∨ ims = last_modified) →
   serve false (cache r) = Ok (Response 304 validators [] [])) ∧
  (inm ≠ etag → ims = "" →
   serve false (cache r) = Ok (Response 200 (json_head payload validators) payload [])) ∧
  header_get validators "ETag" = etag ∧ header_get validators "Last-Modified" = last_modified.
Proof.
  intros Hp He inm ims payload. rewrite serve_cache. split_and!; [| |done|done].
  - intros Hor. assert (fresh_enough r = true) as ->; [|done]. unfold fresh_enough.
    fold inm ims. destruct Hor as [->| ->]; [by rewrite bool_decide_true|].
    rewrite Hp. by rewrite Z.leb_refl, orb_true_r.
  - intros Hn Hi. assert (fresh_enough r = false) as ->; [|done]. unfold fresh_enough.
    fold inm ims. by rewrite bool_decide_false, Hi, He.
Qed.
End Cache.

Definition example_parse_time (s : string) : option Z :=
  if decide (s = last_modified) then Some modified else None.

Lemma cache_revalidates_witness :
  let r := Request "GET" "/cache" "" "/cache" "HTTP/1.1" "localhost"
    {["If-None-Match" := ["other"]; "If-Modified-Since" := [last_modified]]} None
    "127.0.0.1:1" ∅ (Body [] None) in
  serve false (cache example_parse_time r) = Ok (Response 304 validators [] []).
Proof.
  intros r. apply (cache_revalidates example_parse_time r).
  - reflexivity.
  - reflexivity.
  - right. vm_compute. reflexivity.
Defined.

(** ** [/cache/{seconds}] *)

Definition cacheControl (r : request) : M () :=
  match path_int r "seconds" 0 86400 with
  | None => httpError "seconds must be between 0 and 86400" 400
  | Some seconds =>
      setHeader "Cache-Control" ("public, max-age=" +:+ itoa seconds) ;;
      writeJSON 200 (JObj [("maxAge", JInt seconds); ("protocol", JStr (r_proto r))])
  end.

(** ** [/trailers] *)

Section Trailers.
(** [sha256.Sum256]. *)
Context (Sum256 : list byte → list byte).

(** [%x] of bytes. *)
Definition hex_byte (b : byte) : string :=
  String (digit_char (Z_of_byte b / 16)) (String (digit_char (Z_of_byte b mod 16)) "").
Definition hex_string (l : list byte) : string := foldr (λ b s, hex_byte b +:+ s) "" l.

Definition trailers_body : string := "trailers" +:+ newline.

Definition trailers (r : request) : M () :=
  setHeader "Content-Type" "text/plain; charset=utf-8" ;;
  setHeader "Trailer" "X-Testbed-Checksum, X-Testbed-Protocol" ;;
  io_WriteString trailers_body ;;
  flush_writer ;;
  setHeader "X-Testbed-Checksum" (hex_string (take 8 (Sum256 (bytes trailers_body)))) ;;
  setHeader "X-Testbed-Protocol" (r_proto r).

(** The trailers net/http sends once the handler has returned: of the header
    names the head announced, those that have a value by then. *)
Definition announced (h : header) : list string :=
  canonicalKey <$> List.map trimSpace (concat (List.map (split ",") (header_values h "Trailer"))).
Definition sent_trailers (w : writer) : list (string * list string) :=
  match w_sent w with
  | Some (_, h) => omap (λ k, (k,.) <$> w_header w !! k) (announced h)
  | None => []
  end.

(** A write of a body whose length was not declared. *)
Lemma run_write_undeclared h data :
  declared_length h = None → data ≠ [] →
  write data (fresh_writer false h)
  = Ok (true, Writer false h [] (Some (200%Z, h)) data (0 + len data) []).
Proof.
  intros Hd Hne. unfold write.
  rewrite (run_bind ensure_header _ (fresh_writer false h) ()
    (Writer false h [] (Some (200%Z, h)) [] 0 []) eq_refl).
  unfold write_body. cbn [w_sent w_written w_body]. by rewrite decide_False, Hd by done.
Qed.

(** C33: [/trailers] is a 200 that announces its two trailers in the head, has
    the fixed text as its body, and ends with exactly the two announced: the
    first 8 bytes of the SHA-256 of the body, in hexadecimal, and the protocol.
    Neither is in the head itself, which is sent with the body and before the
    values are known. *)
Theorem trailers_sent r :
  ∃ w h, trailers r (new_writer false) = Ok ((), w) ∧
    serve false (trailers r) = Ok (Response 200 h (bytes trailers_body) []) ∧
    header_values h "Trailer" = ["X-Testbed-Checksum, X-Testbed-Protocol"] ∧
    header_values h "X-Testbed-Checksum" = [] ∧
    header_values h "X-Testbed-Protocol" = [] ∧
    w_sent w = Some (200%Z, h) ∧ w_body w = bytes trailers_body ∧
    sent_trailers w =
      [("X-Testbed-Checksum", [hex_string (take 8 (Sum256 (w_body w)))]);
       ("X-Testbed-Protocol", [r_proto r])].
Proof.
  set (h := header_set "Trailer" "X-Testbed-Checksum, X-Testbed-Protocol"
    (header_set "Content-Type" "text/plain; charset=utf-8" ∅)).
  assert (∃ w, trailers r (new_writer false) = Ok ((), w) ∧ w_sent w = Some (200%Z, h) ∧
    w_body w = bytes trailers_body ∧ w_informational w = [] ∧
    w_header w = header_set "X-Testbed-Protocol" (r_proto r)
      (header_set "X-Testbed-Checksum" (hex_string (take 8 (Sum256 (bytes trailers_body)))) h))
    as (w & Hrun & Hs & Hb & Hi & Hh).
  { assert (declared_length h = None) as Hd by (vm_compute; reflexivity).
    unfold trailers. change (new_writer false) with (fresh_writer false ∅).
    rewrite (run_bind _ _ _ _ _ (run_setHeader _ _ _ _)).
    rewrite (run_bind _ _ _ _ _ (run_setHeader _ _ _ _)). fold h.
    rewrite (run_bind _ _ _ _ _ (run_write_undeclared h (bytes trailers_body) Hd ltac:(done))).
    by eexists. }
  exists w, h. split_and!; [done| |done..|].
  - by rewrite (serve_done _ _ _ _ _ Hrun Hs), Hb, Hi.
  - unfold sent_trailers. rewrite Hs, Hh, Hb.
    change (announced h) with ["X-Testbed-Checksum"; "X-Testbed-Protocol"].
    unfold header_set. change (canonicalKey "X-Testbed-Checksum") with "X-Testbed-Checksum".
    change (canonicalKey "X-Testbed-Protocol") with "X-Testbed-Protocol".
    cbn [omap list_omap]. by rewrite lookup_insert_ne, !lookup_insert_eq by done.
Qed.
End Trailers.
