(* ===== verification/Cookies.v ===== *)
(** * Cookies

    test-server/handlers.go: [cookies] and [setCookies], over net/http's
    [readCookies] and [Cookie.String] (cookie.go).  The specification is a
    client with the cookie jar of RFC 6265, sections 5.2 to 5.4, for cookies
    that differ in their names only. *)

From Stdlib Require Import Floats.SpecFloat.
From S2P Require Import Prelude GoStrings Strconv Unicode StrOrder Json Base64 GoFloat Http.
From S2P Require Import Query TlsNames HelloCache Handshake Server Handlers Endpoints Auth.

(** ** Trimming *)

(** [textproto.TrimString]: ASCII white space at both ends. *)
Definition ascii_space (a : ascii) : bool :=
  bool_decide (char_code a = 32 ∨ char_code a = 9 ∨ char_code a = 10 ∨ char_code a = 13)%Z.

Fixpoint ltrim (s : string) : string :=
  match s with
  | String a s' => if ascii_space a then ltrim s' else s
  | EmptyString => EmptyString
  end.
Fixpoint rtrim (s : string) : string :=
  match s with
  | EmptyString => EmptyString
  | String a s' =>
      match rtrim s' with
      | EmptyString => if ascii_space a then EmptyString else String a EmptyString
      | t => String a t
      end
  end.
Definition trimString (s : string) : string := rtrim (ltrim s).

(** ** Cookie values *)

(** [isToken], [validCookieValueByte]. *)
Definition isToken (s : string) : bool := negb (bool_decide (s = "")) && sforall token_char s.
Definition validCookieValueByte (a : ascii) : bool :=
  let c := char_code a in
  ((32 <=? c) && (c <? 127))%Z && negb (bool_decide (c ∈ [34; 59; 92]%Z)).

Fixpoint sfilter (p : ascii → bool) (s : string) : string :=
  match s with
  | EmptyString => EmptyString
  | String a s' => if p a then String a (sfilter p s') else sfilter p s'
  end.

(** [sanitizeCookieValue], for a cookie that was not quoted when read. *)
Definition sanitizeCookieValue (v : string) : string :=
  let v := sfilter validCookieValueByte v in
  if negb (sforall (λ a, negb (bool_decide (char_code a = 32 ∨ char_code a = 44)%Z)) v)
  then String dquote (v +:+ String dquote "") else v.

(** [Cookie.String] for a name, a value and the path /. *)
Definition cookie_String (name value : string) : string :=
  if isToken name then name +:+ ("=" +:+ (sanitizeCookieValue value +:+ "; Path=/")) else "".

(** [SetCookie]. *)
Definition SetCookie (name value : string) : M () :=
  let v := cookie_String name value in
  if decide (v = "") then mret () else modify_header (header_add "Set-Cookie" v).

(** [parseCookieValue]: double quotes around the value are dropped. *)
Definition unquote (raw : string) : string :=
  match raw with
  | String a s =>
      if decide (a = dquote ∧ last_char s = Some dquote) then without_last s else raw
  | EmptyString => raw
  end.
Definition parseCookieValue (raw : string) : option string :=
  let raw := unquote raw in if sforall validCookieValueByte raw then Some raw else None.

(** [strings.Cut] at an equals sign. *)
Definition cut_equals (s : string) : string * string :=
  match splitN s "=" 2 with [a; b] => (a, b) | _ => (s, "") end.

(** One part of a Cookie line. *)
Definition cookie_part (part : string) : option (string * string) :=
  let part := trimString part in
  if decide (part = "") then None
  else
    let '(name, val) := cut_equals part in
    let name := trimString name in
    if isToken name then val ← parseCookieValue val; Some (name, val) else None.

(** [readCookies]; recent releases give none at all above a limit on their
    number ([GODEBUG=httpcookiemaxnum]), which is left to [within_limit]. *)
Definition readCookies (within_limit : list string → bool) (h : header) : list (string * string) :=
  let lines := header_values h "Cookie" in
  if within_limit lines
  then concat (List.map (λ line, omap cookie_part (split ";" (trimString line))) lines)
  else [].

(** ** The handlers *)

Section Handlers.
Context (within_limit : list string → bool).

Definition cookie_map (l : list (string * string)) : gmap string string :=
  foldl (λ m p, <[p.1 := p.2]> m) ∅ l.

Definition cookies_json (r : request) : json :=
  JObj [("cookies", json_map JStr (cookie_map (readCookies within_limit (r_header r))))].
Definition cookies (r : request) : M () := writeJSON 200 (cookies_json r).
End Handlers.

(** The loop over the query runs in the order [pairs], which Go leaves open. *)
Fixpoint set_all (name : string) (values : list string) : M () :=
  match values with
  | [] => mret ()
  | value :: values => SetCookie name value ;; set_all name values
  end.
Fixpoint set_pairs (pairs : list (string * list string)) : M () :=
  match pairs with
  | [] => mret ()
  | (name, values) :: pairs => set_all name values ;; set_pairs pairs
  end.

Definition setCookies (pairs : list (string * list string)) : M () :=
  set_pairs pairs ;; setHeader "Location" "/cookies" ;; writeHeader 302.

(** ** A client's cookie jar *)

(** RFC 6265 §5.2: the name and the value are before the first semicolon, and
    trimmed; attributes other than the path do not occur here. *)
Definition parse_set_cookie (line : string) : option (string * string) :=
  match splitN line ";" 2 with
  | first :: _ =>
      match splitN first "=" 2 with
      | [name; value] =>
          let name := trimString name in
          if decide (name = "") then None else Some (name, trimString value)
      | _ => None
      end
  | [] => None
  end.

(** §5.3: a cookie replaces the one with its name. *)
Definition client_jar (lines : list string) : gmap string string :=
  cookie_map (omap parse_set_cookie lines).

(** §5.4: the Cookie header, in the order [l] of the jar. *)
Definition cookie_header (l : list (string * string)) : string :=
  join ((λ p, p.1 +:+ ("=" +:+ p.2)) <$> l) "; ".

(** ** Lemmas *)

Lemma rtrim_solid s : sforall (λ a, negb (ascii_space a)) s → rtrim s = s.
Proof.
  induction s as [|a s IH]; [done|]. cbn [sforall rtrim]. intros [Ha Hs]%andb_True.
  rewrite IH by done. destruct s; [|done]. by destruct (ascii_space a).
Qed.

Lemma rtrim_last s c : ascii_space c = false → rtrim (s +:+ String c "") = s +:+ String c "".
Proof.
  intros Hc. induction s as [|a s IH]; [rewrite sapp_nil_l; cbn; by rewrite Hc|].
  rewrite sapp_cons_l. cbn [rtrim]. rewrite IH. by destruct s.
Qed.

Lemma ltrim_cons a s : ascii_space a = false → ltrim (String a s) = String a s.
Proof. intros Ha. cbn. by rewrite Ha. Qed.

Lemma token_char_solid a : token_char a → ascii_space a = false.
Proof.
  intros Ht. unfold ascii_space. apply bool_decide_false. intros Hc. revert Ht.
  unfold token_char. destruct Hc as [->|[->|[->| ->]]]; vm_compute; done.
Qed.

Lemma isToken_cons s : isToken s → ∃ a s', s = String a s' ∧ ascii_space a = false.
Proof.
  unfold isToken. intros [Hne Ht]%andb_True. destruct s as [|a s]; [done|].
  cbn in Ht. apply andb_True in Ht as [Ha _]. eexists _, _. split; [done|]. by apply token_char_solid.
Qed.

Lemma sforall_free (p : ascii → bool) c s : p c = false → sforall p s → free_of c s.
Proof.
  intros Hc. induction s as [|a s IH]; [done|]. cbn. intros [Ha Hs]%andb_True.
  rewrite andb_True. split; [|by apply IH]. rewrite bool_decide_false; [done|]. intros ->. by rewrite Hc in Ha.
Qed.

Lemma isToken_free s c : isToken s → token_char c = false → free_of c s.
Proof. unfold isToken. intros [_ Ht]%andb_True Hc. by eapply sforall_free. Qed.

Lemma isToken_solid s : isToken s → sforall (λ a, negb (ascii_space a)) s.
Proof.
  unfold isToken. intros [_ Ht]%andb_True. revert Ht. apply sforall_impl.
  intros a Ha. by rewrite token_char_solid.
Qed.

Lemma isToken_trim s : isToken s → trimString s = s.
Proof.
  intros Ht. destruct (isToken_cons s Ht) as (a & s' & -> & Ha). unfold trimString.
  rewrite ltrim_cons by done. by apply rtrim_solid, isToken_solid.
Qed.

Lemma sfilter_all p s : sforall p s → sfilter p s = s.
Proof.
  induction s as [|a s IH]; [done|]. cbn. intros [Ha Hs]%andb_True.
  destruct (p a); [|done]. by rewrite IH.
Qed.

(** ** One cookie, there and back *)

(** A value that survives: the bytes a cookie value may have. *)
Definition cookie_value (v : string) : bool := sforall validCookieValueByte v.

Definition needs_quotes (v : string) : bool :=
  negb (sforall (λ a, negb (bool_decide (char_code a = 32 ∨ char_code a = 44)%Z)) v).

(** What is between the equals sign and the semicolon. *)
Definition encoded (v : string) : string :=
  if needs_quotes v then String dquote (v +:+ String dquote "") else v.

Lemma cookie_String_valid name v :
  isToken name → cookie_value v →
  cookie_String name v = name +:+ ("=" +:+ (encoded v +:+ "; Path=/")).
Proof.
  intros Hn Hv. unfold cookie_String. destruct (isToken name); [|done].
  unfold sanitizeCookieValue. by rewrite sfilter_all.
Qed.

Lemma value_free v c : cookie_value v → validCookieValueByte c = false → c ≠ dquote → free_of c (encoded v).
Proof.
  intros Hv Hc Hq. assert (free_of c v) as Hf by (by eapply sforall_free).
  unfold encoded. destruct (needs_quotes v); [|done]. cbn [free_of].
  rewrite bool_decide_false, free_of_app by done. cbn [free_of]. rewrite bool_decide_false by done.
  by rewrite andb_true_r.
Qed.

(** A value that is not quoted has no white space. *)
Lemma unquoted_solid v : cookie_value v → needs_quotes v = false → sforall (λ a, negb (ascii_space a)) v.
Proof.
  unfold cookie_value, needs_quotes. intros Hv Hq. apply negb_false_iff in Hq.
  revert Hv Hq. induction v as [|a v IH]; [done|]. cbn. rewrite andb_true_iff, !andb_True.
  intros [Ha Hv] [Hb Hq]. split; [|by apply IH].
  unfold ascii_space, validCookieValueByte in *. apply andb_True in Ha as [[Hlo _]%andb_True _].
  apply negb_true_iff, bool_decide_eq_false in Hb. rewrite bool_decide_false; [done|].
  apply Is_true_true, Z.leb_le in Hlo. lia.
Qed.

Lemma encoded_trim v : cookie_value v → trimString (encoded v) = encoded v.
Proof.
  intros Hv. unfold encoded. destruct (needs_quotes v) eqn:Hq.
  - unfold trimString. rewrite ltrim_cons by done.
    change (String dquote (v +:+ String dquote "")) with (String dquote v +:+ String dquote "").
    by apply rtrim_last.
  - pose proof (unquoted_solid v Hv Hq) as Hs. unfold trimString. rewrite <- (rtrim_solid v Hs) at 2.
    f_equal. destruct v as [|a v]; [done|]. apply ltrim_cons. cbn in Hs. apply andb_True in Hs as [Ha _].
    by destruct (ascii_space a).
Qed.

Lemma pair_trim name v :
  isToken name → cookie_value v → trimString (name +:+ ("=" +:+ encoded v)) = name +:+ ("=" +:+ encoded v).
Proof.
  intros Hn Hv. destruct (isToken_cons name Hn) as (a & s & E & Ha). unfold trimString.
  rewrite E at 1. rewrite sapp_cons_l, ltrim_cons, <- sapp_cons_l, <- E by done.
  unfold encoded. destruct (needs_quotes v) eqn:Hq.
  - replace (name +:+ ("=" +:+ String dquote (v +:+ String dquote "")))
      with ((name +:+ ("=" +:+ String dquote v)) +:+ String dquote "") by by rewrite !sapp_assoc.
    by apply rtrim_last.
  - apply rtrim_solid. rewrite !sforall_app, !andb_True. split_and!; [by apply isToken_solid|done|].
    by apply unquoted_solid.
Qed.

(** The client understands what the server set. *)
Lemma parse_set_cookie_String name v :
  isToken name → cookie_value v →
  parse_set_cookie (cookie_String name v) = Some (name, encoded v).
Proof.
  intros Hn Hv. rewrite cookie_String_valid by done. unfold parse_set_cookie, splitN. cbn [pred].
  assert (free_of ";" (name +:+ ("=" +:+ encoded v))) as Hf.
  { rewrite !free_of_app, !andb_True. split_and!; [by apply isToken_free | done | by apply value_free]. }
  replace (name +:+ ("=" +:+ (encoded v +:+ "; Path=/")))
    with ((name +:+ ("=" +:+ encoded v)) +:+ String ";" " Path=/") by by rewrite !sapp_assoc.
  rewrite split_cuts_app by done. rewrite sapp_cons_l, sapp_nil_l.
  rewrite split_cuts_app, split_cuts_O by by apply isToken_free.
  rewrite isToken_trim by done. rewrite decide_False by (by intros ->). by rewrite encoded_trim.
Qed.

(** The server understands what the client sends back. *)
Lemma parseCookieValue_encoded v : cookie_value v → parseCookieValue (encoded v) = Some v.
Proof.
  intros Hv. unfold parseCookieValue, encoded. destruct (needs_quotes v) eqn:Hq.
  - unfold unquote. rewrite last_char_app, decide_True, without_last_app by done.
    unfold cookie_value in Hv. by destruct (sforall validCookieValueByte v).
  - assert (unquote v = v) as ->.
    { destruct v as [|a v]; [done|]. unfold unquote. rewrite decide_False; [done|]. intros [-> _].
      unfold cookie_value in Hv. cbn in Hv. done. }
    unfold cookie_value in Hv. by destruct (sforall validCookieValueByte v).
Qed.

Lemma cookie_part_pair name v :
  isToken name → cookie_value v →
  cookie_part (name +:+ ("=" +:+ encoded v)) = Some (name, v) ∧
  cookie_part (String " " (name +:+ ("=" +:+ encoded v))) = Some (name, v).
Proof.
  intros Hn Hv. assert (∀ part, trimString part = name +:+ ("=" +:+ encoded v) →
    cookie_part part = Some (name, v)) as Hpart.
  { intros part Ht. unfold cookie_part. rewrite Ht.
    destruct (isToken_cons name Hn) as (a & s & E & _).
    rewrite decide_False by (rewrite E; done).
    unfold cut_equals, splitN. cbn [pred]. rewrite sapp_cons_l, sapp_nil_l.
    rewrite split_cuts_app, split_cuts_O by by apply isToken_free.
    rewrite isToken_trim by done. destruct (isToken name); [|done].
    by rewrite parseCookieValue_encoded. }
  split; apply Hpart; [by apply pair_trim|].
  rewrite <- (pair_trim name v) at 2 by done. done.
Qed.

(** ** A jar of cookies *)

Definition pair_text (p : string * string) : string := p.1 +:+ ("=" +:+ p.2).
Definition sealed (p : string * string) : string * string := (p.1, encoded p.2).
Definition sound_pair (p : string * string) : Prop := isToken p.1 ∧ cookie_value p.2.

(** What a query sets, cookie by cookie. *)
Definition flat (pairs : list (string * list string)) : list (string * string) :=
  concat ((λ p : string * list string, (p.1,.) <$> p.2) <$> pairs).

Abbreviation put := (λ (m : gmap string string) (p : string * string), <[p.1 := p.2]> m).

Lemma put_same m k vs :
  foldl put m ((k,.) <$> vs) = match last vs with Some v => <[k := v]> m | None => m end.
Proof.
  induction vs as [|v vs IH] using rev_ind; [done|].
  rewrite fmap_app, foldl_app, IH, last_snoc. cbn. destruct (last vs); [apply insert_insert_eq | done].
Qed.

(** The last value of each name stays. *)
Lemma put_flat pairs m :
  NoDup (pairs.*1) → foldl put m (flat pairs) = omap last (list_to_map pairs : gmap string (list string)) ∪ m.
Proof.
  revert m. induction pairs as [|[k vs] pairs IH]; intros m Hnd; cbn.
  { by rewrite omap_empty, map_empty_union. }
  apply NoDup_cons in Hnd as [Hk Hnd]. unfold flat in *. cbn. rewrite foldl_app, IH, put_same by done.
  apply map_eq. intros i. rewrite !lookup_union, !lookup_omap.
  destruct (decide (i = k)) as [->|Hi].
  - rewrite lookup_insert_eq. cbn.
    assert ((list_to_map pairs : gmap string (list string)) !! k = None) as -> by by apply not_elem_of_list_to_map_1.
    destruct (last vs); cbn; [rewrite lookup_insert_eq; by destruct (m !! k) | done].
  - rewrite lookup_insert_ne by done. destruct (last vs); [by rewrite lookup_insert_ne | done].
Qed.

Lemma put_once l m : NoDup (l.*1) → foldl put m l = list_to_map l ∪ m.
Proof.
  revert m. induction l as [|[k v] l IH]; intros m Hnd; cbn; [by rewrite map_empty_union|].
  apply NoDup_cons in Hnd as [Hk Hnd]. rewrite IH by done.
  rewrite <- insert_union_l, insert_union_r; [done|]. by apply not_elem_of_list_to_map_1.
Qed.

Lemma put_sealed l m : foldl put (encoded <$> m) (sealed <$> l) = encoded <$> foldl put m l.
Proof.
  revert m. induction l as [|[k v] l IH]; intros m; [done|]. cbn.
  rewrite <- IH. f_equal. by rewrite fmap_insert.
Qed.

(** The lines of Set-Cookie, and the jar they fill. *)
Definition set_lines (pairs : list (string * list string)) : list string :=
  (λ p, cookie_String p.1 p.2) <$> flat pairs.

Lemma client_jar_lines pairs :
  Forall sound_pair (flat pairs) → NoDup (pairs.*1) →
  client_jar (set_lines pairs) = encoded <$> omap last (list_to_map pairs : gmap string (list string)).
Proof.
  intros Hs Hnd. unfold client_jar, set_lines.
  assert (omap parse_set_cookie ((λ p, cookie_String p.1 p.2) <$> flat pairs) = sealed <$> flat pairs) as ->.
  { induction Hs as [|[n v] l [Hn Hv] Hs IH]; [done|]. cbn in *.
    rewrite parse_set_cookie_String by done. by rewrite IH. }
  unfold cookie_map. rewrite <- (fmap_empty encoded), put_sealed, put_flat by done.
  by rewrite map_union_empty.
Qed.

Lemma sealed_free p : sound_pair p → free_of ";" (pair_text (sealed p)).
Proof.
  intros [Hn Hv]. unfold pair_text. rewrite !free_of_app, !andb_True.
  split_and!; [by apply isToken_free | done | by apply value_free].
Qed.

Lemma cookie_header_cons p q l :
  cookie_header (p :: q :: l) = pair_text p +:+ String ";" (String " " (cookie_header (q :: l))).
Proof. done. Qed.

(** The parts of the header, each but the first after a space. *)
Lemma split_cookie_header s p l :
  free_of ";" s → Forall sound_pair (p :: l) →
  split ";" (s +:+ cookie_header (sealed <$> p :: l))
  = (s +:+ pair_text (sealed p)) :: ((λ p, String " " (pair_text (sealed p))) <$> l).
Proof.
  revert s p. induction l as [|q l IH]; intros s p Hf Hs; apply Forall_cons in Hs as [Hp Hs].
  - apply split_free. rewrite free_of_app, andb_True. split; [done|by apply sealed_free].
  - change (cookie_header (sealed <$> p :: q :: l)) with
      (pair_text (sealed p) +:+ String ";" (String " " (cookie_header (sealed <$> q :: l)))).
    rewrite <- sapp_assoc, split_app.
    2: { rewrite free_of_app, andb_True. split; [done|by apply sealed_free]. }
    change (String " " ?x) with (" " +:+ x) at 1. by rewrite IH.
Qed.

Lemma rtrim_app s t : t ≠ "" → rtrim t = t → rtrim (s +:+ t) = s +:+ t.
Proof.
  intros Hne Ht. induction s as [|a s IH]; [done|]. rewrite sapp_cons_l. cbn [rtrim]. rewrite IH.
  destruct s; [by destruct t|done].
Qed.

Lemma pair_text_ends p : sound_pair p → ∃ a s, pair_text (sealed p) = String a s ∧ ascii_space a = false.
Proof.
  intros [Hn Hv]. destruct (isToken_cons _ Hn) as (a & s & E & Ha). unfold pair_text. cbn.
  rewrite E, sapp_cons_l. eauto.
Qed.

Lemma trim_cookie_header p l :
  Forall sound_pair (p :: l) →
  trimString (cookie_header (sealed <$> p :: l)) = cookie_header (sealed <$> p :: l).
Proof.
  intros Hs. assert (∀ q l, Forall sound_pair (q :: l) → ∃ a s,
    cookie_header (sealed <$> q :: l) = String a s ∧ ascii_space a = false) as Hcons.
  { intros q l' [Hq _]%Forall_cons. destruct (pair_text_ends q Hq) as (a & s & E & Ha).
    destruct l' as [|q' l']; [exists a, s; done|]. do 2 eexists. split; [|exact Ha].
    cbn [fmap list_fmap]. rewrite cookie_header_cons, E, sapp_cons_l. done. }
  destruct (Hcons p l Hs) as (a & s & E & Ha). unfold trimString. rewrite E at 1.
  rewrite ltrim_cons, <- E by done. clear a s E Ha.
  revert p Hs. induction l as [|q l IH]; intros p Hs.
  - apply Forall_cons in Hs as [[Hn Hv] _]. pose proof (pair_trim p.1 p.2 Hn Hv) as Ht.
    unfold trimString in Ht. destruct (pair_text_ends p (conj Hn Hv)) as (a & s & E & Ha).
    unfold pair_text in E. cbn [sealed fst snd] in E. rewrite E, ltrim_cons in Ht by done.
    change (cookie_header _) with (p.1 +:+ ("=" +:+ encoded p.2)). by rewrite E.
  - cbn [fmap list_fmap]. rewrite cookie_header_cons. apply Forall_cons in Hs as [_ Hs].
    destruct (Hcons q l Hs) as (a & s & E & Ha). pose proof (IH q Hs) as IHq. cbn [fmap list_fmap] in IHq, E.
    change (String ";" (String " " ?x)) with ("; " +:+ x). rewrite <- sapp_assoc.
    apply rtrim_app; [by rewrite E | done].
Qed.

(** The server reads the jar back. *)
Lemma readCookies_header (within_limit : list string → bool) h l :
  Forall sound_pair l →
  header_values h "Cookie" = (match l with [] => [] | _ => [cookie_header (sealed <$> l)] end) →
  within_limit (header_values h "Cookie") = true →
  readCookies within_limit h = l.
Proof.
  intros Hs Hh Hw. unfold readCookies. rewrite Hw, Hh. destruct l as [|p l]; [done|].
  cbn [List.map concat]. rewrite app_nil_r, trim_cookie_header by done.
  rewrite <- (sapp_nil_l (cookie_header _)), split_cookie_header by done. rewrite sapp_nil_l.
  apply Forall_cons in Hs as [[Hn Hv] Hs]. cbn [omap list_omap].
  destruct (cookie_part_pair p.1 p.2 Hn Hv) as [E _]. unfold pair_text, sealed. cbn [fst snd].
  rewrite E, <- surjective_pairing. f_equal. clear E Hh Hw.
  induction Hs as [|q l [Hqn Hqv] Hs IH]; [done|]. cbn [fmap list_fmap omap list_omap].
  destruct (cookie_part_pair q.1 q.2 Hqn Hqv) as [_ Eq]. cbn [fst snd].
  by rewrite Eq, <- surjective_pairing, IH.
Qed.

(** ** The replies *)

Definition set_cookie_header (lines : list string) (h : header) : header :=
  foldl (λ h v, header_add "Set-Cookie" v h) h lines.

Lemma set_cookie_values lines h :
  header_values (set_cookie_header lines h) "Set-Cookie" = header_values h "Set-Cookie" ++ lines.
Proof.
  revert h. induction lines as [|v lines IH]; intros h; cbn; [by rewrite app_nil_r|].
  fold (set_cookie_header lines (header_add "Set-Cookie" v h)). rewrite IH.
  unfold header_add, header_values at 1. rewrite lookup_insert_eq. cbn. by rewrite <- app_assoc.
Qed.

Lemma run_set_all name values h :
  isToken name → Forall cookie_value values →
  set_all name values (fresh_writer false h)
  = Ok ((), fresh_writer false (set_cookie_header ((λ v, cookie_String name v) <$> values) h)).
Proof.
  intros Hn Hv. revert h. induction Hv as [|v values Hv Hvs IH]; intros h; [done|]. cbn [set_all].
  rewrite (run_bind _ _ _ () (fresh_writer false (header_add "Set-Cookie" (cookie_String name v) h))).
  { by rewrite IH. }
  unfold SetCookie. rewrite decide_False; [done|]. rewrite cookie_String_valid by done.
  destruct (isToken_cons name Hn) as (a & s & -> & _). done.
Qed.

Lemma flat_cons k vs pairs : flat ((k, vs) :: pairs) = ((k,.) <$> vs) ++ flat pairs.
Proof. done. Qed.

Lemma run_set_pairs pairs h :
  Forall (λ p, isToken p.1 ∧ Forall cookie_value p.2) pairs →
  set_pairs pairs (fresh_writer false h)
  = Ok ((), fresh_writer false (set_cookie_header (set_lines pairs) h)).
Proof.
  intros Hp. revert h. induction Hp as [|[k vs] pairs [Hk Hv] Hp IH]; intros h; [done|]. cbn [set_pairs].
  rewrite (run_bind _ _ _ _ _ (run_set_all k vs h Hk Hv)), IH. do 3 f_equal.
  unfold set_lines. rewrite flat_cons, fmap_app, <- list_fmap_compose. unfold set_cookie_header.
  by rewrite foldl_app.
Qed.

Lemma serve_setCookies pairs :
  Forall (λ p, isToken p.1 ∧ Forall cookie_value p.2) pairs →
  serve false (setCookies pairs)
  = Ok (Response 302 (header_set "Location" "/cookies" (set_cookie_header (set_lines pairs) ∅)) [] []).
Proof.
  intros Hp. set (h := header_set _ _ _).
  rewrite (serve_done false _ (Writer false h [] (Some (302%Z, h)) [] 0 []) 302 h); [done| |done].
  unfold setCookies. change (new_writer false) with (fresh_writer false ∅).
  rewrite (run_bind _ _ _ _ _ (run_set_pairs pairs ∅ Hp)).
  rewrite (run_bind _ _ _ _ _ (run_setHeader _ _ _ _)). by apply run_writeHeader.
Qed.

Lemma sound_flat pairs :
  Forall (λ p, isToken p.1 ∧ Forall cookie_value p.2) pairs → Forall sound_pair (flat pairs).
Proof.
  intros Hp. induction Hp as [|[k vs] pairs [Hk Hv] Hp IH]; [constructor|].
  rewrite flat_cons. apply Forall_app. split; [|done]. apply Forall_fmap.
  eapply Forall_impl; [exact Hv|]. intros v Hval. by split.
Qed.

(** Cookies in any order of the jar, read back. *)
Lemma jar_read_back (within_limit : list string → bool) (m : gmap string string) l h :
  l ≡ₚ map_to_list (encoded <$> m) → (∀ k v, m !! k = Some v → sound_pair (k, v)) →
  header_values h "Cookie" = (match l with [] => [] | _ => [cookie_header l] end) →
  within_limit (header_values h "Cookie") = true →
  cookie_map (readCookies within_limit h) = m.
Proof.
  intros Hl Hs Hh Hw. rewrite map_to_list_fmap in Hl.
  destruct (Permutation_map_inv (prod_map id encoded) (map_to_list m) Hl) as (l0 & -> & Hl0).
  change (map (prod_map id encoded) l0) with (prod_map id encoded <$> l0) in *.
  assert (prod_map id encoded <$> l0 = sealed <$> l0) as E by (by apply list_fmap_ext; intros ? [] ?).
  rewrite E in Hh.
  assert (Forall sound_pair l0) as Hs0.
  { apply Forall_forall. intros [k v] Hi. apply Hs. apply elem_of_map_to_list. by rewrite Hl0. }
  rewrite (readCookies_header within_limit h l0); [|done|rewrite Hh; by destruct l0|done].
  unfold cookie_map. rewrite put_once, map_union_empty.
  - rewrite <- (list_to_map_to_list m). apply list_to_map_proper; [|by rewrite Hl0].
    rewrite <- Hl0. apply NoDup_fst_map_to_list.
  - rewrite <- Hl0. apply NoDup_fst_map_to_list.
Qed.

(** C13: cookies make the round trip.  Let a query to /cookies/set have names that
    are tokens and values of cookie bytes (printable ASCII, spaces and commas
    among them, without double quotes, semicolons and backslashes).  The reply is
    a redirect to /cookies; and a client that keeps a jar as RFC 6265 has it, and
    sends its cookies back in whatever order, is told by /cookies exactly the
    names it asked for, each with the last value it gave, as long as they are no
    more cookies than net/http reads of a request ([within_limit]).  None of it
    depends on the order in which Go iterates over the query. *)
Theorem cookies_round_trip (within_limit : list string → bool) r pairs :
  pairs ≡ₚ map_to_list (r_query r) →
  (∀ name vs, r_query r !! name = Some vs → isToken name ∧ Forall cookie_value vs) →
  ∃ response, serve false (setCookies pairs) = Ok response ∧
    resp_status response = 302%Z ∧ header_get (resp_header response) "Location" = "/cookies" ∧
    ∀ r' l,
      l ≡ₚ map_to_list (client_jar (header_values (resp_header response) "Set-Cookie")) →
      header_values (r_header r') "Cookie" = (match l with [] => [] | _ => [cookie_header l] end) →
      within_limit (header_values (r_header r') "Cookie") = true →
      serve false (cookies within_limit r') =
        Ok (let payload := json_payload (JObj [("cookies", json_map JStr (omap last (r_query r)))]) in
            Response 200 (json_head payload ∅) payload []).
Proof.
  intros Hp Hq. set (q := r_query r) in *.
  assert (NoDup (pairs.*1)) as Hnd by (rewrite Hp; apply NoDup_fst_map_to_list).
  assert (list_to_map pairs = q) as Hmap.
  { rewrite <- (list_to_map_to_list q). by apply list_to_map_proper. }
  assert (Forall (λ p, isToken p.1 ∧ Forall cookie_value p.2) pairs) as Hs.
  { apply Forall_forall. intros [k vs] Hi. apply Hq. apply elem_of_map_to_list. by rewrite <- Hp. }
  eexists. split; [by apply serve_setCookies|]. cbn [resp_status resp_header].
  split; [done|]. split; [apply header_get_set_eq|]. intros r' l Hl Hh Hw.
  assert (header_values (header_set "Location" "/cookies" (set_cookie_header (set_lines pairs) ∅)) "Set-Cookie"
    = set_lines pairs) as Hlines.
  { transitivity (header_values (set_cookie_header (set_lines pairs) ∅) "Set-Cookie").
    - unfold header_values, header_set. rewrite lookup_insert_ne; [done|]. by vm_compute.
    - by rewrite set_cookie_values. }
  rewrite Hlines, client_jar_lines, Hmap in Hl by (done || by apply sound_flat).
  assert (cookie_map (readCookies within_limit (r_header r')) = omap last q) as Hread.
  { eapply jar_read_back; [exact Hl| |done|done]. intros k v Hkv.
    rewrite lookup_omap in Hkv. apply bind_Some in Hkv as (vs & Hvs & Hlast).
    destruct (Hq k vs Hvs) as [Hk Hv]. split; [done|]. cbn. rewrite Forall_forall in Hv. apply Hv.
    by apply last_Some_elem_of. }
  unfold cookies, cookies_json. rewrite Hread. by apply serve_writeJSON.
Qed.

Definition example_cookies (query : string) (h : header) : request :=
  Request "GET" "/cookies/set" query "/cookies/set" "HTTP/1.1" "localhost" h None "127.0.0.1:1" ∅
    (Body [] None).

Lemma cookies_round_trip_witness :
  let r := example_cookies "a=b&a=one%2C+two" ∅ in
  let sent := "a=" +:+ String dquote ("one, two" +:+ String dquote "") in
  ∃ payload, payload = json_payload (JObj [("cookies", JObj [("a", JStr "one, two")])]) ∧
    serve false (cookies (λ _, true) (example_cookies "" {["Cookie" := [sent]]}))
    = Ok (Response 200 (json_head payload ∅) payload []).
Proof.
  intros r sent. eexists. split; [reflexivity|].
  assert (map_to_list (r_query r) = [("a", ["b"; "one, two"])]) as Hq by (vm_compute; reflexivity).
  destruct (cookies_round_trip (λ _, true) r (map_to_list (r_query r))) as (response & Hr & _ & _ & Hback).
  - reflexivity.
  - intros name vs Hn. apply elem_of_map_to_list in Hn. rewrite Hq in Hn.
    apply list_elem_of_singleton in Hn. injection Hn as -> ->. split; [exact I|].
    repeat constructor.
  - rewrite Hq in Hr. vm_compute in Hr. injection Hr as <-.
    apply (Hback _ [("a", String dquote ("one, two" +:+ String dquote ""))]).
    + vm_compute. reflexivity.
    + vm_compute. reflexivity.
    + reflexivity.
Defined.
