(* ===== verification/Pages.v ===== *)
(** * The lists of endpoints

    test-server/handlers.go: [endpointIndex] and [index]; test-server/hostile.go:
    the handler of [GET /hostile]. *)

From Stdlib Require Import Floats.SpecFloat.
From S2P Require Import Prelude GoStrings Strconv Unicode StrOrder Json Base64 GoFloat Http HttpSpec Query Hostile.
From S2P Require Import TlsNames HelloCache Handshake Server Handlers Endpoints.

(** The verb [%-Ns]: padded on the right with spaces. *)
Definition pad_right (n : nat) (s : string) : string := s +:+ srepeat " " (n - String.length s).

Definition index_line (width : nat) (line : string * string) : string :=
  "  " +:+ (pad_right width line.1 +:+ (" " +:+ (line.2 +:+ newline))).

Definition endpointIndex : list (string * string) :=
  [("/health", "liveness");
   ("/info", "listeners, certificate mode, and the URL this request arrived as");
   ("/ca.pem", "the generated CA, when the server minted its own certificate");
   ("/client.pem", "a client certificate and key this CA signed, for the mtls listener");
   ("/tls", "the negotiated handshake and the ClientHello it was chosen from");
   ("/anything", "the whole request echoed back as JSON (any method)");
   ("/headers", "request headers, as net/http parsed them");
   ("/status/{code}", "that status code");
   ("/redirect/{n}", "n relative redirects, then /anything");
   ("/absolute-redirect/{n}", "the same with absolute Location headers");
   ("/redirect-to?url=&status=", "a redirect to a given URL");
   ("/delay/{seconds}", "a response after a delay");
   ("/bytes/{n}", "n random bytes with a Content-Length");
   ("/stream/{n}", "n JSON lines, chunked");
   ("/drip?duration=&bytes=&delay=", "a body dribbled out over time");
   ("/gzip, /deflate", "an encoded body");
   ("/trailers", "a chunked body with trailing headers");
   ("/basic-auth/{user}/{password}", "401 until those credentials arrive");
   ("/cookies, /cookies/set?a=b", "cookie round-trip");
   ("/cache", "conditional GET: ETag and Last-Modified, 304 on revalidation");
   ("/cache/{seconds}", "a cacheable response with max-age");
   ("/hostile/...", "responses that are wrong on purpose; GET /hostile for the list")].

Fixpoint write_lines (lines : list string) : M () :=
  match lines with
  | [] => mret ()
  | line :: lines => io_WriteString line ;; write_lines lines
  end.

Definition index_page (r : request) : M () :=
  setHeader "Content-Type" "text/plain; charset=utf-8" ;;
  io_WriteString ("okhttp-testbed test-server" +:+ (newline +:+ newline)) ;;
  io_WriteString ("Reached over " +:+ (r_proto r +:+ (" as " +:+ (baseURL r +:+ (newline +:+ newline))))) ;;
  write_lines (index_line 34 <$> endpointIndex).

Definition hostile_page : M () :=
  setHeader "Content-Type" "text/plain; charset=utf-8" ;;
  write_lines (index_line 38 <$> hostileIndex).
