(* ===== verification/Routes.v ===== *)
(** * The routing table of the test server

    test-server/handlers.go: [handler], which registers every endpoint with the
    ServeMux; the endpoints of [registerHostile] among them.  [ServeHTTP] is the
    whole way of a request: its path is cleaned and matched, the values of the
    wildcards are set, and the handler runs. *)

From Stdlib Require Import Floats.SpecFloat.
From S2P Require Import Prelude GoStrings Strconv Unicode StrOrder Json Base64 GoFloat Http HttpSpec Mux Query Hostile.
From S2P Require Import TlsNames HelloCache Handshake Server Handlers Endpoints Auth Cookies Pages.

(** What the handlers take from the outside: the standard library's tables and
    compressors, randomness, and when the client goes away. *)
Record runtime := Runtime {
  rt_tables : UnicodeTables;
  rt_CipherSuiteName : Z → string;
  rt_CurveID_names : list (Z * string);
  rt_SignatureScheme_names : list (Z * string);
  rt_StatusText : Z → string;
  rt_odd : float64 → Z;
  rt_delay_interrupted : Z → bool;
  rt_rand_Read : Z → outcome (list byte);
  rt_drip_first : bool;
  rt_drip_interrupted : nat → bool;
  rt_gzip : list byte → list (list byte);
  rt_flate : list byte → outcome (list (list byte));
  rt_Sum256 : list byte → list byte;
  rt_ParseTime : string → option Z;
  rt_within_limit : list string → bool;
  rt_order : values → list (string * list string);
}.

Section Routes.
Context {certificate pool : Type} (rt : runtime) (s : @server certificate pool).

(** A handler: what it does with a request, and with the connection if it asks
    for it. *)
Definition handler : Type := hijack → request → exchange.

Definition replying_with {A} (f : request → M A) : handler := λ _ r, Replied (f r ;; mret ()).
Definition hijacking (write : endpoint) : handler := hijacked write.

#[local] Existing Instance rt_tables.

(** [handler], in the order of registration. *)
Definition routes : list (string * handler) :=
  [("GET /health", replying_with (λ _, health));
   ("GET /info", replying_with
     (info (rt_CipherSuiteName rt) (rt_CurveID_names rt) (rt_SignatureScheme_names rt) s));
   ("GET /ca.pem", replying_with (λ _, caPEM_handler s));
   ("GET /client.pem", replying_with (λ _, clientPEM_handler s));
   ("/tls", replying_with
     (tlsInfo (rt_CipherSuiteName rt) (rt_CurveID_names rt) (rt_SignatureScheme_names rt) s));
   ("/anything", replying_with
     (anything (rt_CipherSuiteName rt) (rt_CurveID_names rt) (rt_SignatureScheme_names rt) s));
   ("/anything/{path...}", replying_with
     (anything (rt_CipherSuiteName rt) (rt_CurveID_names rt) (rt_SignatureScheme_names rt) s));
   ("GET /headers", replying_with headers);
   ("/status/{code}", replying_with (status (rt_StatusText rt)));
   ("GET /redirect/{count}", replying_with (redirect false));
   ("GET /absolute-redirect/{count}", replying_with (redirect true));
   ("GET /redirect-to", replying_with redirectTo);
   ("/delay/{seconds}", replying_with
     (delay (rt_odd rt) (rt_CipherSuiteName rt) (rt_CurveID_names rt) (rt_SignatureScheme_names rt)
        (rt_delay_interrupted rt) s));
   ("GET /bytes/{count}", replying_with (bytes_handler (rt_rand_Read rt)));
   ("GET /stream/{lines}", replying_with (@stream (rt_tables rt)));
   ("GET /drip", replying_with (drip (rt_odd rt) (rt_drip_first rt) (rt_drip_interrupted rt)));
   ("GET /gzip", replying_with (compressed (rt_gzip rt) (rt_flate rt) "gzip"));
   ("GET /deflate", replying_with (compressed (rt_gzip rt) (rt_flate rt) "deflate"));
   ("GET /trailers", replying_with (trailers (rt_Sum256 rt)));
   ("GET /basic-auth/{user}/{password}", replying_with basicAuth);
   ("GET /cookies", replying_with (cookies (rt_within_limit rt)));
   ("GET /cookies/set", replying_with (λ r, setCookies (rt_order rt (r_query r))));
   ("GET /cache", replying_with (cache (rt_ParseTime rt)));
   ("GET /cache/{seconds}", replying_with cacheControl)]
  ++ [("GET /hostile", replying_with (λ _, hostile_page))]
  ++ ((λ p, ("GET " +:+ p.1, hijacking p.2)) <$> registerHostile (rt_odd rt))
  ++ [("GET /{$}", replying_with index_page)].

(** Registering panics on a pattern that does not parse. *)
Definition mux : option (list (pattern * handler)) :=
  mapM (λ p, pattern ← parsePattern p.1; Some (pattern, p.2)) routes.

Definition with_path_values (l : list (string * string)) (r : request) : request :=
  Request (r_method r) (r_path r) (r_rawquery r) (r_request_uri r) (r_proto r) (r_host r)
    (r_header r) (r_tls r) (r_remote_addr r) (foldl (λ m p, <[p.1 := p.2]> m) ∅ l) (r_body r).

Inductive answer := Answered (e : exchange) | Redirected (location : string) | Panicked.

(** [ServeHTTP] for a request whose escaped path is [path]. *)
Definition ServeHTTP (h : hijack) (path : string) (r : request) : answer :=
  match mux with
  | None => Panicked
  | Some ps =>
      match findHandler ps (r_method r) path with
      | Found pa l => Answered (pa.2 h (with_path_values l r))
      | RedirectTo location => Redirected location
      | MethodNotAllowed allow =>
          Answered (Replied (setHeader "Allow" (join allow ", ") ;; httpError "Method Not Allowed" 405))
      | NotFound => Answered (Replied (httpError "404 page not found" 404))
      end
  end.

(** ** The table *)

(** The patterns, without what they lead to. *)
Definition patterns : list pattern :=
  [Pattern "GET" [Lit "health"]; Pattern "GET" [Lit "info"]; Pattern "GET" [Lit "ca.pem"];
   Pattern "GET" [Lit "client.pem"]; Pattern "" [Lit "tls"]; Pattern "" [Lit "anything"];
   Pattern "" [Lit "anything"; Multi "path"]; Pattern "GET" [Lit "headers"];
   Pattern "" [Lit "status"; Wild "code"]; Pattern "GET" [Lit "redirect"; Wild "count"];
   Pattern "GET" [Lit "absolute-redirect"; Wild "count"]; Pattern "GET" [Lit "redirect-to"];
   Pattern "" [Lit "delay"; Wild "seconds"]; Pattern "GET" [Lit "bytes"; Wild "count"];
   Pattern "GET" [Lit "stream"; Wild "lines"]; Pattern "GET" [Lit "drip"]; Pattern "GET" [Lit "gzip"];
   Pattern "GET" [Lit "deflate"]; Pattern "GET" [Lit "trailers"];
   Pattern "GET" [Lit "basic-auth"; Wild "user"; Wild "password"]; Pattern "GET" [Lit "cookies"];
   Pattern "GET" [Lit "cookies"; Lit "set"]; Pattern "GET" [Lit "cache"];
   Pattern "GET" [Lit "cache"; Wild "seconds"]; Pattern "GET" [Lit "hostile"]]
  ++ ((λ name, Pattern "GET" [Lit "hostile"; Lit name]) <$>
      ["no-response"; "reset"; "truncated-body"; "truncated-chunks"; "invalid-chunk-size";
       "invalid-status-line"; "duplicate-content-length"; "content-length-and-chunked";
       "slow-headers"; "huge-header"; "informational-storm"; "half-close"])
  ++ [Pattern "GET" [Lit "/"]].

Lemma mux_patterns : ∃ ps, mux = Some ps ∧ fst <$> ps = patterns ∧ snd <$> ps = snd <$> routes.
Proof. eexists. split; [reflexivity|]. split; reflexivity. Qed.

Lemma patterns_disjoint : no_overlap (p_segments <$> patterns) = true.
Proof. vm_compute. reflexivity. Qed.

Lemma patterns_trailing p :
  p ∈ patterns → (last (p_segments p) = Some (Lit "/") ∨ ∃ name, last (p_segments p) = Some (Multi name)) →
  p = Pattern "GET" [Lit "/"] ∨ p = Pattern "" [Lit "anything"; Multi "path"].
Proof.
  intros Hp Hl. assert (Forall (λ p, p = Pattern "GET" [Lit "/"] ∨ p = Pattern "" [Lit "anything"; Multi "path"]
    ∨ ∃ s, last (p_segments p) = Some s ∧ s ≠ Lit "/" ∧ ∀ name, s ≠ Multi name) patterns) as Hall.
  { repeat (apply Forall_cons; split; [by (left; reflexivity) || (right; left; reflexivity) ||
      (right; right; eexists; split; [reflexivity|split; [discriminate|by intros ?]])|]). constructor. }
  rewrite Forall_forall in Hall. destruct (Hall p Hp) as [?|[?|(x & Hx & Hne & Hm)]]; [by left|by right|].
  destruct Hl as [Hl|[name Hl]]; rewrite Hx in Hl; injection Hl as ->; [done|by destruct (Hm name)].
Qed.

Section Table.
Context (ps : list (pattern * handler)).
Hypothesis ps_patterns : fst <$> ps ≡ₚ patterns.

Lemma ps_disjoint : no_overlap ((λ pa, p_segments pa.1) <$> ps) = true.
Proof.
  change ((λ pa : pattern * handler, p_segments pa.1) <$> ps) with ((p_segments ∘ fst) <$> ps).
  rewrite list_fmap_compose. eapply no_overlap_perm; [|apply patterns_disjoint].
  by rewrite ps_patterns.
Qed.

Lemma elem_of_ps pa : pa ∈ ps → pa.1 ∈ patterns.
Proof. intros Hi. rewrite <- ps_patterns. by apply list_elem_of_fmap_2. Qed.

Lemma elem_of_patterns p : p ∈ patterns → ∃ h, (p, h) ∈ ps.
Proof. rewrite <- ps_patterns. intros ([p' h] & -> & Hi)%list_elem_of_fmap. eauto. Qed.

Lemma ps_method pa : pa ∈ ps → p_method pa.1 = "" ∨ p_method pa.1 = "GET".
Proof.
  intros Hi%elem_of_ps. assert (Forall (λ p, p_method p = "" ∨ p_method p = "GET") patterns) as Hall
    by (repeat (apply Forall_cons; split; [by (left; reflexivity) || (right; reflexivity)|]); constructor).
  rewrite Forall_forall in Hall. auto.
Qed.

(** A path with a trailing slash is the root, or under /anything. *)
Lemma trailing_anything pa raws vals :
  raws ≠ [] → pa ∈ ps → path_matches (p_segments pa.1) (raws ++ [""]) vals →
  pa.1 = Pattern "" [Lit "anything"; Multi "path"].
Proof.
  intros Hne Hi Hp. destruct (patterns_trailing pa.1) as [E|E]; [by apply elem_of_ps| |rewrite E in Hp|done].
  - by eapply matches_trailing.
  - inversion Hp as [|s0 raw rest segs v Hs Hp'| |]; subst. inversion Hp'; subst. by destruct raws as [|? []].
Qed.

Lemma no_slash_redirect method path :
  method ≠ "" → cleanPath path = path → slash_redirect ps method path = false.
Proof.
  intros Hm Hc. pose proof (clean_segments_ne path Hc) as Hne. unfold slash_redirect.
  destruct (exactMatch (find_match ps method (path +:+ "/")) _) eqn:Ex; [|by rewrite andb_false_r].
  destruct (find_match ps method (path +:+ "/")) as [[pa vals]|] eqn:Ef; [|done].
  apply find_match_sound in Ef as (Hi & _ & Hp). rewrite raw_segments_slash in Hp by done.
  pose proof (trailing_anything pa _ _ Hne Hi Hp) as E. destruct pa as [p h]. cbn in E. subst p.
  cbn [exactMatch] in Ex. rewrite raw_segments_slash in Ex by done. cbn [is_multi last p_segments negb] in Ex.
  destruct (negb (ends_slash _)); [done|]. apply bool_decide_eq_true in Ex. cbn in Ex.
  rewrite length_app in Ex. cbn in Ex. destruct (raw_segments path) as [|x [|]] eqn:Er; [done| |cbn in Ex; lia].
  cbn in Hp. inversion Hp as [|s0 raw rest segs v Hs Hp'| |]; subst.
  destruct (elem_of_patterns (Pattern "" [Lit "anything"])) as [h' Hi'].
  { apply (bool_decide_unpack _). vm_compute. exact I. }
  assert (find_match ps method path = Some ((Pattern "" [Lit "anything"], h'), [])) as ->; [|done].
  apply find_match_unique; [apply ps_disjoint | done | done | by left |].
  rewrite Er. constructor; [|constructor]. unfold segment_of in Hs |- *.
  rewrite decide_False in Hs by (by intros [_ ?]). rewrite decide_False; [done|]. intros [-> _]. done.
Qed.

(** Every method with a match, without and with a trailing slash, is GET. *)
Lemma methods_get path m : m ∈ methods_matching ps path → m = "GET".
Proof.
  intros (Hne & pa & vals & Hi & <- & _)%elem_of_methods_matching. by destruct (ps_method pa Hi).
Qed.

Lemma methods_trailing path : cleanPath path = path → methods_matching ps (path +:+ "/") = [].
Proof.
  intros Hc. pose proof (clean_segments_ne path Hc) as Hne.
  destruct (methods_matching ps (path +:+ "/")) as [|m l] eqn:E; [done|].
  assert (m ∈ methods_matching ps (path +:+ "/")) as Hm by (rewrite E; left).
  apply elem_of_methods_matching in Hm as (Hm & pa & vals & Hi & <- & Hp).
  rewrite raw_segments_slash in Hp by done. by rewrite (trailing_anything pa _ _ Hne Hi Hp) in Hm.
Qed.

Lemma all_get l : (∀ m, m ∈ l → m = "GET") → "GET" ∈ l → remove_dups l = ["GET"].
Proof.
  intros Hall Hin. assert (remove_dups l ≡ₚ ["GET"]) as Hp; [|by apply Permutation_singleton_r in Hp].
  apply NoDup_Permutation; [apply NoDup_remove_dups | apply NoDup_singleton |].
  intros m. rewrite elem_of_remove_dups, list_elem_of_singleton. split; [auto|by intros ->].
Qed.

(** What a table with these patterns does, in any order of registration. *)
Lemma table_routes method path :
  method ≠ "" → method ≠ "CONNECT" → cleanPath path = path →
  let matching pa vals := pa ∈ ps ∧ path_matches (p_segments pa.1) (raw_segments path) vals in
  (∀ pa vals, matching pa vals → method_ok pa.1 method →
     findHandler ps method path = Found pa (zip (wildcard_names (p_segments pa.1)) vals)) ∧
  ((∀ pa vals, ¬ matching pa vals) → findHandler ps method path = NotFound) ∧
  ((∃ pa vals, matching pa vals) → (∀ pa vals, matching pa vals → ¬ method_ok pa.1 method) →
     findHandler ps method path = MethodNotAllowed ["GET"; "HEAD"]).
Proof.
  intros Hm Hcon Hc matching. unfold findHandler. rewrite decide_False by done. rewrite Hc.
  rewrite no_slash_redirect by done. rewrite decide_False by (intros Hne; by apply Hne).
  split_and!.
  - intros pa vals [Hi Hp] Hok. by rewrite (find_match_unique ps _ _ pa vals ps_disjoint Hm Hi Hok Hp).
  - intros Hno. destruct (find_match ps method path) as [[pa vals]|] eqn:E.
    { apply find_match_sound in E as (Hi & _ & Hp). by destruct (Hno pa vals). }
    assert (methods_matching ps path = []) as Hnil.
    { destruct (methods_matching ps path) as [|m l] eqn:El; [done|].
      assert (m ∈ methods_matching ps path) as Hin by (rewrite El; left).
      apply elem_of_methods_matching in Hin as (_ & pa & vals & Hi & _ & Hp). by destruct (Hno pa vals). }
    unfold matchingMethods. rewrite Hnil, methods_trailing by done. by destruct (ends_slash path).
  - intros (pa & vals & Hi & Hp) Hno. destruct (find_match ps method path) as [[pb vb]|] eqn:E.
    { apply find_match_sound in E as (Hib & Hok & Hpb). by destruct (Hno pb vb). }
    assert ("GET" ∈ methods_matching ps path) as Hget.
    { apply elem_of_methods_matching. split; [done|]. exists pa, vals. split_and!; try done.
      destruct (ps_method pa Hi) as [Em|Em]; [|done]. destruct (Hno pa vals); [done|by left]. }
    unfold matchingMethods. rewrite methods_trailing by done.
    assert (remove_dups (methods_matching ps path ++ (if ends_slash path then [] else [])) = ["GET"]) as ->.
    { apply all_get; [|set_solver]. intros m. destruct (ends_slash path); rewrite app_nil_r; apply methods_get. }
    reflexivity.
Qed.

End Table.

(** Two tables with the same entries find the same. *)
Lemma table_order (ps ps' : list (pattern * handler)) method path :
  fst <$> ps ≡ₚ patterns → ps' ≡ₚ ps → method ≠ "" → method ≠ "CONNECT" → cleanPath path = path →
  findHandler ps' method path = findHandler ps method path.
Proof.
  intros Hps Hperm Hm Hcon Hc. assert (fst <$> ps' ≡ₚ patterns) as Hps' by by rewrite Hperm.
  destruct (table_routes ps Hps method path Hm Hcon Hc) as (F & N & A).
  destruct (table_routes ps' Hps' method path Hm Hcon Hc) as (F' & N' & A').
  assert (∀ pa : pattern * handler, pa ∈ ps' ↔ pa ∈ ps) as Hin by (intros pa; by rewrite Hperm).
  destruct (find_match ps method path) as [[pa vals]|] eqn:Ef.
  { apply find_match_sound in Ef as (Hi & Hok & Hp).
    rewrite (F pa vals), (F' pa vals); [done|split; [by apply Hin|done]|done|done|done]. }
  assert (∀ pa vals, pa ∈ ps → path_matches (p_segments pa.1) (raw_segments path) vals →
    ¬ method_ok pa.1 method) as Hnone.
  { intros pa vals Hi Hp Hok. destruct (find_match_complete ps method path pa vals) as [x Hx]; [done..|].
    by rewrite Hx in Ef. }
  destruct (methods_matching ps path) as [|m l] eqn:El.
  - assert (∀ pa vals, pa ∈ ps → ¬ path_matches (p_segments pa.1) (raw_segments path) vals) as Hno.
    { intros pa vals Hi Hp. destruct (decide (p_method pa.1 = "")) as [E|E].
      - apply (Hnone pa vals Hi Hp). by left.
      - assert (p_method pa.1 ∈ methods_matching ps path) as Hin'
          by (apply elem_of_methods_matching; split; [done|by exists pa, vals]).
        rewrite El in Hin'. by apply elem_of_nil in Hin'. }
    rewrite N, N'; [done|..]; intros pa vals [Hi Hp]; [apply Hin in Hi|]; by eapply Hno.
  - assert (m ∈ methods_matching ps path) as Hin' by (rewrite El; left).
    apply elem_of_methods_matching in Hin' as (_ & pa & vals & Hi & _ & Hp).
    rewrite A, A'; [done|..].
    + exists pa, vals. by split; [apply Hin|].
    + intros pb vb [Hib Hpb]. apply Hin in Hib. by eapply Hnone.
    + by exists pa, vals.
    + intros pb vb [Hib Hpb]. by eapply Hnone.
Qed.

(** C6: routing is what the patterns mean, and no two patterns compete.  The
    registration does not panic.  On a clean path, if a registered pattern matches
    the path and takes the method (GET takes HEAD as well), its handler is the one
    that runs, with the values of its wildcards set; if no pattern matches the
    path, the answer is 404; if patterns match the path and none takes the method,
    the answer is 405 with GET and HEAD allowed.  The order in which the patterns
    are registered is irrelevant. *)
Theorem handler_routes h r path :
  r_method r ≠ "" → r_method r ≠ "CONNECT" → cleanPath path = path →
  ∃ table, mux = Some table ∧ snd <$> table = snd <$> routes ∧
    let matching pa vals := pa ∈ table ∧ path_matches (p_segments pa.1) (raw_segments path) vals in
    (∀ pa vals, matching pa vals → method_ok pa.1 (r_method r) →
       ServeHTTP h path r
       = Answered (pa.2 h (with_path_values (zip (wildcard_names (p_segments pa.1)) vals) r))) ∧
    ((∀ pa vals, ¬ matching pa vals) →
       ServeHTTP h path r = Answered (Replied (httpError "404 page not found" 404))) ∧
    ((∃ pa vals, matching pa vals) → (∀ pa vals, matching pa vals → ¬ method_ok pa.1 (r_method r)) →
       ServeHTTP h path r = Answered (Replied
         (setHeader "Allow" "GET, HEAD" ;; httpError "Method Not Allowed" 405))) ∧
    (∀ ps, ps ≡ₚ table → findHandler ps (r_method r) path = findHandler table (r_method r) path).
Proof.
  intros Hm Hcon Hc. destruct mux_patterns as (table & Hmux & Hfst & Hsnd).
  assert (fst <$> table ≡ₚ patterns) as Hperm by by rewrite Hfst.
  destruct (table_routes table Hperm (r_method r) path Hm Hcon Hc) as (F & N & A).
  exists table. unfold ServeHTTP. rewrite Hmux. split_and!; [done|done|..].
  - intros pa vals Hmatch Hok. by rewrite (F pa vals Hmatch Hok).
  - intros Hno. by rewrite (N Hno).
  - intros Hex Hno. by rewrite (A Hex Hno).
  - intros ps Hps. by apply table_order.
Qed.
End Routes.

(** A runtime whose tables are empty. *)
Definition example_runtime : runtime := {|
  rt_tables := ascii_tables; rt_CipherSuiteName := λ _, "suite"; rt_CurveID_names := [];
  rt_SignatureScheme_names := []; rt_StatusText := λ _, "text"; rt_odd := λ _, 0%Z;
  rt_delay_interrupted := λ _, false; rt_rand_Read := λ n, Ok (replicate (Z.to_nat n) x00);
  rt_drip_first := false; rt_drip_interrupted := λ _, false; rt_gzip := λ l, [l];
  rt_flate := λ l, Ok [l]; rt_Sum256 := λ l, l; rt_ParseTime := λ _, None;
  rt_within_limit := λ _, true; rt_order := map_to_list;
|}.

Definition example_method (method : string) : request :=
  Request method "/bytes/16" "" "/bytes/16" "HTTP/1.1" "localhost:8080" ∅ None "127.0.0.1:4711" ∅
    (Body [] None).

Lemma handler_routes_witness :
  ∃ run, ServeHTTP example_runtime example_server NotHijacker "/bytes/16" (example_method "HEAD")
    = Answered (run NotHijacker (with_path_values [("count", "16")] (example_method "HEAD"))).
Proof.
  destruct (handler_routes example_runtime example_server NotHijacker (example_method "HEAD") "/bytes/16")
    as (table & Hmux & Hsnd & F & _); [discriminate | discriminate | vm_compute; reflexivity |].
  destruct (mux_patterns example_runtime example_server) as (ps & Hmux' & Hfst & _).
  rewrite Hmux in Hmux'. injection Hmux' as <-.
  assert (∃ run : handler, (Pattern "GET" [Lit "bytes"; Wild "count"], run) ∈ table) as [run Hrun].
  { apply elem_of_patterns; [by rewrite Hfst|]. apply (bool_decide_unpack _). vm_compute. exact I. }
  exists run. apply (F (Pattern "GET" [Lit "bytes"; Wild "count"], run) ["16"]); [|by right; right].
  split; [exact Hrun|].
  apply matches_lit; [reflexivity|]. apply (matches_wild "count" "16"); [discriminate|constructor].
Defined.
