(* ===== verification/Wire.v ===== *)
(** * Byte encoders of the ECH fixture, and the readers that undo them

    [appendUint16], [appendUint32], [appendUint16Length], [appendDnsName] of
    ech-fixture/main.go, over [list byte].  The readers are the specification
    side: big-endian and length-prefixed decoders written from RFC 1035, RFC
    8446 and RFC 9460, not from the encoders. *)

From S2P Require Import Prelude GoStrings.

(** ** The encoders *)

(** [binary.BigEndian.AppendUint16]; the argument is a [uint16]. *)
Definition appendUint16 (dst : list byte) (value : Z) : list byte :=
  dst ++ [byte_of_Z (Z.shiftr value 8); byte_of_Z value].

(** [binary.BigEndian.AppendUint32]. *)
Definition appendUint32 (dst : list byte) (value : Z) : list byte :=
  dst ++ [byte_of_Z (Z.shiftr value 24); byte_of_Z (Z.shiftr value 16);
          byte_of_Z (Z.shiftr value 8); byte_of_Z value].

Definition appendUint16Length (dst value : list byte) : list byte :=
  let dst := appendUint16 dst (uint16 (len value)) in
  dst ++ value.

(** One label of the loop of [appendDnsName]. *)
Definition appendDnsLabel (dst : list byte) (label : string) : list byte :=
  let dst := dst ++ [byte_of_Z (Z.of_nat (String.length label))] in
  dst ++ bytes label.

Definition appendDnsName (dst : list byte) (name : string) : list byte :=
  foldl appendDnsLabel dst (split "." name) ++ [x00].

(** [binary.BigEndian.PutUint16(b[i:i+2], v)] on a fresh buffer is the two bytes. *)
Definition putUint16 (value : Z) : list byte := appendUint16 [] value.

(** [binary.BigEndian.Uint16]: panics on fewer than two bytes. *)
Definition bigEndianUint16 (b : list byte) : outcome Z :=
  match b with
  | b0 :: b1 :: _ => Ok (Z.lor (Z_of_byte b1) (Z.shiftl (Z_of_byte b0) 8))
  | _ => Panic
  end.

(** ** The readers *)

Definition be16 (b0 b1 : byte) : Z := (256 * Z_of_byte b0 + Z_of_byte b1)%Z.

Definition read16 (l : list byte) : option (Z * list byte) :=
  match l with
  | b0 :: b1 :: r => Some (be16 b0 b1, r)
  | _ => None
  end.

Definition read32 (l : list byte) : option (Z * list byte) :=
  '(hi, l) ← read16 l; '(lo, l) ← read16 l; Some ((65536 * hi + lo)%Z, l).

Definition read8 (l : list byte) : option (Z * list byte) :=
  match l with b :: r => Some (Z_of_byte b, r) | [] => None end.

(** The first [n] bytes, when there are that many. *)
Definition readn (n : Z) (l : list byte) : option (list byte * list byte) :=
  if decide (n ≤ len l)%Z
  then Some (take (Z.to_nat n) l, drop (Z.to_nat n) l) else None.

(** A vector with a two-byte, or a one-byte, length in front. *)
Definition read_vec16 (l : list byte) : option (list byte * list byte) :=
  '(n, l) ← read16 l; readn n l.
Definition read_vec8 (l : list byte) : option (list byte * list byte) :=
  '(n, l) ← read8 l; readn n l.

(** An uncompressed DNS name: its labels, and what follows it. *)
Fixpoint read_labels (fuel : nat) (l : list byte) : option (list (list byte) * list byte) :=
  match fuel with
  | O => None
  | S fuel =>
      '(n, l) ← read8 l;
      if decide (n = 0)%Z then Some ([], l)
      else if decide (n ≤ 63)%Z then
        '(w, l) ← readn n l;
        '(ws, l) ← read_labels fuel l;
        Some (w :: ws, l)
      else None
  end.
Definition read_name (l : list byte) : option (list (list byte) * list byte) :=
  read_labels (length l) l.

(** ** Encoders append, and readers undo them *)

Lemma appendUint16_app dst v : appendUint16 dst v = dst ++ appendUint16 [] v.
Proof. done. Qed.
Lemma appendUint32_app dst v : appendUint32 dst v = dst ++ appendUint32 [] v.
Proof. done. Qed.
Lemma appendUint16Length_app dst v :
  appendUint16Length dst v = dst ++ appendUint16Length [] v.
Proof. unfold appendUint16Length. by rewrite appendUint16_app, <- app_assoc. Qed.

Lemma length_appendUint16 dst v : length (appendUint16 dst v) = (length dst + 2)%nat.
Proof. unfold appendUint16. by rewrite length_app. Qed.
Lemma len_appendUint16 dst v : len (appendUint16 dst v) = (len dst + 2)%Z.
Proof. unfold appendUint16. by rewrite len_app. Qed.
Lemma len_appendUint32 dst v : len (appendUint32 dst v) = (len dst + 4)%Z.
Proof. unfold appendUint32. by rewrite len_app. Qed.
Lemma len_appendUint16Length dst v :
  len (appendUint16Length dst v) = (len dst + 2 + len v)%Z.
Proof. unfold appendUint16Length. by rewrite len_app, len_appendUint16. Qed.
#[export] Hint Rewrite len_appendUint16 len_appendUint32 len_appendUint16Length : go_len.

Lemma read16_append v r :
  (0 ≤ v < 65536)%Z → read16 (appendUint16 [] v ++ r) = Some (v, r).
Proof.
  intros Hv. unfold appendUint16, read16, be16. simpl.
  rewrite !Z_of_byte_of_Z, Z.shiftr_div_pow2 by done. change (2 ^ 8)%Z with 256%Z.
  do 2 f_equal. pose proof (Z.div_mod v 256). rewrite (Z.mod_small (v / 256)); [lia|].
  split; [apply Z.div_pos; lia | apply Z.div_lt_upper_bound; lia].
Qed.

Lemma read32_append v r :
  (0 ≤ v < 4294967296)%Z → read32 (appendUint32 [] v ++ r) = Some (v, r).
Proof.
  intros Hv. unfold appendUint32, read32, read16, be16. simpl.
  rewrite !Z_of_byte_of_Z, !Z.shiftr_div_pow2 by done.
  change (2 ^ 8)%Z with 256%Z; change (2 ^ 16)%Z with 65536%Z;
  change (2 ^ 24)%Z with 16777216%Z.
  do 2 f_equal. Z.div_mod_to_equations. lia.
Qed.

Lemma readn_app v r : readn (len v) (v ++ r) = Some (v, r).
Proof.
  unfold readn. rewrite decide_True by (rewrite len_app; pose proof (len_nonneg r); lia).
  unfold len. by rewrite Nat2Z.id, take_app_length, drop_app_length.
Qed.

Lemma read_vec16_append v r :
  (len v < 65536)%Z → read_vec16 (appendUint16Length [] v ++ r) = Some (v, r).
Proof.
  intros Hv. unfold appendUint16Length, read_vec16.
  pose proof (len_nonneg v).
  rewrite <- app_assoc, uint16_small, read16_append by lia. simpl. apply readn_app.
Qed.

Lemma read_vec8_append v r n :
  n = byte_of_Z (len v) → (len v < 256)%Z → read_vec8 (n :: v ++ r) = Some (v, r).
Proof.
  intros -> Hv. pose proof (len_nonneg v). unfold read_vec8. simpl.
  rewrite Z_of_byte_of_Z, Z.mod_small by lia. apply readn_app.
Qed.

(** [bigEndianUint16] agrees with the reader: the [lor] is a sum. *)
Lemma bigEndianUint16_be16 b0 b1 r : bigEndianUint16 (b0 :: b1 :: r) = Ok (be16 b0 b1).
Proof.
  unfold bigEndianUint16, be16. f_equal.
  rewrite lor_shiftl_add by (done || apply Z_of_byte_range). lia.
Qed.

Lemma be16_range b0 b1 : (0 ≤ be16 b0 b1 < 65536)%Z.
Proof.
  unfold be16. pose proof (Z_of_byte_range b0). pose proof (Z_of_byte_range b1). lia.
Qed.

Lemma putUint16_be16 b0 b1 : putUint16 (be16 b0 b1) = [b0; b1].
Proof.
  unfold putUint16, appendUint16, be16. simpl.
  pose proof (Z_of_byte_range b0). pose proof (Z_of_byte_range b1).
  f_equal; [|f_equal]; apply (inj Z_of_byte); rewrite Z_of_byte_of_Z.
  - rewrite Z.shiftr_div_pow2 by done. change (2 ^ 8)%Z with 256%Z.
    Z.div_mod_to_equations. lia.
  - Z.div_mod_to_equations. lia.
Qed.

(** ** DNS names *)

(** A label a DNS name can carry: one to sixty-three bytes. *)
Definition dns_label (w : string) : Prop := (0 < String.length w ≤ 63)%nat.

Definition encode_label (w : string) : list byte :=
  byte_of_Z (Z.of_nat (String.length w)) :: bytes w.

Lemma foldl_appendDnsLabel dst ws :
  foldl appendDnsLabel dst ws = dst ++ concat (encode_label <$> ws).
Proof.
  revert dst. induction ws as [|w ws IH]; intros dst; simpl.
  - by rewrite app_nil_r.
  - rewrite IH. unfold appendDnsLabel. by rewrite <- !app_assoc.
Qed.

Lemma appendDnsName_app dst name : appendDnsName dst name = dst ++ appendDnsName [] name.
Proof. unfold appendDnsName. by rewrite !foldl_appendDnsLabel, <- !app_assoc. Qed.

Lemma read_labels_encode ws r fuel :
  Forall dns_label ws → (length ws < fuel)%nat →
  read_labels fuel (concat (encode_label <$> ws) ++ x00 :: r) = Some (bytes <$> ws, r).
Proof.
  intros Hws. revert fuel. induction Hws as [|w ws Hw Hws IH]; intros fuel Hf.
  - destruct fuel; [simpl in Hf; lia|]. done.
  - destruct fuel as [|fuel]; [simpl in Hf; lia|]. simpl in Hf.
    destruct Hw as [Hw1 Hw2]. simpl.
    rewrite Z_of_byte_of_Z, Z.mod_small by lia.
    rewrite decide_False, decide_True by lia.
    rewrite <- len_bytes, <- app_assoc, readn_app. simpl.
    by rewrite IH by lia.
Qed.

Lemma length_encode_labels ws : (length ws ≤ length (concat (encode_label <$> ws)))%nat.
Proof.
  induction ws as [|w ws IH]; [done|].
  rewrite fmap_cons. cbn [concat length]. rewrite length_app.
  unfold encode_label at 1. cbn [length]. lia.
Qed.

(** Decoding what [appendDnsName] wrote gives the labels back. *)
Lemma read_name_appendDnsName name r :
  Forall dns_label (split "." name) →
  read_name (appendDnsName [] name ++ r) = Some (bytes <$> split "." name, r).
Proof.
  intros Hws. unfold read_name, appendDnsName.
  rewrite foldl_appendDnsLabel, app_nil_l, <- app_assoc.
  apply read_labels_encode; [done|]. rewrite length_app. simpl.
  pose proof (length_encode_labels (split "." name)). lia.
Qed.
