(* ===== verification/Svcb.v ===== *)
(** * SVCB and HTTPS records of the ECH fixture

    [appendSvcParam], [httpsRecord] and [svcParamFixture] of
    ech-fixture/main.go.  The specification side is a reader of the RFC 9460
    RDATA format and the well-formedness rules of that RFC. *)

From S2P Require Import Prelude GoStrings Wire.

(** ** The encoders *)

Definition appendSvcParam (dst : list byte) (key : Z) (value : list byte) : list byte :=
  let dst := appendUint16 dst key in
  appendUint16Length dst value.

Definition httpsRecord (echConfigList : list byte) (targetPort : Z) : list byte :=
  let result := appendUint16 [] 1 in
  let result := result ++ [x00] in
  let result := appendSvcParam result 1
    (x02 :: bytes "h2" ++ x08 :: bytes "http/1.1") in
  let port := putUint16 (uint16 targetPort) in
  let result := appendSvcParam result 3 port in
  let result := appendSvcParam result 4 [x7f; x00; x00; x01] in
  let result := appendSvcParam result 5 echConfigList in
  result.

Definition svcParamFixture (name : string) (targetPort : Z) : option (list byte) :=
  let port := appendUint16 [] (uint16 targetPort) in
  if decide (name = "alias.svcb.test") then
    let result := appendUint16 [] 0 in
    Some (appendDnsName result "green.secret.test")
  else if decide (name = "nodefaultalpn.svcb.test") then
    let result := appendUint16 [] 1 in
    let result := result ++ [x00] in
    let result := appendSvcParam result 1 (x02 :: bytes "h2") in
    let result := appendSvcParam result 2 [] in
    let result := appendSvcParam result 3 port in
    Some result
  else if decide (name = "mandatory.svcb.test") then
    let result := appendUint16 [] 1 in
    let result := result ++ [x00] in
    let result := appendSvcParam result 0 (appendUint16 [] 1) in
    let result := appendSvcParam result 1 (x02 :: bytes "h2") in
    let result := appendSvcParam result 3 port in
    Some result
  else if decide (name = "h3only.svcb.test") then
    let result := appendUint16 [] 1 in
    let result := result ++ [x00] in
    let result := appendSvcParam result 1 (x02 :: bytes "h3") in
    let result := appendSvcParam result 3 port in
    Some result
  else if decide (name = "unknownparam.svcb.test") then
    let result := appendUint16 [] 1 in
    let result := result ++ [x00] in
    let result := appendSvcParam result 1 (x02 :: bytes "h2") in
    let result := appendSvcParam result 3 port in
    let result := appendSvcParam result 31337 (bytes "nothing here is defined") in
    Some result
  else None.

(** ** RFC 9460: the record a client reads *)

Record svcb := Svcb {
  svc_priority : Z;
  svc_target : list (list byte);
  svc_params : list (Z * list byte);
}.

#[export] Instance svcb_eq_dec : EqDecision svcb.
Proof. solve_decision. Defined.

Fixpoint parse_params (fuel : nat) (l : list byte) : option (list (Z * list byte)) :=
  match l, fuel with
  | [], _ => Some []
  | _, O => None
  | _, S fuel =>
      '(key, l) ← read16 l;
      '(value, l) ← read_vec16 l;
      ps ← parse_params fuel l;
      Some ((key, value) :: ps)
  end.

Definition parse_svcb (l : list byte) : option svcb :=
  '(priority, l) ← read16 l;
  '(target, l) ← read_name l;
  params ← parse_params (length l) l;
  Some (Svcb priority target params).

(** The values of the parameters the RFC gives a syntax. *)
Fixpoint parse_keys (l : list byte) : option (list Z) :=
  match l with
  | [] => Some []
  | b0 :: b1 :: l => ks ← parse_keys l; Some (be16 b0 b1 :: ks)
  | _ => None
  end.

Fixpoint parse_alpn (fuel : nat) (l : list byte) : option (list (list byte)) :=
  match l, fuel with
  | [], _ => Some []
  | _, O => None
  | _, S fuel =>
      '(id, l) ← read_vec8 l;
      ids ← parse_alpn fuel l;
      Some (id :: ids)
  end.

Fixpoint increasing (ks : list Z) : bool :=
  match ks with
  | k1 :: (k2 :: _) as ks' => (k1 <? k2)%Z && increasing ks'
  | _ => true
  end.

Definition param_wf (keys : list Z) (p : Z * list byte) : bool :=
  match p with
  | (0%Z, v) =>
      match parse_keys v with
      | Some (k :: ks) =>
          increasing (k :: ks) && negb (bool_decide (0%Z ∈ k :: ks))
          && forallb (λ k, bool_decide (k ∈ keys)) (k :: ks)
      | _ => false
      end
  | (1%Z, v) =>
      match parse_alpn (length v) v with
      | Some (id :: ids) => forallb (λ id, negb (bool_decide (id = []))) (id :: ids)
      | _ => false
      end
  | (2%Z, v) => bool_decide (v = []) && bool_decide (1%Z ∈ keys)
  | (3%Z, v) => bool_decide (len v = 2)%Z
  | (4%Z, v) => (0 <? len v)%Z && (len v mod 4 =? 0)%Z
  | _ => true
  end.

(** RFC 9460 §2.2 and §8: in ServiceMode the keys are strictly increasing and
    each value has the syntax of its key; a record in AliasMode carries none. *)
Definition svcb_wf (r : svcb) : bool :=
  if decide (svc_priority r = 0)%Z then bool_decide (svc_params r = [])
  else increasing (fst <$> svc_params r)
       && forallb (param_wf (fst <$> svc_params r)) (svc_params r).

(** The protocols the record offers: the [alpn] list, and the default
    [http/1.1] unless the record has [no-default-alpn] (§7.1.2). *)
Fixpoint lookup_key (ps : list (Z * list byte)) (key : Z) : option (list byte) :=
  match ps with
  | [] => None
  | p :: ps => if decide (p.1 = key) then Some p.2 else lookup_key ps key
  end.
Definition lookup_param (r : svcb) (key : Z) : option (list byte) :=
  lookup_key (svc_params r) key.

Definition alpn_set (r : svcb) : list (list byte) :=
  let ids := match lookup_param r 1 with
             | Some v => default [] (parse_alpn (length v) v)
             | None => []
             end in
  if lookup_param r 2 is Some _ then ids else ids ++ [bytes "http/1.1"].

(** ** The reader undoes the encoders *)

Definition encode_param (p : Z * list byte) : list byte :=
  appendUint16Length (appendUint16 [] p.1) p.2.

Definition encode_params (ps : list (Z * list byte)) : list byte :=
  concat (encode_param <$> ps).

Definition param_ok (p : Z * list byte) : Prop :=
  (0 ≤ p.1 < 65536)%Z ∧ (len p.2 < 65536)%Z.

Lemma appendSvcParam_encode dst key value :
  appendSvcParam dst key value = dst ++ encode_param (key, value).
Proof.
  unfold appendSvcParam, encode_param. simpl.
  by rewrite (appendUint16Length_app (appendUint16 dst key)),
    (appendUint16Length_app (appendUint16 [] key)), (appendUint16_app dst), app_assoc.
Qed.

Lemma encode_param_length p : (4 ≤ length (encode_param p))%nat.
Proof.
  unfold encode_param, appendUint16Length. rewrite !length_app. simpl. lia.
Qed.

Lemma parse_params_step fuel l :
  l ≠ [] →
  parse_params (S fuel) l =
    ('(key, l) ← read16 l;
     '(value, l) ← read_vec16 l;
     ps ← parse_params fuel l;
     Some ((key, value) :: ps)).
Proof. by destruct l. Qed.

Lemma parse_params_encode ps fuel :
  Forall param_ok ps → (length (encode_params ps) ≤ fuel)%nat →
  parse_params fuel (encode_params ps) = Some ps.
Proof.
  intros Hps. revert fuel.
  induction Hps as [|[key value] ps [Hk Hv] Hps IH]; intros fuel Hf; [by destruct fuel|].
  unfold encode_params in *. rewrite fmap_cons in *. cbn [concat] in *.
  rewrite length_app in Hf. pose proof (encode_param_length (key, value)).
  destruct fuel as [|fuel]; [lia|].
  rewrite parse_params_step by (intros [? _]%app_nil; simplify_eq).
  unfold encode_param at 1. cbn [fst snd] in *.
  rewrite appendUint16Length_app, <- !app_assoc, read16_append by done.
  cbn [mbind option_bind]. rewrite read_vec16_append by done. cbn [mbind option_bind].
  rewrite IH by lia. done.
Qed.

Lemma parse_svcb_encode priority name ps :
  (0 ≤ priority < 65536)%Z → Forall dns_label (split "." name) → Forall param_ok ps →
  parse_svcb (appendDnsName (appendUint16 [] priority) name ++ encode_params ps)
  = Some (Svcb priority (bytes <$> split "." name) ps).
Proof.
  intros Hp Hn Hps. unfold parse_svcb.
  rewrite appendDnsName_app, <- app_assoc, read16_append by done. cbn [mbind option_bind].
  rewrite read_name_appendDnsName by done. cbn [mbind option_bind].
  by rewrite parse_params_encode.
Qed.

(** The root name, one zero byte, is how both record kinds name the owner. *)
Lemma parse_svcb_root priority ps :
  (0 ≤ priority < 65536)%Z → Forall param_ok ps →
  parse_svcb ((appendUint16 [] priority ++ [x00]) ++ encode_params ps)
  = Some (Svcb priority [] ps).
Proof.
  intros Hp Hps. unfold parse_svcb. rewrite <- app_assoc, read16_append by done.
  cbn [mbind option_bind].
  change (read_name ([x00] ++ encode_params ps)) with (Some (@nil (list byte), encode_params ps)).
  cbn [mbind option_bind]. by rewrite parse_params_encode.
Qed.

(** ** What the fixture publishes *)

Definition alpn_h2_http11 : list byte := x02 :: bytes "h2" ++ x08 :: bytes "http/1.1".
Definition port_value (targetPort : Z) : list byte := putUint16 (uint16 targetPort).

(** The records, as the RFC 9460 reader sees them. *)
Definition origin_record (ech : list byte) (targetPort : Z) : svcb :=
  Svcb 1 [] [(1%Z, alpn_h2_http11); (3%Z, port_value targetPort);
             (4%Z, [x7f; x00; x00; x01]); (5%Z, ech)].

Definition fixture_record (name : string) (targetPort : Z) : option svcb :=
  let port := (3%Z, port_value targetPort) in
  let h2 := (1%Z, x02 :: bytes "h2") in
  if decide (name = "alias.svcb.test") then
    Some (Svcb 0 [bytes "green"; bytes "secret"; bytes "test"] [])
  else if decide (name = "nodefaultalpn.svcb.test") then
    Some (Svcb 1 [] [h2; (2%Z, []); port])
  else if decide (name = "mandatory.svcb.test") then
    Some (Svcb 1 [] [(0%Z, [x00; x01]); h2; port])
  else if decide (name = "h3only.svcb.test") then
    Some (Svcb 1 [] [(1%Z, x02 :: bytes "h3"); port])
  else if decide (name = "unknownparam.svcb.test") then
    Some (Svcb 1 [] [h2; port; (31337%Z, bytes "nothing here is defined")])
  else None.

Lemma len_port_value targetPort : len (port_value targetPort) = 2%Z.
Proof. done. Qed.

Lemma httpsRecord_encode ech targetPort :
  httpsRecord ech targetPort
  = (appendUint16 [] 1 ++ [x00]) ++ encode_params (svc_params (origin_record ech targetPort)).
Proof.
  unfold httpsRecord. rewrite !appendSvcParam_encode. unfold encode_params, origin_record.
  cbn [svc_params fmap list_fmap concat]. by rewrite app_nil_r, <- !app_assoc.
Qed.

Lemma len_httpsRecord ech targetPort : len (httpsRecord ech targetPort) = (37 + len ech)%Z.
Proof.
  unfold httpsRecord, appendSvcParam. autorewrite with go_len.
  change (len (putUint16 (uint16 targetPort))) with 2%Z.
  change (len (bytes "h2")) with 2%Z. change (len (bytes "http/1.1")) with 8%Z.
  lia.
Qed.

Ltac param_ok_tac := repeat constructor; (done || (cbn [fst snd]; lia) || assumption).

Lemma parse_httpsRecord ech targetPort :
  (len ech < 65536)%Z →
  parse_svcb (httpsRecord ech targetPort) = Some (origin_record ech targetPort).
Proof.
  intros Hech. rewrite httpsRecord_encode. apply parse_svcb_root; [done|]. param_ok_tac.
Qed.

(** C17: a client that reads the record [httpsRecord] builds, by RFC 9460, finds
    a well-formed ServiceMode record of priority 1 for the owner name itself,
    offering h2 and http/1.1 and nothing else, on the target port, at 127.0.0.1,
    with exactly the ECH configuration list that went in.  The bound is the
    largest value a SvcParam can carry. *)
Theorem httpsRecord_parse ech targetPort :
  (len ech < 65536)%Z →
  ∃ r, parse_svcb (httpsRecord ech targetPort) = Some r ∧ svcb_wf r ∧
    svc_priority r = 1%Z ∧ svc_target r = [] ∧
    (∀ p, p ∈ alpn_set r ↔ p = bytes "h2" ∨ p = bytes "http/1.1") ∧
    lookup_param r 3 = Some (putUint16 (uint16 targetPort)) ∧
    lookup_param r 4 = Some [x7f; x00; x00; x01] ∧
    lookup_param r 5 = Some ech ∧ lookup_param r 0 = None.
Proof.
  intros Hech. eexists. split; [by apply parse_httpsRecord|]. split_and!; try done.
  intros p. change (alpn_set _) with [bytes "h2"; bytes "http/1.1"; bytes "http/1.1"].
  set_solver.
Qed.

Lemma httpsRecord_parse_witness :
  ∃ r, parse_svcb (httpsRecord [x00; x01; xff] 8443) = Some r ∧ svcb_wf r ∧
    svc_priority r = 1%Z ∧ svc_target r = [] ∧
    (∀ p, p ∈ alpn_set r ↔ p = bytes "h2" ∨ p = bytes "http/1.1") ∧
    lookup_param r 3 = Some [x20; xfb] ∧
    lookup_param r 4 = Some [x7f; x00; x00; x01] ∧
    lookup_param r 5 = Some [x00; x01; xff] ∧ lookup_param r 0 = None.
Proof. apply (httpsRecord_parse [x00; x01; xff] 8443). reflexivity. Defined.

(** Every fixture record is what the RFC 9460 reader makes of its bytes. *)
Lemma svcParamFixture_refines name targetPort :
  svcParamFixture name targetPort ≫= parse_svcb = fixture_record name targetPort
  ∧ (is_Some (svcParamFixture name targetPort) ↔ is_Some (fixture_record name targetPort)).
Proof.
  unfold svcParamFixture, fixture_record.
  repeat (case_decide; [split; [|split; eauto]; cbn [mbind option_bind];
    rewrite ?appendSvcParam_encode, <- ?app_assoc; try done |]).
  all: done.
Qed.

Definition fixture_names : list string :=
  ["alias.svcb.test"; "nodefaultalpn.svcb.test"; "mandatory.svcb.test"; "h3only.svcb.test";
   "unknownparam.svcb.test"].

Lemma svcParamFixture_names name targetPort :
  is_Some (svcParamFixture name targetPort) ↔ name ∈ fixture_names.
Proof.
  unfold svcParamFixture, fixture_names. rewrite !elem_of_cons, elem_of_nil.
  repeat (case_decide; [split; [intros _; tauto|by eexists]|]).
  split; [by intros [? ?]|tauto].
Qed.

(** C16: there is a fixture for five names and no other, and each is a well-formed
    RFC 9460 record (in particular its parameters are in increasing order and
    [mandatory] names a parameter that is there) that differs from an ordinary
    record exactly the way it is published for.  The alias is AliasMode for
    green.secret.test, without parameters.  The others are ServiceMode for the owner
    name itself on the target port; h3only.svcb.test offers h3, and the others h2;
    the default http/1.1 is offered by all but nodefaultalpn.svcb.test, which has
    no-default-alpn; mandatory.svcb.test, and it only, lists alpn as mandatory;
    unknownparam.svcb.test, and it only, has the undefined key 31337 with its text;
    and there is no parameter besides these. *)
Theorem svcParamFixture_wf name targetPort :
  (is_Some (svcParamFixture name targetPort) ↔ name ∈ fixture_names) ∧
  ∀ record, svcParamFixture name targetPort = Some record →
  ∃ r, parse_svcb record = Some r ∧ svcb_wf r ∧
    if decide (name = "alias.svcb.test")
    then r = Svcb 0 [bytes "green"; bytes "secret"; bytes "test"] []
    else svc_priority r = 1%Z ∧ svc_target r = [] ∧
      lookup_param r 3 = Some (port_value targetPort) ∧
      alpn_set r = [bytes (if decide (name = "h3only.svcb.test") then "h3" else "h2")]
        ++ (if decide (name = "nodefaultalpn.svcb.test") then [] else [bytes "http/1.1"]) ∧
      lookup_param r 2 = (if decide (name = "nodefaultalpn.svcb.test") then Some [] else None) ∧
      (parse_keys <$> lookup_param r 0) =
        (if decide (name = "mandatory.svcb.test") then Some (Some [1%Z]) else None) ∧
      lookup_param r 31337 =
        (if decide (name = "unknownparam.svcb.test") then Some (bytes "nothing here is defined") else None) ∧
      Forall (λ p, p.1 ∈ [0; 1; 2; 3; 31337]%Z) (svc_params r).
Proof.
  split; [apply svcParamFixture_names|]. intros record Hrec.
  destruct (svcParamFixture_refines name targetPort) as [Href _]. rewrite Hrec in Href.
  cbn [mbind option_bind] in Href. rewrite Href.
  assert (is_Some (fixture_record name targetPort)) as [r Hr].
  { apply svcParamFixture_refines. by eexists. }
  rewrite Hr. exists r. split; [done|]. clear Hrec Href. unfold fixture_record in Hr.
  repeat (case_decide; [simplify_eq; split; [done|]; try done; split_and!; try done;
    repeat constructor; cbn; set_solver |]).
  all: done.
Qed.

Lemma svcParamFixture_wf_witness :
  ∃ r, parse_svcb (default [] (svcParamFixture "h3only.svcb.test" 8443)) = Some r ∧ svcb_wf r ∧
    alpn_set r = [bytes "h3"; bytes "http/1.1"].
Proof.
  destruct (svcParamFixture_wf "h3only.svcb.test" 8443) as [_ H].
  destruct (H (default [] (svcParamFixture "h3only.svcb.test" 8443)) eq_refl)
    as (r & Hp & Hwf & Hr).
  exists r. split; [exact Hp|]. split; [exact Hwf|].
  rewrite decide_False in Hr by discriminate.
  destruct Hr as (_ & _ & _ & Halpn & _). exact Halpn.
Defined.
