(* ===== verification/Ech.v ===== *)
(** * ECH configurations of the fixture

    [marshalECHConfig], [newECHKey] and [configList] of ech-fixture/main.go, and
    an independent reader of the ECHConfigList of RFC 9849 §4. *)

From S2P Require Import Prelude GoStrings Wire.

Record echKey := EchKey {
  key_config : list byte;
  key_private : list byte;
  key_retryable : bool;
}.

Definition marshalECHConfig (id : byte) (publicKey : list byte) (publicName : string)
    (maxNameLength : byte) : list byte :=
  let contents := [id] in
  let contents := appendUint16 contents 32 in
  let contents := appendUint16Length contents publicKey in
  let cipherSuites := appendUint16 [] 1 in
  let cipherSuites := appendUint16 cipherSuites 1 in
  let contents := appendUint16Length contents cipherSuites in
  let contents := contents ++
    [maxNameLength; byte_of_Z (Z.of_nat (String.length publicName))] in
  let contents := contents ++ bytes publicName in
  let contents := appendUint16 contents 0 in
  let config := appendUint16 [] 65037 in
  appendUint16Length config contents.

(** The result of [ecdh.X25519().GenerateKey]: public key bytes, private key
    bytes; [must] makes an error the end of the process. *)
Definition newECHKey (generated : outcome (list byte * list byte)) (id : byte)
    (publicName : string) (retryable : bool) : outcome echKey :=
  '(public, private) ← generated;
  Ok (EchKey (marshalECHConfig id public publicName (byte_of_Z 64)) private retryable).

Definition configList (key : echKey) : list byte := appendUint16Length [] (key_config key).

(** ** RFC 9849 §4: the configurations a client reads *)

Record ech_config := EchConfig {
  ec_config_id : Z;
  ec_kem_id : Z;
  ec_public_key : list byte;
  ec_cipher_suites : list (Z * Z);
  ec_maximum_name_length : Z;
  ec_public_name : list byte;
  ec_extensions : list byte;
}.

Fixpoint read_suites (l : list byte) : option (list (Z * Z)) :=
  match l with
  | [] => Some []
  | a :: b :: c :: d :: l => ss ← read_suites l; Some ((be16 a b, be16 c d) :: ss)
  | _ => None
  end.

Definition read_contents (l : list byte) : option ech_config :=
  '(id, l) ← read8 l;
  '(kem, l) ← read16 l;
  '(pk, l) ← read_vec16 l;
  '(suites, l) ← read_vec16 l;
  suites ← read_suites suites;
  '(max, l) ← read8 l;
  '(name, l) ← read_vec8 l;
  '(exts, l) ← read_vec16 l;
  if decide (l = [] ∧ pk ≠ [] ∧ suites ≠ [] ∧ name ≠ [])
  then Some (EchConfig id kem pk suites max name exts) else None.

(** The configurations of a list; [None] for a version other than 0xfe0d. *)
Fixpoint read_configs (fuel : nat) (l : list byte) : option (list ech_config) :=
  match l, fuel with
  | [], _ => Some []
  | _, O => None
  | _, S fuel =>
      '(version, l) ← read16 l;
      '(contents, l) ← read_vec16 l;
      if decide (version = 65037)%Z then
        c ← read_contents contents;
        cs ← read_configs fuel l;
        Some (c :: cs)
      else None
  end.

Definition parse_config_list (l : list byte) : option (list ech_config) :=
  '(configs, l) ← read_vec16 l;
  if decide (l = []) then read_configs (length configs) configs else None.

(** ** What the fixture publishes is a well-formed list of one configuration *)

(** The X25519 KEM with HKDF-SHA256 and AES-128-GCM, no extensions. *)
Definition fixture_config (id : byte) (publicKey : list byte) (publicName : string) : ech_config :=
  EchConfig (Z_of_byte id) 32 publicKey [(1, 1)%Z] 64 (bytes publicName) [].

(** Sizes RFC 9849 allows, with room for the fields around the key. *)
Definition sizes_ok (publicKey : list byte) (publicName : string) : Prop :=
  (0 < len publicKey ≤ 65000)%Z ∧ (0 < String.length publicName < 256)%nat.

Lemma read8_cons z r : (0 ≤ z < 256)%Z → read8 (byte_of_Z z :: r) = Some (z, r).
Proof. intros ?. cbn. by rewrite Z_of_byte_of_Z, Z.mod_small. Qed.

Section Config.
Context (id : byte) (publicKey : list byte) (publicName : string).
Hypothesis Hsizes : sizes_ok publicKey publicName.

Definition config_contents : list byte :=
  [id] ++ appendUint16 [] 32 ++ appendUint16Length [] publicKey
  ++ appendUint16Length [] (appendUint16 (appendUint16 [] 1) 1)
  ++ [byte_of_Z 64; byte_of_Z (len (bytes publicName))] ++ bytes publicName
  ++ appendUint16Length [] [].

Lemma marshal_contents :
  marshalECHConfig id publicKey publicName (byte_of_Z 64)
  = appendUint16 [] 65037 ++ appendUint16Length [] config_contents.
Proof.
  unfold marshalECHConfig. rewrite appendUint16Length_app. do 2 f_equal.
  unfold config_contents. rewrite len_bytes.
  rewrite (appendUint16_app (_ ++ bytes publicName)).
  rewrite (appendUint16Length_app _ (appendUint16 (appendUint16 [] 1) 1)).
  rewrite (appendUint16Length_app _ publicKey), (appendUint16_app [id]).
  by rewrite <- !app_assoc.
Qed.

Lemma len_config_contents :
  len config_contents = (15 + len publicKey + Z.of_nat (String.length publicName))%Z.
Proof.
  unfold config_contents. autorewrite with go_len. rewrite len_bytes. lia.
Qed.

Lemma read_config_contents :
  read_contents config_contents = Some (fixture_config id publicKey publicName).
Proof.
  destruct Hsizes as [Hpk Hname]. unfold read_contents, config_contents.
  cbn [app read8 mbind option_bind].
  rewrite read16_append by done. cbn [mbind option_bind].
  rewrite read_vec16_append by lia. cbn [mbind option_bind].
  rewrite read_vec16_append by done. cbn [mbind option_bind].
  change (read_suites _) with (Some [(1, 1)%Z]). cbn [mbind option_bind app].
  rewrite read8_cons by done. cbn [mbind option_bind].
  rewrite read_vec8_append; [|done | rewrite len_bytes; lia]. cbn [mbind option_bind].
  change (read_vec16 (appendUint16Length [] [])) with (Some (@nil byte, @nil byte)).
  cbn [mbind option_bind]. rewrite decide_True; [done|].
  split_and!; [done | | done |].
  - intros E. apply (f_equal len) in E. rewrite len_nil in E. lia.
  - intros E. apply (f_equal len) in E. rewrite len_bytes, len_nil in E. lia.
Qed.
End Config.

Lemma parse_configList id public private publicName retryable :
  sizes_ok public publicName →
  parse_config_list (configList
    (EchKey (marshalECHConfig id public publicName (byte_of_Z 64)) private retryable))
  = Some [fixture_config id public publicName].
Proof.
  intros Hs. pose proof (len_config_contents id public publicName) as Hlen.
  pose proof Hs as [Hpk Hname].
  unfold parse_config_list, configList. cbn [key_config].
  rewrite marshal_contents.
  set (config := appendUint16 [] 65037 ++ _).
  assert (len config = len (config_contents id public publicName) + 4)%Z as Hc.
  { unfold config. autorewrite with go_len. lia. }
  rewrite <- (app_nil_r (appendUint16Length [] config)), read_vec16_append by lia.
  cbn [mbind option_bind]. rewrite decide_True by done.
  assert (∃ n, length config = S n) as [n ->].
  { destruct (length config) eqn:E; [|by eexists]. unfold len in Hc. rewrite E in Hc. lia. }
  assert (config ≠ []) as Hne by (unfold config, appendUint16; intros [=]).
  assert (read_configs (S n) config =
    ('(version, l) ← read16 config;
      '(contents, l) ← read_vec16 l;
      if decide (version = 65037)%Z then
        c ← read_contents contents;
        cs ← read_configs n l;
        Some (c :: cs)
      else None)) as -> by by destruct config.
  unfold config. rewrite read16_append by done. cbn [mbind option_bind].
  rewrite <- (app_nil_r (appendUint16Length [] _)), read_vec16_append by lia.
  cbn [mbind option_bind]. rewrite decide_True, read_config_contents by done.
  by destruct n.
Qed.

(** Configurations with different identifiers are different bytes, whatever the keys. *)
Lemma marshalECHConfig_id_inj id1 id2 pk1 pk2 name1 name2 m1 m2 :
  marshalECHConfig id1 pk1 name1 m1 = marshalECHConfig id2 pk2 name2 m2 → id1 = id2.
Proof. intros E. apply (f_equal (λ l, l !! 4)) in E. unfold marshalECHConfig in E. by simplify_eq/=. Qed.

(** C15: the configuration list of a key [newECHKey] made is, to a reader of
    RFC 9849 section 4, exactly one configuration: version 0xfe0d, the given
    identifier, public key and public name, the X25519 KEM with HKDF-SHA256 and
    AES-128-GCM, a maximum name length of 64 and no extensions; and the key keeps
    the private half and its retry flag.  The sizes are those RFC 9849 allows. *)
Theorem configList_parse id public private publicName retryable :
  sizes_ok public publicName →
  ∃ key, newECHKey (Ok (public, private)) id publicName retryable = Ok key ∧
    parse_config_list (configList key) = Some [EchConfig (Z_of_byte id) 32 public [(1, 1)%Z] 64
      (bytes publicName) []] ∧
    key_private key = private ∧ key_retryable key = retryable.
Proof.
  intros Hs. eexists. split; [reflexivity|]. split; [|split; reflexivity].
  by apply parse_configList.
Qed.

Lemma configList_parse_witness :
  ∃ key, newECHKey (Ok (replicate 32 x2a, [x01])) x03 "retry.public.test" true = Ok key ∧
    is_Some (parse_config_list (configList key)).
Proof.
  destruct (configList_parse x03 (replicate 32 x2a) [x01] "retry.public.test" true)
    as (key & Hk & Hp & _).
  { split; [unfold len; rewrite length_replicate; lia | simpl; lia]. }
  exists key. split; [exact Hk|]. rewrite Hp. eexists. reflexivity.
Defined.
