(* ===== verification/EchTarget.v ===== *)
(** * The ECH origin ([fixture target])

    The key set, the metadata document and the two TLS callbacks of [runTarget]
    in ech-fixture/main.go, the way EchFixtureService reads the metadata, and
    what a TLS server does with an offered configuration. *)

From S2P Require Import Prelude GoStrings Base64 Wire Ech.

(** ** Names *)

Definition greenName := "green.secret.test".
Definition greenPublicName := "green.public.test".
Definition retryName := "retry.secret.test".
Definition retryPublicName := "retry.public.test".
Definition disabledName := "disabled.secret.test".
Definition disabledPublicName := "disabled.public.test".
Definition issue1561PublicName := "issue1561.public.test".

(** ** The keys *)

Record target_keys := TargetKeys {
  greenKey : echKey;
  retryStaleKey : echKey;
  retryKey : echKey;
  disabledStaleKey : echKey;
  disabledKey : echKey;
  issue1561StaleKey : echKey;
  issue1561Key : echKey;
}.

(** [gen i] is the result of the [i]-th call of [GenerateKey]. *)
Definition makeTargetKeys (gen : nat → outcome (list byte * list byte)) : outcome target_keys :=
  green ← newECHKey (gen 0) x01 greenPublicName true;
  retryStale ← newECHKey (gen 1) x02 retryPublicName false;
  retry ← newECHKey (gen 2) x03 retryPublicName true;
  disabledStale ← newECHKey (gen 3) x04 disabledPublicName false;
  disabled ← newECHKey (gen 4) x05 disabledPublicName false;
  issue1561Stale ← newECHKey (gen 5) x06 issue1561PublicName false;
  issue1561 ← newECHKey (gen 6) x07 issue1561PublicName false;
  Ok (TargetKeys green retryStale retry disabledStale disabled issue1561Stale issue1561).

(** ** The metadata document *)

Definition newline : ascii := char_of 10.

Definition metadata_lines (keys : target_keys) (dohCertPEM dohKeyPEM caPEM : list byte) :
    list (string * list byte) :=
  [("ECH_GREEN_CONFIG_LIST", configList (greenKey keys));
   ("ECH_RETRY_STALE_CONFIG_LIST", configList (retryStaleKey keys));
   ("ECH_DISABLED_STALE_CONFIG_LIST", configList (disabledStaleKey keys));
   ("ECH_ISSUE1561_STALE_CONFIG_LIST", configList (issue1561StaleKey keys));
   ("DOH_CERT", dohCertPEM);
   ("DOH_KEY", dohKeyPEM);
   ("CA_CERT", caPEM)].

Definition metadata (keys : target_keys) (dohCertPEM dohKeyPEM caPEM : list byte) : string :=
  join ((λ p, p.1 +:+ ("=" +:+ stdEncode p.2))
          <$> metadata_lines keys dohCertPEM dohKeyPEM caPEM) (String newline "")
  +:+ String newline "".

(** EchFixtureService: non-empty lines, cut at the first [=]; a line without one
    fails the destructuring.  As with [associate], the last line of a name wins. *)
Fixpoint parse_lines (lines : list string) : option (gmap string string) :=
  match lines with
  | [] => Some ∅
  | line :: lines =>
      if decide (line = "") then parse_lines lines
      else match splitN line "=" 2 with
           | [name; value] => m ← parse_lines lines; Some (m ∪ {[name := value]})
           | _ => None
           end
  end.
Definition parse_metadata (text : string) : option (gmap string string) :=
  parse_lines (split newline text).

(** ** The TLS callbacks *)

(** [tls.EncryptedClientHelloKey]. *)
Record server_key := ServerKey {
  Config : list byte;
  PrivateKey : list byte;
  SendAsRetry : bool;
}.

Definition getEncryptedClientHelloKeys (keys : target_keys) (serverName : string) :
    list server_key :=
  let one key := [ServerKey (key_config key) (key_private key) (key_retryable key)] in
  if decide (serverName = greenPublicName) then one (greenKey keys)
  else if decide (serverName = retryPublicName) then one (retryKey keys)
  else if decide (serverName = disabledPublicName) then one (disabledKey keys)
  else if decide (serverName = issue1561PublicName) then one (issue1561Key keys)
  else [].

Definition getCertificate {C} (targetCertificate issue1561Certificate : C)
    (serverName : string) : C :=
  if decide (serverName = issue1561PublicName) then issue1561Certificate
  else targetCertificate.

(** ** What crypto/tls does with the keys

    The server is called with the server name of the outer ClientHello, which is
    the public name of the configuration the client used.  It opens the inner
    hello with the key of that very configuration, or else rejects and sends the
    configurations marked [SendAsRetry]. *)
Inductive ech_outcome : Type :=
| Accepted
| Rejected (retry_configs : list (list byte)).

Definition ech_server (keys : list server_key) (offered : list byte) : ech_outcome :=
  if decide (offered ∈ (Config <$> keys)) then Accepted
  else Rejected (Config <$> filter (λ k, SendAsRetry k = true) keys).

(** One connection: the client uses the only configuration of the list. *)
Definition ech_connect (keys : target_keys) (config_list : list byte) : option ech_outcome :=
  '(config, rest) ← read_vec16 config_list;
  cs ← parse_config_list config_list;
  match cs, rest with
  | [c], [] =>
      Some (ech_server (getEncryptedClientHelloKeys keys (str (ec_public_name c))) config)
  | _, _ => None
  end.

(** ** Lemmas *)

(** A key the fixture made: its configuration, with the public key that went in. *)
Definition made (key : echKey) (id : byte) (name : string) (retryable : bool) : Prop :=
  ∃ public private, sizes_ok public name ∧
    newECHKey (Ok (public, private)) id name retryable = Ok key.

Record keys_made (keys : target_keys) : Prop := {
  made_green : made (greenKey keys) x01 greenPublicName true;
  made_retryStale : made (retryStaleKey keys) x02 retryPublicName false;
  made_retry : made (retryKey keys) x03 retryPublicName true;
  made_disabledStale : made (disabledStaleKey keys) x04 disabledPublicName false;
  made_disabled : made (disabledKey keys) x05 disabledPublicName false;
  made_issue1561Stale : made (issue1561StaleKey keys) x06 issue1561PublicName false;
  made_issue1561 : made (issue1561Key keys) x07 issue1561PublicName false;
}.

(** X25519 public keys are 32 bytes. *)
Definition gen_ok (gen : nat → outcome (list byte * list byte)) : Prop :=
  ∀ i, (i < 7)%nat → ∃ public private, gen i = Ok (public, private) ∧ len public = 32%Z.

Lemma makeTargetKeys_made gen :
  gen_ok gen → ∃ keys, makeTargetKeys gen = Ok keys ∧ keys_made keys.
Proof.
  intros Hgen.
  destruct (Hgen 0) as (p0 & q0 & E0 & H0); [lia|].
  destruct (Hgen 1) as (p1 & q1 & E1 & H1); [lia|].
  destruct (Hgen 2) as (p2 & q2 & E2 & H2); [lia|].
  destruct (Hgen 3) as (p3 & q3 & E3 & H3); [lia|].
  destruct (Hgen 4) as (p4 & q4 & E4 & H4); [lia|].
  destruct (Hgen 5) as (p5 & q5 & E5 & H5); [lia|].
  destruct (Hgen 6) as (p6 & q6 & E6 & H6); [lia|].
  unfold makeTargetKeys. rewrite E0, E1, E2, E3, E4, E5, E6.
  eexists. split; [reflexivity|].
  split; eexists _, _;
    (split; [|reflexivity]; split; [rewrite ?H0, ?H1, ?H2, ?H3, ?H4, ?H5, ?H6; done | simpl; lia]).
Qed.

Lemma made_inj key1 key2 id1 id2 name1 name2 r1 r2 :
  made key1 id1 name1 r1 → made key2 id2 name2 r2 →
  key_config key1 = key_config key2 → id1 = id2.
Proof.
  intros (p1 & q1 & _ & [= <-]) (p2 & q2 & _ & [= <-]) E.
  by apply marshalECHConfig_id_inj in E.
Qed.

Lemma made_connect keys key id name retryable :
  made key id name retryable →
  ech_connect keys (configList key)
  = Some (ech_server (getEncryptedClientHelloKeys keys name) (key_config key)).
Proof.
  intros (public & private & Hs & Hk).
  injection Hk as <-. unfold ech_connect. rewrite parse_configList by done.
  set (key := EchKey _ _ _).
  assert (read_vec16 (configList key) = Some (key_config key, [])) as ->.
  { unfold configList. rewrite <- (app_nil_r (appendUint16Length [] _)).
    apply read_vec16_append. unfold key. cbn [key_config].
    rewrite marshal_contents. autorewrite with go_len.
    rewrite len_config_contents. destruct Hs. lia. }
  cbn [mbind option_bind fixture_config ec_public_name]. by rewrite str_bytes.
Qed.

(** ** The metadata document survives the trip *)

Definition entry_line (p : string * list byte) : string := p.1 +:+ ("=" +:+ stdEncode p.2).

(** A name that can head a line: no newline, no [=]. *)
Definition entry_ok (p : string * list byte) : bool :=
  free_of newline p.1 && free_of "=" p.1.

Lemma entry_line_split p :
  entry_ok p → splitN (entry_line p) "=" 2 = [p.1; stdEncode p.2].
Proof.
  intros [_ Hp]%andb_True. unfold splitN, entry_line. cbn [pred].
  change ("=" +:+ stdEncode p.2) with (String "=" (stdEncode p.2)).
  by rewrite split_cuts_app, split_cuts_O.
Qed.

Lemma entry_line_free p : entry_ok p → free_of newline (entry_line p).
Proof.
  intros [Hp _]%andb_True. unfold entry_line. rewrite !free_of_app, !andb_True.
  split_and!; [done | done | by apply stdEncode_free].
Qed.

Lemma entry_line_ne p : entry_line p ≠ "".
Proof. unfold entry_line. by destruct p.1. Qed.

Definition entries_map (ps : list (string * list byte)) : gmap string string :=
  foldr (λ p m, m ∪ {[p.1 := stdEncode p.2]}) ∅ ps.

Lemma parse_lines_entries ps :
  Forall entry_ok ps →
  parse_lines ((entry_line <$> ps) ++ [""]) = Some (entries_map ps).
Proof.
  induction 1 as [|p ps Hp Hps IH]; [done|].
  rewrite fmap_cons, <- app_comm_cons. cbn [parse_lines].
  rewrite decide_False by apply entry_line_ne. rewrite entry_line_split, IH by done.
  done.
Qed.

Lemma join_app_line (ws : list string) sep :
  ws ≠ [] → join ws sep +:+ sep = join (ws ++ [""]) sep.
Proof.
  induction ws as [|w ws IH]; [done|]. intros _.
  destruct ws as [|w' ws]; [cbn; by rewrite sapp_nil_r|].
  rewrite <- app_comm_cons, !join_cons by done. by rewrite !sapp_assoc, IH.
Qed.

Lemma parse_metadata_ok keys dohCertPEM dohKeyPEM caPEM :
  parse_metadata (metadata keys dohCertPEM dohKeyPEM caPEM)
  = Some (entries_map (metadata_lines keys dohCertPEM dohKeyPEM caPEM)).
Proof.
  unfold parse_metadata, metadata. rewrite join_app_line by done.
  assert (Forall entry_ok (metadata_lines keys dohCertPEM dohKeyPEM caPEM)) as Hok
    by by repeat constructor.
  rewrite split_join.
  - by apply parse_lines_entries.
  - done.
  - apply Forall_app. split; [|by repeat constructor].
    apply Forall_fmap. eapply Forall_impl; [exact Hok|]. apply entry_line_free.
Qed.
