(* ===== verification/Dns.v ===== *)
(** * The DNS-over-HTTPS responder of the ECH fixture

    [dnsQuestion], [stripAttrleafPort], [dnsResponse] of ech-fixture/main.go,
    and the properties of what they answer. *)

From S2P Require Import Prelude GoStrings Strconv Unicode Wire Svcb.

Section Dns.
Context `{UnicodeTables}.

(** ** The question *)

(** The loop of [dnsQuestion]; [None] is running out of fuel. *)
Fixpoint dnsQuestion_loop (fuel : nat) (query : list byte) (position : Z)
    (labels : list string) : option (outcome (Z * list string)) :=
  match fuel with
  | O => None
  | S fuel =>
      if decide (len query ≤ position)%Z then Some (Err "invalid DNS name")
      else match index query position with
      | Ok b =>
          let length := Z_of_byte b in
          let position := (position + 1)%Z in
          if decide (length = 0)%Z then Some (Ok (position, labels))
          else if decide (63 < length ∨ len query < position + length)%Z
          then Some (Err "invalid DNS label")
          else match slice query position (position + length) with
          | Ok label =>
              dnsQuestion_loop fuel query (position + length) (labels ++ [str label])
          | Err e => Some (Err e)
          | Panic => Some Panic
          end
      | Err e => Some (Err e)
      | Panic => Some Panic
      end
  end.

Definition dnsQuestion (query : list byte) : outcome (Z * string) :=
  '(position, labels) ← default Panic (dnsQuestion_loop (S (length query)) query 12 []);
  if decide (len query < position + 4)%Z then Err "short DNS question"
  else Ok ((position + 4)%Z, toLower (join labels ".")).

Definition stripAttrleafPort (name : string) : string :=
  match splitN name "." 3 with
  | [l0; l1; l2] =>
      if decide (l1 ≠ "_https") then name
      else match l0 with
      | String "_" (String _ _ as port) =>
          match parseUint port 16 with
          | None => name
          | Some _ => l2
          end
      | _ => name
      end
  | _ => name
  end.

(** ** The response *)

(** The [switch qtype] of [dnsResponse]: the RDATA, [None] for no answer. *)
Definition dnsRdata (qtype : Z) (questionName : string)
    (echConfigs : gmap string (list byte)) (targetPort : Z) : outcome (option (list byte)) :=
  if decide (qtype = 1)%Z then Ok (Some [x7f; x00; x00; x01])
  else if decide (qtype = 65)%Z then
    let serviceName := stripAttrleafPort questionName in
    match svcParamFixture serviceName targetPort with
    | Some record => Ok (Some record)
    | None =>
        match echConfigs !! serviceName with
        | None => Err ("no ECH fixture for " +:+ quote questionName)
        | Some echConfigList => Ok (Some (httpsRecord echConfigList targetPort))
        end
    end
  else Ok None.

(** The bytes a [copy] or a [PutUint16] leaves at offset [i] of the header. *)
Definition put_at (i : nat) (data buf : list byte) : list byte := list_inserts i data buf.

Definition dnsResponse (query : list byte) (echConfigs : gmap string (list byte))
    (targetPort : Z) : outcome (list byte) :=
  if decide (len query < 17)%Z then Err "short DNS query" else
  '(questionEnd, questionName) ← dnsQuestion query;
  qtypeBytes ← slice query (questionEnd - 4) (questionEnd - 2);
  qtype ← bigEndianUint16 qtypeBytes;
  rdata ← dnsRdata qtype questionName echConfigs targetPort;
  let answerCount := if rdata is Some _ then 1%Z else 0%Z in
  let response := replicate 12 x00 in
  id ← slice query 0 2;
  let response := put_at 0 id response in
  let response := put_at 2 (putUint16 33152) response in
  let response := put_at 4 (putUint16 1) response in
  let response := put_at 6 (putUint16 answerCount) response in
  question ← slice query 12 questionEnd;
  let response := response ++ question in
  match rdata with
  | None => Ok response
  | Some rdata =>
      let response := response ++ [xc0; x0c] in
      let response := appendUint16 response qtype in
      let response := appendUint16 response 1 in
      let response := appendUint32 response 60 in
      let response := appendUint16Length response rdata in
      Ok response
  end.

(** ** The loop terminates and reads what RFC 1035 says *)

Lemma length_drop_len (l : list byte) (i : Z) :
  (0 ≤ i ≤ len l)%Z → len (drop (Z.to_nat i) l) = (len l - i)%Z.
Proof. intros ?. unfold len in *. rewrite length_drop. lia. Qed.

Lemma index_drop (l : list byte) i b :
  index l i = Ok b → drop (Z.to_nat i) l = b :: drop (Z.to_nat (i + 1)) l.
Proof.
  unfold index. case_decide as Hi; [|done].
  destruct (l !! Z.to_nat i) as [x|] eqn:Hx; [|done]. intros [= ->].
  replace (Z.to_nat (i + 1)) with (S (Z.to_nat i)) by lia. by apply drop_S.
Qed.

Lemma read_labels_fuel l n m :
  (length l ≤ n)%nat → (length l ≤ m)%nat → read_labels n l = read_labels m l.
Proof.
  revert l m. induction n as [|n IH]; intros l m Hn Hm.
  { destruct l; [|simpl in Hn; lia]. by destruct m. }
  destruct m as [|m]; [destruct l; [done | simpl in Hm; lia]|].
  destruct l as [|b l]; [done|]. cbn [read_labels read8 mbind option_bind].
  case_decide; [done|]. case_decide; [|done].
  unfold readn. case_decide; [|done]. cbn.
  by rewrite (IH _ m) by (rewrite length_drop; simpl in *; lia).
Qed.

Lemma dnsQuestion_loop_spec fuel query position labels :
  (0 ≤ position ≤ len query)%Z → (len query - position < Z.of_nat fuel)%Z →
  match read_labels fuel (drop (Z.to_nat position) query) with
  | Some (ws, rest) =>
      dnsQuestion_loop fuel query position labels
      = Some (Ok ((len query - len rest)%Z, labels ++ (str <$> ws)))
      ∧ (len rest < len query - position)%Z
  | None => ∃ e, dnsQuestion_loop fuel query position labels = Some (Err e)
  end.
Proof.
  revert position labels. induction fuel as [|fuel IH]; intros position labels Hp Hf; [lia|].
  cbn [dnsQuestion_loop read_labels]. case_decide as Hend.
  { assert (position = len query) as -> by lia. unfold len. rewrite Nat2Z.id, drop_all.
    by eexists. }
  destruct (index_lookup query position ltac:(lia)) as [b Hb].
  rewrite Hb, (index_drop _ _ _ Hb). cbn [read8 mbind option_bind].
  pose proof (Z_of_byte_range b). pose proof (length_drop_len query (position + 1) ltac:(lia)).
  case_decide as Hz.
  { rewrite app_nil_r. split; [do 3 f_equal; lia|]. lia. }
  case_decide as H63; [|rewrite decide_True by lia; by eexists].
  unfold readn. case_decide as Hlen; [|rewrite decide_True by lia; by eexists].
  rewrite decide_False, slice_in by lia.
  cbn [mbind option_bind]. rewrite drop_drop.
  replace (Z.to_nat (position + 1 + Z_of_byte b - (position + 1))) with (Z.to_nat (Z_of_byte b)) by lia.
  replace (Z.to_nat (position + 1) + Z.to_nat (Z_of_byte b)) with
    (Z.to_nat (position + 1 + Z_of_byte b)) by lia.
  set (w := take _ _).
  specialize (IH (position + 1 + Z_of_byte b)%Z (labels ++ [str w]) ltac:(lia) ltac:(lia)).
  destruct (read_labels fuel _) as [[ws rest]|]; cbn; [|done].
  destruct IH as [-> IH]. split; [|lia]. by rewrite <- app_assoc.
Qed.

(** [dnsQuestion] in terms of the RFC 1035 reader. *)
Lemma dnsQuestion_read query :
  (12 ≤ len query)%Z →
  match read_name (drop 12 query) with
  | Some (ws, rest) =>
      (len rest < len query - 12)%Z ∧
      dnsQuestion query =
        if decide (len rest < 4)%Z then Err "short DNS question"
        else Ok ((len query - len rest + 4)%Z,
                 toLower (join (str <$> ws) "."))
  | None => ∃ e, dnsQuestion query = Err e
  end.
Proof.
  intros Hq. unfold dnsQuestion, read_name.
  pose proof (dnsQuestion_loop_spec (S (length query)) query 12 [] ltac:(lia)
    ltac:(unfold len; lia)) as Hl.
  change (Z.to_nat 12) with 12 in Hl.
  rewrite (read_labels_fuel _ _ (length (drop 12 query))) in Hl by (rewrite ?length_drop; lia).
  destruct (read_labels _ _) as [[ws rest]|].
  - destruct Hl as [-> Hrest]. split; [lia|]. cbn.
    rewrite (decide_ext _ (len rest < 4)%Z) by lia. done.
  - destruct Hl as [e ->]. by exists e.
Qed.

(** ** Attrleaf names *)

Lemma stripAttrleafPort_prefix port rest p :
  parseUint port 16 = Some p →
  stripAttrleafPort ("_" +:+ (port +:+ ("._https." +:+ rest))) = rest.
Proof.
  intros Hp. unfold stripAttrleafPort, splitN.
  assert (free_of "." port) as Hfree.
  { unfold parseUint in Hp. apply bind_Some in Hp as (n & Hn & _).
    by eapply parse_digits_free. }
  change ("_" +:+ (port +:+ ("._https." +:+ rest)))
    with (String "_" port +:+ String "." ("_https" +:+ String "." rest)).
  cbn [pred]. rewrite !split_cuts_app, split_cuts_O by done.
  rewrite decide_False by (intros []; done).
  destruct port as [|a port]; [done|]. by rewrite Hp.
Qed.

(** C24: a name of the form [_<port>._https.<rest>], where the port is a decimal
    number that fits in 16 bits, becomes [rest]; every other name, whatever its
    bytes, is returned unchanged. *)
Theorem stripAttrleafPort_spec name :
  (∃ port rest, name = "_" +:+ (port +:+ ("._https." +:+ rest)) ∧
     is_Some (parseUint port 16) ∧ stripAttrleafPort name = rest) ∨
  ((∀ port rest, name = "_" +:+ (port +:+ ("._https." +:+ rest)) → parseUint port 16 = None) ∧
     stripAttrleafPort name = name).
Proof.
  assert (stripAttrleafPort name = name ∨
    ∃ port rest p, name = "_" +:+ (port +:+ ("._https." +:+ rest)) ∧ parseUint port 16 = Some p)
    as [Heq|(port & rest & p & -> & Hp)].
  { unfold stripAttrleafPort, splitN. cbn [pred].
    destruct (split_cuts "." 2 name) as [|l0 [|l1 [|l2 [|]]]] eqn:E; auto.
    apply split_cuts_inv in E as (s & -> & _ & E).
    apply split_cuts_inv in E as (s' & -> & _ & E).
    rewrite split_cuts_O in E. simplify_eq.
    case_decide as H1; [by left|]. subst l1.
    destruct l0 as [|a [|b l0]]; [by left| |].
    { left. by destruct a as [[] [] [] [] [] [] [] []]. }
    destruct (decide (a = "_"%char)) as [->|Ha].
    - destruct (parseUint (String b l0) 16) as [p|] eqn:Hp; [|by left].
      right. exists (String b l0), l2, p. done.
    - left. destruct a as [[] [] [] [] [] [] [] []]; done. }
  - right. split; [|done]. intros port rest ->.
    destruct (parseUint port 16) as [p|] eqn:Hp; [|done].
    rewrite (stripAttrleafPort_prefix _ _ _ Hp) in Heq.
    apply (f_equal String.length) in Heq.
    rewrite !sapp_length in Heq. simpl in Heq. lia.
  - left. exists port, rest. split_and!; [done | by eexists |].
    by eapply stripAttrleafPort_prefix.
Qed.

End Dns.
