(* ===== verification/DnsAnswer.v ===== *)
(** * What the DoH responder answers

    The specification side of Dns: an RFC 1035 message reader, and the theorems
    that every response of [dnsResponse] is the answer the fixture is there to
    give, that every query gets a response or an error, and that no query makes
    the responder index out of range. *)

From S2P Require Import Prelude GoStrings Strconv Unicode Wire Svcb Dns.

(** ** RFC 1035 §4: the message a resolver reads *)

Record dns_answer := DnsAnswer {
  ans_name : list (list byte);
  ans_type : Z;
  ans_class : Z;
  ans_ttl : Z;
  ans_rdata : list byte;
}.

Record dns_message := DnsMessage {
  msg_id : list byte;
  msg_flags : Z;
  msg_name : list (list byte);
  msg_qtype : Z;
  msg_qclass : Z;
  msg_answers : list dns_answer;
}.

(** A resource record whose owner is a compression pointer (§4.1.4). *)
Definition read_answer (msg l : list byte) : option (dns_answer * list byte) :=
  '(ptr, l) ← read16 l;
  if decide (49152 ≤ ptr)%Z then
    '(name, _) ← read_name (drop (Z.to_nat (ptr - 49152)) msg);
    '(type, l) ← read16 l;
    '(class, l) ← read16 l;
    '(ttl, l) ← read32 l;
    '(rdata, l) ← read_vec16 l;
    Some (DnsAnswer name type class ttl rdata, l)
  else None.

Fixpoint read_answers (n : nat) (msg l : list byte) : option (list dns_answer * list byte) :=
  match n with
  | O => Some ([], l)
  | S n => '(a, l) ← read_answer msg l; '(rest, l) ← read_answers n msg l; Some (a :: rest, l)
  end.

(** One question, [ancount] answers, nothing else, nothing left over. *)
Definition parse_message_from (msg l : list byte) : option dns_message :=
  '(id, l) ← readn 2 l;
  '(flags, l) ← read16 l;
  '(qdcount, l) ← read16 l;
  '(ancount, l) ← read16 l;
  '(nscount, l) ← read16 l;
  '(arcount, l) ← read16 l;
  if decide (qdcount = 1 ∧ nscount = 0 ∧ arcount = 0)%Z then
    '(name, l) ← read_name l;
    '(qtype, l) ← read16 l;
    '(qclass, l) ← read16 l;
    '(answers, l) ← read_answers (Z.to_nat ancount) msg l;
    if decide (l = []) then Some (DnsMessage id flags name qtype qclass answers) else None
  else None.

Definition parse_message (msg : list byte) : option dns_message :=
  parse_message_from msg msg.

(** The [QR], [RD] and [RA] flags of a response without error. *)
Definition flags_ok : Z := 33152.

Lemma read_labels_suffix fuel l ws rest :
  read_labels fuel l = Some (ws, rest) → ∃ pre, l = pre ++ rest.
Proof.
  revert l ws rest. induction fuel as [|fuel IH]; intros l ws rest E; [done|].
  destruct l as [|b l]; [done|]. cbn [read_labels read8 mbind option_bind] in E.
  case_decide; [simplify_eq; by exists [b]|].
  case_decide; [|done]. unfold readn in E. case_decide; [|done].
  cbn [mbind option_bind] in E.
  destruct (read_labels fuel _) as [[ws' rest']|] eqn:E'; [|done]. simplify_eq/=.
  destruct (IH _ _ _ E') as [pre Hpre].
  exists (b :: take (Z.to_nat (Z_of_byte b)) l ++ pre).
  rewrite <- app_comm_cons, <- app_assoc, <- Hpre. by rewrite take_drop.
Qed.

Section Answers.
Context `{UnicodeTables}.
Implicit Types (query hdr nm tail : list byte) (cfg : gmap string (list byte)).

(** The bytes of a response: header, echoed question, and the answer. *)
Definition response_bytes (id nm : list byte) (b0 b1 b2 b3 : byte)
    (rdata : option (list byte)) : list byte :=
  id ++ putUint16 flags_ok ++ putUint16 1
  ++ putUint16 (if rdata is Some _ then 1 else 0)%Z ++ [x00; x00; x00; x00]
  ++ nm ++ [b0; b1; b2; b3]
  ++ match rdata with
     | None => []
     | Some r => [xc0; x0c] ++ [b0; b1] ++ putUint16 1 ++ appendUint32 [] 60
                 ++ appendUint16Length [] r
     end.

Lemma dnsResponse_unfold query qe qn i0 i1 nm b0 b1 b2 b3 cfg targetPort :
  (17 ≤ len query)%Z → dnsQuestion query = Ok (qe, qn) →
  slice query (qe - 4) (qe - 2) = Ok [b0; b1] → slice query 0 2 = Ok [i0; i1] →
  slice query 12 qe = Ok (nm ++ [b0; b1; b2; b3]) →
  dnsResponse query cfg targetPort
  = (rdata ← dnsRdata (be16 b0 b1) qn cfg targetPort;
     Ok (response_bytes [i0; i1] nm b0 b1 b2 b3 rdata)).
Proof.
  intros Hlen Hq Hs1 Hs2 Hs3. unfold dnsResponse. rewrite decide_False by lia.
  rewrite Hq. cbn [mbind outcome_bind]. rewrite Hs1. cbn [mbind outcome_bind].
  rewrite bigEndianUint16_be16. cbn [mbind outcome_bind].
  destruct (dnsRdata _ _ _ _) as [rdata| |]; [|done|done].
  cbn [mbind outcome_bind]. rewrite Hs2. cbn [mbind outcome_bind].
  rewrite Hs3. cbn [mbind outcome_bind]. unfold response_bytes. destruct rdata as [r|].
  - rewrite appendUint16Length_app, (appendUint32_app (appendUint16 _ _)).
    rewrite (appendUint16_app (appendUint16 _ _)), (appendUint16_app (_ ++ [xc0; x0c])).
    pose proof (putUint16_be16 b0 b1) as Hbe. unfold putUint16 in Hbe. rewrite Hbe.
    rewrite <- !app_assoc. done.
  - by rewrite app_nil_r.
Qed.

Lemma dnsResponse_eval i0 i1 hdr nm b0 b1 b2 b3 tail qn cfg targetPort :
  length hdr = 10 → nm ≠ [] →
  dnsQuestion ((i0 :: i1 :: hdr) ++ nm ++ [b0; b1; b2; b3] ++ tail) = Ok (16 + len nm, qn)%Z →
  dnsResponse ((i0 :: i1 :: hdr) ++ nm ++ [b0; b1; b2; b3] ++ tail) cfg targetPort
  = (rdata ← dnsRdata (be16 b0 b1) qn cfg targetPort;
     Ok (response_bytes [i0; i1] nm b0 b1 b2 b3 rdata)).
Proof.
  intros Hhdr Hnm Hq.
  assert (len (i0 :: i1 :: hdr) = 12)%Z as H12 by (unfold len; simpl; lia).
  assert (0 < len nm)%Z as Hlen.
  { destruct nm; [done|]. rewrite len_cons. pose proof (len_nonneg nm). lia. }
  pose proof (len_nonneg tail).
  apply (dnsResponse_unfold _ (16 + len nm) qn); [|done|..].
  - rewrite !len_app, H12. change (len [b0; b1; b2; b3]) with 4%Z. lia.
  - replace ((i0 :: i1 :: hdr) ++ nm ++ [b0; b1; b2; b3] ++ tail)
      with (((i0 :: i1 :: hdr) ++ nm) ++ [b0; b1] ++ [b2; b3] ++ tail) by by rewrite <- app_assoc.
    apply slice_app_mid; rewrite len_app, H12; change (len [b0; b1]) with 2%Z; lia.
  - apply (slice_app_mid [] [i0; i1]); done.
  - rewrite (app_assoc nm). apply slice_app_mid; [done|].
    rewrite len_app. change (len [b0; b1; b2; b3]) with 4%Z. lia.
Qed.

(** A name every prefix-reader recognises, and its labels. *)
Definition reads_as (nm : list byte) (ws : list (list byte)) : Prop :=
  ∀ r, read_name (nm ++ r) = Some (ws, r).

Lemma parse_message_response i0 i1 nm ws b0 b1 b2 b3 rdata :
  reads_as nm ws → (if rdata is Some r then len r < 65536 else True)%Z →
  parse_message (response_bytes [i0; i1] nm b0 b1 b2 b3 rdata)
  = Some (DnsMessage [i0; i1] flags_ok ws (be16 b0 b1) (be16 b2 b3)
      (if rdata is Some r then [DnsAnswer ws (be16 b0 b1) 1 60 r] else [])).
Proof.
  intros Hnm Hr. unfold parse_message.
  assert (drop 12 (response_bytes [i0; i1] nm b0 b1 b2 b3 rdata) = nm ++ [b0; b1; b2; b3] ++
    match rdata with None => [] | Some r =>
      [xc0; x0c] ++ [b0; b1] ++ putUint16 1 ++ appendUint32 [] 60 ++ appendUint16Length [] r end)
    as Hdrop by by destruct rdata.
  revert Hdrop. generalize (response_bytes [i0; i1] nm b0 b1 b2 b3 rdata) at 1 2.
  intros msg Hdrop. unfold parse_message_from, response_bytes.
  rewrite (readn_app [i0; i1]). cbn [mbind option_bind].
  unfold putUint16. rewrite !read16_append by done. cbn [mbind option_bind].
  rewrite read16_append by done. cbn [mbind option_bind].
  rewrite read16_append by by destruct rdata. cbn [mbind option_bind].
  change (?a :: ?b :: ?c :: ?d :: ?l) with ([a; b] ++ [c; d] ++ l).
  cbn [app read16 mbind option_bind]. change (be16 x00 x00) with 0%Z.
  rewrite decide_True by done. rewrite Hnm. cbn [app read16 mbind option_bind].
  destruct rdata as [r|]; [|done].
  change (Z.to_nat 1) with 1. cbn [read_answers]. unfold read_answer.
  cbn [app read16 mbind option_bind]. change (be16 xc0 x0c) with 49164%Z.
  rewrite decide_True by done. change (Z.to_nat (49164 - 49152)) with 12.
  rewrite Hdrop, Hnm. cbn [app read16 mbind option_bind].
  unfold putUint16. rewrite read16_append by done. cbn [mbind option_bind].
  rewrite read32_append by done. cbn [mbind option_bind].
  rewrite <- (app_nil_r (appendUint16Length [] r)), read_vec16_append by done.
  done.
Qed.

(** ** Well-formed queries *)

(** A query with a 12-byte header (of which only the ID matters), one question
    and anything after it, such as an EDNS record. *)
Definition dns_query (i0 i1 : byte) (hdr : list byte) (name : string) (qtype qclass : Z)
    (tail : list byte) : list byte :=
  (i0 :: i1 :: hdr) ++ appendDnsName [] name ++ (putUint16 qtype ++ putUint16 qclass) ++ tail.

Lemma putUint16_bytes v :
  (0 ≤ v < 65536)%Z → ∃ b0 b1, putUint16 v = [b0; b1] ∧ be16 b0 b1 = v.
Proof.
  intros Hv. eexists _, _. split; [done|].
  pose proof (read16_append v [] Hv) as E. cbn in E. by simplify_eq.
Qed.

Lemma reads_as_appendDnsName name :
  Forall dns_label (split "." name) →
  reads_as (appendDnsName [] name) (bytes <$> split "." name).
Proof. intros Hn r. by apply read_name_appendDnsName. Qed.

Lemma str_bytes_list (ws : list string) : str <$> (bytes <$> ws) = ws.
Proof. induction ws as [|w ws IH]; [done|]. by rewrite !fmap_cons, str_bytes, IH. Qed.

Lemma dnsQuestion_query i0 i1 hdr name qtype qclass tail :
  length hdr = 10 → Forall dns_label (split "." name) →
  dnsQuestion (dns_query i0 i1 hdr name qtype qclass tail)
  = Ok (16 + len (appendDnsName [] name), toLower name)%Z.
Proof.
  intros Hhdr Hn.
  assert (drop 12 (dns_query i0 i1 hdr name qtype qclass tail)
    = appendDnsName [] name ++ (putUint16 qtype ++ putUint16 qclass) ++ tail) as Hdrop.
  { unfold dns_query. by rewrite drop_app_length' by (simpl; lia). }
  assert (len (dns_query i0 i1 hdr name qtype qclass tail)
    = 16 + len (appendDnsName [] name) + len tail)%Z as Hlen.
  { unfold dns_query. rewrite !len_app, !len_cons. unfold len at 1. rewrite Hhdr.
    change (len (putUint16 qtype)) with 2%Z. change (len (putUint16 qclass)) with 2%Z. lia. }
  pose proof (len_nonneg tail). pose proof (len_nonneg (appendDnsName [] name)).
  pose proof (dnsQuestion_read (dns_query i0 i1 hdr name qtype qclass tail) ltac:(lia)) as Hq.
  rewrite Hdrop, read_name_appendDnsName in Hq by done.
  destruct Hq as [_ ->]. rewrite Hlen, !len_app.
  change (len (putUint16 qtype)) with 2%Z. change (len (putUint16 qclass)) with 2%Z.
  rewrite decide_False by lia. rewrite str_bytes_list, join_split.
  do 2 f_equal. lia.
Qed.

Lemma dnsResponse_query i0 i1 hdr name qtype qclass tail cfg targetPort rdata :
  length hdr = 10 → Forall dns_label (split "." name) →
  (0 ≤ qtype < 65536)%Z → (0 ≤ qclass < 65536)%Z →
  dnsRdata qtype (toLower name) cfg targetPort = Ok rdata →
  (if rdata is Some r then len r < 65536 else True)%Z →
  ∃ response,
    dnsResponse (dns_query i0 i1 hdr name qtype qclass tail) cfg targetPort = Ok response ∧
    parse_message response = Some (DnsMessage [i0; i1] flags_ok
      (bytes <$> split "." name) qtype qclass
      (if rdata is Some r then [DnsAnswer (bytes <$> split "." name) qtype 1 60 r] else [])).
Proof.
  intros Hhdr Hn Hqt Hqc Hrd Hlen.
  pose proof (dnsQuestion_query i0 i1 hdr name qtype qclass tail Hhdr Hn) as Hq.
  unfold dns_query in *.
  destruct (putUint16_bytes qtype Hqt) as (b0 & b1 & Hb & <-).
  destruct (putUint16_bytes qclass Hqc) as (b2 & b3 & Hb' & <-).
  rewrite Hb, Hb' in *. cbn [app] in Hq |- *.
  eexists. split.
  - eapply eq_trans; [apply (dnsResponse_eval _ _ _ _ b0 b1 b2 b3); [done| |exact Hq]|].
    + unfold appendDnsName. by intros [_ ?]%app_nil.
    + rewrite Hrd. done.
  - by apply parse_message_response, Hlen; apply reads_as_appendDnsName.
Qed.

(** What every byte string gets. *)
Lemma dnsResponse_cases query cfg targetPort :
  if decide (len query < 17)%Z then dnsResponse query cfg targetPort = Err "short DNS query"
  else match read_name (drop 12 query) with
  | None => ∃ e, dnsResponse query cfg targetPort = Err e
  | Some (ws, b0 :: b1 :: b2 :: b3 :: tail) =>
      let name := toLower (join (str <$> ws) ".") in
      let service := stripAttrleafPort name in
      if decide (be16 b0 b1 = 65%Z ∧ svcParamFixture service targetPort = None ∧
                 cfg !! service = None)
      then dnsResponse query cfg targetPort = Err ("no ECH fixture for " +:+ quote name)
      else ∃ response, dnsResponse query cfg targetPort = Ok response
  | Some _ => dnsResponse query cfg targetPort = Err "short DNS question"
  end.
Proof.
  case_decide as Hlen; [by unfold dnsResponse; rewrite decide_True|].
  pose proof (dnsQuestion_read query ltac:(lia)) as Hq.
  destruct (read_name (drop 12 query)) as [[ws rest]|] eqn:Hn.
  2: { destruct Hq as [e He]. exists e. unfold dnsResponse. by rewrite decide_False, He. }
  destruct Hq as [Hrest Hq]. 
  destruct rest as [|b0 [|b1 [|b2 [|b3 tail]]]].
  1-4: by unfold dnsResponse; rewrite decide_False, Hq, decide_True by (done || lia).
  apply read_labels_suffix in Hn as [nm Hnm].
  destruct query as [|i0 [|i1 query]]; [done|done|].
  assert (∃ hdr, length hdr = 10 ∧
    i0 :: i1 :: query = (i0 :: i1 :: hdr) ++ nm ++ [b0; b1; b2; b3] ++ tail) as (hdr & Hhdr & Hquery).
  { exists (take 10 query). cbn [drop] in Hnm.
    split; [rewrite length_take; unfold len in Hlen; simpl in Hlen; lia|].
    cbn [app]. rewrite <- Hnm. by rewrite take_drop. }
  rewrite Hquery in Hq |- *.
  assert (nm ≠ []) as Hne.
  { intros ->. rewrite Hquery, !len_app in Hrest. unfold len in Hrest. simpl in Hrest. lia. }
  assert (len ((i0 :: i1 :: hdr) ++ nm ++ [b0; b1; b2; b3] ++ tail)
    - len (b0 :: b1 :: b2 :: b3 :: tail) + 4 = 16 + len nm)%Z as Hend.
  { rewrite !len_app, !len_cons. unfold len at 1. rewrite Hhdr. rewrite len_nil. lia. }
  rewrite Hend, decide_False in Hq by (rewrite !len_cons; pose proof (len_nonneg tail); lia).
  rewrite (dnsResponse_eval _ _ _ _ _ _ _ _ _ _ _ _ Hhdr Hne Hq).
  unfold dnsRdata. set (name := toLower _). set (service := stripAttrleafPort name).
  case_decide as Hc.
  - destruct Hc as (H65 & Hf & Hcfg). rewrite H65.
    by rewrite decide_False, decide_True, Hf, Hcfg by done.
  - case_decide as Ha; [by eexists|]. case_decide as H65; [|by eexists].
    destruct (svcParamFixture service targetPort); [by eexists|].
    destruct (cfg !! service); [by eexists|]. by destruct Hc.
Qed.

Lemma dnsResponse_returns query cfg targetPort : dnsResponse query cfg targetPort ≠ Panic.
Proof.
  pose proof (dnsResponse_cases query cfg targetPort) as Hc.
  case_decide; [by rewrite Hc|].
  destruct (read_name _) as [[ws [|b0 [|b1 [|b2 [|b3 tail]]]]]|]; try by rewrite Hc.
  - cbv zeta in Hc. case_decide; [by rewrite Hc|]. by destruct Hc as [? ->].
  - by destruct Hc as [? ->].
Qed.

(** The queries that deserve a response: long enough, a name of labels no longer
    than 63 bytes that is all there, a type and a class after it, and, for an
    HTTPS question, a service the fixture knows. *)
Definition answerable query cfg targetPort : Prop :=
  (17 ≤ len query)%Z ∧
  ∃ ws b0 b1 b2 b3 tail,
    read_name (drop 12 query) = Some (ws, b0 :: b1 :: b2 :: b3 :: tail) ∧
    (be16 b0 b1 = 65%Z →
      let service := stripAttrleafPort (toLower (join (str <$> ws) ".")) in
      is_Some (svcParamFixture service targetPort) ∨ is_Some (cfg !! service)).

(** C4: [dnsResponse] never indexes or slices out of range, whatever bytes it is
    given, and it returns a response exactly for the answerable queries: every
    other one is an error. *)
Theorem dnsResponse_total query cfg targetPort :
  dnsResponse query cfg targetPort ≠ Panic ∧
  ((∃ response, dnsResponse query cfg targetPort = Ok response) ↔
   answerable query cfg targetPort).
Proof.
  split; [apply dnsResponse_returns|]. unfold answerable.
  pose proof (dnsResponse_cases query cfg targetPort) as Hc.
  case_decide; [rewrite Hc; split; [by intros [? ?] | intros [? _]; lia]|].
  destruct (read_name _) as [[ws [|b0 [|b1 [|b2 [|b3 tail]]]]]|];
    [rewrite Hc; split; [by intros [? ?] | intros (_ & ? & ? & ? & ? & ? & ? & ? & _); done]..| |].
  2: { destruct Hc as [e ->]. split; [by intros [? ?] | by intros (_ & ? & ? & ? & ? & ? & ? & ? & _)]. }
  cbv zeta in Hc |- *. case_decide as Hd.
  - rewrite Hc. split; [by intros [? ?]|].
    intros (_ & ws' & c0 & c1 & c2 & c3 & t & [= <- <- <- <- <- <-] & Hs).
    destruct Hd as (H65 & Hf & Hn), (Hs H65) as [[? E]|[? E]]; congruence.
  - split; [intros _; split; [lia|] | intros _; exact Hc].
    exists ws, b0, b1, b2, b3, tail. split; [done|]. intros H65.
    destruct (svcParamFixture _ _) eqn:Hf; [left; by eexists|].
    destruct (cfg !! _) eqn:Hn; [right; by eexists|]. by destruct Hd.
Qed.

(** An HTTPS question for a service the fixture does not know. *)
Lemma dnsResponse_unknown i0 i1 hdr name qtype qclass tail cfg targetPort e :
  length hdr = 10 → Forall dns_label (split "." name) →
  (0 ≤ qtype < 65536)%Z → (0 ≤ qclass < 65536)%Z →
  dnsRdata qtype (toLower name) cfg targetPort = Err e →
  dnsResponse (dns_query i0 i1 hdr name qtype qclass tail) cfg targetPort = Err e.
Proof.
  intros Hhdr Hn Hqt Hqc Hrd.
  pose proof (dnsQuestion_query i0 i1 hdr name qtype qclass tail Hhdr Hn) as Hq.
  unfold dns_query in *.
  destruct (putUint16_bytes qtype Hqt) as (b0 & b1 & Hb & <-).
  destruct (putUint16_bytes qclass Hqc) as (b2 & b3 & Hb' & <-).
  rewrite Hb, Hb' in *. cbn [app] in Hq |- *.
  eapply eq_trans; [apply (dnsResponse_eval _ _ _ _ b0 b1 b2 b3); [done| |exact Hq]|].
  - unfold appendDnsName. by intros [_ ?]%app_nil.
  - by rewrite Hrd.
Qed.

Lemma fixture_short name targetPort record :
  svcParamFixture name targetPort = Some record → (len record < 65536)%Z.
Proof.
  unfold svcParamFixture. intros Hr.
  repeat (case_decide; [injection Hr as <-; vm_compute; reflexivity|]). done.
Qed.

(** C3: a well-formed query, whatever its identifier, header flags, name (of
    labels of 1 to 63 bytes), type, class and trailing bytes.  Every such query gets
    the response an RFC 1035 resolver accepts for it (the same identifier, a
    response without error, the question echoed as it was asked, and at most one
    answer, for the name asked, of the type asked, class IN), with these answers:
    to type A, 127.0.0.1; to HTTPS, the record of the name in lower case and without
    a port prefix, which is the SvcParam fixture of that name or else the ECH
    record of its configuration (of a length that DNS can carry); to any other
    type, none.  The one exception is an HTTPS query for a name that has neither:
    it gets the error and no response. *)
Theorem dnsResponse_answers i0 i1 hdr name qtype qclass tail cfg targetPort :
  length hdr = 10 → Forall dns_label (split "." name) →
  (0 ≤ qtype < 65536)%Z → (0 ≤ qclass < 65536)%Z →
  let labels := bytes <$> split "." name in
  let service := stripAttrleafPort (toLower name) in
  let result := dnsResponse (dns_query i0 i1 hdr name qtype qclass tail) cfg targetPort in
  let answered r := result ≫= (λ response, Ok (parse_message response))
    = Ok (Some (DnsMessage [i0; i1] 33152 labels qtype qclass r)) in
  (qtype = 1%Z → answered [DnsAnswer labels 1 1 60 [x7f; x00; x00; x01]]) ∧
  (qtype = 65%Z → ∀ r, svcParamFixture service targetPort = Some r →
     answered [DnsAnswer labels 65 1 60 r]) ∧
  (qtype = 65%Z → svcParamFixture service targetPort = None → ∀ ech, cfg !! service = Some ech →
     (len ech < 65499)%Z → answered [DnsAnswer labels 65 1 60 (httpsRecord ech targetPort)]) ∧
  (qtype = 65%Z → svcParamFixture service targetPort = None → cfg !! service = None →
     result = Err ("no ECH fixture for " +:+ quote (toLower name))) ∧
  (qtype ≠ 1%Z → qtype ≠ 65%Z → answered []).
Proof.
  intros Hhdr Hn Hqt Hqc labels service result answered.
  assert (∀ rdata, dnsRdata qtype (toLower name) cfg targetPort = Ok rdata →
    (if rdata is Some r then len r < 65536 else True)%Z →
    answered (if rdata is Some r then [DnsAnswer labels qtype 1 60 r] else [])) as Hok.
  { intros rdata Hrd Hlen. unfold answered, result.
    destruct (dnsResponse_query i0 i1 hdr name qtype qclass tail cfg targetPort rdata)
      as (response & -> & Hp); [done..|]. cbn [mbind outcome_bind]. by rewrite Hp. }
  split_and!.
  - intros ->. by apply (Hok (Some _)).
  - intros -> r Hr. apply (Hok (Some r)); [|by eapply fixture_short].
    unfold dnsRdata. fold service. by rewrite decide_False, decide_True, Hr by done.
  - intros -> Hf ech He Hlen. apply (Hok (Some _)); [|rewrite len_httpsRecord; lia].
    unfold dnsRdata. fold service. by rewrite decide_False, decide_True, Hf, He by done.
  - intros -> Hf He. apply dnsResponse_unknown; [done..|].
    unfold dnsRdata. fold service. by rewrite decide_False, decide_True, Hf, He by done.
  - intros H1 H65. apply (Hok None); [|done]. unfold dnsRdata. by rewrite !decide_False by done.
Qed.
End Answers.

Lemma dnsResponse_answers_witness :
  let labels := bytes <$> ["Green"; "secret"; "test"] in
  @dnsResponse ascii_tables
    (dns_query x12 x34 (replicate 10 x00) "Green.secret.test" 1 1 []) ∅ 8443 ≫=
    (λ response, Ok (parse_message response))
  = Ok (Some (DnsMessage [x12; x34] 33152 labels 1 1
      [DnsAnswer labels 1 1 60 [x7f; x00; x00; x01]])).
Proof.
  refine (proj1 (@dnsResponse_answers ascii_tables x12 x34 (replicate 10 x00) "Green.secret.test" 1 1 []
    ∅ 8443 eq_refl _ _ _) eq_refl); [|lia|lia].
  change (split "." "Green.secret.test") with ["Green"; "secret"; "test"].
  repeat constructor; simpl; lia.
Defined.
