(* ===== verification/Doh.v ===== *)
(** * The DoH resolver process ([fixture doh])

    [requiredEnvironment], [decodeEnvironment], [readDnsQuery] and [runDoH] of
    ech-fixture/main.go: the configuration it starts from and the handler of
    [/dns-query].  The TLS key pair is crypto/tls and is a parameter, and so is what
    EchCerts puts in its place; the messages of strconv and base64 errors are
    shortened. *)

From S2P Require Import Prelude GoStrings Strconv Unicode Base64 Http Wire Svcb Ech EchTarget.
From S2P Require Import Dns DnsAnswer.

(** ** Configuration *)

(** [os.Getenv]: an unset variable is empty. *)
Definition getenv (env : gmap string string) (name : string) : string :=
  default "" (env !! name).

(** [log.Fatal] and [must] end the process; that is an [Err] here. *)
Definition requiredEnvironment (env : gmap string string) (name : string) : outcome string :=
  let value := getenv env name in
  if decide (value = "") then Err (name +:+ " is not set") else Ok value.

Definition decodeEnvironment (env : gmap string string) (name : string) : outcome (list byte) :=
  value ← requiredEnvironment env name;
  match stdDecode value with
  | Some value => Ok value
  | None => Err "illegal base64 data"
  end.

Section Doh.
Context {certificate : Type}.
(** [tls.X509KeyPair]. *)
Context (X509KeyPair : list byte → list byte → outcome certificate).

Record doh := DohServer {
  doh_certificate : certificate;
  doh_echConfigs : gmap string (list byte);
  doh_targetPort : Z;
}.

(** [runDoH] up to the listener. *)
Definition runDoH (env : gmap string string) : outcome doh :=
  certPEM ← decodeEnvironment env "DOH_CERT";
  keyPEM ← decodeEnvironment env "DOH_KEY";
  green ← decodeEnvironment env "ECH_GREEN_CONFIG_LIST";
  retry ← decodeEnvironment env "ECH_RETRY_STALE_CONFIG_LIST";
  disabled ← decodeEnvironment env "ECH_DISABLED_STALE_CONFIG_LIST";
  let echConfigs := <[greenName := green]> (<[retryName := retry]> {[disabledName := disabled]}) in
  port ← requiredEnvironment env "TARGET_PORT";
  targetPort ← match atoi port with
               | Some n => Ok n
               | None => Err "invalid TARGET_PORT"
               end;
  certificate ← X509KeyPair certPEM keyPEM;
  Ok (DohServer certificate echConfigs targetPort).
End Doh.
Arguments doh : clear implicits.

(** ** The handler *)

Definition readDnsQuery (r : request) : outcome (list byte) :=
  if decide (r_method r = "POST") then read_limited (r_body r) 65536
  else if decide (r_method r = "GET") then
    let encoded := values_get (r_query r) "dns" in
    match rawURLDecode encoded with
    | Some query => Ok query
    | None => Err "illegal base64 data"
    end
  else Err ("unsupported method " +:+ r_method r).

Section Handler.
Context `{UnicodeTables} {certificate : Type}.

Definition dns_query_handler (s : doh certificate) (r : request) : M () :=
  match readDnsQuery r with
  | Err e => httpError e 400
  | Panic => λ _, Panic
  | Ok query =>
      match dnsResponse query (doh_echConfigs s) (doh_targetPort s) with
      | Err e => httpError e 400
      | Panic => λ _, Panic
      | Ok response =>
          setHeader "Content-Type" "application/dns-message" ;;
          write response ;;
          mret ()
      end
  end.
End Handler.

(** ** How the suite starts the resolver *)

(** EchFixtureService hands these variables of the metadata to the container. *)
Definition doh_environment (m : gmap string string) (port : string) : option (gmap string string) :=
  green ← m !! "ECH_GREEN_CONFIG_LIST";
  retry ← m !! "ECH_RETRY_STALE_CONFIG_LIST";
  disabled ← m !! "ECH_DISABLED_STALE_CONFIG_LIST";
  cert ← m !! "DOH_CERT";
  key ← m !! "DOH_KEY";
  Some (<["ECH_GREEN_CONFIG_LIST" := green]> (<["ECH_RETRY_STALE_CONFIG_LIST" := retry]>
    (<["ECH_DISABLED_STALE_CONFIG_LIST" := disabled]> (<["DOH_CERT" := cert]>
      (<["DOH_KEY" := key]> {["TARGET_PORT" := port]}))))).

(** ** The handler's replies *)

Lemma enc6_url_safe d : (0 ≤ d < 64)%Z → query_safe (enc6 "-" "_" d).
Proof.
  intros Hd.
  assert (forallb (λ d, query_safe (enc6 "-" "_" d)) (seqZ 0 64) = true) as Hall
    by (vm_compute; reflexivity).
  rewrite forallb_forall in Hall. specialize (Hall d).
  rewrite <- list_elem_of_In, elem_of_seqZ in Hall. by rewrite Hall by lia.
Qed.

Lemma rawURLEncode_safe l : sforall query_safe (rawURLEncode l).
Proof.
  unfold rawURLEncode.
  assert (∀ b0 b1 b2, match group_chars "-" "_" b0 b1 b2 with (a0, a1, a2, a3) =>
    query_safe a0 ∧ query_safe a1 ∧ query_safe a2 ∧ query_safe a3 end) as Hg.
  { intros b0 b1 b2.
    destruct (group_digits "-" "_" b0 b1 b2) as (d0 & d1 & d2 & d3 & -> & (? & ? & ? & ?) & _).
    split_and!; by apply enc6_url_safe. }
  induction l as [|b0|b0 b1|b0 b1 b2 l IH] using list_ind3; [done|..]; cbn [encode_raw].
  - specialize (Hg b0 x00 x00). destruct (group_chars _ _ _ _ _) as [[[a0 a1] a2] a3].
    cbn. rewrite !andb_True. naive_solver.
  - specialize (Hg b0 b1 x00). destruct (group_chars _ _ _ _ _) as [[[a0 a1] a2] a3].
    cbn. rewrite !andb_True. naive_solver.
  - specialize (Hg b0 b1 b2). destruct (group_chars _ _ _ _ _) as [[[a0 a1] a2] a3].
    cbn [sforall]. rewrite !andb_True. naive_solver.
Qed.

(** RFC 8484: a GET carries the message unpadded in [dns=]; a POST carries it as
    the body, of which at most 65536 bytes are read. *)
Lemma readDnsQuery_get r query :
  r_method r = "GET" → r_rawquery r = "dns=" +:+ rawURLEncode query →
  readDnsQuery r = Ok query.
Proof.
  intros Hm Hq. unfold readDnsQuery. rewrite Hm. rewrite decide_False, decide_True by done.
  unfold r_query. rewrite Hq.
  change ("dns=" +:+ rawURLEncode query) with ("dns" +:+ String "=" (rawURLEncode query)).
  rewrite parseQuery_single; [|done..|apply rawURLEncode_safe].
  unfold values_get. rewrite lookup_singleton_eq. cbn [from_option id head].
  by rewrite rawURLDecode_encode.
Qed.

Lemma readDnsQuery_post r query :
  r_method r = "POST" → r_body r = Body query None → (len query ≤ 65536)%Z →
  readDnsQuery r = Ok query.
Proof.
  intros Hm Hb Hl. unfold readDnsQuery. rewrite Hm, decide_True, Hb by done.
  unfold read_limited. cbn [body_data body_err]. case_decide; [|done].
  f_equal. apply take_ge. unfold len in *. lia.
Qed.

Section Replies.
Context `{UnicodeTables} {certificate : Type}.

Definition dns_message_header : header := header_set "Content-Type" "application/dns-message" ∅.

(** C18: the [/dns-query] handler always replies: with the DNS response, status
    200 and [application/dns-message], when the query could be read and
    [dnsResponse] answers it, and otherwise with status 400 and the error as
    plain text; no request makes it panic. *)
Theorem dns_query_handler_spec (s : doh certificate) r :
  serve false (dns_query_handler s r)
  = match readDnsQuery r ≫= λ query, dnsResponse query (doh_echConfigs s) (doh_targetPort s) with
    | Ok response => Ok (Response 200 dns_message_header response [])
    | Err e => Ok (Response 400 (error_header ∅) (error_body e) [])
    | Panic => Panic
    end
  ∧ serve false (dns_query_handler s r) ≠ Panic.
Proof.
  assert (readDnsQuery r ≠ Panic) as Hread.
  { unfold readDnsQuery, read_limited. by repeat case_match. }
  unfold dns_query_handler. destruct (readDnsQuery r) as [query|e|]; [|..|done].
  2: { cbn [mbind outcome_bind]. by rewrite serve_httpError. }
  cbn [mbind outcome_bind]. pose proof (dnsResponse_returns query (doh_echConfigs s) (doh_targetPort s)) as Hresp.
  destruct (dnsResponse query _ _) as [response|e|]; [|..|done].
  2: { by rewrite serve_httpError. }
  destruct (run_write_fresh false dns_message_header response) as (w & Hw & Hs & Hi & Hb).
  { done. }
  rewrite (serve_done false _ w 200 dns_message_header); [by rewrite Hi, Hb| |done].
  change (new_writer false) with (fresh_writer false ∅).
  rewrite (run_bind _ _ _ _ _ (run_setHeader _ _ false ∅)).
  by rewrite (run_bind _ _ _ _ _ Hw).
Qed.
End Replies.
