(* ===== verification/EchFixture.v ===== *)
(** * The two ECH containers together

    What a client that resolves a name at the DoH container and then connects
    to the origin container gets: ECH accepted, retried, or declined, through
    the metadata document, the environment, DNS and the TLS callbacks. *)

From S2P Require Import Prelude GoStrings Strconv Unicode Base64 Http Wire Svcb Ech EchTarget.
From S2P Require Import Dns DnsAnswer Doh.

(** ** The names a resolver is asked *)

(** The name itself, or the Attrleaf name for a port (RFC 9460 §2.3). *)
Definition asks_for (name service : string) : Prop :=
  name = service ∨
  ∃ port p, parseUint port 16 = Some p ∧ name = "_" +:+ (port +:+ ("._https." +:+ service)).

Section Https.
Context `{UnicodeTables}.

Lemma https_answer i0 i1 hdr name qclass tail cfg targetPort service ech :
  length hdr = 10 → Forall dns_label (split "." name) → (0 ≤ qclass < 65536)%Z →
  asks_for (toLower name) service → stripAttrleafPort service = service →
  svcParamFixture service targetPort = None → cfg !! service = Some ech → (len ech ≤ 65498)%Z →
  ∃ response rdata,
    dnsResponse (dns_query i0 i1 hdr name 65 qclass tail) cfg targetPort = Ok response ∧
    parse_message response = Some (DnsMessage [i0; i1] flags_ok (bytes <$> split "." name) 65 qclass
      [DnsAnswer (bytes <$> split "." name) 65 1 60 rdata]) ∧
    parse_svcb rdata = Some (origin_record ech targetPort).
Proof.
  intros Hhdr Hn Hqc Hask Hstrip Hfix Hcfg Hech.
  assert (stripAttrleafPort (toLower name) = service) as Hs.
  { destruct Hask as [->|(port & p & Hp & ->)]; [done|]. by eapply stripAttrleafPort_prefix. }
  assert (dnsRdata 65 (toLower name) cfg targetPort = Ok (Some (httpsRecord ech targetPort))) as Hrd.
  { unfold dnsRdata. rewrite decide_False, decide_True by done. by rewrite Hs, Hfix, Hcfg. }
  destruct (dnsResponse_query i0 i1 hdr name 65 qclass tail cfg targetPort _
    Hhdr Hn ltac:(done) Hqc Hrd) as (response & Hresp & Hparse).
  { rewrite len_httpsRecord. lia. }
  exists response, (httpsRecord ech targetPort). split_and!; [done | done |].
  apply parse_httpsRecord. lia.
Qed.

End Https.

(** ** Starting the resolver from the origin's metadata *)

Lemma decodeEnvironment_ok (env : gmap string string) name l :
  env !! name = Some (stdEncode l) → l ≠ [] → decodeEnvironment env name = Ok l.
Proof.
  intros He Hl. unfold decodeEnvironment, requiredEnvironment, getenv. rewrite He. cbn [from_option id].
  rewrite decide_False by (intros E; by apply Hl, stdEncode_nil).
  cbn [mbind outcome_bind]. by rewrite stdDecode_encode.
Qed.

Lemma configList_ne key : configList key ≠ [].
Proof. unfold configList, appendUint16Length, appendUint16. intros [=]. Qed.

Section Start.
Context {certificate : Type} (X509KeyPair : list byte → list byte → outcome certificate).

Lemma runDoH_from_metadata keys dohCertPEM dohKeyPEM caPEM port targetPort cert :
  dohCertPEM ≠ [] → dohKeyPEM ≠ [] → port ≠ "" → atoi port = Some targetPort →
  X509KeyPair dohCertPEM dohKeyPEM = Ok cert →
  ∃ m env,
    parse_metadata (metadata keys dohCertPEM dohKeyPEM caPEM) = Some m ∧
    doh_environment m port = Some env ∧
    runDoH X509KeyPair env = Ok (DohServer cert
      (<[greenName := configList (greenKey keys)]>
         (<[retryName := configList (retryStaleKey keys)]>
            {[disabledName := configList (disabledStaleKey keys)]})) targetPort).
Proof.
  intros Hcert Hkey Hport Hatoi Hpair. eexists _, _. split; [apply parse_metadata_ok|].
  split; [reflexivity|]. unfold runDoH.
  rewrite (decodeEnvironment_ok _ "DOH_CERT" dohCertPEM); [|reflexivity|done]. cbn [mbind outcome_bind].
  rewrite (decodeEnvironment_ok _ "DOH_KEY" dohKeyPEM); [|reflexivity|done]. cbn [mbind outcome_bind].
  rewrite (decodeEnvironment_ok _ "ECH_GREEN_CONFIG_LIST" (configList (greenKey keys))); [|reflexivity|apply configList_ne].
  cbn [mbind outcome_bind].
  rewrite (decodeEnvironment_ok _ "ECH_RETRY_STALE_CONFIG_LIST" (configList (retryStaleKey keys)));
    [|reflexivity|apply configList_ne].
  cbn [mbind outcome_bind].
  rewrite (decodeEnvironment_ok _ "ECH_DISABLED_STALE_CONFIG_LIST" (configList (disabledStaleKey keys)));
    [|reflexivity|apply configList_ne].
  cbn [mbind outcome_bind].
  assert (∀ env : gmap string string, env !! "TARGET_PORT" = Some port →
    requiredEnvironment env "TARGET_PORT" = Ok port) as Hreq.
  { intros env He. unfold requiredEnvironment, getenv. rewrite He. by rewrite decide_False. }
  rewrite Hreq by reflexivity. cbn [mbind outcome_bind]. rewrite Hatoi. cbn [mbind outcome_bind].
  by rewrite Hpair.
Qed.
End Start.

(** ** The three scenarios *)

Definition scenario (keys : target_keys) : list (string * ech_outcome) :=
  [(greenName, Accepted);
   (retryName, Rejected [key_config (retryKey keys)]);
   (disabledName, Rejected [])].

(** The configuration list DNS publishes for a name. *)
Definition published (keys : target_keys) : list (string * list byte) :=
  [(greenName, configList (greenKey keys));
   (retryName, configList (retryStaleKey keys));
   (disabledName, configList (disabledStaleKey keys))].

Lemma ech_server_single key offered :
  ech_server [ServerKey (key_config key) (key_private key) (key_retryable key)] offered
  = if decide (offered = key_config key) then Accepted
    else Rejected (if key_retryable key then [key_config key] else []).
Proof.
  unfold ech_server. cbn [fmap list_fmap Config].
  rewrite (decide_ext _ (offered = key_config key)) by set_solver.
  case_decide; [done|]. cbn. by destruct (key_retryable key).
Qed.

Section Scenarios.
Context (keys : target_keys).
Hypothesis Hkeys : keys_made keys.

Lemma made_retryable key id name r : made key id name r → key_retryable key = r.
Proof. by intros (? & ? & _ & [= <-]). Qed.

Lemma connect_published name ech :
  (name, ech) ∈ published keys →
  ∃ o, (name, o) ∈ scenario keys ∧ ech_connect keys ech = Some o.
Proof.
  pose proof Hkeys as []. unfold published, scenario. rewrite !elem_of_cons.
  intros [[= -> ->]|[[= -> ->]|[[= -> ->]|[]%elem_of_nil]]].
  - exists Accepted. split; [set_solver|]. erewrite made_connect by done.
    unfold getEncryptedClientHelloKeys. cbn [decide].
    rewrite decide_True by done. rewrite ech_server_single. by rewrite decide_True.
  - exists (Rejected [key_config (retryKey keys)]). split; [set_solver|].
    erewrite made_connect by done. unfold getEncryptedClientHelloKeys.
    rewrite decide_False, decide_True by done. rewrite ech_server_single, decide_False.
    + by erewrite made_retryable by done.
    + intros E. eapply made_inj in E; [|done..]. done.
  - exists (Rejected []). split; [set_solver|].
    erewrite made_connect by done. unfold getEncryptedClientHelloKeys.
    rewrite decide_False, decide_False, decide_True by done.
    rewrite ech_server_single, decide_False.
    + by erewrite made_retryable by done.
    + intros E. eapply made_inj in E; [|done..]. done.
Qed.

Lemma connect_retry : ech_connect keys (configList (retryKey keys)) = Some Accepted.
Proof.
  pose proof Hkeys as []. erewrite made_connect by done.
  unfold getEncryptedClientHelloKeys. rewrite decide_False, decide_True by done.
  by rewrite ech_server_single, decide_True.
Qed.

Lemma published_size name ech : (name, ech) ∈ published keys → (len ech ≤ 65300)%Z.
Proof.
  assert (∀ key id nm r, made key id nm r → (len (configList key) ≤ 65300)%Z) as Hmade.
  { intros key id nm r (pk & sk & [Hpk Hnm] & [= <-]). unfold configList. cbn [key_config].
    rewrite marshal_contents. autorewrite with go_len. rewrite len_config_contents. lia. }
  pose proof Hkeys as []. unfold published. rewrite !elem_of_cons.
  intros [[= -> ->]|[[= -> ->]|[[= -> ->]|[]%elem_of_nil]]]; eauto.
Qed.
End Scenarios.

(** ** End to end *)

Section EndToEnd.
Context `{UnicodeTables} {certificate : Type}.
Context (X509KeyPair : list byte → list byte → outcome certificate).

(** C1: the two containers do what the fixture promises, for every key material
    [GenerateKey] yields.  The origin makes its keys and publishes its metadata
    document; the suite reads it and starts the resolver with the variables in
    it; then for each of the three scenario names, asked in any case, under the
    bare name or its [_port._https.] form, with any identifier, class and
    trailing bytes, the response has one answer, an RFC 9460 record whose ECH
    configuration list, used to connect to the origin, gives what the scenario
    is for: green is accepted, retry is rejected with exactly the current retry
    configuration, disabled is rejected with none.  Connecting again with the
    retry configuration is accepted. *)
Theorem ech_end_to_end gen dohCertPEM dohKeyPEM caPEM cert :
  gen_ok gen → dohCertPEM ≠ [] → dohKeyPEM ≠ [] → X509KeyPair dohCertPEM dohKeyPEM = Ok cert →
  ∃ keys m env s,
    makeTargetKeys gen = Ok keys ∧
    parse_metadata (metadata keys dohCertPEM dohKeyPEM caPEM) = Some m ∧
    doh_environment m "8443" = Some env ∧
    runDoH X509KeyPair env = Ok s ∧
    (∀ service o i0 i1 hdr name qclass tail,
      (service, o) ∈ scenario keys → length hdr = 10 →
      Forall dns_label (split "." name) → (0 ≤ qclass < 65536)%Z →
      asks_for (toLower name) service →
      ∃ response a ech,
        dnsResponse (dns_query i0 i1 hdr name 65 qclass tail) (doh_echConfigs s)
          (doh_targetPort s) = Ok response ∧
        msg_answers <$> parse_message response = Some [a] ∧
        parse_svcb (ans_rdata a) = Some (origin_record ech 8443) ∧
        ech_connect keys ech = Some o) ∧
    ech_connect keys (configList (retryKey keys)) = Some Accepted.
Proof.
  intros Hgen Hcert Hkey Hpair.
  destruct (makeTargetKeys_made gen Hgen) as (keys & Hkeys & Hmade).
  destruct (runDoH_from_metadata X509KeyPair keys dohCertPEM dohKeyPEM caPEM "8443" 8443 cert)
    as (m & env & Hm & Henv & Hs); [done..|].
  eexists keys, m, env, _. split_and!; [done..| |by apply connect_retry].
  intros service o i0 i1 hdr name qclass tail Hsc Hhdr Hn Hqc Hask.
  cbn [doh_echConfigs doh_targetPort].
  set (cfg := <[greenName := _]> _).
  assert (∃ ech, (service, ech) ∈ published keys ∧ cfg !! service = Some ech ∧
    stripAttrleafPort service = service ∧ svcParamFixture service 8443 = None)
    as (ech & Hpub & Hcfg & Hstrip & Hfix).
  { unfold scenario in Hsc. rewrite !elem_of_cons in Hsc. unfold published, cfg.
    destruct Hsc as [[= -> _]|[[= -> _]|[[= -> _]|[]%elem_of_nil]]];
      (eexists; split; [|split; [reflexivity | done]]; set_solver). }
  destruct (connect_published keys Hmade service ech Hpub) as (outcome' & Hsc' & Hconn).
  assert (outcome' = o) as ->.
  { clear -Hsc Hsc'. unfold scenario in *. rewrite !elem_of_cons in Hsc, Hsc'.
    destruct Hsc as [[= -> ->]|[[= -> ->]|[[= -> ->]|[]%elem_of_nil]]];
    destruct Hsc' as [[= ->]|[[= ->]|[[= ->]|[]%elem_of_nil]]]; done. }
  pose proof (published_size keys Hmade service ech Hpub).
  destruct (https_answer i0 i1 hdr name qclass tail cfg 8443 service ech)
    as (response & rdata & Hresp & Hparse & Hrd); [done..|lia|].
  eexists response, _, ech. split_and!; [done | by rewrite Hparse | done | done].
Qed.
End EndToEnd.

Definition example_gen (i : nat) : outcome (list byte * list byte) :=
  Ok (replicate 32 (byte_of_Z (Z.of_nat i)), [byte_of_Z (Z.of_nat i)]).

Lemma ech_end_to_end_witness :
  ∃ keys s, makeTargetKeys example_gen = Ok keys ∧
    ∃ response a ech,
      @dnsResponse ascii_tables
        (dns_query x12 x34 (replicate 10 x00) "_8443._https.Retry.Secret.test" 65 1 [])
        (@doh_echConfigs (list byte) s) (doh_targetPort s) = Ok response ∧
      msg_answers <$> parse_message response = Some [a] ∧
      parse_svcb (ans_rdata a) = Some (origin_record ech 8443) ∧
      ech_connect keys ech = Some (Rejected [key_config (retryKey keys)]).
Proof.
  destruct (@ech_end_to_end ascii_tables (list byte) (λ cert _, Ok cert) example_gen
    [x01] [x02] [x03] [x01]) as (keys & m & env & s & Hk & _ & _ & _ & Hq & _).
  { intros i Hi. eexists _, _. split; [reflexivity|].
    unfold len. rewrite length_replicate. reflexivity. }
  { discriminate. }
  { discriminate. }
  { reflexivity. }
  exists keys, s. split; [exact Hk|].
  apply (Hq retryName); [| reflexivity | | lia |].
  - unfold scenario. rewrite !elem_of_cons. tauto.
  - change (split "." _) with ["_8443"; "_https"; "Retry"; "Secret"; "test"].
    repeat constructor; simpl; lia.
  - right. exists "8443", 8443%Z. split; reflexivity.
Defined.
