(* ===== verification/EchOrigin.v ===== *)
(** * What the containers of the ECH fixture answer

    ech-fixture/main.go: [main], the handlers of [runTarget] and of [runDoH] and
    the multiplexers they are registered with.  The origin writes the name of the
    handshake with [%q], Go's quoting, into a JSON document: [read_quote] says
    when that is JSON. *)

From S2P Require Import Prelude GoStrings Strconv Unicode StrOrder Json Base64 Http HttpSpec Mux Wire Svcb Ech EchTarget.
From S2P Require Import Dns DnsAnswer Doh.

(** ** [main] *)

Inductive mode := TargetMode | DoHMode.

(** [os.Args], the program's name first; [log.Fatal] is an [Err]. *)
Definition main `{UnicodeTables} (args : list string) : outcome mode :=
  if decide (length args ≠ 2) then Err "usage: fixture target|doh"
  else
    arg ← index args 1;
    if decide (arg = "target") then Ok TargetMode
    else if decide (arg = "doh") then Ok DoHMode
    else Err ("unknown mode " +:+ quote arg).

(** ** Handlers *)

Definition fixture_health : M () := write (bytes "ok") ;; mret ().

Definition metadata_handler (metadata : string) : M () := write (bytes metadata) ;; mret ().

(** The verbs [%t] and [%q]. *)
Definition origin_json `{UnicodeTables} (accepted : bool) (serverName : string) : string :=
  "{" +:+ (quote "echAccepted" +:+ (":" +:+ ((if accepted then "true" else "false") +:+
  ("," +:+ (quote "serverName" +:+ (":" +:+ (quote serverName +:+ "}"))))))).

(** The handler of [/] on the TLS listener; [r.TLS] is nil only without TLS. *)
Definition origin_handler `{UnicodeTables} (r : request) : M () :=
  setHeader "Content-Type" "application/json" ;;
  match r_tls r with
  | None => λ _, Panic
  | Some cs => write (bytes (origin_json (cs_ech_accepted cs) (cs_server_name cs))) ;; mret ()
  end.

(** ** Multiplexers *)

Abbreviation route := (string * (request → M ()))%type.

Definition metadata_routes (metadata : string) : list route :=
  [("/health", λ _, fixture_health); ("/metadata", λ _, metadata_handler metadata)].
Definition origin_routes `{UnicodeTables} : list route := [("/", origin_handler)].
Definition doh_routes `{UnicodeTables} {certificate} (s : doh certificate) : list route :=
  [("/health", λ _, fixture_health); ("/dns-query", dns_query_handler s)].

(** Registering a pattern that does not parse panics. *)
Definition patterns_of (routes : list route) : option (list (pattern * (request → M ()))) :=
  mapM (λ p, pattern ← parsePattern p.1; Some (pattern, p.2)) routes.

(** [ServeMux.ServeHTTP] for a request whose escaped path is [path]; a redirect
    is its location. *)
Definition mux_reply (routes : list route) (path : string) (r : request) : outcome (response + string) :=
  match patterns_of routes with
  | None => Panic
  | Some ps =>
      let answer h := resp ← serve (bool_decide (r_method r = "HEAD")) h; Ok (inl resp) in
      match findHandler ps (r_method r) path with
      | Found pa _ => answer (pa.2 r)
      | RedirectTo location => Ok (inr location)
      | MethodNotAllowed allow =>
          answer (setHeader "Allow" (join allow ", ") ;; httpError "Method Not Allowed" 405)
      | NotFound => answer (httpError "404 page not found" 404)
      end
  end.

(** ** When Go's quoting is JSON *)

Lemma join_empty_cons w ws : join (w :: ws) "" = w +:+ join ws "".
Proof. destruct ws as [|w' ws]; [cbn; by rewrite sapp_nil_r|]. by rewrite join_cons. Qed.

Section Quote.
Context `{UnicodeTables}.

(** A rune whose escape RFC 8259 knows. *)
Definition json_safe (p : Z * list byte) : bool :=
  negb (bad_rune p) &&
  (is_print p.1 || bool_decide (p.1 ∈ [8; 9; 10; 12; 13]%Z) || ((128 <=? p.1) && (p.1 <? 65536))%Z).

Lemma hex_digits_4 r : hex_digits 4 r "" = hex4 r.
Proof. unfold hex4. cbn [hex_digits]. by rewrite !Z.div_div by done. Qed.

Lemma read_bad_escape b s rest :
  b ≠ "u"%char → read_escape b = None → read_chars (String backslash (String b s) +:+ rest) = None.
Proof.
  intros Hu Hb. rewrite !sapp_cons_l. cbn [read_chars].
  rewrite decide_False, decide_True, decide_False by done. by rewrite Hb.
Qed.

(** One rune. *)
Lemma read_escape_rune p s :
  rune_ok p →
  read_chars (escape_rune p +:+ s)
  = if json_safe p then '(t, rest) ← read_chars s; Some (str p.2 +:+ t, rest) else None.
Proof.
  destruct p as [r l]. intros Hok. unfold escape_rune, json_safe. cbn [fst snd].
  destruct (bad_rune (r, l)) eqn:Hbad.
  { cbn [negb andb]. by apply read_bad_escape. }
  destruct Hok as [[? _]|(_ & Hl & Hr)]; [congruence|]. cbn [fst snd] in Hl, Hr. cbn [negb andb]. subst l.
  assert (0 ≤ r ≤ 1114111 ∧ ¬ 55296 ≤ r ≤ 57343)%Z as [Hrange Hsur] by (destruct Hr as [|[]]; lia).
  destruct ((r =? 34) || (r =? 92))%Z eqn:E1.
  { apply orb_true_iff in E1 as [E%Z.eqb_eq|E%Z.eqb_eq]; subst r; by apply read_short_escape. }
  apply orb_false_iff in E1 as [H34%Z.eqb_neq H92%Z.eqb_neq].
  destruct (is_print r) eqn:Hprint.
  { cbn [orb]. apply read_plain. destruct Hr as [Hr|[_ Hr]].
    - rewrite encode_rune_1 by done. apply Forall_singleton. unfold plain.
      rewrite char_code_byte, Z_of_byte_of_Z, Z.mod_small by lia. unfold is_print in Hprint.
      destruct (Z.ltb_spec r 127); lia.
    - eapply Forall_impl; [exact Hr|]. intros b Hb. unfold plain. rewrite char_code_byte. cbn beta in Hb. lia. }
  cbn [orb].
  destruct (Z.eqb_spec r 7) as [->|H7]; [by apply read_bad_escape|].
  destruct (Z.eqb_spec r 8) as [->|H8]; [by apply read_short_escape|].
  destruct (Z.eqb_spec r 12) as [->|H12]; [by apply read_short_escape|].
  destruct (Z.eqb_spec r 10) as [->|H10]; [by apply read_short_escape|].
  destruct (Z.eqb_spec r 13) as [->|H13]; [by apply read_short_escape|].
  destruct (Z.eqb_spec r 9) as [->|H9]; [by apply read_short_escape|].
  destruct (Z.eqb_spec r 11) as [->|H11]; [by apply read_bad_escape|].
  rewrite bool_decide_false by (rewrite !elem_of_cons, elem_of_nil; lia). cbn [orb].
  unfold is_print in Hprint.
  destruct ((r <? 32) || (r =? 127))%Z eqn:E2.
  { rewrite orb_true_iff, Z.ltb_lt, Z.eqb_eq in E2.
    destruct (Z.leb_spec 128 r); [lia|]. cbn [andb]. apply (read_bad_escape "x"); [discriminate|reflexivity]. }
  apply orb_false_iff in E2 as [E2%Z.ltb_ge E127%Z.eqb_neq].
  destruct (Z.leb_spec 128 r) as [H128|H128].
  2: { destruct (Z.ltb_spec r 127); lia. }
  destruct (Z.ltb_spec r 65536); cbn [andb]; [|apply (read_bad_escape "U"); [discriminate|reflexivity]].
  rewrite hex_digits_4. apply read_u_escape; lia.
Qed.

Lemma read_escape_runes ps rest :
  Forall rune_ok ps →
  read_chars (join (escape_rune <$> ps) "" +:+ String dquote rest)
  = if forallb json_safe ps then Some (str (concat (snd <$> ps)), rest) else None.
Proof.
  induction 1 as [|p ps Hp Hps IH].
  { cbn [fmap list_fmap join]. rewrite sapp_nil_l. cbn [read_chars]. by rewrite decide_True. }
  rewrite !fmap_cons, join_empty_cons, sapp_assoc, read_escape_rune by done. cbn [concat forallb].
  destruct (json_safe p); [|done]. cbn [andb]. rewrite IH. destruct (forallb json_safe ps); [|done].
  cbn [mbind option_bind]. do 2 f_equal. apply bytes_inj. by rewrite bytes_app, !bytes_str.
Qed.

(** A whole string: read back if every rune is safe, and no JSON otherwise. *)
Lemma read_quote s rest :
  read_string (quote s +:+ rest)
  = if forallb json_safe (runes (bytes s)) then Some (s, rest) else None.
Proof.
  unfold read_string, quote, expect. rewrite !sapp_cons_l, skip_ws_cons by done.
  rewrite decide_True by done. cbn [mbind option_bind]. rewrite sapp_assoc, sapp_cons_l, sapp_nil_l.
  rewrite read_escape_runes by apply runes_ok. by rewrite runes_concat, str_bytes.
Qed.
End Quote.

(** The document up to the value that varies. *)
Lemma origin_json_prefix `{UnicodeTables} accepted serverName fuel :
  read_value (S (S (S (S (S fuel))))) (origin_json accepted serverName)
  = '(ms, s) ← ('(ms, s) ←
        ('(v, s) ← read_value (S (S fuel)) (quote serverName +:+ "}");
         match expect "," s with
         | Some s => '(ms, s) ← read_members (S (S fuel)) s; Some (("serverName", v) :: ms, s)
         | None => s ← expect "}" s; Some ([("serverName", v)], s)
         end);
      Some (("echAccepted", JBool accepted) :: ms, s));
    Some (JObj ms, s).
Proof. unfold origin_json. generalize (quote serverName +:+ "}") as rest. by destruct accepted. Qed.

(** The whole document. *)
Lemma parse_origin_json `{UnicodeTables} accepted serverName :
  parse_json (origin_json accepted serverName)
  = if forallb json_safe (runes (bytes serverName))
    then Some (JObj [("echAccepted", JBool accepted); ("serverName", JStr serverName)]) else None.
Proof.
  assert (∀ fuel rest, read_value (S fuel) (quote serverName +:+ rest)
    = if forallb json_safe (runes (bytes serverName)) then Some (JStr serverName, rest) else None) as Hvalue.
  { intros fuel rest. pose proof (read_quote serverName rest) as Hq.
    unfold quote in *. rewrite sapp_cons_l in *. set (t := _ +:+ rest) in *.
    change (read_chars t = if forallb json_safe (runes (bytes serverName)) then Some (serverName, rest) else None) in Hq.
    change ((read_chars t ≫= λ '(t, s), Some (JStr t, s))
      = if forallb json_safe (runes (bytes serverName)) then Some (JStr serverName, rest) else None).
    rewrite Hq. by destruct (forallb _ _). }
  assert (∃ fuel, String.length (origin_json accepted serverName) = S (S (S (S fuel)))) as [fuel Hfuel]
    by (destruct accepted; eexists; reflexivity).
  unfold parse_json. rewrite Hfuel, origin_json_prefix, Hvalue.
  by destruct (forallb json_safe (runes (bytes serverName))).
Qed.

(** ** The replies *)

Definition origin_header : header := header_set "Content-Type" "application/json" ∅.

Lemma serve_write head h data :
  fits h (len data) →
  ∀ (m : M ()), m (new_writer head) = (write data ;; mret ()) (fresh_writer head h) →
  serve head m = Ok (Response 200 h (if head then [] else data) []).
Proof.
  intros Hf m Hm. destruct (run_write_fresh head h data Hf) as (w & Hw & Hs & Hi & Hb).
  rewrite (serve_done head m w 200 h); [by rewrite Hb, Hi| |done].
  rewrite Hm. by rewrite (run_bind _ _ _ _ _ Hw).
Qed.

(** C22: what the listeners of the origin container say.  The TLS listener
    answers every method but CONNECT on every path that is clean with 200 and a
    document that gives whether ECH was accepted and the name of the inner hello;
    that document is JSON exactly when each rune of the name has an escape that
    JSON knows, and then it reads back as what the handshake was, and a name with
    a BEL, which TLS does not rule out, makes it no JSON at all.  The plain
    listener gives the metadata document at /metadata, and ok at /health; and the
    resolver runs [dns_query_handler] at /dns-query, for every method. *)
Theorem origin_replies `{UnicodeTables} {certificate} (s : doh certificate) :
  (∀ r cs path, r_tls r = Some cs → r_method r ≠ "" → r_method r ≠ "CONNECT" → cleanPath path = path →
     let document := origin_json (cs_ech_accepted cs) (cs_server_name cs) in
     mux_reply origin_routes path r
       = Ok (inl (Response 200 origin_header
                    (if bool_decide (r_method r = "HEAD") then [] else bytes document) [])) ∧
     parse_json document
       = if forallb json_safe (runes (bytes (cs_server_name cs)))
         then Some (JObj [("echAccepted", JBool (cs_ech_accepted cs));
                          ("serverName", JStr (cs_server_name cs))])
         else None) ∧
  (∀ accepted, parse_json (origin_json accepted (String (char_of 7) "")) = None) ∧
  (∀ metadata r, r_method r ≠ "" → r_method r ≠ "HEAD" →
     mux_reply (metadata_routes metadata) "/metadata" r = Ok (inl (Response 200 ∅ (bytes metadata) [])) ∧
     mux_reply (metadata_routes metadata) "/health" r = Ok (inl (Response 200 ∅ (bytes "ok") []))) ∧
  (∀ r, r_method r ≠ "" →
     mux_reply (doh_routes s) "/dns-query" r
     = (resp ← serve (bool_decide (r_method r = "HEAD")) (dns_query_handler s r); Ok (inl resp))).
Proof.
  split_and!.
  - intros r cs path Htls Hm Hcon Hc document. split; [|apply parse_origin_json].
    unfold mux_reply.
    change (patterns_of origin_routes) with (Some [(Pattern "" [Multi ""], origin_handler)]).
    cbv beta iota zeta. rewrite findHandler_root by done. cbn [snd].
    rewrite (serve_write _ origin_header (bytes document)); [done|done|].
    unfold origin_handler. rewrite Htls. exact (run_bind _ _ _ _ _ (run_setHeader _ _ _ ∅)).
  - intros accepted. by rewrite parse_origin_json.
  - intros metadata r Hm Hh. unfold mux_reply.
    change (patterns_of (metadata_routes metadata)) with (Some
      [(Pattern "" [Lit "health"], (λ _ : request, fixture_health));
       (Pattern "" [Lit "metadata"], (λ _ : request, metadata_handler metadata))]).
    cbv beta iota zeta. rewrite bool_decide_false by done. split.
    + rewrite (findHandler_exact _ (Pattern "" [Lit "metadata"], (λ _ : request, metadata_handler metadata))
        _ _ []); [|done|done|done|by right; left|by left|done|by repeat constructor].
      cbn [snd]. by rewrite (serve_write _ ∅ (bytes metadata)).
    + rewrite (findHandler_exact _ (Pattern "" [Lit "health"], (λ _ : request, fixture_health))
        _ _ []); [|done|done|done|by left|by left|done|by repeat constructor].
      cbn [snd]. by rewrite (serve_write _ ∅ (bytes "ok")).
  - intros r Hm. unfold mux_reply.
    change (patterns_of (doh_routes s)) with (Some
      [(Pattern "" [Lit "health"], (λ _ : request, fixture_health));
       (Pattern "" [Lit "dns-query"], dns_query_handler s)]).
    cbv beta iota zeta. by rewrite (findHandler_exact _ (Pattern "" [Lit "dns-query"], dns_query_handler s)
      _ _ []); [|done|done|done|by right; left|by left|done|by repeat constructor].
Qed.

Definition example_hello : conn_state := ConnectionState 772 4865 "h2" "green.secret.test" false true [].

Lemma origin_replies_witness :
  ∃ document,
    @mux_reply (@origin_routes ascii_tables) "/any/path"
      (Request "GET" "/any/path" "" "/any/path" "HTTP/2.0" "green.secret.test:8443" ∅
         (Some example_hello) "192.0.2.1:9" ∅ (Body [] None))
    = Ok (inl (Response 200 origin_header (bytes document) [])) ∧
    parse_json document
    = Some (JObj [("echAccepted", JBool true); ("serverName", JStr "green.secret.test")]).
Proof.
  destruct (@origin_replies ascii_tables () (DohServer () ∅ 8443)) as [Hreply _].
  eexists. exact (Hreply
    (Request "GET" "/any/path" "" "/any/path" "HTTP/2.0" "green.secret.test:8443" ∅
       (Some example_hello) "192.0.2.1:9" ∅ (Body [] None))
    example_hello "/any/path" eq_refl ltac:(discriminate) ltac:(discriminate) eq_refl).
Defined.
